(** * ALS animation instance: per-frame state refresh

    A shallow embedding of [Source/ALS/Private/AlsAnimationInstance.cpp].

    Numbers.  The C++ code computes on IEEE floats ([float] and [double]).
    They are modelled here as exact rationals [Q]: comparisons, clamps and
    the arithmetic identities of the code are kept, while rounding, NaN and
    infinities are outside the model.  Wherever the source divides, the
    statements below say when the divisor is assumed to be non-zero.  Where a
    statement of exact equality would not survive rounding, this is said with
    the statement, and for the yaw amounts of [RefreshLookTowardsCamera] the
    assignments are evaluated in IEEE binary32 as well (module [Float32]).

    Collaborators.  Functions of the game engine (rotation normalisation,
    interpolation helpers, quaternion algebra, animation weights, world
    queries) and of the project's own math utility whose bodies are not part
    of the translated file are taken as parameters, collected in the class
    [Externals].  Every theorem holds for every implementation of them. *)

From Stdlib Require Import QArith Qabs Qround Lqa ZArith Bool List Lia SpecFloat.
Import ListNotations.

Open Scope Q_scope.

(** ** Scalars *)

Definition float := Q.

(** [int32] counters. *)
Definition int32 := Z.

Definition Qltb (x y : Q) : bool := negb (Qle_bool y x).
Definition Qleb (x y : Q) : bool := Qle_bool x y.

Infix "<?" := Qltb (at level 70, no associativity) : Q_scope.
Infix "<=?" := Qleb (at level 70, no associativity) : Q_scope.
Notation "x >? y" := (Qltb y x) (at level 70, no associativity) : Q_scope.
Notation "x >=? y" := (Qleb y x) (at level 70, no associativity) : Q_scope.

(** A C++ [bool] stored into a float field. *)
Definition float_of_bool (b : bool) : float := if b then 1 else 0.

(** ** Elementary float helpers of [FMath] *)

Module FMath.

Definition Abs (x : float) : float := Qabs x.
Definition Min (x y : float) : float := if x <? y then x else y.
Definition Max (x y : float) : float := if x >? y then x else y.

(** [FMath::Clamp(X, Min, Max)]. *)
Definition Clamp (x lo hi : float) : float := Max (Min x hi) lo.

Definition Square (x : float) : float := x * x.

(** [FMath::Lerp(A, B, Alpha)]. *)
Definition Lerp (a b alpha : float) : float := a + alpha * (b - a).

End FMath.

(** ** Vectors, rotators, quaternions, transforms *)

Record FVector := { X : float; Y : float; Z : float }.

Module Vec.

Definition Zero : FVector := {| X := 0; Y := 0; Z := 0 |}.
Definition add (a b : FVector) : FVector :=
  {| X := X a + X b; Y := Y a + Y b; Z := Z a + Z b |}.
Definition sub (a b : FVector) : FVector :=
  {| X := X a - X b; Y := Y a - Y b; Z := Z a - Z b |}.
Definition scale (a : FVector) (k : float) : FVector :=
  {| X := X a * k; Y := Y a * k; Z := Z a * k |}.
Definition div (a : FVector) (k : float) : FVector :=
  {| X := X a / k; Y := Y a / k; Z := Z a / k |}.
(** The [|] operator of the engine's vectors. *)
Definition dot (a b : FVector) : float := X a * X b + Y a * Y b + Z a * Z b.
Definition DistSquared (a b : FVector) : float :=
  FMath.Square (X b - X a) + FMath.Square (Y b - Y a) + FMath.Square (Z b - Z a).
Definition withZ (a : FVector) (z : float) : FVector :=
  {| X := X a; Y := Y a; Z := z |}.
(** [FMath::Lerp] on vectors: [A + Alpha * (B - A)].  It is exact here, so
    that at [Alpha = 1] it is [B] up to the equality of rationals; in the
    doubles of the source the result is [B] up to the rounding of that
    expression. *)
Definition Lerp (a b : FVector) (alpha : float) : FVector :=
  add a (scale (sub b a) alpha).

End Vec.

Record FVector2 := { X2 : float; Y2 : float }.

Record FRotator := { Pitch : float; Yaw : float; Roll : float }.

Record FQuat := { QX : float; QY : float; QZ : float; QW : float }.

Definition QuatIdentity : FQuat := {| QX := 0; QY := 0; QZ := 0; QW := 1 |}.

Record FTransform :=
  { TRotation : FQuat; TTranslation : FVector; TScale3D : FVector }.

(** Modelled from the spec: the spring-damper state kept with each foot
    offset.  Its declaration is in a header that is not part of the translated
    file; [Reset] clears it. *)
Record FSpringState :=
  { SpringVelocity : FVector; SpringPreviousTarget : FVector; bSpringStateValid : bool }.

Definition SpringReset : FSpringState :=
  {| SpringVelocity := Vec.Zero; SpringPreviousTarget := Vec.Zero; bSpringStateValid := false |}.

(** Result of a sweep or a line trace. *)
Record FHitResult :=
  { bValidBlockingHit : bool;
    ImpactPoint : FVector;
    ImpactNormal : FVector;
    HitTime : float }.

(** ** Tags and names *)

Inductive EStance := StanceStanding | StanceCrouching | StanceOther.
Inductive EGait := GaitWalking | GaitRunning | GaitSprinting | GaitOther.
Inductive ERotationMode :=
  RotationVelocityDirection | RotationLookingDirection | RotationAiming | RotationOther.
Inductive ELocomotionMode := ModeGrounded | ModeInAir | ModeOther.
Inductive ELocomotionAction := ActionNone | ActionRagdolling | ActionOther (n : nat).
Inductive EViewMode := ViewFirstPerson | ViewThirdPerson | ViewOther.
Inductive EMovementDirection := DirForward | DirBackward | DirLeft | DirRight.
Inductive EFootSide := FootLeft | FootRight.

Definition IsStanding (s : EStance) : bool :=
  match s with StanceStanding => true | _ => false end.
Definition IsCrouching (s : EStance) : bool :=
  match s with StanceCrouching => true | _ => false end.
Definition IsWalking (g : EGait) : bool :=
  match g with GaitWalking => true | _ => false end.
Definition IsSprinting (g : EGait) : bool :=
  match g with GaitSprinting => true | _ => false end.
Definition IsVelocityDirection (r : ERotationMode) : bool :=
  match r with RotationVelocityDirection => true | _ => false end.
Definition IsLookingDirection (r : ERotationMode) : bool :=
  match r with RotationLookingDirection => true | _ => false end.
Definition IsAiming (r : ERotationMode) : bool :=
  match r with RotationAiming => true | _ => false end.
Definition IsFirstPerson (v : EViewMode) : bool :=
  match v with ViewFirstPerson => true | _ => false end.
Definition IsGroundedMode (m : ELocomotionMode) : bool :=
  match m with ModeGrounded => true | _ => false end.
Definition IsInAirMode (m : ELocomotionMode) : bool :=
  match m with ModeInAir => true | _ => false end.
(** [LocomotionAction.IsValid()]: some action tag is set. *)
Definition ActionIsValid (a : ELocomotionAction) : bool :=
  match a with ActionNone => false | _ => true end.
Definition IsRagdolling (a : ELocomotionAction) : bool :=
  match a with ActionRagdolling => true | _ => false end.
Definition ActionEqb (a b : ELocomotionAction) : bool :=
  match a, b with
  | ActionNone, ActionNone => true
  | ActionRagdolling, ActionRagdolling => true
  | ActionOther n, ActionOther m => Nat.eqb n m
  | _, _ => false
  end.

(** The animation curves read by the instance ([UAlsConstants]). *)
Inductive CurveName :=
| LayerHeadCurve | LayerHeadAdditiveCurve | LayerHeadSlotCurve
| LayerArmLeftCurve | LayerArmLeftAdditiveCurve | LayerArmLeftSlotCurve
| LayerArmLeftLocalSpaceCurve
| LayerArmRightCurve | LayerArmRightAdditiveCurve | LayerArmRightSlotCurve
| LayerArmRightLocalSpaceCurve
| LayerHandLeftCurve | LayerHandRightCurve
| LayerSpineCurve | LayerSpineAdditiveCurve | LayerSpineSlotCurve
| LayerPelvisCurve | LayerPelvisSlotCurve
| LayerLegsCurve | LayerLegsSlotCurve
| PoseGaitCurve | PoseMovingCurve | PoseStandingCurve | PoseCrouchingCurve
| PoseGroundedCurve | PoseInAirCurve
| AimBlockCurve | AimManualCurve
| SprintBlockCurve | HipsDirectionLockCurve
| GroundPredictionBlockCurve
| FootPlantedCurve | FeetCrossingCurve
| FootLeftIkCurve | FootLeftLockCurve | FootRightIkCurve | FootRightLockCurve
| AllowTransitionsCurve.

(** Animation slots and sockets ([UAlsConstants]). *)
Inductive SlotName :=
  TransitionSlot | TurnInPlaceStandingSlot | TurnInPlaceCrouchingSlot | NAME_None.
Inductive BoneName :=
  FootLeftIkBone | FootLeftVirtualBone | FootRightIkBone | FootRightVirtualBone | RootBone.

(** Animation assets, movement bases, collision channels: opaque identifiers. *)
Definition Anim := nat.
Definition PrimitiveRef := option nat.
Definition Channel := nat.

(** ** External functions

    Engine functions and functions of the project's math utility that the
    translated file calls but does not define. *)

Class Externals := {
  (* engine: angles, interpolation, ranges *)
  NormalizeAxis : float -> float;
  FInterpTo : float -> float -> float -> float -> float;
  VInterpTo : FVector -> FVector -> float -> float -> FVector;
  QInterpTo : FQuat -> FQuat -> float -> float -> FQuat;
  GetMappedRangeValueClamped : FVector2 -> FVector2 -> float -> float;
  SMALL_NUMBER : float;
  KINDA_SMALL_NUMBER : float;
  (* engine: animation weights *)
  IsRelevant : float -> bool;
  IsFullWeight : float -> bool;
  (* engine: vectors, quaternions, transforms *)
  GetSafeNormal : FVector -> FVector;
  Normalize : FVector -> FVector;
  VectorSize : FVector -> float;
  QuatMul : FQuat -> FQuat -> FQuat;
  QuatInverse : FQuat -> FQuat;
  RotateVector : FQuat -> FVector -> FVector;
  UnrotateVector : FQuat -> FVector -> FVector;
  Slerp : FQuat -> FQuat -> float -> FQuat;
  Quaternion : FRotator -> FQuat;
  TransformPosition : FTransform -> FVector -> FVector;
  TransformRotation : FTransform -> FQuat -> FQuat;
  TransformInverse : FTransform -> FTransform;
  (* project math utility *)
  CounterClockwiseRotationAngleThreshold : float;
  ExponentialDecay : float -> float -> float;
  ExponentialDecayRotator : FRotator -> FRotator -> float -> float -> FRotator;
  SpringDamp : FVector -> FVector -> FSpringState -> float -> float -> float -> float
               -> FVector * FSpringState;
  LerpClamped : float -> float -> float -> float;
  ClampMagnitude01 : FVector -> FVector;
  CalculateMovementDirection : float -> float -> float -> EMovementDirection;
  DirectionToAngle : FVector2 -> float
}.

Module UAlsMath.

(** Modelled from the spec: [UAlsMath::Clamp01], the clamp of a scalar to
    the closed interval from 0 to 1 ("clamped [0,1]"); its body is in the
    math utility, which is not part of the translated file. *)
Definition Clamp01 (x : float) : float :=
  if x <=? 0 then 0 else if x >=? 1 then 1 else x.

End UAlsMath.

(** ** Settings *)

Module GeneralSettings.
Record t := {
  bUseFootIkBones : bool;
  MovingSmoothSpeedThreshold : float;
  LeanInterpolationSpeed : float }.
End GeneralSettings.

Module ViewSettings.
Record t := {
  LookTowardsInputYawAngleInterpolationSpeed : float;
  LookTowardsCameraRotationInterpolationSpeed : float }.
End ViewSettings.

Module GroundedSettings.
Record t := {
  PivotActivationSpeedThreshold : float;
  VelocityBlendInterpolationSpeed : float;
  RotationYawOffsetForwardCurve : float -> float;
  RotationYawOffsetBackwardCurve : float -> float;
  RotationYawOffsetLeftCurve : float -> float;
  RotationYawOffsetRightCurve : float -> float;
  StrideBlendAmountWalkCurve : float -> float;
  StrideBlendAmountRunCurve : float -> float;
  AnimatedWalkSpeed : float;
  AnimatedRunSpeed : float;
  AnimatedSprintSpeed : float;
  AnimatedCrouchSpeed : float }.
End GroundedSettings.

Module InAirSettings.
Record t := {
  GroundPredictionSweepObjectTypes : list Channel;
  GroundPredictionAmountCurve : float -> float;
  LeanAmountCurve : float -> float }.
End InAirSettings.

Module FeetSettings.
Record t := {
  bDisableFootLock : bool;
  IkTraceDistanceUpward : float;
  IkTraceDistanceDownward : float;
  IkTraceChannel : Channel;
  FootHeight : float }.
End FeetSettings.

Module TransitionsSettings.
Record t := {
  DynamicTransitionFootLockDistanceThreshold : float;
  DynamicTransitionBlendTime : float;
  DynamicTransitionPlayRate : float;
  StandingDynamicTransitionLeftAnimation : option Anim;
  StandingDynamicTransitionRightAnimation : option Anim;
  CrouchingDynamicTransitionLeftAnimation : option Anim;
  CrouchingDynamicTransitionRightAnimation : option Anim }.
End TransitionsSettings.

Module RotateInPlaceSettings.
Record t := {
  ViewYawAngleThreshold : float;
  ReferenceViewYawSpeed : FVector2;
  PlayRate : FVector2;
  bDisableFootLock : bool;
  FootLockBlockViewYawAngleThreshold : float;
  FootLockBlockViewYawSpeedThreshold : float }.
End RotateInPlaceSettings.

(** [UAlsTurnInPlaceSettings]: one turn animation and how to play it. *)
Module TurnSettings.
Record t := {
  Animation : option Anim;
  PlayRate : float;
  bScalePlayRateByAnimatedTurnAngle : bool;
  AnimatedTurnAngle : float }.
End TurnSettings.

Module TurnInPlaceSettings.
Record t := {
  ViewYawSpeedThreshold : float;
  ViewYawAngleThreshold : float;
  ViewYawAngleToActivationDelay : FVector2;
  Turn180AngleThreshold : float;
  BlendTime : float;
  bDisableFootLock : bool;
  StandingTurn90Left : option TurnSettings.t;
  StandingTurn90Right : option TurnSettings.t;
  StandingTurn180Left : option TurnSettings.t;
  StandingTurn180Right : option TurnSettings.t;
  CrouchingTurn90Left : option TurnSettings.t;
  CrouchingTurn90Right : option TurnSettings.t;
  CrouchingTurn180Left : option TurnSettings.t;
  CrouchingTurn180Right : option TurnSettings.t }.
End TurnInPlaceSettings.

Module AlsSettings.
Record t := {
  General : GeneralSettings.t;
  View : ViewSettings.t;
  Grounded : GroundedSettings.t;
  InAir : InAirSettings.t;
  Feet : FeetSettings.t;
  Transitions : TransitionsSettings.t;
  RotateInPlace : RotateInPlaceSettings.t;
  TurnInPlace : TurnInPlaceSettings.t }.
End AlsSettings.

(** ** State blocks

    One record per state block of the instance; [set_F v s] is [s] with field
    [F] replaced by [v]. *)

Module LayeringState.
Record t := {
  HeadBlendAmount : float;
  HeadAdditiveBlendAmount : float;
  HeadSlotBlendAmount : float;
  ArmLeftBlendAmount : float;
  ArmLeftAdditiveBlendAmount : float;
  ArmLeftSlotBlendAmount : float;
  ArmLeftLocalSpaceBlendAmount : float;
  ArmLeftMeshSpaceBlendAmount : float;
  ArmRightBlendAmount : float;
  ArmRightAdditiveBlendAmount : float;
  ArmRightSlotBlendAmount : float;
  ArmRightLocalSpaceBlendAmount : float;
  ArmRightMeshSpaceBlendAmount : float;
  HandLeftBlendAmount : float;
  HandRightBlendAmount : float;
  SpineBlendAmount : float;
  SpineAdditiveBlendAmount : float;
  SpineSlotBlendAmount : float;
  PelvisBlendAmount : float;
  PelvisSlotBlendAmount : float;
  LegsBlendAmount : float;
  LegsSlotBlendAmount : float }.
End LayeringState.

Module PoseState.
Record t := {
  GaitAmount : float;
  GaitWalkingAmount : float;
  GaitRunningAmount : float;
  GaitSprintingAmount : float;
  MovingAmount : float;
  StandingAmount : float;
  CrouchingAmount : float;
  GroundedAmount : float;
  InAirAmount : float }.
End PoseState.

Module LookTowardsInputState.
Record t := {
  bReinitializationRequired : bool;
  YawAngle : float;
  YawAmount : float }.
Definition set_bReinitializationRequired (v : bool) (s : t) : t :=
  Build_t v (YawAngle s) (YawAmount s).
Definition set_YawAngle (v : float) (s : t) : t :=
  Build_t (bReinitializationRequired s) v (YawAmount s).
Definition set_YawAmount (v : float) (s : t) : t :=
  Build_t (bReinitializationRequired s) (YawAngle s) v.
End LookTowardsInputState.

Module LookTowardsCameraState.
Record t := {
  bReinitializationRequired : bool;
  Rotation : FRotator;
  YawAngle : float;
  PitchAngle : float;
  YawForwardAmount : float;
  YawLeftAmount : float;
  YawRightAmount : float }.
Definition set_bReinitializationRequired (v : bool) (s : t) : t :=
  Build_t v (Rotation s) (YawAngle s) (PitchAngle s) (YawForwardAmount s) (YawLeftAmount s)
    (YawRightAmount s).
Definition set_Rotation (v : FRotator) (s : t) : t :=
  Build_t (bReinitializationRequired s) v (YawAngle s) (PitchAngle s) (YawForwardAmount s)
    (YawLeftAmount s) (YawRightAmount s).
Definition set_YawAngle (v : float) (s : t) : t :=
  Build_t (bReinitializationRequired s) (Rotation s) v (PitchAngle s) (YawForwardAmount s)
    (YawLeftAmount s) (YawRightAmount s).
Definition set_PitchAngle (v : float) (s : t) : t :=
  Build_t (bReinitializationRequired s) (Rotation s) (YawAngle s) v (YawForwardAmount s)
    (YawLeftAmount s) (YawRightAmount s).
Definition set_YawForwardAmount (v : float) (s : t) : t :=
  Build_t (bReinitializationRequired s) (Rotation s) (YawAngle s) (PitchAngle s) v
    (YawLeftAmount s) (YawRightAmount s).
Definition set_YawLeftAmount (v : float) (s : t) : t :=
  Build_t (bReinitializationRequired s) (Rotation s) (YawAngle s) (PitchAngle s)
    (YawForwardAmount s) v (YawRightAmount s).
Definition set_YawRightAmount (v : float) (s : t) : t :=
  Build_t (bReinitializationRequired s) (Rotation s) (YawAngle s) (PitchAngle s)
    (YawForwardAmount s) (YawLeftAmount s) v.
End LookTowardsCameraState.

Module ViewState.
Record t := {
  Rotation : FRotator;
  YawSpeed : float;
  YawAngle : float;
  PitchAngle : float;
  PitchAmount : float;
  LookAmount : float;
  TargetSpineYawAngle : float;
  SpineYawAngle : float;
  LookTowardsInput : LookTowardsInputState.t;
  LookTowardsCamera : LookTowardsCameraState.t }.
Definition set_Rotation (v : FRotator) (s : t) : t :=
  Build_t v (YawSpeed s) (YawAngle s) (PitchAngle s) (PitchAmount s) (LookAmount s)
    (TargetSpineYawAngle s) (SpineYawAngle s) (LookTowardsInput s) (LookTowardsCamera s).
Definition set_YawSpeed (v : float) (s : t) : t :=
  Build_t (Rotation s) v (YawAngle s) (PitchAngle s) (PitchAmount s) (LookAmount s)
    (TargetSpineYawAngle s) (SpineYawAngle s) (LookTowardsInput s) (LookTowardsCamera s).
Definition set_YawAngle (v : float) (s : t) : t :=
  Build_t (Rotation s) (YawSpeed s) v (PitchAngle s) (PitchAmount s) (LookAmount s)
    (TargetSpineYawAngle s) (SpineYawAngle s) (LookTowardsInput s) (LookTowardsCamera s).
Definition set_PitchAngle (v : float) (s : t) : t :=
  Build_t (Rotation s) (YawSpeed s) (YawAngle s) v (PitchAmount s) (LookAmount s)
    (TargetSpineYawAngle s) (SpineYawAngle s) (LookTowardsInput s) (LookTowardsCamera s).
Definition set_PitchAmount (v : float) (s : t) : t :=
  Build_t (Rotation s) (YawSpeed s) (YawAngle s) (PitchAngle s) v (LookAmount s)
    (TargetSpineYawAngle s) (SpineYawAngle s) (LookTowardsInput s) (LookTowardsCamera s).
Definition set_LookAmount (v : float) (s : t) : t :=
  Build_t (Rotation s) (YawSpeed s) (YawAngle s) (PitchAngle s) (PitchAmount s) v
    (TargetSpineYawAngle s) (SpineYawAngle s) (LookTowardsInput s) (LookTowardsCamera s).
Definition set_TargetSpineYawAngle (v : float) (s : t) : t :=
  Build_t (Rotation s) (YawSpeed s) (YawAngle s) (PitchAngle s) (PitchAmount s) (LookAmount s)
    v (SpineYawAngle s) (LookTowardsInput s) (LookTowardsCamera s).
Definition set_SpineYawAngle (v : float) (s : t) : t :=
  Build_t (Rotation s) (YawSpeed s) (YawAngle s) (PitchAngle s) (PitchAmount s) (LookAmount s)
    (TargetSpineYawAngle s) v (LookTowardsInput s) (LookTowardsCamera s).
Definition set_LookTowardsInput (v : LookTowardsInputState.t) (s : t) : t :=
  Build_t (Rotation s) (YawSpeed s) (YawAngle s) (PitchAngle s) (PitchAmount s) (LookAmount s)
    (TargetSpineYawAngle s) (SpineYawAngle s) v (LookTowardsCamera s).
Definition set_LookTowardsCamera (v : LookTowardsCameraState.t) (s : t) : t :=
  Build_t (Rotation s) (YawSpeed s) (YawAngle s) (PitchAngle s) (PitchAmount s) (LookAmount s)
    (TargetSpineYawAngle s) (SpineYawAngle s) (LookTowardsInput s) v.
End ViewState.

Module BasedMovementState.
Record t := {
  Primitive : PrimitiveRef;
  BoneName : option nat;
  bBaseChanged : bool;
  bHasRelativeLocation : bool;
  Location : FVector;
  Rotation : FQuat }.
End BasedMovementState.

Module LocomotionState.
Record t := {
  bHasInput : bool;
  InputYawAngle : float;
  Speed : float;
  Velocity : FVector;
  VelocityYawAngle : float;
  Acceleration : FVector;
  MaxAcceleration : float;
  MaxBrakingDeceleration : float;
  WalkableFloorZ : float;
  bMoving : bool;
  bMovingSmooth : bool;
  TargetYawAngle : float;
  Location : FVector;
  Rotation : FRotator;
  RotationQuaternion : FQuat;
  YawSpeed : float;
  Scale : float;
  CapsuleRadius : float;
  CapsuleHalfHeight : float;
  BasedMovement : BasedMovementState.t }.
End LocomotionState.

Module VelocityBlendState.
Record t := {
  bReinitializationRequired : bool;
  ForwardAmount : float;
  BackwardAmount : float;
  LeftAmount : float;
  RightAmount : float }.
Definition set_bReinitializationRequired (v : bool) (s : t) : t :=
  Build_t v (ForwardAmount s) (BackwardAmount s) (LeftAmount s) (RightAmount s).
Definition set_ForwardAmount (v : float) (s : t) : t :=
  Build_t (bReinitializationRequired s) v (BackwardAmount s) (LeftAmount s) (RightAmount s).
Definition set_BackwardAmount (v : float) (s : t) : t :=
  Build_t (bReinitializationRequired s) (ForwardAmount s) v (LeftAmount s) (RightAmount s).
Definition set_LeftAmount (v : float) (s : t) : t :=
  Build_t (bReinitializationRequired s) (ForwardAmount s) (BackwardAmount s) v (RightAmount
    s).
Definition set_RightAmount (v : float) (s : t) : t :=
  Build_t (bReinitializationRequired s) (ForwardAmount s) (BackwardAmount s) (LeftAmount s) v.
End VelocityBlendState.

Module RotationYawOffsetsState.
Record t := {
  ForwardAngle : float;
  BackwardAngle : float;
  LeftAngle : float;
  RightAngle : float }.
End RotationYawOffsetsState.

Module GroundedState.
Record t := {
  bPivotActive : bool;
  bPivotActivationRequested : bool;
  SprintBlockAmount : float;
  HipsDirectionLockAmount : float;
  MovementDirection : EMovementDirection;
  VelocityBlend : VelocityBlendState.t;
  RotationYawOffsets : RotationYawOffsetsState.t;
  SprintTime : float;
  SprintAccelerationAmount : float;
  StrideBlendAmount : float;
  WalkRunBlendAmount : float;
  StandingPlayRate : float;
  CrouchingPlayRate : float }.
Definition set_bPivotActive (v : bool) (s : t) : t :=
  Build_t v (bPivotActivationRequested s) (SprintBlockAmount s) (HipsDirectionLockAmount s)
    (MovementDirection s) (VelocityBlend s) (RotationYawOffsets s) (SprintTime s)
    (SprintAccelerationAmount s) (StrideBlendAmount s) (WalkRunBlendAmount s)
    (StandingPlayRate s) (CrouchingPlayRate s).
Definition set_bPivotActivationRequested (v : bool) (s : t) : t :=
  Build_t (bPivotActive s) v (SprintBlockAmount s) (HipsDirectionLockAmount s)
    (MovementDirection s) (VelocityBlend s) (RotationYawOffsets s) (SprintTime s)
    (SprintAccelerationAmount s) (StrideBlendAmount s) (WalkRunBlendAmount s)
    (StandingPlayRate s) (CrouchingPlayRate s).
Definition set_SprintBlockAmount (v : float) (s : t) : t :=
  Build_t (bPivotActive s) (bPivotActivationRequested s) v (HipsDirectionLockAmount s)
    (MovementDirection s) (VelocityBlend s) (RotationYawOffsets s) (SprintTime s)
    (SprintAccelerationAmount s) (StrideBlendAmount s) (WalkRunBlendAmount s)
    (StandingPlayRate s) (CrouchingPlayRate s).
Definition set_HipsDirectionLockAmount (v : float) (s : t) : t :=
  Build_t (bPivotActive s) (bPivotActivationRequested s) (SprintBlockAmount s) v
    (MovementDirection s) (VelocityBlend s) (RotationYawOffsets s) (SprintTime s)
    (SprintAccelerationAmount s) (StrideBlendAmount s) (WalkRunBlendAmount s)
    (StandingPlayRate s) (CrouchingPlayRate s).
Definition set_MovementDirection (v : EMovementDirection) (s : t) : t :=
  Build_t (bPivotActive s) (bPivotActivationRequested s) (SprintBlockAmount s)
    (HipsDirectionLockAmount s) v (VelocityBlend s) (RotationYawOffsets s) (SprintTime s)
    (SprintAccelerationAmount s) (StrideBlendAmount s) (WalkRunBlendAmount s)
    (StandingPlayRate s) (CrouchingPlayRate s).
Definition set_VelocityBlend (v : VelocityBlendState.t) (s : t) : t :=
  Build_t (bPivotActive s) (bPivotActivationRequested s) (SprintBlockAmount s)
    (HipsDirectionLockAmount s) (MovementDirection s) v (RotationYawOffsets s) (SprintTime s)
    (SprintAccelerationAmount s) (StrideBlendAmount s) (WalkRunBlendAmount s)
    (StandingPlayRate s) (CrouchingPlayRate s).
Definition set_RotationYawOffsets (v : RotationYawOffsetsState.t) (s : t) : t :=
  Build_t (bPivotActive s) (bPivotActivationRequested s) (SprintBlockAmount s)
    (HipsDirectionLockAmount s) (MovementDirection s) (VelocityBlend s) v (SprintTime s)
    (SprintAccelerationAmount s) (StrideBlendAmount s) (WalkRunBlendAmount s)
    (StandingPlayRate s) (CrouchingPlayRate s).
Definition set_SprintTime (v : float) (s : t) : t :=
  Build_t (bPivotActive s) (bPivotActivationRequested s) (SprintBlockAmount s)
    (HipsDirectionLockAmount s) (MovementDirection s) (VelocityBlend s) (RotationYawOffsets s)
    v (SprintAccelerationAmount s) (StrideBlendAmount s) (WalkRunBlendAmount s)
    (StandingPlayRate s) (CrouchingPlayRate s).
Definition set_SprintAccelerationAmount (v : float) (s : t) : t :=
  Build_t (bPivotActive s) (bPivotActivationRequested s) (SprintBlockAmount s)
    (HipsDirectionLockAmount s) (MovementDirection s) (VelocityBlend s) (RotationYawOffsets s)
    (SprintTime s) v (StrideBlendAmount s) (WalkRunBlendAmount s) (StandingPlayRate s)
    (CrouchingPlayRate s).
Definition set_StrideBlendAmount (v : float) (s : t) : t :=
  Build_t (bPivotActive s) (bPivotActivationRequested s) (SprintBlockAmount s)
    (HipsDirectionLockAmount s) (MovementDirection s) (VelocityBlend s) (RotationYawOffsets s)
    (SprintTime s) (SprintAccelerationAmount s) v (WalkRunBlendAmount s) (StandingPlayRate s)
    (CrouchingPlayRate s).
Definition set_WalkRunBlendAmount (v : float) (s : t) : t :=
  Build_t (bPivotActive s) (bPivotActivationRequested s) (SprintBlockAmount s)
    (HipsDirectionLockAmount s) (MovementDirection s) (VelocityBlend s) (RotationYawOffsets s)
    (SprintTime s) (SprintAccelerationAmount s) (StrideBlendAmount s) v (StandingPlayRate s)
    (CrouchingPlayRate s).
Definition set_StandingPlayRate (v : float) (s : t) : t :=
  Build_t (bPivotActive s) (bPivotActivationRequested s) (SprintBlockAmount s)
    (HipsDirectionLockAmount s) (MovementDirection s) (VelocityBlend s) (RotationYawOffsets s)
    (SprintTime s) (SprintAccelerationAmount s) (StrideBlendAmount s) (WalkRunBlendAmount s) v
    (CrouchingPlayRate s).
Definition set_CrouchingPlayRate (v : float) (s : t) : t :=
  Build_t (bPivotActive s) (bPivotActivationRequested s) (SprintBlockAmount s)
    (HipsDirectionLockAmount s) (MovementDirection s) (VelocityBlend s) (RotationYawOffsets s)
    (SprintTime s) (SprintAccelerationAmount s) (StrideBlendAmount s) (WalkRunBlendAmount s)
    (StandingPlayRate s) v.
End GroundedState.

Module LeanState.
Record t := {
  RightAmount : float;
  ForwardAmount : float }.
End LeanState.

Module InAirState.
Record t := {
  bJumped : bool;
  bJumpRequested : bool;
  VerticalVelocity : float;
  GroundPredictionAmount : float;
  JumpPlayRate : float }.
Definition set_bJumped (v : bool) (s : t) : t :=
  Build_t v (bJumpRequested s) (VerticalVelocity s) (GroundPredictionAmount s) (JumpPlayRate
    s).
Definition set_bJumpRequested (v : bool) (s : t) : t :=
  Build_t (bJumped s) v (VerticalVelocity s) (GroundPredictionAmount s) (JumpPlayRate s).
Definition set_VerticalVelocity (v : float) (s : t) : t :=
  Build_t (bJumped s) (bJumpRequested s) v (GroundPredictionAmount s) (JumpPlayRate s).
Definition set_GroundPredictionAmount (v : float) (s : t) : t :=
  Build_t (bJumped s) (bJumpRequested s) (VerticalVelocity s) v (JumpPlayRate s).
Definition set_JumpPlayRate (v : float) (s : t) : t :=
  Build_t (bJumped s) (bJumpRequested s) (VerticalVelocity s) (GroundPredictionAmount s) v.
End InAirState.

Module FootState.
Record t := {
  IkAmount : float;
  TargetLocation : FVector;
  TargetRotation : FQuat;
  LockAmount : float;
  LockLocation : FVector;
  LockRotation : FQuat;
  LockComponentRelativeLocation : FVector;
  LockComponentRelativeRotation : FQuat;
  LockMovementBaseRelativeLocation : FVector;
  LockMovementBaseRelativeRotation : FQuat;
  OffsetTargetLocation : FVector;
  OffsetTargetRotation : FQuat;
  OffsetSpringState : FSpringState;
  OffsetLocation : FVector;
  OffsetRotation : FQuat;
  IkLocation : FVector;
  IkRotation : FQuat }.
Definition set_IkAmount (v : float) (s : t) : t :=
  Build_t v (TargetLocation s) (TargetRotation s) (LockAmount s) (LockLocation s)
    (LockRotation s) (LockComponentRelativeLocation s) (LockComponentRelativeRotation s)
    (LockMovementBaseRelativeLocation s) (LockMovementBaseRelativeRotation s)
    (OffsetTargetLocation s) (OffsetTargetRotation s) (OffsetSpringState s) (OffsetLocation s)
    (OffsetRotation s) (IkLocation s) (IkRotation s).
Definition set_TargetLocation (v : FVector) (s : t) : t :=
  Build_t (IkAmount s) v (TargetRotation s) (LockAmount s) (LockLocation s) (LockRotation s)
    (LockComponentRelativeLocation s) (LockComponentRelativeRotation s)
    (LockMovementBaseRelativeLocation s) (LockMovementBaseRelativeRotation s)
    (OffsetTargetLocation s) (OffsetTargetRotation s) (OffsetSpringState s) (OffsetLocation s)
    (OffsetRotation s) (IkLocation s) (IkRotation s).
Definition set_TargetRotation (v : FQuat) (s : t) : t :=
  Build_t (IkAmount s) (TargetLocation s) v (LockAmount s) (LockLocation s) (LockRotation s)
    (LockComponentRelativeLocation s) (LockComponentRelativeRotation s)
    (LockMovementBaseRelativeLocation s) (LockMovementBaseRelativeRotation s)
    (OffsetTargetLocation s) (OffsetTargetRotation s) (OffsetSpringState s) (OffsetLocation s)
    (OffsetRotation s) (IkLocation s) (IkRotation s).
Definition set_LockAmount (v : float) (s : t) : t :=
  Build_t (IkAmount s) (TargetLocation s) (TargetRotation s) v (LockLocation s) (LockRotation
    s) (LockComponentRelativeLocation s) (LockComponentRelativeRotation s)
    (LockMovementBaseRelativeLocation s) (LockMovementBaseRelativeRotation s)
    (OffsetTargetLocation s) (OffsetTargetRotation s) (OffsetSpringState s) (OffsetLocation s)
    (OffsetRotation s) (IkLocation s) (IkRotation s).
Definition set_LockLocation (v : FVector) (s : t) : t :=
  Build_t (IkAmount s) (TargetLocation s) (TargetRotation s) (LockAmount s) v (LockRotation s)
    (LockComponentRelativeLocation s) (LockComponentRelativeRotation s)
    (LockMovementBaseRelativeLocation s) (LockMovementBaseRelativeRotation s)
    (OffsetTargetLocation s) (OffsetTargetRotation s) (OffsetSpringState s) (OffsetLocation s)
    (OffsetRotation s) (IkLocation s) (IkRotation s).
Definition set_LockRotation (v : FQuat) (s : t) : t :=
  Build_t (IkAmount s) (TargetLocation s) (TargetRotation s) (LockAmount s) (LockLocation s) v
    (LockComponentRelativeLocation s) (LockComponentRelativeRotation s)
    (LockMovementBaseRelativeLocation s) (LockMovementBaseRelativeRotation s)
    (OffsetTargetLocation s) (OffsetTargetRotation s) (OffsetSpringState s) (OffsetLocation s)
    (OffsetRotation s) (IkLocation s) (IkRotation s).
Definition set_LockComponentRelativeLocation (v : FVector) (s : t) : t :=
  Build_t (IkAmount s) (TargetLocation s) (TargetRotation s) (LockAmount s) (LockLocation s)
    (LockRotation s) v (LockComponentRelativeRotation s) (LockMovementBaseRelativeLocation s)
    (LockMovementBaseRelativeRotation s) (OffsetTargetLocation s) (OffsetTargetRotation s)
    (OffsetSpringState s) (OffsetLocation s) (OffsetRotation s) (IkLocation s) (IkRotation s).
Definition set_LockComponentRelativeRotation (v : FQuat) (s : t) : t :=
  Build_t (IkAmount s) (TargetLocation s) (TargetRotation s) (LockAmount s) (LockLocation s)
    (LockRotation s) (LockComponentRelativeLocation s) v (LockMovementBaseRelativeLocation s)
    (LockMovementBaseRelativeRotation s) (OffsetTargetLocation s) (OffsetTargetRotation s)
    (OffsetSpringState s) (OffsetLocation s) (OffsetRotation s) (IkLocation s) (IkRotation s).
Definition set_LockMovementBaseRelativeLocation (v : FVector) (s : t) : t :=
  Build_t (IkAmount s) (TargetLocation s) (TargetRotation s) (LockAmount s) (LockLocation s)
    (LockRotation s) (LockComponentRelativeLocation s) (LockComponentRelativeRotation s) v
    (LockMovementBaseRelativeRotation s) (OffsetTargetLocation s) (OffsetTargetRotation s)
    (OffsetSpringState s) (OffsetLocation s) (OffsetRotation s) (IkLocation s) (IkRotation s).
Definition set_LockMovementBaseRelativeRotation (v : FQuat) (s : t) : t :=
  Build_t (IkAmount s) (TargetLocation s) (TargetRotation s) (LockAmount s) (LockLocation s)
    (LockRotation s) (LockComponentRelativeLocation s) (LockComponentRelativeRotation s)
    (LockMovementBaseRelativeLocation s) v (OffsetTargetLocation s) (OffsetTargetRotation s)
    (OffsetSpringState s) (OffsetLocation s) (OffsetRotation s) (IkLocation s) (IkRotation s).
Definition set_OffsetTargetLocation (v : FVector) (s : t) : t :=
  Build_t (IkAmount s) (TargetLocation s) (TargetRotation s) (LockAmount s) (LockLocation s)
    (LockRotation s) (LockComponentRelativeLocation s) (LockComponentRelativeRotation s)
    (LockMovementBaseRelativeLocation s) (LockMovementBaseRelativeRotation s) v
    (OffsetTargetRotation s) (OffsetSpringState s) (OffsetLocation s) (OffsetRotation s)
    (IkLocation s) (IkRotation s).
Definition set_OffsetTargetRotation (v : FQuat) (s : t) : t :=
  Build_t (IkAmount s) (TargetLocation s) (TargetRotation s) (LockAmount s) (LockLocation s)
    (LockRotation s) (LockComponentRelativeLocation s) (LockComponentRelativeRotation s)
    (LockMovementBaseRelativeLocation s) (LockMovementBaseRelativeRotation s)
    (OffsetTargetLocation s) v (OffsetSpringState s) (OffsetLocation s) (OffsetRotation s)
    (IkLocation s) (IkRotation s).
Definition set_OffsetSpringState (v : FSpringState) (s : t) : t :=
  Build_t (IkAmount s) (TargetLocation s) (TargetRotation s) (LockAmount s) (LockLocation s)
    (LockRotation s) (LockComponentRelativeLocation s) (LockComponentRelativeRotation s)
    (LockMovementBaseRelativeLocation s) (LockMovementBaseRelativeRotation s)
    (OffsetTargetLocation s) (OffsetTargetRotation s) v (OffsetLocation s) (OffsetRotation s)
    (IkLocation s) (IkRotation s).
Definition set_OffsetLocation (v : FVector) (s : t) : t :=
  Build_t (IkAmount s) (TargetLocation s) (TargetRotation s) (LockAmount s) (LockLocation s)
    (LockRotation s) (LockComponentRelativeLocation s) (LockComponentRelativeRotation s)
    (LockMovementBaseRelativeLocation s) (LockMovementBaseRelativeRotation s)
    (OffsetTargetLocation s) (OffsetTargetRotation s) (OffsetSpringState s) v (OffsetRotation
    s) (IkLocation s) (IkRotation s).
Definition set_OffsetRotation (v : FQuat) (s : t) : t :=
  Build_t (IkAmount s) (TargetLocation s) (TargetRotation s) (LockAmount s) (LockLocation s)
    (LockRotation s) (LockComponentRelativeLocation s) (LockComponentRelativeRotation s)
    (LockMovementBaseRelativeLocation s) (LockMovementBaseRelativeRotation s)
    (OffsetTargetLocation s) (OffsetTargetRotation s) (OffsetSpringState s) (OffsetLocation s)
    v (IkLocation s) (IkRotation s).
Definition set_IkLocation (v : FVector) (s : t) : t :=
  Build_t (IkAmount s) (TargetLocation s) (TargetRotation s) (LockAmount s) (LockLocation s)
    (LockRotation s) (LockComponentRelativeLocation s) (LockComponentRelativeRotation s)
    (LockMovementBaseRelativeLocation s) (LockMovementBaseRelativeRotation s)
    (OffsetTargetLocation s) (OffsetTargetRotation s) (OffsetSpringState s) (OffsetLocation s)
    (OffsetRotation s) v (IkRotation s).
Definition set_IkRotation (v : FQuat) (s : t) : t :=
  Build_t (IkAmount s) (TargetLocation s) (TargetRotation s) (LockAmount s) (LockLocation s)
    (LockRotation s) (LockComponentRelativeLocation s) (LockComponentRelativeRotation s)
    (LockMovementBaseRelativeLocation s) (LockMovementBaseRelativeRotation s)
    (OffsetTargetLocation s) (OffsetTargetRotation s) (OffsetSpringState s) (OffsetLocation s)
    (OffsetRotation s) (IkLocation s) v.
End FootState.

Module FeetState.
Record t := {
  bReinitializationRequired : bool;
  FootPlantedAmount : float;
  FeetCrossingAmount : float;
  MinMaxPelvisOffsetZ : FVector2;
  Left : FootState.t;
  Right : FootState.t }.
Definition set_bReinitializationRequired (v : bool) (s : t) : t :=
  Build_t v (FootPlantedAmount s) (FeetCrossingAmount s) (MinMaxPelvisOffsetZ s) (Left s)
    (Right s).
Definition set_FootPlantedAmount (v : float) (s : t) : t :=
  Build_t (bReinitializationRequired s) v (FeetCrossingAmount s) (MinMaxPelvisOffsetZ s) (Left
    s) (Right s).
Definition set_FeetCrossingAmount (v : float) (s : t) : t :=
  Build_t (bReinitializationRequired s) (FootPlantedAmount s) v (MinMaxPelvisOffsetZ s) (Left
    s) (Right s).
Definition set_MinMaxPelvisOffsetZ (v : FVector2) (s : t) : t :=
  Build_t (bReinitializationRequired s) (FootPlantedAmount s) (FeetCrossingAmount s) v (Left
    s) (Right s).
Definition set_Left (v : FootState.t) (s : t) : t :=
  Build_t (bReinitializationRequired s) (FootPlantedAmount s) (FeetCrossingAmount s)
    (MinMaxPelvisOffsetZ s) v (Right s).
Definition set_Right (v : FootState.t) (s : t) : t :=
  Build_t (bReinitializationRequired s) (FootPlantedAmount s) (FeetCrossingAmount s)
    (MinMaxPelvisOffsetZ s) (Left s) v.
End FeetState.

Module TransitionsState.
Record t := {
  bTransitionsAllowed : bool;
  DynamicTransitionsFrameDelay : int32;
  QueuedDynamicTransitionAnimation : option Anim }.
Definition set_bTransitionsAllowed (v : bool) (s : t) : t :=
  Build_t v (DynamicTransitionsFrameDelay s) (QueuedDynamicTransitionAnimation s).
Definition set_DynamicTransitionsFrameDelay (v : int32) (s : t) : t :=
  Build_t (bTransitionsAllowed s) v (QueuedDynamicTransitionAnimation s).
Definition set_QueuedDynamicTransitionAnimation (v : option Anim) (s : t) : t :=
  Build_t (bTransitionsAllowed s) (DynamicTransitionsFrameDelay s) v.
End TransitionsState.

Module RotateInPlaceState.
Record t := {
  bRotatingLeft : bool;
  bRotatingRight : bool;
  PlayRate : float;
  FootLockBlockAmount : float }.
End RotateInPlaceState.

Module TurnInPlaceState.
Record t := {
  ActivationDelay : float;
  bFootLockDisabled : bool;
  QueuedSettings : option TurnSettings.t;
  QueuedSlotName : SlotName;
  QueuedTurnYawAngle : float;
  PlayRate : float }.
Definition set_ActivationDelay (v : float) (s : t) : t :=
  Build_t v (bFootLockDisabled s) (QueuedSettings s) (QueuedSlotName s) (QueuedTurnYawAngle s)
    (PlayRate s).
Definition set_bFootLockDisabled (v : bool) (s : t) : t :=
  Build_t (ActivationDelay s) v (QueuedSettings s) (QueuedSlotName s) (QueuedTurnYawAngle s)
    (PlayRate s).
Definition set_QueuedSettings (v : option TurnSettings.t) (s : t) : t :=
  Build_t (ActivationDelay s) (bFootLockDisabled s) v (QueuedSlotName s) (QueuedTurnYawAngle
    s) (PlayRate s).
Definition set_QueuedSlotName (v : SlotName) (s : t) : t :=
  Build_t (ActivationDelay s) (bFootLockDisabled s) (QueuedSettings s) v (QueuedTurnYawAngle
    s) (PlayRate s).
Definition set_QueuedTurnYawAngle (v : float) (s : t) : t :=
  Build_t (ActivationDelay s) (bFootLockDisabled s) (QueuedSettings s) (QueuedSlotName s) v
    (PlayRate s).
Definition set_PlayRate (v : float) (s : t) : t :=
  Build_t (ActivationDelay s) (bFootLockDisabled s) (QueuedSettings s) (QueuedSlotName s)
    (QueuedTurnYawAngle s) v.
End TurnInPlaceState.

Module RagdollingState.
Record t := {
  FlailPlayRate : float }.
End RagdollingState.

(** ** The character, as seen through its getters *)

Module CharacterView.
Record t := { Rotation : FRotator; YawSpeed : float }.
End CharacterView.

Module CharacterLocomotion.
Record t := {
  bHasInput : bool;
  bHasSpeed : bool;
  InputYawAngle : float;
  Speed : float;
  Velocity : FVector;
  VelocityYawAngle : float;
  Acceleration : FVector;
  bMoving : bool;
  TargetYawAngle : float;
  Location : FVector;
  Rotation : FRotator;
  RotationQuaternion : FQuat;
  YawSpeed : float }.
End CharacterLocomotion.

Module Character.
Record t := {
  GetStance : EStance;
  GetGait : EGait;
  GetRotationMode : ERotationMode;
  GetLocomotionMode : ELocomotionMode;
  GetLocomotionAction : ELocomotionAction;
  GetViewMode : EViewMode;
  GetOverlayMode : nat;
  GetViewState : CharacterView.t;
  GetLocomotionState : CharacterLocomotion.t;
  GetMaxAcceleration : float;
  GetMaxBrakingDeceleration : float;
  GetWalkableFloorZ : float;
  GetScaledCapsuleRadius : float;
  GetScaledCapsuleHalfHeight : float;
  MovementBase : PrimitiveRef;
  BasedBoneName : option nat;
  HasRelativeLocation : bool }.
End Character.

(** ** The host of a frame: curve source, world queries, mesh component *)

Module Host.
Record t := {
  GetCurveValue : CurveName -> float;
  (* start, end, object types, capsule radius, capsule half height *)
  SweepSingleByObjectType : FVector -> FVector -> list Channel -> float -> float -> FHitResult;
  LineTraceSingleByChannel : FVector -> FVector -> Channel -> FHitResult;
  GetComponentTransform : FTransform;
  GetComponentScaleZ : float;
  GetSocketTransform : BoneName -> FTransform;
  GetPhysicsLinearVelocity : BoneName -> FVector;
  GetMovementBaseTransform : PrimitiveRef -> option nat -> FVector * FQuat;
  IsInGameThread : bool }.
End Host.

(** ** Calls that leave the instance

    The calls into the character, into the montage player and into
    [ResetGroundedEntryMode] (a member declared in the class header, outside
    the translated file) are recorded, in order, in the [Effects] of the
    instance.  The two [Queue...] entries record
    the points where the source stores a selected animation for deferred
    playback (with the foot whose animation was selected). *)

Inductive Event :=
| ApplyRotationYawSpeedFromAnimationInstance (DeltaTime : float)
| ResetGroundedEntryMode
| PlaySlotAnimationAsDynamicMontage
    (Animation : option Anim) (Slot : SlotName)
    (BlendInTime BlendOutTime PlayRate : float) (LoopCount : nat)
    (BlendOutTriggerTime InTimeToStartMontageAt : float)
| QueueDynamicTransition (Side : EFootSide) (Animation : Anim)
| QueueTurnInPlace (TurnSettings : TurnSettings.t) (Slot : SlotName) (TurnYawAngle : float).

(** ** The animation instance *)

Module Instance.
Record t := {
  Settings : option AlsSettings.t;
  Character : option Character.t;
  bPendingUpdate : bool;
  bTeleported : bool;
  bAnimationCurvesRelevant : bool;
  bAnimationCurvesRelevantGameThread : bool;
  Stance : EStance;
  Gait : EGait;
  RotationMode : ERotationMode;
  LocomotionMode : ELocomotionMode;
  LocomotionAction : ELocomotionAction;
  ViewMode : EViewMode;
  OverlayMode : nat;
  LayeringState : LayeringState.t;
  PoseState : PoseState.t;
  ViewState : ViewState.t;
  LocomotionState : LocomotionState.t;
  GroundedState : GroundedState.t;
  LeanState : LeanState.t;
  InAirState : InAirState.t;
  FeetState : FeetState.t;
  TransitionsState : TransitionsState.t;
  RotateInPlaceState : RotateInPlaceState.t;
  TurnInPlaceState : TurnInPlaceState.t;
  RagdollingState : RagdollingState.t;
  Effects : list Event }.
Definition set_Settings (v : option AlsSettings.t) (s : t) : t :=
  Build_t v (Character s) (bPendingUpdate s) (bTeleported s) (bAnimationCurvesRelevant s)
    (bAnimationCurvesRelevantGameThread s) (Stance s) (Gait s) (RotationMode s)
    (LocomotionMode s) (LocomotionAction s) (ViewMode s) (OverlayMode s) (LayeringState s)
    (PoseState s) (ViewState s) (LocomotionState s) (GroundedState s) (LeanState s)
    (InAirState s) (FeetState s) (TransitionsState s) (RotateInPlaceState s) (TurnInPlaceState
    s) (RagdollingState s) (Effects s).
Definition set_Character (v : option Character.t) (s : t) : t :=
  Build_t (Settings s) v (bPendingUpdate s) (bTeleported s) (bAnimationCurvesRelevant s)
    (bAnimationCurvesRelevantGameThread s) (Stance s) (Gait s) (RotationMode s)
    (LocomotionMode s) (LocomotionAction s) (ViewMode s) (OverlayMode s) (LayeringState s)
    (PoseState s) (ViewState s) (LocomotionState s) (GroundedState s) (LeanState s)
    (InAirState s) (FeetState s) (TransitionsState s) (RotateInPlaceState s) (TurnInPlaceState
    s) (RagdollingState s) (Effects s).
Definition set_bPendingUpdate (v : bool) (s : t) : t :=
  Build_t (Settings s) (Character s) v (bTeleported s) (bAnimationCurvesRelevant s)
    (bAnimationCurvesRelevantGameThread s) (Stance s) (Gait s) (RotationMode s)
    (LocomotionMode s) (LocomotionAction s) (ViewMode s) (OverlayMode s) (LayeringState s)
    (PoseState s) (ViewState s) (LocomotionState s) (GroundedState s) (LeanState s)
    (InAirState s) (FeetState s) (TransitionsState s) (RotateInPlaceState s) (TurnInPlaceState
    s) (RagdollingState s) (Effects s).
Definition set_bTeleported (v : bool) (s : t) : t :=
  Build_t (Settings s) (Character s) (bPendingUpdate s) v (bAnimationCurvesRelevant s)
    (bAnimationCurvesRelevantGameThread s) (Stance s) (Gait s) (RotationMode s)
    (LocomotionMode s) (LocomotionAction s) (ViewMode s) (OverlayMode s) (LayeringState s)
    (PoseState s) (ViewState s) (LocomotionState s) (GroundedState s) (LeanState s)
    (InAirState s) (FeetState s) (TransitionsState s) (RotateInPlaceState s) (TurnInPlaceState
    s) (RagdollingState s) (Effects s).
Definition set_bAnimationCurvesRelevant (v : bool) (s : t) : t :=
  Build_t (Settings s) (Character s) (bPendingUpdate s) (bTeleported s) v
    (bAnimationCurvesRelevantGameThread s) (Stance s) (Gait s) (RotationMode s)
    (LocomotionMode s) (LocomotionAction s) (ViewMode s) (OverlayMode s) (LayeringState s)
    (PoseState s) (ViewState s) (LocomotionState s) (GroundedState s) (LeanState s)
    (InAirState s) (FeetState s) (TransitionsState s) (RotateInPlaceState s) (TurnInPlaceState
    s) (RagdollingState s) (Effects s).
Definition set_bAnimationCurvesRelevantGameThread (v : bool) (s : t) : t :=
  Build_t (Settings s) (Character s) (bPendingUpdate s) (bTeleported s)
    (bAnimationCurvesRelevant s) v (Stance s) (Gait s) (RotationMode s) (LocomotionMode s)
    (LocomotionAction s) (ViewMode s) (OverlayMode s) (LayeringState s) (PoseState s)
    (ViewState s) (LocomotionState s) (GroundedState s) (LeanState s) (InAirState s)
    (FeetState s) (TransitionsState s) (RotateInPlaceState s) (TurnInPlaceState s)
    (RagdollingState s) (Effects s).
Definition set_Stance (v : EStance) (s : t) : t :=
  Build_t (Settings s) (Character s) (bPendingUpdate s) (bTeleported s)
    (bAnimationCurvesRelevant s) (bAnimationCurvesRelevantGameThread s) v (Gait s)
    (RotationMode s) (LocomotionMode s) (LocomotionAction s) (ViewMode s) (OverlayMode s)
    (LayeringState s) (PoseState s) (ViewState s) (LocomotionState s) (GroundedState s)
    (LeanState s) (InAirState s) (FeetState s) (TransitionsState s) (RotateInPlaceState s)
    (TurnInPlaceState s) (RagdollingState s) (Effects s).
Definition set_Gait (v : EGait) (s : t) : t :=
  Build_t (Settings s) (Character s) (bPendingUpdate s) (bTeleported s)
    (bAnimationCurvesRelevant s) (bAnimationCurvesRelevantGameThread s) (Stance s) v
    (RotationMode s) (LocomotionMode s) (LocomotionAction s) (ViewMode s) (OverlayMode s)
    (LayeringState s) (PoseState s) (ViewState s) (LocomotionState s) (GroundedState s)
    (LeanState s) (InAirState s) (FeetState s) (TransitionsState s) (RotateInPlaceState s)
    (TurnInPlaceState s) (RagdollingState s) (Effects s).
Definition set_RotationMode (v : ERotationMode) (s : t) : t :=
  Build_t (Settings s) (Character s) (bPendingUpdate s) (bTeleported s)
    (bAnimationCurvesRelevant s) (bAnimationCurvesRelevantGameThread s) (Stance s) (Gait s) v
    (LocomotionMode s) (LocomotionAction s) (ViewMode s) (OverlayMode s) (LayeringState s)
    (PoseState s) (ViewState s) (LocomotionState s) (GroundedState s) (LeanState s)
    (InAirState s) (FeetState s) (TransitionsState s) (RotateInPlaceState s) (TurnInPlaceState
    s) (RagdollingState s) (Effects s).
Definition set_LocomotionMode (v : ELocomotionMode) (s : t) : t :=
  Build_t (Settings s) (Character s) (bPendingUpdate s) (bTeleported s)
    (bAnimationCurvesRelevant s) (bAnimationCurvesRelevantGameThread s) (Stance s) (Gait s)
    (RotationMode s) v (LocomotionAction s) (ViewMode s) (OverlayMode s) (LayeringState s)
    (PoseState s) (ViewState s) (LocomotionState s) (GroundedState s) (LeanState s)
    (InAirState s) (FeetState s) (TransitionsState s) (RotateInPlaceState s) (TurnInPlaceState
    s) (RagdollingState s) (Effects s).
Definition set_LocomotionAction (v : ELocomotionAction) (s : t) : t :=
  Build_t (Settings s) (Character s) (bPendingUpdate s) (bTeleported s)
    (bAnimationCurvesRelevant s) (bAnimationCurvesRelevantGameThread s) (Stance s) (Gait s)
    (RotationMode s) (LocomotionMode s) v (ViewMode s) (OverlayMode s) (LayeringState s)
    (PoseState s) (ViewState s) (LocomotionState s) (GroundedState s) (LeanState s)
    (InAirState s) (FeetState s) (TransitionsState s) (RotateInPlaceState s) (TurnInPlaceState
    s) (RagdollingState s) (Effects s).
Definition set_ViewMode (v : EViewMode) (s : t) : t :=
  Build_t (Settings s) (Character s) (bPendingUpdate s) (bTeleported s)
    (bAnimationCurvesRelevant s) (bAnimationCurvesRelevantGameThread s) (Stance s) (Gait s)
    (RotationMode s) (LocomotionMode s) (LocomotionAction s) v (OverlayMode s) (LayeringState
    s) (PoseState s) (ViewState s) (LocomotionState s) (GroundedState s) (LeanState s)
    (InAirState s) (FeetState s) (TransitionsState s) (RotateInPlaceState s) (TurnInPlaceState
    s) (RagdollingState s) (Effects s).
Definition set_OverlayMode (v : nat) (s : t) : t :=
  Build_t (Settings s) (Character s) (bPendingUpdate s) (bTeleported s)
    (bAnimationCurvesRelevant s) (bAnimationCurvesRelevantGameThread s) (Stance s) (Gait s)
    (RotationMode s) (LocomotionMode s) (LocomotionAction s) (ViewMode s) v (LayeringState s)
    (PoseState s) (ViewState s) (LocomotionState s) (GroundedState s) (LeanState s)
    (InAirState s) (FeetState s) (TransitionsState s) (RotateInPlaceState s) (TurnInPlaceState
    s) (RagdollingState s) (Effects s).
Definition set_LayeringState (v : LayeringState.t) (s : t) : t :=
  Build_t (Settings s) (Character s) (bPendingUpdate s) (bTeleported s)
    (bAnimationCurvesRelevant s) (bAnimationCurvesRelevantGameThread s) (Stance s) (Gait s)
    (RotationMode s) (LocomotionMode s) (LocomotionAction s) (ViewMode s) (OverlayMode s) v
    (PoseState s) (ViewState s) (LocomotionState s) (GroundedState s) (LeanState s)
    (InAirState s) (FeetState s) (TransitionsState s) (RotateInPlaceState s) (TurnInPlaceState
    s) (RagdollingState s) (Effects s).
Definition set_PoseState (v : PoseState.t) (s : t) : t :=
  Build_t (Settings s) (Character s) (bPendingUpdate s) (bTeleported s)
    (bAnimationCurvesRelevant s) (bAnimationCurvesRelevantGameThread s) (Stance s) (Gait s)
    (RotationMode s) (LocomotionMode s) (LocomotionAction s) (ViewMode s) (OverlayMode s)
    (LayeringState s) v (ViewState s) (LocomotionState s) (GroundedState s) (LeanState s)
    (InAirState s) (FeetState s) (TransitionsState s) (RotateInPlaceState s) (TurnInPlaceState
    s) (RagdollingState s) (Effects s).
Definition set_ViewState (v : ViewState.t) (s : t) : t :=
  Build_t (Settings s) (Character s) (bPendingUpdate s) (bTeleported s)
    (bAnimationCurvesRelevant s) (bAnimationCurvesRelevantGameThread s) (Stance s) (Gait s)
    (RotationMode s) (LocomotionMode s) (LocomotionAction s) (ViewMode s) (OverlayMode s)
    (LayeringState s) (PoseState s) v (LocomotionState s) (GroundedState s) (LeanState s)
    (InAirState s) (FeetState s) (TransitionsState s) (RotateInPlaceState s) (TurnInPlaceState
    s) (RagdollingState s) (Effects s).
Definition set_LocomotionState (v : LocomotionState.t) (s : t) : t :=
  Build_t (Settings s) (Character s) (bPendingUpdate s) (bTeleported s)
    (bAnimationCurvesRelevant s) (bAnimationCurvesRelevantGameThread s) (Stance s) (Gait s)
    (RotationMode s) (LocomotionMode s) (LocomotionAction s) (ViewMode s) (OverlayMode s)
    (LayeringState s) (PoseState s) (ViewState s) v (GroundedState s) (LeanState s)
    (InAirState s) (FeetState s) (TransitionsState s) (RotateInPlaceState s) (TurnInPlaceState
    s) (RagdollingState s) (Effects s).
Definition set_GroundedState (v : GroundedState.t) (s : t) : t :=
  Build_t (Settings s) (Character s) (bPendingUpdate s) (bTeleported s)
    (bAnimationCurvesRelevant s) (bAnimationCurvesRelevantGameThread s) (Stance s) (Gait s)
    (RotationMode s) (LocomotionMode s) (LocomotionAction s) (ViewMode s) (OverlayMode s)
    (LayeringState s) (PoseState s) (ViewState s) (LocomotionState s) v (LeanState s)
    (InAirState s) (FeetState s) (TransitionsState s) (RotateInPlaceState s) (TurnInPlaceState
    s) (RagdollingState s) (Effects s).
Definition set_LeanState (v : LeanState.t) (s : t) : t :=
  Build_t (Settings s) (Character s) (bPendingUpdate s) (bTeleported s)
    (bAnimationCurvesRelevant s) (bAnimationCurvesRelevantGameThread s) (Stance s) (Gait s)
    (RotationMode s) (LocomotionMode s) (LocomotionAction s) (ViewMode s) (OverlayMode s)
    (LayeringState s) (PoseState s) (ViewState s) (LocomotionState s) (GroundedState s) v
    (InAirState s) (FeetState s) (TransitionsState s) (RotateInPlaceState s) (TurnInPlaceState
    s) (RagdollingState s) (Effects s).
Definition set_InAirState (v : InAirState.t) (s : t) : t :=
  Build_t (Settings s) (Character s) (bPendingUpdate s) (bTeleported s)
    (bAnimationCurvesRelevant s) (bAnimationCurvesRelevantGameThread s) (Stance s) (Gait s)
    (RotationMode s) (LocomotionMode s) (LocomotionAction s) (ViewMode s) (OverlayMode s)
    (LayeringState s) (PoseState s) (ViewState s) (LocomotionState s) (GroundedState s)
    (LeanState s) v (FeetState s) (TransitionsState s) (RotateInPlaceState s)
    (TurnInPlaceState s) (RagdollingState s) (Effects s).
Definition set_FeetState (v : FeetState.t) (s : t) : t :=
  Build_t (Settings s) (Character s) (bPendingUpdate s) (bTeleported s)
    (bAnimationCurvesRelevant s) (bAnimationCurvesRelevantGameThread s) (Stance s) (Gait s)
    (RotationMode s) (LocomotionMode s) (LocomotionAction s) (ViewMode s) (OverlayMode s)
    (LayeringState s) (PoseState s) (ViewState s) (LocomotionState s) (GroundedState s)
    (LeanState s) (InAirState s) v (TransitionsState s) (RotateInPlaceState s)
    (TurnInPlaceState s) (RagdollingState s) (Effects s).
Definition set_TransitionsState (v : TransitionsState.t) (s : t) : t :=
  Build_t (Settings s) (Character s) (bPendingUpdate s) (bTeleported s)
    (bAnimationCurvesRelevant s) (bAnimationCurvesRelevantGameThread s) (Stance s) (Gait s)
    (RotationMode s) (LocomotionMode s) (LocomotionAction s) (ViewMode s) (OverlayMode s)
    (LayeringState s) (PoseState s) (ViewState s) (LocomotionState s) (GroundedState s)
    (LeanState s) (InAirState s) (FeetState s) v (RotateInPlaceState s) (TurnInPlaceState s)
    (RagdollingState s) (Effects s).
Definition set_RotateInPlaceState (v : RotateInPlaceState.t) (s : t) : t :=
  Build_t (Settings s) (Character s) (bPendingUpdate s) (bTeleported s)
    (bAnimationCurvesRelevant s) (bAnimationCurvesRelevantGameThread s) (Stance s) (Gait s)
    (RotationMode s) (LocomotionMode s) (LocomotionAction s) (ViewMode s) (OverlayMode s)
    (LayeringState s) (PoseState s) (ViewState s) (LocomotionState s) (GroundedState s)
    (LeanState s) (InAirState s) (FeetState s) (TransitionsState s) v (TurnInPlaceState s)
    (RagdollingState s) (Effects s).
Definition set_TurnInPlaceState (v : TurnInPlaceState.t) (s : t) : t :=
  Build_t (Settings s) (Character s) (bPendingUpdate s) (bTeleported s)
    (bAnimationCurvesRelevant s) (bAnimationCurvesRelevantGameThread s) (Stance s) (Gait s)
    (RotationMode s) (LocomotionMode s) (LocomotionAction s) (ViewMode s) (OverlayMode s)
    (LayeringState s) (PoseState s) (ViewState s) (LocomotionState s) (GroundedState s)
    (LeanState s) (InAirState s) (FeetState s) (TransitionsState s) (RotateInPlaceState s) v
    (RagdollingState s) (Effects s).
Definition set_RagdollingState (v : RagdollingState.t) (s : t) : t :=
  Build_t (Settings s) (Character s) (bPendingUpdate s) (bTeleported s)
    (bAnimationCurvesRelevant s) (bAnimationCurvesRelevantGameThread s) (Stance s) (Gait s)
    (RotationMode s) (LocomotionMode s) (LocomotionAction s) (ViewMode s) (OverlayMode s)
    (LayeringState s) (PoseState s) (ViewState s) (LocomotionState s) (GroundedState s)
    (LeanState s) (InAirState s) (FeetState s) (TransitionsState s) (RotateInPlaceState s)
    (TurnInPlaceState s) v (Effects s).
Definition set_Effects (v : list Event) (s : t) : t :=
  Build_t (Settings s) (Character s) (bPendingUpdate s) (bTeleported s)
    (bAnimationCurvesRelevant s) (bAnimationCurvesRelevantGameThread s) (Stance s) (Gait s)
    (RotationMode s) (LocomotionMode s) (LocomotionAction s) (ViewMode s) (OverlayMode s)
    (LayeringState s) (PoseState s) (ViewState s) (LocomotionState s) (GroundedState s)
    (LeanState s) (InAirState s) (FeetState s) (TransitionsState s) (RotateInPlaceState s)
    (TurnInPlaceState s) (RagdollingState s) v.
End Instance.

(** ** The refresh steps *)

Section Refresh.

Context {E : Externals}.

Definition GetCurveValueClamped01 (h : Host.t) (CurveName : CurveName) : float :=
  UAlsMath.Clamp01 (Host.GetCurveValue h CurveName).

(** *** Layering and pose *)

Definition RefreshLayering (h : Host.t) (s : Instance.t) : Instance.t :=
  if negb (Instance.bAnimationCurvesRelevant s) then s
  else
    let ArmLeftLocalSpace := GetCurveValueClamped01 h LayerArmLeftLocalSpaceCurve in
    let ArmRightLocalSpace := GetCurveValueClamped01 h LayerArmRightLocalSpaceCurve in
    Instance.set_LayeringState
      {| LayeringState.HeadBlendAmount := GetCurveValueClamped01 h LayerHeadCurve;
         LayeringState.HeadAdditiveBlendAmount := GetCurveValueClamped01 h LayerHeadAdditiveCurve;
         LayeringState.HeadSlotBlendAmount := GetCurveValueClamped01 h LayerHeadSlotCurve;
         LayeringState.ArmLeftBlendAmount := GetCurveValueClamped01 h LayerArmLeftCurve;
         LayeringState.ArmLeftAdditiveBlendAmount :=
           GetCurveValueClamped01 h LayerArmLeftAdditiveCurve;
         LayeringState.ArmLeftSlotBlendAmount := GetCurveValueClamped01 h LayerArmLeftSlotCurve;
         LayeringState.ArmLeftLocalSpaceBlendAmount := ArmLeftLocalSpace;
         LayeringState.ArmLeftMeshSpaceBlendAmount :=
           float_of_bool (negb (IsFullWeight ArmLeftLocalSpace));
         LayeringState.ArmRightBlendAmount := GetCurveValueClamped01 h LayerArmRightCurve;
         LayeringState.ArmRightAdditiveBlendAmount :=
           GetCurveValueClamped01 h LayerArmRightAdditiveCurve;
         LayeringState.ArmRightSlotBlendAmount := GetCurveValueClamped01 h LayerArmRightSlotCurve;
         LayeringState.ArmRightLocalSpaceBlendAmount := ArmRightLocalSpace;
         LayeringState.ArmRightMeshSpaceBlendAmount :=
           float_of_bool (negb (IsFullWeight ArmRightLocalSpace));
         LayeringState.HandLeftBlendAmount := GetCurveValueClamped01 h LayerHandLeftCurve;
         LayeringState.HandRightBlendAmount := GetCurveValueClamped01 h LayerHandRightCurve;
         LayeringState.SpineBlendAmount := GetCurveValueClamped01 h LayerSpineCurve;
         LayeringState.SpineAdditiveBlendAmount := GetCurveValueClamped01 h LayerSpineAdditiveCurve;
         LayeringState.SpineSlotBlendAmount := GetCurveValueClamped01 h LayerSpineSlotCurve;
         LayeringState.PelvisBlendAmount := GetCurveValueClamped01 h LayerPelvisCurve;
         LayeringState.PelvisSlotBlendAmount := GetCurveValueClamped01 h LayerPelvisSlotCurve;
         LayeringState.LegsBlendAmount := GetCurveValueClamped01 h LayerLegsCurve;
         LayeringState.LegsSlotBlendAmount := GetCurveValueClamped01 h LayerLegsSlotCurve |}
      s.

Definition RefreshPose (h : Host.t) (s : Instance.t) : Instance.t :=
  if negb (Instance.bAnimationCurvesRelevant s) then s
  else
    let GaitAmount := FMath.Clamp (Host.GetCurveValue h PoseGaitCurve) 0 3 in
    Instance.set_PoseState
      {| PoseState.GaitAmount := GaitAmount;
         PoseState.GaitWalkingAmount := UAlsMath.Clamp01 GaitAmount;
         PoseState.GaitRunningAmount := UAlsMath.Clamp01 (GaitAmount - 1);
         PoseState.GaitSprintingAmount := UAlsMath.Clamp01 (GaitAmount - 2);
         PoseState.MovingAmount := GetCurveValueClamped01 h PoseMovingCurve;
         PoseState.StandingAmount := GetCurveValueClamped01 h PoseStandingCurve;
         PoseState.CrouchingAmount := GetCurveValueClamped01 h PoseCrouchingCurve;
         PoseState.GroundedAmount := GetCurveValueClamped01 h PoseGroundedCurve;
         PoseState.InAirAmount := GetCurveValueClamped01 h PoseInAirCurve |}
      s.

(** *** View *)

Definition RefreshViewGameThread (ch : Character.t) (s : Instance.t) : Instance.t :=
  let View := Character.GetViewState ch in
  Instance.set_ViewState
    (ViewState.set_YawSpeed (CharacterView.YawSpeed View)
       (ViewState.set_Rotation (CharacterView.Rotation View) (Instance.ViewState s)))
    s.

Definition IsSpineRotationAllowed (s : Instance.t) : bool :=
  IsAiming (Instance.RotationMode s).

Definition RefreshLookTowardsInput (st : AlsSettings.t) (DeltaTime : float)
    (s : Instance.t) : Instance.t :=
  let Locomotion := Instance.LocomotionState s in
  let LookTowardsInput := ViewState.LookTowardsInput (Instance.ViewState s) in
  let Speed :=
    ViewSettings.LookTowardsInputYawAngleInterpolationSpeed (AlsSettings.View st) in
  let RotationYaw := Yaw (LocomotionState.Rotation Locomotion) in
  let bReinitializationRequired :=
    LookTowardsInputState.bReinitializationRequired LookTowardsInput
    || Instance.bPendingUpdate s in
  let TargetYawAngle :=
    NormalizeAxis
      ((if LocomotionState.bHasInput Locomotion
        then LocomotionState.InputYawAngle Locomotion
        else LocomotionState.TargetYawAngle Locomotion) - RotationYaw) in
  let YawAngle :=
    if bReinitializationRequired || (Speed <=? 0) then TargetYawAngle
    else
      let TargetYawAngle :=
        if TargetYawAngle >? 180 - CounterClockwiseRotationAngleThreshold
        then TargetYawAngle - 360 else TargetYawAngle in
      let YawAngle :=
        NormalizeAxis (LookTowardsInputState.YawAngle LookTowardsInput - RotationYaw) in
      let DeltaYawAngle := FMath.Clamp (TargetYawAngle - YawAngle) (-90) 90 in
      let DeltaYawAngle :=
        if (FMath.Abs (LocomotionState.YawSpeed Locomotion) >? SMALL_NUMBER)
           && (FMath.Abs TargetYawAngle >? 90)
           && (FMath.Abs TargetYawAngle <? 180 - CounterClockwiseRotationAngleThreshold)
        then (if LocomotionState.YawSpeed Locomotion >? 0
              then FMath.Abs DeltaYawAngle else - FMath.Abs DeltaYawAngle)
        else DeltaYawAngle in
      NormalizeAxis (YawAngle + DeltaYawAngle * ExponentialDecay DeltaTime Speed) in
  Instance.set_ViewState
    (ViewState.set_LookTowardsInput
       {| LookTowardsInputState.bReinitializationRequired := false;
          LookTowardsInputState.YawAngle :=
            NormalizeAxis (RotationYaw + FMath.Clamp YawAngle (-90) 90);
          LookTowardsInputState.YawAmount := YawAngle / 180 + 0.5 |}
       (Instance.ViewState s))
    s.

Definition RefreshLookTowardsCamera (st : AlsSettings.t) (DeltaTime : float)
    (s : Instance.t) : Instance.t :=
  let Locomotion := Instance.LocomotionState s in
  let View := Instance.ViewState s in
  let LookTowardsCamera := ViewState.LookTowardsCamera View in
  let bReinitializationRequired :=
    LookTowardsCameraState.bReinitializationRequired LookTowardsCamera
    || Instance.bPendingUpdate s in
  let Rotation :=
    if bReinitializationRequired then ViewState.Rotation View
    else ExponentialDecayRotator
           (LookTowardsCameraState.Rotation LookTowardsCamera) (ViewState.Rotation View)
           DeltaTime
           (ViewSettings.LookTowardsCameraRotationInterpolationSpeed (AlsSettings.View st)) in
  let YawAngle :=
    NormalizeAxis (Yaw Rotation - Yaw (LocomotionState.Rotation Locomotion)) in
  let PitchAngle :=
    NormalizeAxis (Pitch Rotation - Pitch (LocomotionState.Rotation Locomotion)) in
  let YawForwardAmount := YawAngle / 360 + 0.5 in
  Instance.set_ViewState
    (ViewState.set_LookTowardsCamera
       {| LookTowardsCameraState.bReinitializationRequired := false;
          LookTowardsCameraState.Rotation := Rotation;
          LookTowardsCameraState.YawAngle := YawAngle;
          LookTowardsCameraState.PitchAngle := PitchAngle;
          LookTowardsCameraState.YawForwardAmount := YawForwardAmount;
          LookTowardsCameraState.YawLeftAmount := 0.5 - FMath.Abs (YawForwardAmount - 0.5);
          LookTowardsCameraState.YawRightAmount := 0.5 + FMath.Abs (YawForwardAmount - 0.5) |}
       View)
    s.

(** The two local amounts of [RefreshView], read from the aim curves. *)
Definition AimingAllowedAmount (h : Host.t) : float :=
  1 - GetCurveValueClamped01 h AimBlockCurve.
Definition AimingManualAmount (h : Host.t) : float :=
  GetCurveValueClamped01 h AimManualCurve.

Definition RefreshView (st : AlsSettings.t) (h : Host.t) (DeltaTime : float)
    (s : Instance.t) : Instance.t :=
  let Locomotion := Instance.LocomotionState s in
  let View := Instance.ViewState s in
  let View :=
    if negb (ActionIsValid (Instance.LocomotionAction s)) then
      let PitchAngle :=
        NormalizeAxis (Pitch (ViewState.Rotation View)
                       - Pitch (LocomotionState.Rotation Locomotion)) in
      ViewState.set_PitchAmount (0.5 - PitchAngle / 180)
        (ViewState.set_PitchAngle PitchAngle
           (ViewState.set_YawAngle
              (NormalizeAxis (Yaw (ViewState.Rotation View)
                              - Yaw (LocomotionState.Rotation Locomotion)))
              View))
    else View in
  let View :=
    ViewState.set_LookAmount (AimingAllowedAmount h * (1 - AimingManualAmount h)) View in
  let View :=
    if IsSpineRotationAllowed s then
      ViewState.set_TargetSpineYawAngle
        (if ViewState.YawAngle View >? 180 - CounterClockwiseRotationAngleThreshold
         then ViewState.YawAngle View - 360 else ViewState.YawAngle View)
        View
    else View in
  let View :=
    ViewState.set_SpineYawAngle
      (NormalizeAxis (ViewState.TargetSpineYawAngle View
                      * AimingAllowedAmount h * AimingManualAmount h))
      View in
  if negb (IsRelevant (ViewState.LookAmount View)) then
    Instance.set_ViewState
      (ViewState.set_LookTowardsCamera
         (LookTowardsCameraState.set_bReinitializationRequired true
            (ViewState.LookTowardsCamera View))
         (ViewState.set_LookTowardsInput
            (LookTowardsInputState.set_bReinitializationRequired true
               (ViewState.LookTowardsInput View))
            View))
      s
  else if IsVelocityDirection (Instance.RotationMode s) then
    RefreshLookTowardsInput st DeltaTime
      (Instance.set_ViewState
         (ViewState.set_LookTowardsCamera
            (LookTowardsCameraState.set_bReinitializationRequired true
               (ViewState.LookTowardsCamera View))
            View)
         s)
  else
    RefreshLookTowardsCamera st DeltaTime
      (Instance.set_ViewState
         (ViewState.set_LookTowardsInput
            (LookTowardsInputState.set_bReinitializationRequired true
               (ViewState.LookTowardsInput View))
            View)
         s).

(** *** Locomotion and grounded state *)

Definition PrimitiveEqb (a b : PrimitiveRef) : bool :=
  match a, b with
  | Some n, Some m => Nat.eqb n m
  | None, None => true
  | _, _ => false
  end.

Definition RefreshLocomotionGameThread (st : AlsSettings.t) (h : Host.t)
    (ch : Character.t) (s : Instance.t) : Instance.t :=
  let Locomotion := Character.GetLocomotionState ch in
  let Previous := LocomotionState.BasedMovement (Instance.LocomotionState s) in
  let bBaseChanged :=
    negb (PrimitiveEqb (Character.MovementBase ch) (BasedMovementState.Primitive Previous))
    || negb (PrimitiveEqb (Character.BasedBoneName ch) (BasedMovementState.BoneName Previous)) in
  let BaseTransform :=
    Host.GetMovementBaseTransform h (Character.MovementBase ch) (Character.BasedBoneName ch) in
  Instance.set_LocomotionState
    {| LocomotionState.bHasInput := CharacterLocomotion.bHasInput Locomotion;
       LocomotionState.InputYawAngle := CharacterLocomotion.InputYawAngle Locomotion;
       LocomotionState.Speed := CharacterLocomotion.Speed Locomotion;
       LocomotionState.Velocity := CharacterLocomotion.Velocity Locomotion;
       LocomotionState.VelocityYawAngle := CharacterLocomotion.VelocityYawAngle Locomotion;
       LocomotionState.Acceleration := CharacterLocomotion.Acceleration Locomotion;
       LocomotionState.MaxAcceleration := Character.GetMaxAcceleration ch;
       LocomotionState.MaxBrakingDeceleration := Character.GetMaxBrakingDeceleration ch;
       LocomotionState.WalkableFloorZ := Character.GetWalkableFloorZ ch;
       LocomotionState.bMoving := CharacterLocomotion.bMoving Locomotion;
       LocomotionState.bMovingSmooth :=
         (CharacterLocomotion.bHasInput Locomotion && CharacterLocomotion.bHasSpeed Locomotion)
         || (CharacterLocomotion.Speed Locomotion
             >? GeneralSettings.MovingSmoothSpeedThreshold (AlsSettings.General st));
       LocomotionState.TargetYawAngle := CharacterLocomotion.TargetYawAngle Locomotion;
       LocomotionState.Location := CharacterLocomotion.Location Locomotion;
       LocomotionState.Rotation := CharacterLocomotion.Rotation Locomotion;
       LocomotionState.RotationQuaternion := CharacterLocomotion.RotationQuaternion Locomotion;
       LocomotionState.YawSpeed := CharacterLocomotion.YawSpeed Locomotion;
       LocomotionState.Scale := Host.GetComponentScaleZ h;
       LocomotionState.CapsuleRadius := Character.GetScaledCapsuleRadius ch;
       LocomotionState.CapsuleHalfHeight := Character.GetScaledCapsuleHalfHeight ch;
       LocomotionState.BasedMovement :=
         {| BasedMovementState.Primitive :=
              if bBaseChanged then Character.MovementBase ch
              else BasedMovementState.Primitive Previous;
            BasedMovementState.BoneName :=
              if bBaseChanged then Character.BasedBoneName ch
              else BasedMovementState.BoneName Previous;
            BasedMovementState.bBaseChanged := bBaseChanged;
            BasedMovementState.bHasRelativeLocation := Character.HasRelativeLocation ch;
            BasedMovementState.Location := fst BaseTransform;
            BasedMovementState.Rotation := snd BaseTransform |} |}
    s.

Definition RefreshGroundedGameThread (st : AlsSettings.t) (s : Instance.t) : Instance.t :=
  let Grounded := Instance.GroundedState s in
  Instance.set_GroundedState
    (GroundedState.set_bPivotActivationRequested false
       (GroundedState.set_bPivotActive
          (GroundedState.bPivotActivationRequested Grounded
           && negb (Instance.bPendingUpdate s)
           && (LocomotionState.Speed (Instance.LocomotionState s)
               <? GroundedSettings.PivotActivationSpeedThreshold (AlsSettings.Grounded st)))
          Grounded))
    s.

Definition RefreshMovementDirection (s : Instance.t) : Instance.t :=
  if IsSprinting (Instance.Gait s) || IsVelocityDirection (Instance.RotationMode s) then
    Instance.set_GroundedState
      (GroundedState.set_MovementDirection DirForward (Instance.GroundedState s)) s
  else
    let ForwardHalfAngle := 70 in
    Instance.set_GroundedState
      (GroundedState.set_MovementDirection
         (CalculateMovementDirection
            (NormalizeAxis
               (LocomotionState.VelocityYawAngle (Instance.LocomotionState s)
                - Yaw (ViewState.Rotation (Instance.ViewState s))))
            ForwardHalfAngle 5)
         (Instance.GroundedState s))
      s.

(** The two local vectors of [RefreshVelocityBlend]. *)
Definition RelativeVelocityDirection (s : Instance.t) : FVector :=
  GetSafeNormal
    (UnrotateVector (LocomotionState.RotationQuaternion (Instance.LocomotionState s))
       (LocomotionState.Velocity (Instance.LocomotionState s))).

Definition RelativeDirection (s : Instance.t) : FVector :=
  let RelativeVelocityDirection := RelativeVelocityDirection s in
  Vec.div RelativeVelocityDirection
    (FMath.Abs (X RelativeVelocityDirection) + FMath.Abs (Y RelativeVelocityDirection)
     + FMath.Abs (Z RelativeVelocityDirection)).

Definition RefreshVelocityBlend (st : AlsSettings.t) (DeltaTime : float)
    (s : Instance.t) : Instance.t :=
  let VelocityBlend := GroundedState.VelocityBlend (Instance.GroundedState s) in
  let bReinitializationRequired :=
    VelocityBlendState.bReinitializationRequired VelocityBlend || Instance.bPendingUpdate s in
  let RelativeDirection := RelativeDirection s in
  let Speed := GroundedSettings.VelocityBlendInterpolationSpeed (AlsSettings.Grounded st) in
  Instance.set_GroundedState
    (GroundedState.set_VelocityBlend
       (if bReinitializationRequired then
          {| VelocityBlendState.bReinitializationRequired := false;
             VelocityBlendState.ForwardAmount := UAlsMath.Clamp01 (X RelativeDirection);
             VelocityBlendState.BackwardAmount :=
               FMath.Abs (FMath.Clamp (X RelativeDirection) (-1) 0);
             VelocityBlendState.LeftAmount :=
               FMath.Abs (FMath.Clamp (Y RelativeDirection) (-1) 0);
             VelocityBlendState.RightAmount := UAlsMath.Clamp01 (Y RelativeDirection) |}
        else
          {| VelocityBlendState.bReinitializationRequired := false;
             VelocityBlendState.ForwardAmount :=
               FInterpTo (VelocityBlendState.ForwardAmount VelocityBlend)
                 (UAlsMath.Clamp01 (X RelativeDirection)) DeltaTime Speed;
             VelocityBlendState.BackwardAmount :=
               FInterpTo (VelocityBlendState.BackwardAmount VelocityBlend)
                 (FMath.Abs (FMath.Clamp (X RelativeDirection) (-1) 0)) DeltaTime Speed;
             VelocityBlendState.LeftAmount :=
               FInterpTo (VelocityBlendState.LeftAmount VelocityBlend)
                 (FMath.Abs (FMath.Clamp (Y RelativeDirection) (-1) 0)) DeltaTime Speed;
             VelocityBlendState.RightAmount :=
               FInterpTo (VelocityBlendState.RightAmount VelocityBlend)
                 (UAlsMath.Clamp01 (Y RelativeDirection)) DeltaTime Speed |})
       (Instance.GroundedState s))
    s.

Definition RefreshRotationYawOffsets (st : AlsSettings.t) (s : Instance.t) : Instance.t :=
  let RotationYawOffset :=
    NormalizeAxis (LocomotionState.VelocityYawAngle (Instance.LocomotionState s)
                   - Yaw (ViewState.Rotation (Instance.ViewState s))) in
  let Grounded := AlsSettings.Grounded st in
  Instance.set_GroundedState
    (GroundedState.set_RotationYawOffsets
       {| RotationYawOffsetsState.ForwardAngle :=
            GroundedSettings.RotationYawOffsetForwardCurve Grounded RotationYawOffset;
          RotationYawOffsetsState.BackwardAngle :=
            GroundedSettings.RotationYawOffsetBackwardCurve Grounded RotationYawOffset;
          RotationYawOffsetsState.LeftAngle :=
            GroundedSettings.RotationYawOffsetLeftCurve Grounded RotationYawOffset;
          RotationYawOffsetsState.RightAngle :=
            GroundedSettings.RotationYawOffsetRightCurve Grounded RotationYawOffset |}
       (Instance.GroundedState s))
    s.

Definition RefreshSprint (RelativeAccelerationAmount : FVector) (DeltaTime : float)
    (s : Instance.t) : Instance.t :=
  let Grounded := Instance.GroundedState s in
  if negb (IsSprinting (Instance.Gait s)) then
    Instance.set_GroundedState
      (GroundedState.set_SprintAccelerationAmount 0 (GroundedState.set_SprintTime 0 Grounded))
      s
  else
    let TimeThreshold := 0.5 in
    let SprintTime :=
      if Instance.bPendingUpdate s then TimeThreshold
      else GroundedState.SprintTime Grounded + DeltaTime in
    Instance.set_GroundedState
      (GroundedState.set_SprintAccelerationAmount
         (if SprintTime >=? TimeThreshold then 0 else X RelativeAccelerationAmount)
         (GroundedState.set_SprintTime SprintTime Grounded))
      s.

Definition RefreshStrideBlendAmount (st : AlsSettings.t) (s : Instance.t) : Instance.t :=
  let Locomotion := Instance.LocomotionState s in
  let Grounded := AlsSettings.Grounded st in
  let Speed := LocomotionState.Speed Locomotion / LocomotionState.Scale Locomotion in
  let StandingStrideBlend :=
    FMath.Lerp (GroundedSettings.StrideBlendAmountWalkCurve Grounded Speed)
      (GroundedSettings.StrideBlendAmountRunCurve Grounded Speed)
      (PoseState.GaitRunningAmount (Instance.PoseState s)) in
  Instance.set_GroundedState
    (GroundedState.set_StrideBlendAmount
       (FMath.Lerp StandingStrideBlend
          (GroundedSettings.StrideBlendAmountWalkCurve Grounded Speed)
          (PoseState.CrouchingAmount (Instance.PoseState s)))
       (Instance.GroundedState s))
    s.

Definition RefreshWalkRunBlendAmount (s : Instance.t) : Instance.t :=
  Instance.set_GroundedState
    (GroundedState.set_WalkRunBlendAmount
       (if IsWalking (Instance.Gait s) then 0 else 1) (Instance.GroundedState s))
    s.

Definition RefreshStandingPlayRate (st : AlsSettings.t) (s : Instance.t) : Instance.t :=
  let Locomotion := Instance.LocomotionState s in
  let Grounded := AlsSettings.Grounded st in
  let Speed := LocomotionState.Speed Locomotion in
  let WalkRunSpeedAmount :=
    FMath.Lerp (Speed / GroundedSettings.AnimatedWalkSpeed Grounded)
      (Speed / GroundedSettings.AnimatedRunSpeed Grounded)
      (PoseState.GaitRunningAmount (Instance.PoseState s)) in
  let WalkRunSprintSpeedAmount :=
    FMath.Lerp WalkRunSpeedAmount
      (Speed / GroundedSettings.AnimatedSprintSpeed Grounded)
      (PoseState.GaitSprintingAmount (Instance.PoseState s)) in
  Instance.set_GroundedState
    (GroundedState.set_StandingPlayRate
       (FMath.Clamp
          (WalkRunSprintSpeedAmount
           / (GroundedState.StrideBlendAmount (Instance.GroundedState s)
              * LocomotionState.Scale Locomotion))
          0 3)
       (Instance.GroundedState s))
    s.

Definition RefreshCrouchingPlayRate (st : AlsSettings.t) (s : Instance.t) : Instance.t :=
  let Locomotion := Instance.LocomotionState s in
  Instance.set_GroundedState
    (GroundedState.set_CrouchingPlayRate
       (FMath.Clamp
          (LocomotionState.Speed Locomotion
           / (GroundedSettings.AnimatedCrouchSpeed (AlsSettings.Grounded st)
              * GroundedState.StrideBlendAmount (Instance.GroundedState s)
              * LocomotionState.Scale Locomotion))
          0 2)
       (Instance.GroundedState s))
    s.

Definition RefreshGroundedLeanAmount (st : AlsSettings.t)
    (RelativeAccelerationAmount : FVector) (DeltaTime : float) (s : Instance.t) : Instance.t :=
  let Lean := Instance.LeanState s in
  let Speed := GeneralSettings.LeanInterpolationSpeed (AlsSettings.General st) in
  if Instance.bPendingUpdate s then
    Instance.set_LeanState
      {| LeanState.RightAmount := Y RelativeAccelerationAmount;
         LeanState.ForwardAmount := X RelativeAccelerationAmount |} s
  else
    Instance.set_LeanState
      {| LeanState.RightAmount :=
           FInterpTo (LeanState.RightAmount Lean) (Y RelativeAccelerationAmount)
             DeltaTime Speed;
         LeanState.ForwardAmount :=
           FInterpTo (LeanState.ForwardAmount Lean) (X RelativeAccelerationAmount)
             DeltaTime Speed |} s.

Definition ResetGroundedLeanAmount (st : AlsSettings.t) (DeltaTime : float)
    (s : Instance.t) : Instance.t :=
  let Lean := Instance.LeanState s in
  let Speed := GeneralSettings.LeanInterpolationSpeed (AlsSettings.General st) in
  Instance.set_LeanState
    {| LeanState.RightAmount := FInterpTo (LeanState.RightAmount Lean) 0 DeltaTime Speed;
       LeanState.ForwardAmount := FInterpTo (LeanState.ForwardAmount Lean) 0 DeltaTime Speed |}
    s.

Definition RefreshGrounded (st : AlsSettings.t) (h : Host.t) (DeltaTime : float)
    (s : Instance.t) : Instance.t :=
  let s :=
    Instance.set_GroundedState
      (GroundedState.set_HipsDirectionLockAmount
         (FMath.Clamp (Host.GetCurveValue h HipsDirectionLockCurve) (-1) 1)
         (GroundedState.set_SprintBlockAmount (GetCurveValueClamped01 h SprintBlockCurve)
            (Instance.GroundedState s)))
      s in
  let Locomotion := Instance.LocomotionState s in
  if negb (IsGroundedMode (Instance.LocomotionMode s)) then
    let Grounded := Instance.GroundedState s in
    Instance.set_GroundedState
      (GroundedState.set_SprintTime 0
         (GroundedState.set_VelocityBlend
            (VelocityBlendState.set_bReinitializationRequired true
               (GroundedState.VelocityBlend Grounded))
            Grounded))
      s
  else if negb (LocomotionState.bMoving Locomotion) then
    ResetGroundedLeanAmount st DeltaTime s
  else
    let RelativeAccelerationAmount :=
      if Vec.dot (LocomotionState.Acceleration Locomotion) (LocomotionState.Velocity Locomotion)
         >=? 0
      then
        ClampMagnitude01
          (Vec.div (UnrotateVector (LocomotionState.RotationQuaternion Locomotion)
                      (LocomotionState.Acceleration Locomotion))
             (LocomotionState.MaxAcceleration Locomotion))
      else
        ClampMagnitude01
          (Vec.div (UnrotateVector (LocomotionState.RotationQuaternion Locomotion)
                      (LocomotionState.Acceleration Locomotion))
             (LocomotionState.MaxBrakingDeceleration Locomotion)) in
    let s := RefreshMovementDirection s in
    let s := RefreshVelocityBlend st DeltaTime s in
    let s := RefreshRotationYawOffsets st s in
    let s := RefreshSprint RelativeAccelerationAmount DeltaTime s in
    let s := RefreshStrideBlendAmount st s in
    let s := RefreshWalkRunBlendAmount s in
    let s := RefreshStandingPlayRate st s in
    let s := RefreshCrouchingPlayRate st s in
    RefreshGroundedLeanAmount st RelativeAccelerationAmount DeltaTime s.

(** *** In air *)

Definition RefreshInAirGameThread (s : Instance.t) : Instance.t :=
  let InAir := Instance.InAirState s in
  Instance.set_InAirState
    (InAirState.set_bJumpRequested false
       (InAirState.set_bJumped
          (negb (Instance.bPendingUpdate s)
           && (InAirState.bJumped InAir || InAirState.bJumpRequested InAir))
          InAir))
    s.

(** The local [AllowanceAmount] of [RefreshGroundPredictionAmount]. *)
Definition GroundPredictionAllowanceAmount (h : Host.t) : float :=
  1 - GetCurveValueClamped01 h GroundPredictionBlockCurve.

Definition RefreshGroundPredictionAmount (st : AlsSettings.t) (h : Host.t)
    (s : Instance.t) : Instance.t :=
  let InAir := Instance.InAirState s in
  let Locomotion := Instance.LocomotionState s in
  let VerticalVelocityThreshold := -200 in
  if InAirState.VerticalVelocity InAir >? VerticalVelocityThreshold then
    Instance.set_InAirState (InAirState.set_GroundPredictionAmount 0 InAir) s
  else
    let AllowanceAmount := GroundPredictionAllowanceAmount h in
    if AllowanceAmount <=? KINDA_SMALL_NUMBER then
      Instance.set_InAirState (InAirState.set_GroundPredictionAmount 0 InAir) s
    else
      let SweepStartLocation := LocomotionState.Location Locomotion in
      let MinVerticalVelocity := -4000 in
      let MaxVerticalVelocity := -200 in
      let VelocityDirection := LocomotionState.Velocity Locomotion in
      let VelocityDirection :=
        Normalize
          (Vec.withZ VelocityDirection
             (FMath.Clamp (Z VelocityDirection) MinVerticalVelocity MaxVerticalVelocity)) in
      let MinSweepDistance := 150 in
      let MaxSweepDistance := 2000 in
      let SweepVector :=
        Vec.scale
          (Vec.scale VelocityDirection
             (GetMappedRangeValueClamped
                {| X2 := MaxVerticalVelocity; Y2 := MinVerticalVelocity |}
                {| X2 := MinSweepDistance; Y2 := MaxSweepDistance |}
                (InAirState.VerticalVelocity InAir)))
          (LocomotionState.Scale Locomotion) in
      let Hit :=
        Host.SweepSingleByObjectType h SweepStartLocation
          (Vec.add SweepStartLocation SweepVector)
          (InAirSettings.GroundPredictionSweepObjectTypes (AlsSettings.InAir st))
          (LocomotionState.CapsuleRadius Locomotion)
          (LocomotionState.CapsuleHalfHeight Locomotion) in
      let bGroundValid :=
        bValidBlockingHit Hit
        && (Z (ImpactNormal Hit) >=? LocomotionState.WalkableFloorZ Locomotion) in
      Instance.set_InAirState
        (InAirState.set_GroundPredictionAmount
           (if bGroundValid
            then InAirSettings.GroundPredictionAmountCurve (AlsSettings.InAir st) (HitTime Hit)
                 * AllowanceAmount
            else 0)
           InAir)
        s.

Definition RefreshInAirLeanAmount (st : AlsSettings.t) (DeltaTime : float)
    (s : Instance.t) : Instance.t :=
  let Locomotion := Instance.LocomotionState s in
  let Lean := Instance.LeanState s in
  let Speed := GeneralSettings.LeanInterpolationSpeed (AlsSettings.General st) in
  let ReferenceSpeed := 350 in
  let RelativeVelocity :=
    Vec.scale
      (Vec.div (UnrotateVector (LocomotionState.RotationQuaternion Locomotion)
                  (LocomotionState.Velocity Locomotion))
         ReferenceSpeed)
      (InAirSettings.LeanAmountCurve (AlsSettings.InAir st)
         (InAirState.VerticalVelocity (Instance.InAirState s))) in
  if Instance.bPendingUpdate s then
    Instance.set_LeanState
      {| LeanState.RightAmount := Y RelativeVelocity;
         LeanState.ForwardAmount := X RelativeVelocity |} s
  else
    Instance.set_LeanState
      {| LeanState.RightAmount :=
           FInterpTo (LeanState.RightAmount Lean) (Y RelativeVelocity) DeltaTime Speed;
         LeanState.ForwardAmount :=
           FInterpTo (LeanState.ForwardAmount Lean) (X RelativeVelocity) DeltaTime Speed |} s.

Definition RefreshInAir (st : AlsSettings.t) (h : Host.t) (DeltaTime : float)
    (s : Instance.t) : Instance.t :=
  let s :=
    if InAirState.bJumped (Instance.InAirState s) then
      let ReferenceSpeed := 600 in
      let MinPlayRate := 1.2 in
      let MaxPlayRate := 1.5 in
      Instance.set_InAirState
        (InAirState.set_JumpPlayRate
           (LerpClamped MinPlayRate MaxPlayRate
              (LocomotionState.Speed (Instance.LocomotionState s) / ReferenceSpeed))
           (Instance.InAirState s))
        s
    else s in
  if negb (IsInAirMode (Instance.LocomotionMode s)) then s
  else
    let s :=
      Instance.set_InAirState
        (InAirState.set_VerticalVelocity
           (Z (LocomotionState.Velocity (Instance.LocomotionState s)))
           (Instance.InAirState s))
        s in
    let s := RefreshGroundPredictionAmount st h s in
    RefreshInAirLeanAmount st DeltaTime s.

(** *** Feet *)

Definition RefreshFeetGameThread (st : AlsSettings.t) (h : Host.t)
    (s : Instance.t) : Instance.t :=
  let bUseFootIkBones := GeneralSettings.bUseFootIkBones (AlsSettings.General st) in
  let FootLeftTargetTransform :=
    Host.GetSocketTransform h
      (if bUseFootIkBones then FootLeftIkBone else FootLeftVirtualBone) in
  let FootRightTargetTransform :=
    Host.GetSocketTransform h
      (if bUseFootIkBones then FootRightIkBone else FootRightVirtualBone) in
  let Feet := Instance.FeetState s in
  Instance.set_FeetState
    (FeetState.set_Right
       (FootState.set_TargetRotation (TRotation FootRightTargetTransform)
          (FootState.set_TargetLocation (TTranslation FootRightTargetTransform)
             (FeetState.Right Feet)))
       (FeetState.set_Left
          (FootState.set_TargetRotation (TRotation FootLeftTargetTransform)
             (FootState.set_TargetLocation (TTranslation FootLeftTargetTransform)
                (FeetState.Left Feet)))
          Feet))
    s.

(** The lock fields relative to the movement base, as the three lock steps
    below compute them from a world location and rotation. *)
Definition MovementBaseRelative (s : Instance.t) (Location : FVector) (Rotation : FQuat)
    : FVector * FQuat :=
  let BasedMovement := LocomotionState.BasedMovement (Instance.LocomotionState s) in
  let BaseRotationInverse := QuatInverse (BasedMovementState.Rotation BasedMovement) in
  (RotateVector BaseRotationInverse
     (Vec.sub Location (BasedMovementState.Location BasedMovement)),
   QuatMul BaseRotationInverse Rotation).

Definition bHasRelativeLocation (s : Instance.t) : bool :=
  BasedMovementState.bHasRelativeLocation
    (LocomotionState.BasedMovement (Instance.LocomotionState s)).

Definition ProcessFootLockTeleport (h : Host.t) (s : Instance.t)
    (FootState : FootState.t) : FootState.t :=
  if negb (Instance.bTeleported s)
     || FeetState.bReinitializationRequired (Instance.FeetState s)
     || negb (IsRelevant (FootState.IkAmount FootState * FootState.LockAmount FootState))
  then FootState
  else
    let ComponentTransform := Host.GetComponentTransform h in
    let FootState :=
      FootState.set_LockRotation
        (TransformRotation ComponentTransform
           (FootState.LockComponentRelativeRotation FootState))
        (FootState.set_LockLocation
           (TransformPosition ComponentTransform
              (FootState.LockComponentRelativeLocation FootState))
           FootState) in
    if bHasRelativeLocation s then
      let Relative :=
        MovementBaseRelative s (FootState.LockLocation FootState)
          (FootState.LockRotation FootState) in
      FootState.set_LockMovementBaseRelativeRotation (snd Relative)
        (FootState.set_LockMovementBaseRelativeLocation (fst Relative) FootState)
    else FootState.

Definition ProcessFootLockBaseChange (s : Instance.t) (FootState : FootState.t)
    (ComponentTransformInverse : FTransform) : FootState.t :=
  let bBaseChanged :=
    BasedMovementState.bBaseChanged
      (LocomotionState.BasedMovement (Instance.LocomotionState s)) in
  let bReinitializationRequired :=
    FeetState.bReinitializationRequired (Instance.FeetState s) in
  if (negb bBaseChanged && negb bReinitializationRequired)
     || negb (IsRelevant (FootState.IkAmount FootState * FootState.LockAmount FootState))
  then FootState
  else
    let FootState :=
      if bReinitializationRequired then
        FootState.set_LockRotation (FootState.TargetRotation FootState)
          (FootState.set_LockLocation (FootState.TargetLocation FootState) FootState)
      else FootState in
    let FootState :=
      FootState.set_LockComponentRelativeRotation
        (TransformRotation ComponentTransformInverse (FootState.LockRotation FootState))
        (FootState.set_LockComponentRelativeLocation
           (TransformPosition ComponentTransformInverse (FootState.LockLocation FootState))
           FootState) in
    if bHasRelativeLocation s then
      let Relative :=
        MovementBaseRelative s (FootState.LockLocation FootState)
          (FootState.LockRotation FootState) in
      FootState.set_LockMovementBaseRelativeRotation (snd Relative)
        (FootState.set_LockMovementBaseRelativeLocation (fst Relative) FootState)
    else
      FootState.set_LockMovementBaseRelativeRotation QuatIdentity
        (FootState.set_LockMovementBaseRelativeLocation Vec.Zero FootState).

(** The local [NewFootLockAmount] of [RefreshFootLock], after the smooth
    decrease applied while the character moves or is not grounded. *)
Definition NewFootLockAmount (h : Host.t) (s : Instance.t) (FootState : FootState.t)
    (FootLockCurveName : CurveName) (DeltaTime : float) : float :=
  let Locomotion := Instance.LocomotionState s in
  let NewFootLockAmount := GetCurveValueClamped01 h FootLockCurveName in
  if LocomotionState.bMovingSmooth Locomotion
     || negb (IsGroundedMode (Instance.LocomotionMode s))
  then
    let MovingDecreaseSpeed := 5 in
    let NotGroundedDecreaseSpeed := 0.6 in
    if FeetState.bReinitializationRequired (Instance.FeetState s) then 0
    else
      FMath.Max 0
        (FMath.Min NewFootLockAmount
           (FootState.LockAmount FootState
            - DeltaTime * (if LocomotionState.bMovingSmooth Locomotion
                           then MovingDecreaseSpeed else NotGroundedDecreaseSpeed)))
  else NewFootLockAmount.

(** The test that ends [RefreshFootLock] early: foot locking is disabled or
    the new lock is not relevant. *)
Definition FootLockSkipped (st : AlsSettings.t) (FootState : FootState.t)
    (NewFootLockAmount : float) : bool :=
  FeetSettings.bDisableFootLock (AlsSettings.Feet st)
  || negb (IsRelevant (FootState.IkAmount FootState * NewFootLockAmount)).

Definition RefreshFootLock (st : AlsSettings.t) (h : Host.t) (s : Instance.t)
    (FootState : FootState.t) (FootLockCurveName : CurveName)
    (ComponentTransformInverse : FTransform) (DeltaTime : float)
    (FinalLocation : FVector) (FinalRotation : FQuat)
    : FootState.t * FVector * FQuat :=
  let BasedMovement := LocomotionState.BasedMovement (Instance.LocomotionState s) in
  let NewFootLockAmount := NewFootLockAmount h s FootState FootLockCurveName DeltaTime in
  if FootLockSkipped st FootState NewFootLockAmount then
    (if FootState.LockAmount FootState >? 0 then
       FootState.set_LockMovementBaseRelativeRotation QuatIdentity
         (FootState.set_LockMovementBaseRelativeLocation Vec.Zero
            (FootState.set_LockComponentRelativeRotation QuatIdentity
               (FootState.set_LockComponentRelativeLocation Vec.Zero
                  (FootState.set_LockRotation QuatIdentity
                     (FootState.set_LockLocation Vec.Zero
                        (FootState.set_LockAmount 0 FootState))))))
     else FootState,
     FinalLocation, FinalRotation)
  else
    let bNewAmountEqualOne := IsFullWeight NewFootLockAmount in
    let bNewAmountGreaterThanPrevious :=
      NewFootLockAmount >? FootState.LockAmount FootState in
    let FootState :=
      if bNewAmountEqualOne then
        let FootState :=
          if bNewAmountGreaterThanPrevious then
            let FootState :=
              if FootState.LockAmount FootState <=? 0.9 then
                FootState.set_LockRotation FinalRotation
                  (FootState.set_LockLocation FinalLocation FootState)
              else FootState in
            if bHasRelativeLocation s then
              let Relative := MovementBaseRelative s FinalLocation FinalRotation in
              FootState.set_LockMovementBaseRelativeRotation (snd Relative)
                (FootState.set_LockMovementBaseRelativeLocation (fst Relative) FootState)
            else
              FootState.set_LockMovementBaseRelativeRotation QuatIdentity
                (FootState.set_LockMovementBaseRelativeLocation Vec.Zero FootState)
          else FootState in
        FootState.set_LockAmount 1 FootState
      else if negb bNewAmountGreaterThanPrevious then
        FootState.set_LockAmount NewFootLockAmount FootState
      else FootState in
    let FootState :=
      if bHasRelativeLocation s then
        FootState.set_LockRotation
          (QuatMul (BasedMovementState.Rotation BasedMovement)
             (FootState.LockMovementBaseRelativeRotation FootState))
          (FootState.set_LockLocation
             (Vec.add (BasedMovementState.Location BasedMovement)
                (RotateVector (BasedMovementState.Rotation BasedMovement)
                   (FootState.LockMovementBaseRelativeLocation FootState)))
             FootState)
      else FootState in
    let FootState :=
      FootState.set_LockComponentRelativeRotation
        (TransformRotation ComponentTransformInverse (FootState.LockRotation FootState))
        (FootState.set_LockComponentRelativeLocation
           (TransformPosition ComponentTransformInverse (FootState.LockLocation FootState))
           FootState) in
    (FootState,
     Vec.Lerp FinalLocation (FootState.LockLocation FootState) (FootState.LockAmount FootState),
     Slerp FinalRotation (FootState.LockRotation FootState) (FootState.LockAmount FootState)).

(** The line trace of [RefreshFootOffset] under the foot, and whether it
    found walkable ground. *)
Definition FootOffsetTraceLocation (h : Host.t) (FinalLocation : FVector) : FVector :=
  Vec.withZ FinalLocation (Z (TTranslation (Host.GetComponentTransform h))).

Definition FootOffsetTrace (st : AlsSettings.t) (h : Host.t) (s : Instance.t)
    (FinalLocation : FVector) : FHitResult :=
  let Scale := LocomotionState.Scale (Instance.LocomotionState s) in
  let FootLocation := FootOffsetTraceLocation h FinalLocation in
  Host.LineTraceSingleByChannel h
    (Vec.add FootLocation
       {| X := 0; Y := 0;
          Z := FeetSettings.IkTraceDistanceUpward (AlsSettings.Feet st) * Scale |})
    (Vec.sub FootLocation
       {| X := 0; Y := 0;
          Z := FeetSettings.IkTraceDistanceDownward (AlsSettings.Feet st) * Scale |})
    (FeetSettings.IkTraceChannel (AlsSettings.Feet st)).

Definition FootOffsetGroundValid (s : Instance.t) (Hit : FHitResult) : bool :=
  bValidBlockingHit Hit
  && (Z (ImpactNormal Hit) >=? LocomotionState.WalkableFloorZ (Instance.LocomotionState s)).

Definition RefreshFootOffset (st : AlsSettings.t) (h : Host.t) (s : Instance.t)
    (FootState : FootState.t) (DeltaTime : float)
    (FinalLocation : FVector) (FinalRotation : FQuat)
    : FootState.t * FVector * FQuat :=
  let bReinitializationRequired :=
    FeetState.bReinitializationRequired (Instance.FeetState s) in
  if negb (IsRelevant (FootState.IkAmount FootState)) then
    (FootState.set_OffsetSpringState SpringReset
       (FootState.set_OffsetTargetRotation QuatIdentity
          (FootState.set_OffsetTargetLocation Vec.Zero FootState)),
     FinalLocation, FinalRotation)
  else if IsInAirMode (Instance.LocomotionMode s) then
    let FootState :=
      FootState.set_OffsetSpringState SpringReset
        (FootState.set_OffsetTargetRotation QuatIdentity
           (FootState.set_OffsetTargetLocation Vec.Zero FootState)) in
    if bReinitializationRequired then
      (FootState.set_OffsetRotation QuatIdentity
         (FootState.set_OffsetLocation Vec.Zero FootState),
       FinalLocation, FinalRotation)
    else
      let InterpolationSpeed := 15 in
      let FootState :=
        FootState.set_OffsetRotation
          (QInterpTo (FootState.OffsetRotation FootState) QuatIdentity
             DeltaTime InterpolationSpeed)
          (FootState.set_OffsetLocation
             (VInterpTo (FootState.OffsetLocation FootState) Vec.Zero
                DeltaTime InterpolationSpeed)
             FootState) in
      (FootState,
       Vec.add FinalLocation (FootState.OffsetLocation FootState),
       QuatMul (FootState.OffsetRotation FootState) FinalRotation)
  else
    let FootLocation := FootOffsetTraceLocation h FinalLocation in
    let Hit := FootOffsetTrace st h s FinalLocation in
    let bGroundValid := FootOffsetGroundValid s Hit in
    let FootState :=
      if bGroundValid then
        let FootHeight :=
          FeetSettings.FootHeight (AlsSettings.Feet st)
          * LocomotionState.Scale (Instance.LocomotionState s) in
        let OffsetTargetLocation :=
          Vec.add (Vec.sub (ImpactPoint Hit) FootLocation)
            (Vec.scale (ImpactNormal Hit) FootHeight) in
        FootState.set_OffsetTargetRotation
          (Quaternion
             {| Pitch :=
                  - DirectionToAngle
                      {| X2 := Z (ImpactNormal Hit); Y2 := X (ImpactNormal Hit) |};
                Yaw := 0;
                Roll :=
                  DirectionToAngle
                    {| X2 := Z (ImpactNormal Hit); Y2 := Y (ImpactNormal Hit) |} |})
          (FootState.set_OffsetTargetLocation
             (Vec.withZ OffsetTargetLocation (Z OffsetTargetLocation - FootHeight))
             FootState)
      else FootState in
    let FootState :=
      if bReinitializationRequired then
        FootState.set_OffsetRotation (FootState.OffsetTargetRotation FootState)
          (FootState.set_OffsetLocation (FootState.OffsetTargetLocation FootState)
             (FootState.set_OffsetSpringState SpringReset FootState))
      else
        let LocationInterpolationFrequency := 0.4 in
        let LocationInterpolationDampingRatio := 4 in
        let LocationInterpolationTargetVelocityAmount := 1 in
        let Spring :=
          SpringDamp (FootState.OffsetLocation FootState)
            (FootState.OffsetTargetLocation FootState)
            (FootState.OffsetSpringState FootState) DeltaTime
            LocationInterpolationFrequency LocationInterpolationDampingRatio
            LocationInterpolationTargetVelocityAmount in
        let RotationInterpolationSpeed := 30 in
        FootState.set_OffsetRotation
          (QInterpTo (FootState.OffsetRotation FootState)
             (FootState.OffsetTargetRotation FootState)
             DeltaTime RotationInterpolationSpeed)
          (FootState.set_OffsetLocation (fst Spring)
             (FootState.set_OffsetSpringState (snd Spring) FootState)) in
    (FootState,
     Vec.add FinalLocation (FootState.OffsetLocation FootState),
     QuatMul (FootState.OffsetRotation FootState) FinalRotation).

Definition RefreshFoot (st : AlsSettings.t) (h : Host.t) (s : Instance.t)
    (FootState : FootState.t) (FootIkCurveName FootLockCurveName : CurveName)
    (ComponentTransformInverse : FTransform) (DeltaTime : float) : FootState.t :=
  let FootState := FootState.set_IkAmount (GetCurveValueClamped01 h FootIkCurveName) FootState in
  let FootState := ProcessFootLockTeleport h s FootState in
  let FootState := ProcessFootLockBaseChange s FootState ComponentTransformInverse in
  let FinalLocation := FootState.TargetLocation FootState in
  let FinalRotation := FootState.TargetRotation FootState in
  let '(FootState, FinalLocation, FinalRotation) :=
    RefreshFootLock st h s FootState FootLockCurveName ComponentTransformInverse DeltaTime
      FinalLocation FinalRotation in
  let '(FootState, FinalLocation, FinalRotation) :=
    RefreshFootOffset st h s FootState DeltaTime FinalLocation FinalRotation in
  FootState.set_IkRotation (TransformRotation ComponentTransformInverse FinalRotation)
    (FootState.set_IkLocation (TransformPosition ComponentTransformInverse FinalLocation)
       FootState).

Definition RefreshFeet (st : AlsSettings.t) (h : Host.t) (DeltaTime : float)
    (s : Instance.t) : Instance.t :=
  let s :=
    Instance.set_FeetState
      (FeetState.set_bReinitializationRequired
         (FeetState.bReinitializationRequired (Instance.FeetState s)
          || (Instance.bPendingUpdate s || negb (Instance.bAnimationCurvesRelevant s)))
         (Instance.FeetState s))
      s in
  if negb (Instance.bAnimationCurvesRelevant s) then s
  else
    let s :=
      Instance.set_FeetState
        (FeetState.set_MinMaxPelvisOffsetZ {| X2 := 0; Y2 := 0 |}
           (FeetState.set_FeetCrossingAmount (GetCurveValueClamped01 h FeetCrossingCurve)
              (FeetState.set_FootPlantedAmount
                 (FMath.Clamp (Host.GetCurveValue h FootPlantedCurve) (-1) 1)
                 (Instance.FeetState s))))
        s in
    let ComponentTransformInverse := TransformInverse (Host.GetComponentTransform h) in
    let s :=
      Instance.set_FeetState
        (FeetState.set_Left
           (RefreshFoot st h s (FeetState.Left (Instance.FeetState s))
              FootLeftIkCurve FootLeftLockCurve ComponentTransformInverse DeltaTime)
           (Instance.FeetState s))
        s in
    let s :=
      Instance.set_FeetState
        (FeetState.set_Right
           (RefreshFoot st h s (FeetState.Right (Instance.FeetState s))
              FootRightIkCurve FootRightLockCurve ComponentTransformInverse DeltaTime)
           (Instance.FeetState s))
        s in
    let Feet := Instance.FeetState s in
    let LeftZ := Z (FootState.OffsetTargetLocation (FeetState.Left Feet)) in
    let RightZ := Z (FootState.OffsetTargetLocation (FeetState.Right Feet)) in
    Instance.set_FeetState
      (FeetState.set_bReinitializationRequired false
         (FeetState.set_MinMaxPelvisOffsetZ
            {| X2 := FMath.Min LeftZ RightZ; Y2 := FMath.Max LeftZ RightZ |}
            Feet))
      s.

(** *** Transitions *)

Definition emit (e : Event) (s : Instance.t) : Instance.t :=
  Instance.set_Effects (Instance.Effects s ++ [e]) s.

Definition PlayQueuedDynamicTransitionAnimation (st : AlsSettings.t)
    (s : Instance.t) : Instance.t :=
  let Transitions := AlsSettings.Transitions st in
  let s :=
    emit (PlaySlotAnimationAsDynamicMontage
            (TransitionsState.QueuedDynamicTransitionAnimation (Instance.TransitionsState s))
            TransitionSlot
            (TransitionsSettings.DynamicTransitionBlendTime Transitions)
            (TransitionsSettings.DynamicTransitionBlendTime Transitions)
            (TransitionsSettings.DynamicTransitionPlayRate Transitions) 1 0 0)
      s in
  Instance.set_TransitionsState
    (TransitionsState.set_QueuedDynamicTransitionAnimation None (Instance.TransitionsState s))
    s.

(** Locals of [RefreshDynamicTransition]. *)
Definition FootLockDistanceThresholdSquared (st : AlsSettings.t) (s : Instance.t) : float :=
  FMath.Square
    (TransitionsSettings.DynamicTransitionFootLockDistanceThreshold (AlsSettings.Transitions st)
     * LocomotionState.Scale (Instance.LocomotionState s)).

Definition FootLockDistanceSquared (FootState : FootState.t) : float :=
  Vec.DistSquared (FootState.TargetLocation FootState) (FootState.LockLocation FootState).

Definition bTransitionAllowed (st : AlsSettings.t) (s : Instance.t)
    (FootState : FootState.t) : bool :=
  IsRelevant (FootState.LockAmount FootState)
  && (FootLockDistanceSquared FootState >? FootLockDistanceThresholdSquared st s).

Definition DynamicTransitionLeftAnimation (st : AlsSettings.t) (s : Instance.t)
    : option Anim :=
  if IsCrouching (Instance.Stance s)
  then TransitionsSettings.CrouchingDynamicTransitionLeftAnimation (AlsSettings.Transitions st)
  else TransitionsSettings.StandingDynamicTransitionLeftAnimation (AlsSettings.Transitions st).

Definition DynamicTransitionRightAnimation (st : AlsSettings.t) (s : Instance.t)
    : option Anim :=
  if IsCrouching (Instance.Stance s)
  then TransitionsSettings.CrouchingDynamicTransitionRightAnimation (AlsSettings.Transitions st)
  else TransitionsSettings.StandingDynamicTransitionRightAnimation (AlsSettings.Transitions st).

Definition RefreshDynamicTransition (st : AlsSettings.t) (h : Host.t)
    (s : Instance.t) : Instance.t :=
  let Transitions := Instance.TransitionsState s in
  let Feet := Instance.FeetState s in
  if (TransitionsState.DynamicTransitionsFrameDelay Transitions >? 0)%Z then
    Instance.set_TransitionsState
      (TransitionsState.set_DynamicTransitionsFrameDelay
         (TransitionsState.DynamicTransitionsFrameDelay Transitions - 1)%Z Transitions)
      s
  else if negb (Instance.bAnimationCurvesRelevant s)
          || negb (TransitionsState.bTransitionsAllowed Transitions)
          || LocomotionState.bMoving (Instance.LocomotionState s)
          || negb (IsGroundedMode (Instance.LocomotionMode s))
  then s
  else
    let FootLockLeftDistanceSquared := FootLockDistanceSquared (FeetState.Left Feet) in
    let FootLockRightDistanceSquared := FootLockDistanceSquared (FeetState.Right Feet) in
    let bTransitionLeftAllowed := bTransitionAllowed st s (FeetState.Left Feet) in
    let bTransitionRightAllowed := bTransitionAllowed st s (FeetState.Right Feet) in
    if negb bTransitionLeftAllowed && negb bTransitionRightAllowed then s
    else
      let '(Side, DynamicTransitionAnimation) :=
        if negb bTransitionLeftAllowed then
          (FootRight, DynamicTransitionRightAnimation st s)
        else if negb bTransitionRightAllowed then
          (FootLeft, DynamicTransitionLeftAnimation st s)
        else if FootLockLeftDistanceSquared >=? FootLockRightDistanceSquared then
          (FootLeft, DynamicTransitionLeftAnimation st s)
        else
          (FootRight, DynamicTransitionRightAnimation st s) in
      match DynamicTransitionAnimation with
      | Some Animation =>
          let s :=
            Instance.set_TransitionsState
              (TransitionsState.set_QueuedDynamicTransitionAnimation (Some Animation)
                 (TransitionsState.set_DynamicTransitionsFrameDelay 2%Z Transitions))
              s in
          let s := emit (QueueDynamicTransition Side Animation) s in
          if Host.IsInGameThread h then PlayQueuedDynamicTransitionAnimation st s else s
      | None => s
      end.

Definition RefreshTransitions (st : AlsSettings.t) (h : Host.t) (s : Instance.t)
    : Instance.t :=
  let s :=
    Instance.set_TransitionsState
      (TransitionsState.set_bTransitionsAllowed
         (IsFullWeight (Host.GetCurveValue h AllowTransitionsCurve))
         (Instance.TransitionsState s))
      s in
  RefreshDynamicTransition st h s.

(** *** Rotate in place *)

Definition IsRotateInPlaceAllowed (s : Instance.t) : bool :=
  IsAiming (Instance.RotationMode s) || IsFirstPerson (Instance.ViewMode s).

Definition RefreshRotateInPlace (st : AlsSettings.t) (DeltaTime : float)
    (s : Instance.t) : Instance.t :=
  let Rotate := Instance.RotateInPlaceState s in
  let Cfg := AlsSettings.RotateInPlace st in
  let View := Instance.ViewState s in
  let PlayRateInterpolationSpeed := 5 in
  let Idle (bLeft bRight : bool) :=
    Instance.set_RotateInPlaceState
      {| RotateInPlaceState.bRotatingLeft := bLeft;
         RotateInPlaceState.bRotatingRight := bRight;
         RotateInPlaceState.PlayRate :=
           if Instance.bPendingUpdate s then X2 (RotateInPlaceSettings.PlayRate Cfg)
           else FInterpTo (RotateInPlaceState.PlayRate Rotate)
                  (X2 (RotateInPlaceSettings.PlayRate Cfg))
                  DeltaTime PlayRateInterpolationSpeed;
         RotateInPlaceState.FootLockBlockAmount := 0 |}
      s in
  if LocomotionState.bMoving (Instance.LocomotionState s)
     || negb (IsGroundedMode (Instance.LocomotionMode s))
     || negb (IsRotateInPlaceAllowed s)
  then Idle false false
  else
    let bRotatingLeft :=
      ViewState.YawAngle View <? - RotateInPlaceSettings.ViewYawAngleThreshold Cfg in
    let bRotatingRight :=
      ViewState.YawAngle View >? RotateInPlaceSettings.ViewYawAngleThreshold Cfg in
    if negb bRotatingLeft && negb bRotatingRight then Idle bRotatingLeft bRotatingRight
    else
      let PlayRate :=
        GetMappedRangeValueClamped (RotateInPlaceSettings.ReferenceViewYawSpeed Cfg)
          (RotateInPlaceSettings.PlayRate Cfg) (ViewState.YawSpeed View) in
      let BlockInterpolationSpeed := 5 in
      Instance.set_RotateInPlaceState
        {| RotateInPlaceState.bRotatingLeft := bRotatingLeft;
           RotateInPlaceState.bRotatingRight := bRotatingRight;
           RotateInPlaceState.PlayRate :=
             if Instance.bPendingUpdate s then PlayRate
             else FInterpTo (RotateInPlaceState.PlayRate Rotate) PlayRate
                    DeltaTime PlayRateInterpolationSpeed;
           RotateInPlaceState.FootLockBlockAmount :=
             if RotateInPlaceSettings.bDisableFootLock Cfg then 0
             else if FMath.Abs (ViewState.YawAngle View)
                     >? RotateInPlaceSettings.FootLockBlockViewYawAngleThreshold Cfg
             then 1
             else if ViewState.YawSpeed View
                     <=? RotateInPlaceSettings.FootLockBlockViewYawSpeedThreshold Cfg
             then 0
             else if Instance.bPendingUpdate s then 1
             else FInterpTo (RotateInPlaceState.FootLockBlockAmount Rotate) 1
                    DeltaTime BlockInterpolationSpeed |}
        s.

(** *** Turn in place *)

Definition IsTurnInPlaceAllowed (s : Instance.t) : bool :=
  IsLookingDirection (Instance.RotationMode s) && negb (IsFirstPerson (Instance.ViewMode s)).

Definition PlayQueuedTurnInPlaceAnimation (st : AlsSettings.t) (s : Instance.t)
    : Instance.t :=
  let Turn := Instance.TurnInPlaceState s in
  let Cfg := AlsSettings.TurnInPlace st in
  match TurnInPlaceState.QueuedSettings Turn with
  | None => s
  | Some TurnInPlaceSettings =>
      let s :=
        emit (PlaySlotAnimationAsDynamicMontage
                (TurnSettings.Animation TurnInPlaceSettings)
                (TurnInPlaceState.QueuedSlotName Turn)
                (TurnInPlaceSettings.BlendTime Cfg) (TurnInPlaceSettings.BlendTime Cfg)
                (TurnSettings.PlayRate TurnInPlaceSettings) 1 0 0)
          s in
      Instance.set_TurnInPlaceState
        {| TurnInPlaceState.ActivationDelay := TurnInPlaceState.ActivationDelay Turn;
           TurnInPlaceState.bFootLockDisabled := TurnInPlaceSettings.bDisableFootLock Cfg;
           TurnInPlaceState.QueuedSettings := None;
           TurnInPlaceState.QueuedSlotName := NAME_None;
           TurnInPlaceState.QueuedTurnYawAngle := 0;
           TurnInPlaceState.PlayRate :=
             if TurnSettings.bScalePlayRateByAnimatedTurnAngle TurnInPlaceSettings
             then TurnSettings.PlayRate TurnInPlaceSettings
                  * FMath.Abs (TurnInPlaceState.QueuedTurnYawAngle Turn
                               / TurnSettings.AnimatedTurnAngle TurnInPlaceSettings)
             else TurnSettings.PlayRate TurnInPlaceSettings |}
        s
  end.

(** The local [ActivationDelay] of [RefreshTurnInPlace]: the delay the
    accumulated time has to exceed, mapped from the view yaw angle. *)
Definition TurnInPlaceActivationDelay (st : AlsSettings.t) (s : Instance.t) : float :=
  let Cfg := AlsSettings.TurnInPlace st in
  GetMappedRangeValueClamped
    {| X2 := TurnInPlaceSettings.ViewYawAngleThreshold Cfg; Y2 := 180 |}
    (TurnInPlaceSettings.ViewYawAngleToActivationDelay Cfg)
    (FMath.Abs (ViewState.YawAngle (Instance.ViewState s))).

(** The test of [RefreshTurnInPlace] that resets the activation delay. *)
Definition TurnInPlaceResetRequired (st : AlsSettings.t) (s : Instance.t) : bool :=
  let Cfg := AlsSettings.TurnInPlace st in
  let View := Instance.ViewState s in
  (ViewState.YawSpeed View >=? TurnInPlaceSettings.ViewYawSpeedThreshold Cfg)
  || (FMath.Abs (ViewState.YawAngle View) <=? TurnInPlaceSettings.ViewYawAngleThreshold Cfg).

(** The selection of the turn settings and slot by stance, angle and side. *)
Definition SelectTurnInPlaceSettings (st : AlsSettings.t) (s : Instance.t)
    : option TurnSettings.t * SlotName :=
  let Cfg := AlsSettings.TurnInPlace st in
  let YawAngle := ViewState.YawAngle (Instance.ViewState s) in
  let bLeft :=
    (YawAngle <=? 0) || (YawAngle >? 180 - CounterClockwiseRotationAngleThreshold) in
  let bTurn90 := FMath.Abs YawAngle <? TurnInPlaceSettings.Turn180AngleThreshold Cfg in
  if IsStanding (Instance.Stance s) then
    (if bTurn90 then
       (if bLeft then TurnInPlaceSettings.StandingTurn90Left Cfg
        else TurnInPlaceSettings.StandingTurn90Right Cfg)
     else
       (if bLeft then TurnInPlaceSettings.StandingTurn180Left Cfg
        else TurnInPlaceSettings.StandingTurn180Right Cfg),
     TurnInPlaceStandingSlot)
  else if IsCrouching (Instance.Stance s) then
    (if bTurn90 then
       (if bLeft then TurnInPlaceSettings.CrouchingTurn90Left Cfg
        else TurnInPlaceSettings.CrouchingTurn90Right Cfg)
     else
       (if bLeft then TurnInPlaceSettings.CrouchingTurn180Left Cfg
        else TurnInPlaceSettings.CrouchingTurn180Right Cfg),
     TurnInPlaceCrouchingSlot)
  else (None, NAME_None).

Definition RefreshTurnInPlace (st : AlsSettings.t) (h : Host.t) (DeltaTime : float)
    (s : Instance.t) : Instance.t :=
  let Turn := Instance.TurnInPlaceState s in
  if LocomotionState.bMoving (Instance.LocomotionState s)
     || negb (IsGroundedMode (Instance.LocomotionMode s))
     || negb (IsTurnInPlaceAllowed s)
  then
    Instance.set_TurnInPlaceState
      (TurnInPlaceState.set_bFootLockDisabled false
         (TurnInPlaceState.set_ActivationDelay 0 Turn))
      s
  else if negb (TransitionsState.bTransitionsAllowed (Instance.TransitionsState s)) then
    Instance.set_TurnInPlaceState (TurnInPlaceState.set_ActivationDelay 0 Turn) s
  else if TurnInPlaceResetRequired st s then
    Instance.set_TurnInPlaceState
      (TurnInPlaceState.set_bFootLockDisabled false
         (TurnInPlaceState.set_ActivationDelay 0 Turn))
      s
  else
    let Turn :=
      TurnInPlaceState.set_ActivationDelay
        (if Instance.bPendingUpdate s then 0
         else TurnInPlaceState.ActivationDelay Turn + DeltaTime)
        Turn in
    let s := Instance.set_TurnInPlaceState Turn s in
    let ActivationDelay := TurnInPlaceActivationDelay st s in
    if TurnInPlaceState.ActivationDelay Turn <=? ActivationDelay then s
    else
      let '(TurnInPlaceSettings, TurnInPlaceSlotName) := SelectTurnInPlaceSettings st s in
      match TurnInPlaceSettings with
      | Some Selected =>
          match TurnSettings.Animation Selected with
          | Some _ =>
              let YawAngle := ViewState.YawAngle (Instance.ViewState s) in
              let s :=
                Instance.set_TurnInPlaceState
                  (TurnInPlaceState.set_QueuedTurnYawAngle YawAngle
                     (TurnInPlaceState.set_QueuedSlotName TurnInPlaceSlotName
                        (TurnInPlaceState.set_QueuedSettings (Some Selected) Turn)))
                  s in
              let s := emit (QueueTurnInPlace Selected TurnInPlaceSlotName YawAngle) s in
              if Host.IsInGameThread h then PlayQueuedTurnInPlaceAnimation st s else s
          | None => s
          end
      | None => s
      end.

(** *** Ragdolling *)

Definition RefreshRagdollingGameThread (h : Host.t) (s : Instance.t) : Instance.t :=
  if negb (IsRagdolling (Instance.LocomotionAction s)) then s
  else
    let ReferenceSpeed := 1000 in
    Instance.set_RagdollingState
      {| RagdollingState.FlailPlayRate :=
           UAlsMath.Clamp01
             (VectorSize (Host.GetPhysicsLinearVelocity h RootBone) / ReferenceSpeed) |}
      s.

(** *** The per-frame entry points

    The calls to the base class at the head of each entry point are engine
    code that does not touch the state of this class.  The editor-only and
    debug-drawing parts of the source are compiled out. *)

Definition NativeUpdateAnimation (h : Host.t) (DeltaTime : float) (s : Instance.t)
    : Instance.t :=
  match Instance.Settings s, Instance.Character s with
  | Some st, Some ch =>
      let s := emit (ApplyRotationYawSpeedFromAnimationInstance DeltaTime) s in
      let s :=
        Instance.set_bAnimationCurvesRelevant (Instance.bAnimationCurvesRelevantGameThread s) s in
      let s := Instance.set_Stance (Character.GetStance ch) s in
      let s := Instance.set_Gait (Character.GetGait ch) s in
      let s := Instance.set_RotationMode (Character.GetRotationMode ch) s in
      let s := Instance.set_LocomotionMode (Character.GetLocomotionMode ch) s in
      let s :=
        if negb (ActionEqb (Instance.LocomotionAction s) (Character.GetLocomotionAction ch))
        then
          emit ResetGroundedEntryMode
            (Instance.set_LocomotionAction (Character.GetLocomotionAction ch) s)
        else s in
      let s := Instance.set_ViewMode (Character.GetViewMode ch) s in
      let s := Instance.set_OverlayMode (Character.GetOverlayMode ch) s in
      let s := RefreshViewGameThread ch s in
      let s := RefreshLocomotionGameThread st h ch s in
      let s := RefreshGroundedGameThread st s in
      let s := RefreshInAirGameThread s in
      let s := RefreshFeetGameThread st h s in
      RefreshRagdollingGameThread h s
  | _, _ => s
  end.

Definition NativeThreadSafeUpdateAnimation (h : Host.t) (DeltaTime : float)
    (s : Instance.t) : Instance.t :=
  match Instance.Settings s, Instance.Character s with
  | Some st, Some _ =>
      let s := RefreshLayering h s in
      let s := RefreshPose h s in
      let s := RefreshView st h DeltaTime s in
      let s := RefreshGrounded st h DeltaTime s in
      let s := RefreshInAir st h DeltaTime s in
      let s := RefreshFeet st h DeltaTime s in
      let s := RefreshTransitions st h s in
      let s := RefreshRotateInPlace st DeltaTime s in
      RefreshTurnInPlace st h DeltaTime s
  | _, _ => s
  end.

Definition NativePostEvaluateAnimation (s : Instance.t) : Instance.t :=
  match Instance.Settings s, Instance.Character s with
  | Some st, Some _ =>
      let s := PlayQueuedDynamicTransitionAnimation st s in
      let s := PlayQueuedTurnInPlaceAnimation st s in
      Instance.set_bTeleported false (Instance.set_bPendingUpdate false s)
  | _, _ => s
  end.

End Refresh.

(** ** Transition requests

    The transitions that the character triggers from outside the per-frame
    pipeline.  They play their montage at once; that the caller is on the game
    thread is asserted by the source and is a duty of the caller. *)

(** The fields of the transitions settings that only the requests read, with
    the animations as the nullable references they are. *)

Module TransitionRequestSettings.
Record t := {
  QuickStopBlendInTime : float;
  QuickStopBlendOutTime : float;
  QuickStopPlayRate : FVector2;
  QuickStopStartTime : float;
  StandingTransitionLeftAnimation : option Anim;
  StandingTransitionRightAnimation : option Anim;
  CrouchingTransitionLeftAnimation : option Anim;
  CrouchingTransitionRightAnimation : option Anim }.
End TransitionRequestSettings.

Section Requests.

Context {E : Externals}.

Definition PlayTransitionAnimation (Animation : option Anim)
    (BlendInTime BlendOutTime PlayRate StartTime : float) (bFromStandingIdleOnly : bool)
    (s : Instance.t) : Instance.t :=
  match Instance.Character s with
  | None => s
  | Some ch =>
      if bFromStandingIdleOnly
         && (CharacterLocomotion.bMoving (Character.GetLocomotionState ch)
             || negb (IsStanding (Character.GetStance ch)))
      then s
      else
        emit (PlaySlotAnimationAsDynamicMontage Animation TransitionSlot
                BlendInTime BlendOutTime PlayRate 1 0 StartTime)
          s
  end.

(** The animations that [PlayTransitionLeftAnimation] and
    [PlayTransitionRightAnimation] select by the stance tag of the instance. *)
Definition TransitionLeftAnimation (rq : TransitionRequestSettings.t) (s : Instance.t)
    : option Anim :=
  if IsCrouching (Instance.Stance s)
  then TransitionRequestSettings.CrouchingTransitionLeftAnimation rq
  else TransitionRequestSettings.StandingTransitionLeftAnimation rq.

Definition TransitionRightAnimation (rq : TransitionRequestSettings.t) (s : Instance.t)
    : option Anim :=
  if IsCrouching (Instance.Stance s)
  then TransitionRequestSettings.CrouchingTransitionRightAnimation rq
  else TransitionRequestSettings.StandingTransitionRightAnimation rq.

Definition PlayTransitionLeftAnimation (rq : TransitionRequestSettings.t)
    (BlendInTime BlendOutTime PlayRate StartTime : float) (bFromStandingIdleOnly : bool)
    (s : Instance.t) : Instance.t :=
  match Instance.Settings s with
  | None => s
  | Some _ =>
      PlayTransitionAnimation (TransitionLeftAnimation rq s)
        BlendInTime BlendOutTime PlayRate StartTime bFromStandingIdleOnly s
  end.

Definition PlayTransitionRightAnimation (rq : TransitionRequestSettings.t)
    (BlendInTime BlendOutTime PlayRate StartTime : float) (bFromStandingIdleOnly : bool)
    (s : Instance.t) : Instance.t :=
  match Instance.Settings s with
  | None => s
  | Some _ =>
      PlayTransitionAnimation (TransitionRightAnimation rq s)
        BlendInTime BlendOutTime PlayRate StartTime bFromStandingIdleOnly s
  end.

(** The local [RotationYawAngle] of [PlayQuickStopAnimation], after its
    counter-clockwise adjustment. *)
Definition QuickStopRotationYawAngle (s : Instance.t) : float :=
  let Locomotion := Instance.LocomotionState s in
  let RotationYawAngle :=
    NormalizeAxis
      ((if LocomotionState.bHasInput Locomotion
        then LocomotionState.InputYawAngle Locomotion
        else LocomotionState.TargetYawAngle Locomotion)
       - Yaw (LocomotionState.Rotation Locomotion)) in
  if RotationYawAngle >? 180 - CounterClockwiseRotationAngleThreshold
  then RotationYawAngle - 360 else RotationYawAngle.

(** [PlayQuickStopAnimation] reads the settings without testing them: with
    no settings the source dereferences a null pointer, which is [None] here.
    The last argument of the two calls it makes is left to its default value,
    which the class header declares: [bFromStandingIdleOnly] is that
    default. *)
Definition PlayQuickStopAnimation (rq : TransitionRequestSettings.t)
    (bFromStandingIdleOnly : bool) (s : Instance.t) : option Instance.t :=
  match Instance.Settings s with
  | None => None
  | Some _ =>
      let BlendInTime := TransitionRequestSettings.QuickStopBlendInTime rq in
      let BlendOutTime := TransitionRequestSettings.QuickStopBlendOutTime rq in
      let PlayRate := TransitionRequestSettings.QuickStopPlayRate rq in
      let StartTime := TransitionRequestSettings.QuickStopStartTime rq in
      if negb (IsVelocityDirection (Instance.RotationMode s)) then
        Some (PlayTransitionLeftAnimation rq BlendInTime BlendOutTime (X2 PlayRate) StartTime
                bFromStandingIdleOnly s)
      else
        let RotationYawAngle := QuickStopRotationYawAngle s in
        if RotationYawAngle <=? 0 then
          Some (PlayTransitionLeftAnimation rq BlendInTime BlendOutTime
                  (FMath.Lerp (X2 PlayRate) (Y2 PlayRate) (FMath.Abs RotationYawAngle / 180))
                  StartTime bFromStandingIdleOnly s)
        else
          Some (PlayTransitionRightAnimation rq BlendInTime BlendOutTime
                  (FMath.Lerp (X2 PlayRate) (Y2 PlayRate) (FMath.Abs RotationYawAngle / 180))
                  StartTime bFromStandingIdleOnly s)
  end.

End Requests.

(** ** The yaw amounts in single precision

    The last three assignments of [RefreshLookTowardsCamera] on the [float]
    values of the source: IEEE 754 binary32 with rounding to nearest, ties to
    even, taken from the standard library's specification of floating-point
    arithmetic.  It is used to compare the exact amounts of the model with the
    amounts that the code stores. *)

Module Float32.

Definition prec : BinNums.Z := 24%Z.
Definition emax : BinNums.Z := 128%Z.

Definition t := spec_float.

(** The binary32 value nearest to [m * 2 ^ e]. *)
Definition of_Z (m e : BinNums.Z) : t := binary_normalize prec emax m e false.

Definition add : t -> t -> t := SFadd prec emax.
Definition sub : t -> t -> t := SFsub prec emax.
Definition div : t -> t -> t := SFdiv prec emax.
Definition abs : t -> t := SFabs.

(** The rational that a finite value stands for (0 for the others). *)
Definition to_Q (x : t) : Q :=
  match x with
  | S754_finite sign m e =>
      (if sign then - inject_Z (Z.pos m) else inject_Z (Z.pos m)) * 2 ^ e
  | _ => 0
  end.

Definition LookTowardsCameraYawAmounts (YawAngle : t) : t * t * t :=
  let YawForwardAmount := add (div YawAngle (of_Z 360 0)) (of_Z 1 (-1)) in
  let YawLeftAmount := sub (of_Z 1 (-1)) (abs (sub YawForwardAmount (of_Z 1 (-1)))) in
  let YawRightAmount := add (of_Z 1 (-1)) (abs (sub YawForwardAmount (of_Z 1 (-1)))) in
  (YawForwardAmount, YawLeftAmount, YawRightAmount).

End Float32.

(** ** A concrete frame

    A concrete choice of the external functions, settings, host and instance
    state, on which the model can be evaluated.  The quaternion and transform
    operations are the ones of a world without rotation or scaling; the
    thresholds of the animation weights and the small numbers are the engine's. *)

Module Sample.

Definition SampleClampAxis (a : float) : float := a - 360 * inject_Z (Qfloor (a / 360)).

Definition SampleNormalizeAxis (a : float) : float :=
  let a := SampleClampAxis a in if a >? 180 then a - 360 else a.

Definition SampleFInterpTo (Current Target DeltaTime InterpSpeed : float) : float :=
  if InterpSpeed <=? 0 then Target
  else
    let Dist := Target - Current in
    if FMath.Square Dist <? 0.00000001 then Target
    else Current + Dist * FMath.Clamp (DeltaTime * InterpSpeed) 0 1.

Definition SampleVInterpTo (Current Target : FVector) (DeltaTime InterpSpeed : float) : FVector :=
  {| X := SampleFInterpTo (X Current) (X Target) DeltaTime InterpSpeed;
     Y := SampleFInterpTo (Y Current) (Y Target) DeltaTime InterpSpeed;
     Z := SampleFInterpTo (Z Current) (Z Target) DeltaTime InterpSpeed |}.

Definition SampleGetMappedRangeValueClamped (InputRange OutputRange : FVector2) (Value : float)
    : float :=
  let Divisor := Y2 InputRange - X2 InputRange in
  let Pct :=
    if FMath.Abs Divisor <? 0.00000001
    then (if Value >=? Y2 InputRange then 1 else 0)
    else (Value - X2 InputRange) / Divisor in
  FMath.Lerp (X2 OutputRange) (Y2 OutputRange) (FMath.Clamp Pct 0 1).

Definition L1 (v : FVector) : float := FMath.Abs (X v) + FMath.Abs (Y v) + FMath.Abs (Z v).

(** Normalisation, exact on the vectors along one axis (the only moving
    directions used below, whose length is their L1 norm); the zero vector and
    the other vectors are left as they are. *)
Definition SampleNormal (v : FVector) : FVector :=
  let axis :=
    (Qeq_bool (Y v) 0 && Qeq_bool (Z v) 0) || (Qeq_bool (X v) 0 && Qeq_bool (Z v) 0)
    || (Qeq_bool (X v) 0 && Qeq_bool (Y v) 0) in
  if axis && negb (Qeq_bool (L1 v) 0) then Vec.div v (L1 v) else v.

Definition externals : Externals := {|
  NormalizeAxis := SampleNormalizeAxis;
  FInterpTo := SampleFInterpTo;
  VInterpTo := SampleVInterpTo;
  QInterpTo := fun _ Target _ _ => Target;
  GetMappedRangeValueClamped := SampleGetMappedRangeValueClamped;
  SMALL_NUMBER := 0.00000001;
  KINDA_SMALL_NUMBER := 0.0001;
  IsRelevant := fun w => w >? 0.00001;
  IsFullWeight := fun w => w >=? 1 - 0.00001;
  GetSafeNormal := SampleNormal;
  Normalize := SampleNormal;
  VectorSize := L1;
  QuatMul := fun a _ => a;
  QuatInverse := fun q => q;
  RotateVector := fun _ v => v;
  UnrotateVector := fun _ v => v;
  Slerp := fun a b t => if t <=? 0 then a else b;
  Quaternion := fun _ => QuatIdentity;
  TransformPosition := fun t v => Vec.add v (TTranslation t);
  TransformRotation := fun _ q => q;
  TransformInverse := fun t =>
    {| TRotation := TRotation t;
       TTranslation := Vec.sub Vec.Zero (TTranslation t);
       TScale3D := TScale3D t |};
  CounterClockwiseRotationAngleThreshold := 5;
  ExponentialDecay := fun DeltaTime Lambda => FMath.Clamp (DeltaTime * Lambda) 0 1;
  ExponentialDecayRotator := fun Current Target DeltaTime Lambda =>
    {| Pitch := SampleFInterpTo (Pitch Current) (Pitch Target) DeltaTime Lambda;
       Yaw := SampleFInterpTo (Yaw Current) (Yaw Target) DeltaTime Lambda;
       Roll := SampleFInterpTo (Roll Current) (Roll Target) DeltaTime Lambda |};
  SpringDamp := fun Current Target State DeltaTime _ _ _ =>
    (SampleVInterpTo Current Target DeltaTime 1, State);
  LerpClamped := fun a b alpha => FMath.Lerp a b (UAlsMath.Clamp01 alpha);
  ClampMagnitude01 := fun v => v;
  CalculateMovementDirection := fun _ _ _ => DirForward;
  DirectionToAngle := fun _ => 0
|}.

Definition ZeroRotator : FRotator := {| Pitch := 0; Yaw := 0; Roll := 0 |}.

Definition IdentityTransform : FTransform :=
  {| TRotation := QuatIdentity; TTranslation := Vec.Zero;
     TScale3D := {| X := 1; Y := 1; Z := 1 |} |}.

Definition NoHit : FHitResult :=
  {| bValidBlockingHit := false; ImpactPoint := Vec.Zero; ImpactNormal := Vec.Zero;
     HitTime := 1 |}.

Definition turn (a : Anim) : TurnSettings.t :=
  {| TurnSettings.Animation := Some a; TurnSettings.PlayRate := 1.2;
     TurnSettings.bScalePlayRateByAnimatedTurnAngle := true;
     TurnSettings.AnimatedTurnAngle := 90 |}.

Definition settings : AlsSettings.t :=
  {| AlsSettings.General :=
       {| GeneralSettings.bUseFootIkBones := true;
          GeneralSettings.MovingSmoothSpeedThreshold := 150;
          GeneralSettings.LeanInterpolationSpeed := 4 |};
     AlsSettings.View :=
       {| ViewSettings.LookTowardsInputYawAngleInterpolationSpeed := 8;
          ViewSettings.LookTowardsCameraRotationInterpolationSpeed := 8 |};
     AlsSettings.Grounded :=
       {| GroundedSettings.PivotActivationSpeedThreshold := 200;
          GroundedSettings.VelocityBlendInterpolationSpeed := 12;
          GroundedSettings.RotationYawOffsetForwardCurve := fun _ => 0;
          GroundedSettings.RotationYawOffsetBackwardCurve := fun _ => 0;
          GroundedSettings.RotationYawOffsetLeftCurve := fun _ => 0;
          GroundedSettings.RotationYawOffsetRightCurve := fun _ => 0;
          GroundedSettings.StrideBlendAmountWalkCurve := fun _ => 1;
          GroundedSettings.StrideBlendAmountRunCurve := fun _ => 1;
          GroundedSettings.AnimatedWalkSpeed := 150;
          GroundedSettings.AnimatedRunSpeed := 350;
          GroundedSettings.AnimatedSprintSpeed := 600;
          GroundedSettings.AnimatedCrouchSpeed := 150 |};
     AlsSettings.InAir :=
       {| InAirSettings.GroundPredictionSweepObjectTypes := [0%nat];
          InAirSettings.GroundPredictionAmountCurve := fun t => 1 - t;
          InAirSettings.LeanAmountCurve := fun _ => 1 |};
     AlsSettings.Feet :=
       {| FeetSettings.bDisableFootLock := false;
          FeetSettings.IkTraceDistanceUpward := 50;
          FeetSettings.IkTraceDistanceDownward := 45;
          FeetSettings.IkTraceChannel := 0%nat;
          FeetSettings.FootHeight := 13.5 |};
     AlsSettings.Transitions :=
       {| TransitionsSettings.DynamicTransitionFootLockDistanceThreshold := 8;
          TransitionsSettings.DynamicTransitionBlendTime := 0.2;
          TransitionsSettings.DynamicTransitionPlayRate := 1.5;
          TransitionsSettings.StandingDynamicTransitionLeftAnimation := Some 1%nat;
          TransitionsSettings.StandingDynamicTransitionRightAnimation := Some 2%nat;
          TransitionsSettings.CrouchingDynamicTransitionLeftAnimation := Some 3%nat;
          TransitionsSettings.CrouchingDynamicTransitionRightAnimation := Some 4%nat |};
     AlsSettings.RotateInPlace :=
       {| RotateInPlaceSettings.ViewYawAngleThreshold := 50;
          RotateInPlaceSettings.ReferenceViewYawSpeed := {| X2 := 180; Y2 := 460 |};
          RotateInPlaceSettings.PlayRate := {| X2 := 1.15; Y2 := 3 |};
          RotateInPlaceSettings.bDisableFootLock := false;
          RotateInPlaceSettings.FootLockBlockViewYawAngleThreshold := 120;
          RotateInPlaceSettings.FootLockBlockViewYawSpeedThreshold := 620 |};
     AlsSettings.TurnInPlace :=
       {| TurnInPlaceSettings.ViewYawSpeedThreshold := 50;
          TurnInPlaceSettings.ViewYawAngleThreshold := 45;
          TurnInPlaceSettings.ViewYawAngleToActivationDelay := {| X2 := 0.75; Y2 := 0 |};
          TurnInPlaceSettings.Turn180AngleThreshold := 130;
          TurnInPlaceSettings.BlendTime := 0.2;
          TurnInPlaceSettings.bDisableFootLock := false;
          TurnInPlaceSettings.StandingTurn90Left := Some (turn 11%nat);
          TurnInPlaceSettings.StandingTurn90Right := Some (turn 12%nat);
          TurnInPlaceSettings.StandingTurn180Left := Some (turn 13%nat);
          TurnInPlaceSettings.StandingTurn180Right := Some (turn 14%nat);
          TurnInPlaceSettings.CrouchingTurn90Left := Some (turn 15%nat);
          TurnInPlaceSettings.CrouchingTurn90Right := Some (turn 16%nat);
          TurnInPlaceSettings.CrouchingTurn180Left := Some (turn 17%nat);
          TurnInPlaceSettings.CrouchingTurn180Right := Some (turn 18%nat) |} |}.

(** A host with the given curve values, without any geometry in the world. *)
Definition host (curves : CurveName -> float) (bGameThread : bool) : Host.t :=
  {| Host.GetCurveValue := curves;
     Host.SweepSingleByObjectType := fun _ _ _ _ _ => NoHit;
     Host.LineTraceSingleByChannel := fun _ _ _ => NoHit;
     Host.GetComponentTransform := IdentityTransform;
     Host.GetComponentScaleZ := 1;
     Host.GetSocketTransform := fun _ => IdentityTransform;
     Host.GetPhysicsLinearVelocity := fun _ => Vec.Zero;
     Host.GetMovementBaseTransform := fun _ _ => (Vec.Zero, QuatIdentity);
     Host.IsInGameThread := bGameThread |}.

Definition foot : FootState.t :=
  {| FootState.IkAmount := 0;
     FootState.TargetLocation := Vec.Zero; FootState.TargetRotation := QuatIdentity;
     FootState.LockAmount := 0;
     FootState.LockLocation := Vec.Zero; FootState.LockRotation := QuatIdentity;
     FootState.LockComponentRelativeLocation := Vec.Zero;
     FootState.LockComponentRelativeRotation := QuatIdentity;
     FootState.LockMovementBaseRelativeLocation := Vec.Zero;
     FootState.LockMovementBaseRelativeRotation := QuatIdentity;
     FootState.OffsetTargetLocation := Vec.Zero;
     FootState.OffsetTargetRotation := QuatIdentity;
     FootState.OffsetSpringState := SpringReset;
     FootState.OffsetLocation := Vec.Zero; FootState.OffsetRotation := QuatIdentity;
     FootState.IkLocation := Vec.Zero; FootState.IkRotation := QuatIdentity |}.

Definition character : Character.t :=
  {| Character.GetStance := StanceStanding;
     Character.GetGait := GaitRunning;
     Character.GetRotationMode := RotationLookingDirection;
     Character.GetLocomotionMode := ModeGrounded;
     Character.GetLocomotionAction := ActionNone;
     Character.GetViewMode := ViewThirdPerson;
     Character.GetOverlayMode := 0%nat;
     Character.GetViewState :=
       {| CharacterView.Rotation := ZeroRotator; CharacterView.YawSpeed := 0 |};
     Character.GetLocomotionState :=
       {| CharacterLocomotion.bHasInput := false;
          CharacterLocomotion.bHasSpeed := false;
          CharacterLocomotion.InputYawAngle := 0;
          CharacterLocomotion.Speed := 0;
          CharacterLocomotion.Velocity := Vec.Zero;
          CharacterLocomotion.VelocityYawAngle := 0;
          CharacterLocomotion.Acceleration := Vec.Zero;
          CharacterLocomotion.bMoving := false;
          CharacterLocomotion.TargetYawAngle := 0;
          CharacterLocomotion.Location := Vec.Zero;
          CharacterLocomotion.Rotation := ZeroRotator;
          CharacterLocomotion.RotationQuaternion := QuatIdentity;
          CharacterLocomotion.YawSpeed := 0 |};
     Character.GetMaxAcceleration := 1500;
     Character.GetMaxBrakingDeceleration := 1500;
     Character.GetWalkableFloorZ := 0.71;
     Character.GetScaledCapsuleRadius := 34;
     Character.GetScaledCapsuleHalfHeight := 88;
     Character.MovementBase := None;
     Character.BasedBoneName := None;
     Character.HasRelativeLocation := false |}.

Definition layering (x : float) : LayeringState.t :=
  LayeringState.Build_t x x x x x x x x x x x x x x x x x x x x x x.

(** A standing, grounded, idle character on the first frame of its life. *)
Definition instance : Instance.t :=
  {| Instance.Settings := Some settings;
     Instance.Character := Some character;
     Instance.bPendingUpdate := true;
     Instance.bTeleported := false;
     Instance.bAnimationCurvesRelevant := true;
     Instance.bAnimationCurvesRelevantGameThread := true;
     Instance.Stance := StanceStanding;
     Instance.Gait := GaitRunning;
     Instance.RotationMode := RotationLookingDirection;
     Instance.LocomotionMode := ModeGrounded;
     Instance.LocomotionAction := ActionNone;
     Instance.ViewMode := ViewThirdPerson;
     Instance.OverlayMode := 0%nat;
     Instance.LayeringState := layering 0;
     Instance.PoseState := PoseState.Build_t 0 0 0 0 0 0 0 0 0;
     Instance.ViewState :=
       {| ViewState.Rotation := ZeroRotator; ViewState.YawSpeed := 0;
          ViewState.YawAngle := 0; ViewState.PitchAngle := 0; ViewState.PitchAmount := 0.5;
          ViewState.LookAmount := 1; ViewState.TargetSpineYawAngle := 0;
          ViewState.SpineYawAngle := 0;
          ViewState.LookTowardsInput := LookTowardsInputState.Build_t false 0 0.5;
          ViewState.LookTowardsCamera :=
            LookTowardsCameraState.Build_t false ZeroRotator 0 0 0.5 0.5 0.5 |};
     Instance.LocomotionState :=
       {| LocomotionState.bHasInput := false; LocomotionState.InputYawAngle := 0;
          LocomotionState.Speed := 0; LocomotionState.Velocity := Vec.Zero;
          LocomotionState.VelocityYawAngle := 0; LocomotionState.Acceleration := Vec.Zero;
          LocomotionState.MaxAcceleration := 1500;
          LocomotionState.MaxBrakingDeceleration := 1500;
          LocomotionState.WalkableFloorZ := 0.71;
          LocomotionState.bMoving := false; LocomotionState.bMovingSmooth := false;
          LocomotionState.TargetYawAngle := 0; LocomotionState.Location := Vec.Zero;
          LocomotionState.Rotation := ZeroRotator;
          LocomotionState.RotationQuaternion := QuatIdentity;
          LocomotionState.YawSpeed := 0; LocomotionState.Scale := 1;
          LocomotionState.CapsuleRadius := 34; LocomotionState.CapsuleHalfHeight := 88;
          LocomotionState.BasedMovement :=
            BasedMovementState.Build_t None None false false Vec.Zero QuatIdentity |};
     Instance.GroundedState :=
       {| GroundedState.bPivotActive := false;
          GroundedState.bPivotActivationRequested := false;
          GroundedState.SprintBlockAmount := 0; GroundedState.HipsDirectionLockAmount := 0;
          GroundedState.MovementDirection := DirForward;
          GroundedState.VelocityBlend := VelocityBlendState.Build_t true 0 0 0 0;
          GroundedState.RotationYawOffsets := RotationYawOffsetsState.Build_t 0 0 0 0;
          GroundedState.SprintTime := 0; GroundedState.SprintAccelerationAmount := 0;
          GroundedState.StrideBlendAmount := 1; GroundedState.WalkRunBlendAmount := 1;
          GroundedState.StandingPlayRate := 1; GroundedState.CrouchingPlayRate := 1 |};
     Instance.LeanState := LeanState.Build_t 0 0;
     Instance.InAirState := InAirState.Build_t false false 0 0 1;
     Instance.FeetState :=
       {| FeetState.bReinitializationRequired := true;
          FeetState.FootPlantedAmount := 0; FeetState.FeetCrossingAmount := 0;
          FeetState.MinMaxPelvisOffsetZ := {| X2 := 0; Y2 := 0 |};
          FeetState.Left := foot; FeetState.Right := foot |};
     Instance.TransitionsState := TransitionsState.Build_t false 0%Z None;
     Instance.RotateInPlaceState := RotateInPlaceState.Build_t false false 1 0;
     Instance.TurnInPlaceState := TurnInPlaceState.Build_t 0 false None NAME_None 0 1;
     Instance.RagdollingState := RagdollingState.Build_t 0;
     Instance.Effects := [] |}.

(** Curve sources: every curve at [x]; and the aim block curve at 1 with
    every other curve at one half. *)
Definition every_curve (x : float) : CurveName -> float := fun _ => x.

Definition aim_blocked : CurveName -> float :=
  fun c => match c with AimBlockCurve => 1 | _ => 0.5 end.

(** A foot with the given IK amount, lock amount and offset target. *)
Definition foot_with (IkAmount LockAmount : float) (OffsetTargetLocation : FVector)
    : FootState.t :=
  FootState.set_OffsetTargetLocation OffsetTargetLocation
    (FootState.set_LockAmount LockAmount (FootState.set_IkAmount IkAmount foot)).

(** The same character one frame later, with transitions allowed, the view
    turned 100 degrees to the right of the body and one second of activation
    delay accumulated. *)
Definition turning : Instance.t :=
  Instance.set_TurnInPlaceState
    (TurnInPlaceState.set_ActivationDelay 1 (Instance.TurnInPlaceState instance))
    (Instance.set_TransitionsState
       (TransitionsState.set_bTransitionsAllowed true (Instance.TransitionsState instance))
       (Instance.set_ViewState
          (ViewState.set_YawAngle 100 (Instance.ViewState instance))
          (Instance.set_bPendingUpdate false instance))).

(** The character with the given velocity. *)
Definition moving (Velocity : FVector) : Instance.t :=
  let l := Instance.LocomotionState instance in
  Instance.set_LocomotionState
    (LocomotionState.Build_t
       (LocomotionState.bHasInput l) (LocomotionState.InputYawAngle l)
       (LocomotionState.Speed l) Velocity (LocomotionState.VelocityYawAngle l)
       (LocomotionState.Acceleration l) (LocomotionState.MaxAcceleration l)
       (LocomotionState.MaxBrakingDeceleration l) (LocomotionState.WalkableFloorZ l)
       true true (LocomotionState.TargetYawAngle l) (LocomotionState.Location l)
       (LocomotionState.Rotation l) (LocomotionState.RotationQuaternion l)
       (LocomotionState.YawSpeed l) (LocomotionState.Scale l)
       (LocomotionState.CapsuleRadius l) (LocomotionState.CapsuleHalfHeight l)
       (LocomotionState.BasedMovement l))
    instance.

(** The same frame seen by an instance that an earlier frame left in a
    different state: other look angles, blend amounts and foot offsets. *)
Definition stale : Instance.t :=
  Instance.set_GroundedState
    (GroundedState.set_VelocityBlend
       (VelocityBlendState.Build_t false 0.25 0 0.75 0) (Instance.GroundedState instance))
    (Instance.set_ViewState
       (ViewState.set_LookTowardsCamera
          (LookTowardsCameraState.Build_t false {| Pitch := 10; Yaw := 80; Roll := 0 |}
             80 10 0.7 0.3 0.7)
          (ViewState.set_LookTowardsInput
             (LookTowardsInputState.Build_t false 40 0.7) (Instance.ViewState instance)))
       instance).

(** A standing character whose locked left foot is 20 units away from its
    target, with transitions allowed. *)
Definition displaced : Instance.t :=
  let Feet := Instance.FeetState instance in
  Instance.set_FeetState
    (FeetState.set_Left
       (FootState.set_LockLocation {| X := 20; Y := 0; Z := 0 |}
          (FootState.set_LockAmount 1 (FeetState.Left Feet)))
       Feet)
    (Instance.set_TransitionsState
       (TransitionsState.set_bTransitionsAllowed true (Instance.TransitionsState instance))
       instance).

(** The character walking, on a later frame: it moves, and neither an update
    nor a re-initialisation of the feet is pending. *)
Definition walking : Instance.t :=
  let Moving := moving {| X := 150; Y := 0; Z := 0 |} in
  Instance.set_bPendingUpdate false
    (Instance.set_FeetState
       (FeetState.set_bReinitializationRequired false (Instance.FeetState Moving))
       Moving).

(** The instance without its settings. *)
Definition unconfigured : Instance.t := Instance.set_Settings None instance.

(** The turning character with the view at a yaw of 200 degrees, which wraps
    to 160 degrees to the left of the body. *)
Definition wrapped : Instance.t :=
  Instance.set_ViewState
    (ViewState.set_Rotation {| Pitch := 0; Yaw := 200; Roll := 0 |}
       (Instance.ViewState turning))
    turning.

(** A host whose sweeps hit flat ground half way along the sweep. *)
Definition host_over_ground (curves : CurveName -> float) : Host.t :=
  {| Host.GetCurveValue := curves;
     Host.SweepSingleByObjectType := fun _ End _ _ _ =>
       {| bValidBlockingHit := true; ImpactPoint := End;
          ImpactNormal := {| X := 0; Y := 0; Z := 1 |}; HitTime := 0.5 |};
     Host.LineTraceSingleByChannel := fun _ _ _ => NoHit;
     Host.GetComponentTransform := IdentityTransform;
     Host.GetComponentScaleZ := 1;
     Host.GetSocketTransform := fun _ => IdentityTransform;
     Host.GetPhysicsLinearVelocity := fun _ => Vec.Zero;
     Host.GetMovementBaseTransform := fun _ _ => (Vec.Zero, QuatIdentity);
     Host.IsInGameThread := false |}.

(** The character falling at 1000 units per second. *)
Definition falling : Instance.t :=
  Instance.set_LocomotionMode ModeInAir (moving {| X := 0; Y := 0; Z := -1000 |}).

(** The character back in grounded mode and moving, on the update after the
    falling character was refreshed, with no update pending. *)
Definition landed : Instance.t :=
  Instance.set_bPendingUpdate false
    (Instance.set_GroundedState
       (Instance.GroundedState
          (RefreshGrounded (E := externals) settings (host (every_curve 0) false) 0.016 falling))
       (moving {| X := 300; Y := 0; Z := 0 |})).

(** A host whose line traces hit a flat floor 5 units below the start of the
    trace. *)
Definition host_on_floor (curves : CurveName -> float) : Host.t :=
  {| Host.GetCurveValue := curves;
     Host.SweepSingleByObjectType := fun _ _ _ _ _ => NoHit;
     Host.LineTraceSingleByChannel := fun Start _ _ =>
       {| bValidBlockingHit := true;
          ImpactPoint := Vec.sub Start {| X := 0; Y := 0; Z := 5 |};
          ImpactNormal := {| X := 0; Y := 0; Z := 1 |}; HitTime := 0.1 |};
     Host.GetComponentTransform := IdentityTransform;
     Host.GetComponentScaleZ := 1;
     Host.GetSocketTransform := fun _ => IdentityTransform;
     Host.GetPhysicsLinearVelocity := fun _ => Vec.Zero;
     Host.GetMovementBaseTransform := fun _ _ => (Vec.Zero, QuatIdentity);
     Host.IsInGameThread := false |}.

(** The settings with foot locking disabled. *)
Definition settings_without_foot_lock : AlsSettings.t :=
  {| AlsSettings.General := AlsSettings.General settings;
     AlsSettings.View := AlsSettings.View settings;
     AlsSettings.Grounded := AlsSettings.Grounded settings;
     AlsSettings.InAir := AlsSettings.InAir settings;
     AlsSettings.Feet :=
       {| FeetSettings.bDisableFootLock := true;
          FeetSettings.IkTraceDistanceUpward := 50;
          FeetSettings.IkTraceDistanceDownward := 45;
          FeetSettings.IkTraceChannel := 0%nat;
          FeetSettings.FootHeight := 13.5 |};
     AlsSettings.Transitions := AlsSettings.Transitions settings;
     AlsSettings.RotateInPlace := AlsSettings.RotateInPlace settings;
     AlsSettings.TurnInPlace := AlsSettings.TurnInPlace settings |}.

(** The settings of the transition requests. *)
Definition requests : TransitionRequestSettings.t :=
  {| TransitionRequestSettings.QuickStopBlendInTime := 0.1;
     TransitionRequestSettings.QuickStopBlendOutTime := 0.2;
     TransitionRequestSettings.QuickStopPlayRate := {| X2 := 1.75; Y2 := 3 |};
     TransitionRequestSettings.QuickStopStartTime := 0.3;
     TransitionRequestSettings.StandingTransitionLeftAnimation := Some 21%nat;
     TransitionRequestSettings.StandingTransitionRightAnimation := Some 22%nat;
     TransitionRequestSettings.CrouchingTransitionLeftAnimation := Some 23%nat;
     TransitionRequestSettings.CrouchingTransitionRightAnimation := Some 24%nat |}.

(** The character in velocity direction rotation mode, its input 90 degrees
    to the right of its body. *)
Definition steering : Instance.t :=
  let l := Instance.LocomotionState instance in
  Instance.set_RotationMode RotationVelocityDirection
    (Instance.set_LocomotionState
       (LocomotionState.Build_t
          true 90
          (LocomotionState.Speed l) (LocomotionState.Velocity l)
          (LocomotionState.VelocityYawAngle l)
          (LocomotionState.Acceleration l) (LocomotionState.MaxAcceleration l)
          (LocomotionState.MaxBrakingDeceleration l) (LocomotionState.WalkableFloorZ l)
          (LocomotionState.bMoving l) (LocomotionState.bMovingSmooth l)
          (LocomotionState.TargetYawAngle l) (LocomotionState.Location l)
          (LocomotionState.Rotation l) (LocomotionState.RotationQuaternion l)
          (LocomotionState.YawSpeed l) (LocomotionState.Scale l)
          (LocomotionState.CapsuleRadius l) (LocomotionState.CapsuleHalfHeight l)
          (LocomotionState.BasedMovement l))
       instance).

End Sample.



(** ** Vocabulary of the statements *)

Definition Unit01 (x : float) : Prop := 0 <= x <= 1.

(** The blend amounts written by [RefreshLayering]. *)
Definition LayeringAmounts (l : LayeringState.t) : list float :=
  [ LayeringState.HeadBlendAmount l; LayeringState.HeadAdditiveBlendAmount l;
    LayeringState.HeadSlotBlendAmount l;
    LayeringState.ArmLeftBlendAmount l; LayeringState.ArmLeftAdditiveBlendAmount l;
    LayeringState.ArmLeftSlotBlendAmount l; LayeringState.ArmLeftLocalSpaceBlendAmount l;
    LayeringState.ArmLeftMeshSpaceBlendAmount l;
    LayeringState.ArmRightBlendAmount l; LayeringState.ArmRightAdditiveBlendAmount l;
    LayeringState.ArmRightSlotBlendAmount l; LayeringState.ArmRightLocalSpaceBlendAmount l;
    LayeringState.ArmRightMeshSpaceBlendAmount l;
    LayeringState.HandLeftBlendAmount l; LayeringState.HandRightBlendAmount l;
    LayeringState.SpineBlendAmount l; LayeringState.SpineAdditiveBlendAmount l;
    LayeringState.SpineSlotBlendAmount l;
    LayeringState.PelvisBlendAmount l; LayeringState.PelvisSlotBlendAmount l;
    LayeringState.LegsBlendAmount l; LayeringState.LegsSlotBlendAmount l ].

(** The amounts of [RefreshPose] that are clamped to the unit interval (the
    gait amount itself ranges up to 3). *)
Definition PoseAmounts (p : PoseState.t) : list float :=
  [ PoseState.GaitWalkingAmount p; PoseState.GaitRunningAmount p;
    PoseState.GaitSprintingAmount p; PoseState.MovingAmount p;
    PoseState.StandingAmount p; PoseState.CrouchingAmount p;
    PoseState.GroundedAmount p; PoseState.InAirAmount p ].

(** The clamped amounts of [RefreshFeet]: the IK amount of each foot and the
    feet crossing amount. *)
Definition FeetAmounts (f : FeetState.t) : list float :=
  [ FootState.IkAmount (FeetState.Left f); FootState.IkAmount (FeetState.Right f);
    FeetState.FeetCrossingAmount f ].

(** The L1 norm by which [RefreshVelocityBlend] divides. *)
Definition L1Norm (v : FVector) : float :=
  FMath.Abs (X v) + FMath.Abs (Y v) + FMath.Abs (Z v).

(** A direction along one coordinate axis: exactly one component is non-zero. *)
Definition AxisAligned (v : FVector) : Prop :=
  (~ X v == 0 /\ Y v == 0 /\ Z v == 0)
  \/ (X v == 0 /\ ~ Y v == 0 /\ Z v == 0)
  \/ (X v == 0 /\ Y v == 0 /\ ~ Z v == 0).

(** A direction along the forward or the right axis of the character. *)
Definition HorizontalAxisAligned (v : FVector) : Prop :=
  (~ X v == 0 /\ Y v == 0 /\ Z v == 0) \/ (X v == 0 /\ ~ Y v == 0 /\ Z v == 0).

(** Exactly one of the pairs forward/backward and left/right is non-zero. *)
Definition ExactlyOnePairNonZero (b : VelocityBlendState.t) : Prop :=
  let ForwardBackward := VelocityBlendState.ForwardAmount b + VelocityBlendState.BackwardAmount b in
  let LeftRight := VelocityBlendState.LeftAmount b + VelocityBlendState.RightAmount b in
  (~ ForwardBackward == 0 /\ LeftRight == 0) \/ (ForwardBackward == 0 /\ ~ LeftRight == 0).

(** The claim that a view refresh leaves exactly one look mode refreshed
    (its reinitialisation flag cleared by its refresh) and the other one marked
    for reinitialisation, by rotation mode. *)
Definition ExactlyOneLookModeRefreshed (Mode : ERotationMode) (v : ViewState.t) : Prop :=
  let Input := LookTowardsInputState.bReinitializationRequired (ViewState.LookTowardsInput v) in
  let Camera := LookTowardsCameraState.bReinitializationRequired (ViewState.LookTowardsCamera v) in
  if IsVelocityDirection Mode
  then Input = false /\ Camera = true
  else Input = true /\ Camera = false.

(** What [RefreshFootOffset] hands on: the offset fields of the foot and the
    final location and rotation. *)
Definition FootOffsetOutputs (r : FootState.t * FVector * FQuat)
    : FVector * FQuat * FSpringState * FVector * FQuat * FVector * FQuat :=
  let '(f, FinalLocation, FinalRotation) := r in
  (FootState.OffsetTargetLocation f, FootState.OffsetTargetRotation f,
   FootState.OffsetSpringState f, FootState.OffsetLocation f, FootState.OffsetRotation f,
   FinalLocation, FinalRotation).

(** The inputs of a foot that belong to the current frame: the IK amount read
    from the curve and the target pose read from the skeleton. *)
Definition SameFootInputs (f1 f2 : FootState.t) : Prop :=
  FootState.IkAmount f1 = FootState.IkAmount f2
  /\ FootState.TargetLocation f1 = FootState.TargetLocation f2
  /\ FootState.TargetRotation f1 = FootState.TargetRotation f2.

(** The foot of a side. *)
Definition FootOf (Side : EFootSide) (f : FeetState.t) : FootState.t :=
  match Side with FootLeft => FeetState.Left f | FootRight => FeetState.Right f end.

Definition OtherSide (Side : EFootSide) : EFootSide :=
  match Side with FootLeft => FootRight | FootRight => FootLeft end.

(** The frame-delay counter of the dynamic transitions. *)
Definition FrameDelay (s : Instance.t) : int32 :=
  TransitionsState.DynamicTransitionsFrameDelay (Instance.TransitionsState s).

(** The calls and queue entries that a step from [s] to [s'] added. *)
Definition NewEffects (s s' : Instance.t) : list Event :=
  skipn (length (Instance.Effects s)) (Instance.Effects s').

(** ** Vocabulary of the further statements *)

(** The collaborators and the latches of the instance. *)
Definition Latches (s : Instance.t) :=
  (Instance.Settings s, Instance.Character s,
   Instance.bPendingUpdate s, Instance.bTeleported s,
   Instance.bAnimationCurvesRelevant s, Instance.bAnimationCurvesRelevantGameThread s).

(** The tags copied from the character. *)
Definition Tags (s : Instance.t) :=
  (Instance.Stance s, Instance.Gait s, Instance.RotationMode s, Instance.LocomotionMode s,
   Instance.LocomotionAction s, Instance.ViewMode s, Instance.OverlayMode s).

(** What the game thread captures for a frame and the worker-safe pass only
    reads: the collaborators, the latches, the tags, the locomotion snapshot
    and the ragdolling state. *)
Definition GameThreadSnapshot (s : Instance.t) :=
  (Latches s, Tags s, Instance.LocomotionState s, Instance.RagdollingState s).

(** The state blocks that only the worker-safe pass and the post-evaluate
    step write. *)
Definition WorkerBlocks (s : Instance.t) :=
  (Instance.LayeringState s, Instance.PoseState s, Instance.LeanState s,
   Instance.TransitionsState s, Instance.RotateInPlaceState s, Instance.TurnInPlaceState s).

(** What none of the game-thread refresh steps touches. *)
Definition GameStepKept (s : Instance.t) :=
  (Latches s, Tags s, WorkerBlocks s, Instance.Effects s).

(** What the steps of the worker-safe pass that neither queue nor play leave
    alone: the snapshot, the two blocks that hold the queues, and the
    effects. *)
Definition WorkerKept (s : Instance.t) :=
  (GameThreadSnapshot s, Instance.TransitionsState s, Instance.TurnInPlaceState s,
   Instance.Effects s).

(** The entries of [Effects] that only store a selection for later. *)
Definition IsQueueEvent (e : Event) : Prop :=
  match e with
  | QueueDynamicTransition _ _ | QueueTurnInPlace _ _ _ => True
  | _ => False
  end.

(** The montage that [PlayQueuedDynamicTransitionAnimation] plays for a queued
    animation, and the one that [PlayQueuedTurnInPlaceAnimation] plays for
    queued turn settings and slot. *)
Definition DynamicTransitionMontage (st : AlsSettings.t) (Animation : option Anim) : Event :=
  PlaySlotAnimationAsDynamicMontage Animation TransitionSlot
    (TransitionsSettings.DynamicTransitionBlendTime (AlsSettings.Transitions st))
    (TransitionsSettings.DynamicTransitionBlendTime (AlsSettings.Transitions st))
    (TransitionsSettings.DynamicTransitionPlayRate (AlsSettings.Transitions st)) 1 0 0.

Definition TurnInPlaceMontage (st : AlsSettings.t) (Selected : TurnSettings.t)
    (Slot : SlotName) : Event :=
  PlaySlotAnimationAsDynamicMontage (TurnSettings.Animation Selected) Slot
    (TurnInPlaceSettings.BlendTime (AlsSettings.TurnInPlace st))
    (TurnInPlaceSettings.BlendTime (AlsSettings.TurnInPlace st))
    (TurnSettings.PlayRate Selected) 1 0 0.

(** The queue of the dynamic transitions and the queue of the turn in place. *)
Definition QueuedDynamicTransition (s : Instance.t) : option Anim :=
  TransitionsState.QueuedDynamicTransitionAnimation (Instance.TransitionsState s).

(** The animation that [RefreshDynamicTransition] assigns for a foot: the
    left or the right dynamic transition of the settings, by stance. *)
Definition DynamicTransitionAnimation (st : AlsSettings.t) (s : Instance.t)
    (Side : EFootSide) : option Anim :=
  match Side with
  | FootLeft => DynamicTransitionLeftAnimation st s
  | FootRight => DynamicTransitionRightAnimation st s
  end.

(** What a selection of [RefreshDynamicTransition] sends out for an animation
    that may be null: nothing for a null animation; otherwise the queue entry,
    followed on the game thread by the montage. *)
Definition DynamicTransitionSelection (st : AlsSettings.t) (h : Host.t) (Side : EFootSide)
    (Animation : option Anim) : list Event :=
  match Animation with
  | Some a =>
      QueueDynamicTransition Side a
      :: (if Host.IsInGameThread h then [DynamicTransitionMontage st (Some a)] else [])
  | None => []
  end.

Definition QueuedTurnInPlace (s : Instance.t) :=
  (TurnInPlaceState.QueuedSettings (Instance.TurnInPlaceState s),
   TurnInPlaceState.QueuedSlotName (Instance.TurnInPlaceState s),
   TurnInPlaceState.QueuedTurnYawAngle (Instance.TurnInPlaceState s)).

(** Equality of vectors up to the equality of rationals. *)
Definition VecEq (a b : FVector) : Prop := X a == X b /\ Y a == Y b /\ Z a == Z b.

(** A host on the game thread and a host on a worker thread. *)
Definition OnGameThread (h : Host.t) : Prop := Host.IsInGameThread h = true.
Definition OnWorkerThread (h : Host.t) : Prop := Host.IsInGameThread h = false.

(** The velocity blend that the snap branch of [RefreshVelocityBlend] writes. *)
Definition SnappedVelocityBlend {E : Externals} (s : Instance.t) : VelocityBlendState.t :=
  {| VelocityBlendState.bReinitializationRequired := false;
     VelocityBlendState.ForwardAmount := UAlsMath.Clamp01 (X (RelativeDirection s));
     VelocityBlendState.BackwardAmount := FMath.Abs (FMath.Clamp (X (RelativeDirection s)) (-1) 0);
     VelocityBlendState.LeftAmount := FMath.Abs (FMath.Clamp (Y (RelativeDirection s)) (-1) 0);
     VelocityBlendState.RightAmount := UAlsMath.Clamp01 (Y (RelativeDirection s)) |}.

(** The sweep of [RefreshGroundPredictionAmount]: from the character along
    its clamped velocity direction, over the distance mapped from the stored
    vertical velocity. *)
Definition GroundPredictionSweep {E : Externals} (st : AlsSettings.t) (h : Host.t)
    (s : Instance.t) : FHitResult :=
  let Locomotion := Instance.LocomotionState s in
  let VelocityDirection :=
    Normalize
      (Vec.withZ (LocomotionState.Velocity Locomotion)
         (FMath.Clamp (Z (LocomotionState.Velocity Locomotion)) (-4000) (-200))) in
  let SweepVector :=
    Vec.scale
      (Vec.scale VelocityDirection
         (GetMappedRangeValueClamped {| X2 := -200; Y2 := -4000 |} {| X2 := 150; Y2 := 2000 |}
            (InAirState.VerticalVelocity (Instance.InAirState s))))
      (LocomotionState.Scale Locomotion) in
  Host.SweepSingleByObjectType h (LocomotionState.Location Locomotion)
    (Vec.add (LocomotionState.Location Locomotion) SweepVector)
    (InAirSettings.GroundPredictionSweepObjectTypes (AlsSettings.InAir st))
    (LocomotionState.CapsuleRadius Locomotion)
    (LocomotionState.CapsuleHalfHeight Locomotion).

(** The local [RelativeAccelerationAmount] of [RefreshGrounded]. *)
Definition RelativeAccelerationAmount {E : Externals} (s : Instance.t) : FVector :=
  let Locomotion := Instance.LocomotionState s in
  if Vec.dot (LocomotionState.Acceleration Locomotion) (LocomotionState.Velocity Locomotion)
     >=? 0
  then
    ClampMagnitude01
      (Vec.div (UnrotateVector (LocomotionState.RotationQuaternion Locomotion)
                  (LocomotionState.Acceleration Locomotion))
         (LocomotionState.MaxAcceleration Locomotion))
  else
    ClampMagnitude01
      (Vec.div (UnrotateVector (LocomotionState.RotationQuaternion Locomotion)
                  (LocomotionState.Acceleration Locomotion))
         (LocomotionState.MaxBrakingDeceleration Locomotion)).

(** The local [RelativeVelocity] of [RefreshInAirLeanAmount], for the vertical
    velocity that [RefreshInAir] has just stored. *)
Definition InAirRelativeVelocity {E : Externals} (st : AlsSettings.t) (s : Instance.t)
    : FVector :=
  let Locomotion := Instance.LocomotionState s in
  Vec.scale
    (Vec.div (UnrotateVector (LocomotionState.RotationQuaternion Locomotion)
                (LocomotionState.Velocity Locomotion))
       350)
    (InAirSettings.LeanAmountCurve (AlsSettings.InAir st)
       (Z (LocomotionState.Velocity Locomotion))).

(** What the lean steps read besides their target. *)
Definition LeanInputs (s : Instance.t) := (Instance.bPendingUpdate s, Instance.LeanState s).

(** Whether a transition request passes the test of [PlayTransitionAnimation]:
    the character is there and, for a request from standing idle only, it
    stands and does not move. *)
Definition TransitionRequestAccepted (bFromStandingIdleOnly : bool) (s : Instance.t) : Prop :=
  exists ch,
    Instance.Character s = Some ch
    /\ (bFromStandingIdleOnly = true ->
        CharacterLocomotion.bMoving (Character.GetLocomotionState ch) = false
        /\ IsStanding (Character.GetStance ch) = true).

(** The instance but for its effects. *)
Definition WithoutEffects (s : Instance.t) : Instance.t := Instance.set_Effects [] s.

(** The range of [FRotator3f::NormalizeAxis]. *)
Definition NormalizeAxisInRange {E : Externals} : Prop :=
  forall a : float, -180 < NormalizeAxis a <= 180.

(** What [RefreshStrideBlendAmount] reads. *)
Definition StrideInputs (s : Instance.t) := (Instance.PoseState s, Instance.LocomotionState s).

(** The angles of the view state, apart from the two look blocks. *)
Definition ViewAngles (v : ViewState.t) :=
  (ViewState.Rotation v, ViewState.YawSpeed v, ViewState.YawAngle v, ViewState.PitchAngle v,
   ViewState.PitchAmount v, ViewState.TargetSpineYawAngle v, ViewState.SpineYawAngle v).

(** ** Properties *)

Lemma Qltb_true_iff (x y : Q) : (x <? y) = true <-> x < y.
Proof.
  unfold Qltb. rewrite negb_true_iff, <- not_true_iff_false, Qle_bool_iff.
  split; [apply Qnot_le_lt | apply Qlt_not_le].
Qed.

Lemma Qltb_false_iff (x y : Q) : (x <? y) = false <-> y <= x.
Proof. unfold Qltb. rewrite negb_false_iff. apply Qle_bool_iff. Qed.

Lemma Qleb_true_iff (x y : Q) : (x <=? y) = true <-> x <= y.
Proof. apply Qle_bool_iff. Qed.

Lemma Qleb_false_iff (x y : Q) : (x <=? y) = false <-> y < x.
Proof.
  unfold Qleb. rewrite <- not_true_iff_false, Qle_bool_iff.
  split; [apply Qnot_le_lt | apply Qlt_not_le].
Qed.

(** Case analysis on a comparison of the goal whose operands do not branch on
    another comparison, turned into an order fact. *)
Ltac no_conditional t :=
  lazymatch t with
  | context [if Qltb _ _ then _ else _] => fail
  | context [if Qleb _ _ then _ else _] => fail
  | _ => idtac
  end.

Ltac qcase :=
  match goal with
  | |- context [Qltb ?x ?y] =>
      no_conditional x; no_conditional y;
      let H := fresh "H" in
      destruct (Qltb x y) eqn:H;
      [apply Qltb_true_iff in H | apply Qltb_false_iff in H]
  | |- context [Qleb ?x ?y] =>
      no_conditional x; no_conditional y;
      let H := fresh "H" in
      destruct (Qleb x y) eqn:H;
      [apply Qleb_true_iff in H | apply Qleb_false_iff in H]
  end.

Ltac qcases := repeat (qcase; cbn [negb andb orb] in * ).

Lemma Clamp01_range (x : float) : Unit01 (UAlsMath.Clamp01 x).
Proof. unfold Unit01, UAlsMath.Clamp01. qcases; lra. Qed.

Lemma Clamp01_cases (x : float) :
  (x <= 0 /\ UAlsMath.Clamp01 x = 0) \/ (1 <= x /\ UAlsMath.Clamp01 x = 1)
  \/ (0 < x < 1 /\ UAlsMath.Clamp01 x = x).
Proof.
  unfold UAlsMath.Clamp01.
  qcases; [left | right; left | right; right]; split; try reflexivity; lra.
Qed.

Lemma Clamp_range (x lo hi : float) : lo <= hi -> lo <= FMath.Clamp x lo hi <= hi.
Proof. unfold FMath.Clamp, FMath.Max, FMath.Min. intros. qcases; lra. Qed.

Lemma float_of_bool_range (b : bool) : Unit01 (float_of_bool b).
Proof. unfold Unit01. destruct b; cbn; lra. Qed.

Section Properties.

Context {E : Externals}.

Ltac split_ifs :=
  repeat match goal with
         | |- context [if ?c then _ else _] => destruct c
         end.

Ltac split_and :=
  match goal with
  | |- _ /\ _ => split
  end.

(** *** Clamped amounts *)

Lemma GetCurveValueClamped01_range (h : Host.t) (c : CurveName) :
  Unit01 (GetCurveValueClamped01 h c).
Proof. apply Clamp01_range. Qed.

Lemma AimingAllowedAmount_range (h : Host.t) : Unit01 (AimingAllowedAmount h).
Proof.
  unfold AimingAllowedAmount.
  pose proof (GetCurveValueClamped01_range h AimBlockCurve) as H.
  unfold Unit01 in *. lra.
Qed.

Lemma RefreshLookTowardsInput_LookAmount st dt s :
  ViewState.LookAmount (Instance.ViewState (RefreshLookTowardsInput st dt s))
  = ViewState.LookAmount (Instance.ViewState s).
Proof. reflexivity. Qed.

Lemma RefreshLookTowardsCamera_LookAmount st dt s :
  ViewState.LookAmount (Instance.ViewState (RefreshLookTowardsCamera st dt s))
  = ViewState.LookAmount (Instance.ViewState s).
Proof. reflexivity. Qed.

Lemma RefreshView_LookAmount st h dt s :
  ViewState.LookAmount (Instance.ViewState (RefreshView st h dt s))
  = AimingAllowedAmount h * (1 - AimingManualAmount h).
Proof.
  unfold RefreshView.
  repeat match goal with
         | |- context [if ?c then ?a else ?b] =>
             lazymatch c with
             | context [if _ then _ else _] => fail
             | _ => destruct c
             end
         end;
    rewrite ?RefreshLookTowardsInput_LookAmount, ?RefreshLookTowardsCamera_LookAmount;
    reflexivity.
Qed.

Lemma NewFootLockAmount_range h s f c dt : Unit01 (NewFootLockAmount h s f c dt).
Proof.
  pose proof (GetCurveValueClamped01_range h c) as H.
  unfold NewFootLockAmount, FMath.Max, FMath.Min, Unit01 in *.
  destruct (LocomotionState.bMovingSmooth _); cbn [orb];
    [|destruct (negb _); [|exact H]];
    (destruct (FeetState.bReinitializationRequired _); [lra|]);
    qcases; lra.
Qed.

Lemma ProcessFootLockTeleport_IkAmount h s f :
  FootState.IkAmount (ProcessFootLockTeleport h s f) = FootState.IkAmount f.
Proof. unfold ProcessFootLockTeleport. split_ifs; reflexivity. Qed.

Lemma ProcessFootLockBaseChange_IkAmount s f cti :
  FootState.IkAmount (ProcessFootLockBaseChange s f cti) = FootState.IkAmount f.
Proof. unfold ProcessFootLockBaseChange. split_ifs; reflexivity. Qed.

Lemma RefreshFootLock_IkAmount st h s f c cti dt l r :
  FootState.IkAmount (fst (fst (RefreshFootLock st h s f c cti dt l r)))
  = FootState.IkAmount f.
Proof. unfold RefreshFootLock. split_ifs; reflexivity. Qed.

Lemma RefreshFootOffset_IkAmount st h s f dt l r :
  FootState.IkAmount (fst (fst (RefreshFootOffset st h s f dt l r)))
  = FootState.IkAmount f.
Proof. unfold RefreshFootOffset. split_ifs; reflexivity. Qed.

Lemma RefreshFoot_IkAmount st h s f ik lock cti dt :
  FootState.IkAmount (RefreshFoot st h s f ik lock cti dt) = GetCurveValueClamped01 h ik.
Proof.
  unfold RefreshFoot.
  destruct (RefreshFootLock _ _ _ _ _ _ _ _ _) as [[f1 l1] r1] eqn:Hlock.
  destruct (RefreshFootOffset _ _ _ _ _ _ _) as [[f2 l2] r2] eqn:Hoffset.
  cbn [FootState.IkAmount FootState.set_IkRotation FootState.set_IkLocation].
  change f2 with (fst (fst (f2, l2, r2))). rewrite <- Hoffset, RefreshFootOffset_IkAmount.
  change f1 with (fst (fst (f1, l1, r1))). rewrite <- Hlock, RefreshFootLock_IkAmount.
  rewrite ProcessFootLockBaseChange_IkAmount, ProcessFootLockTeleport_IkAmount.
  reflexivity.
Qed.

Lemma RefreshFeet_amounts st h dt s :
  (Instance.bAnimationCurvesRelevant s = false
   /\ FeetAmounts (Instance.FeetState (RefreshFeet st h dt s))
      = FeetAmounts (Instance.FeetState s))
  \/ (Instance.bAnimationCurvesRelevant s = true
      /\ FeetAmounts (Instance.FeetState (RefreshFeet st h dt s))
         = [ GetCurveValueClamped01 h FootLeftIkCurve;
             GetCurveValueClamped01 h FootRightIkCurve;
             GetCurveValueClamped01 h FeetCrossingCurve ]).
Proof.
  unfold RefreshFeet.
  cbn [Instance.bAnimationCurvesRelevant Instance.set_FeetState].
  destruct (Instance.bAnimationCurvesRelevant s) eqn:Hrel; cbn [negb]; [right | left];
    (split; [reflexivity|]).
  - unfold FeetAmounts.
    cbn [Instance.FeetState Instance.set_FeetState FeetState.Left FeetState.Right
         FeetState.FeetCrossingAmount FeetState.set_Left FeetState.set_Right
         FeetState.set_bReinitializationRequired FeetState.set_MinMaxPelvisOffsetZ
         FeetState.set_FeetCrossingAmount FeetState.set_FootPlantedAmount].
    rewrite !RefreshFoot_IkAmount. reflexivity.
  - reflexivity.
Qed.

(** C1.  Whatever the curve source returns (negative values and values above
    1 included), every amount read through [GetCurveValueClamped01] is in the
    closed interval from 0 to 1, and so is every clamped blend amount that
    the layering, pose, view and feet refresh steps write: the layering and
    pose amounts (left untouched when the curves are not relevant), the aiming
    allowed and aiming manual amounts and the look amount built from them,
    the IK amount of each foot, the feet crossing amount and the new foot
    lock amount. *)
Theorem clamped_amounts_in_unit_interval
    (st : AlsSettings.t) (h : Host.t) (DeltaTime : float) (s : Instance.t) :
  (forall c, Unit01 (GetCurveValueClamped01 h c))
  /\ ((Instance.bAnimationCurvesRelevant s = false
       /\ Instance.LayeringState (RefreshLayering h s) = Instance.LayeringState s)
      \/ Forall Unit01 (LayeringAmounts (Instance.LayeringState (RefreshLayering h s))))
  /\ ((Instance.bAnimationCurvesRelevant s = false
       /\ Instance.PoseState (RefreshPose h s) = Instance.PoseState s)
      \/ Forall Unit01 (PoseAmounts (Instance.PoseState (RefreshPose h s))))
  /\ Unit01 (AimingAllowedAmount h)
  /\ Unit01 (AimingManualAmount h)
  /\ Unit01 (ViewState.LookAmount (Instance.ViewState (RefreshView st h DeltaTime s)))
  /\ ((Instance.bAnimationCurvesRelevant s = false
       /\ FeetAmounts (Instance.FeetState (RefreshFeet st h DeltaTime s))
          = FeetAmounts (Instance.FeetState s))
      \/ Forall Unit01 (FeetAmounts (Instance.FeetState (RefreshFeet st h DeltaTime s))))
  /\ (forall f c, Unit01 (NewFootLockAmount h s f c DeltaTime)).
Proof.
  repeat split_and.
  - intro c. apply GetCurveValueClamped01_range.
  - unfold RefreshLayering.
    destruct (Instance.bAnimationCurvesRelevant s); cbn [negb]; [right | left; auto].
    cbn. repeat constructor;
      first [apply GetCurveValueClamped01_range | apply float_of_bool_range].
  - unfold RefreshPose.
    destruct (Instance.bAnimationCurvesRelevant s); cbn [negb]; [right | left; auto].
    cbn. repeat constructor;
      first [apply GetCurveValueClamped01_range | apply Clamp01_range].
  - apply AimingAllowedAmount_range.
  - apply GetCurveValueClamped01_range.
  - rewrite RefreshView_LookAmount.
    pose proof (AimingAllowedAmount_range h) as Ha.
    pose proof (GetCurveValueClamped01_range h AimManualCurve) as Hm.
    unfold AimingManualAmount, Unit01 in *. nra.
  - destruct (RefreshFeet_amounts st h DeltaTime s) as [[Hrel Heq] | [Hrel Heq]];
      [left; auto | right].
    rewrite Heq. repeat constructor; apply GetCurveValueClamped01_range.
  - intros f c. apply NewFootLockAmount_range.
Qed.

(** *** Foot lock *)

Lemma RefreshFootLock_LockAmount st h s f c cti dt l r :
  FootLockSkipped st f (NewFootLockAmount h s f c dt) = false ->
  FootState.LockAmount (fst (fst (RefreshFootLock st h s f c cti dt l r)))
  = if IsFullWeight (NewFootLockAmount h s f c dt) then 1
    else if NewFootLockAmount h s f c dt >? FootState.LockAmount f
         then FootState.LockAmount f
         else NewFootLockAmount h s f c dt.
Proof.
  intro Hskip. unfold RefreshFootLock. rewrite Hskip.
  destruct (IsFullWeight _);
    destruct (NewFootLockAmount h s f c dt >? FootState.LockAmount f);
    cbn [negb]; split_ifs; reflexivity.
Qed.

Lemma NewFootLockAmount_le_curve h s f c dt :
  NewFootLockAmount h s f c dt <= GetCurveValueClamped01 h c.
Proof.
  pose proof (GetCurveValueClamped01_range h c) as H.
  unfold NewFootLockAmount, FMath.Max, FMath.Min, Unit01 in *.
  destruct (LocomotionState.bMovingSmooth _); cbn [orb];
    [|destruct (negb _); [|lra]];
    (destruct (FeetState.bReinitializationRequired _); [lra|]);
    qcases; lra.
Qed.

Lemma NewFootLockAmount_idle h s f c dt :
  LocomotionState.bMovingSmooth (Instance.LocomotionState s) = false ->
  IsGroundedMode (Instance.LocomotionMode s) = true ->
  NewFootLockAmount h s f c dt = GetCurveValueClamped01 h c.
Proof. intros Hmoving Hgrounded. unfold NewFootLockAmount. rewrite Hmoving, Hgrounded. reflexivity. Qed.

Lemma NewFootLockAmount_lowered h s f c dt :
  LocomotionState.bMovingSmooth (Instance.LocomotionState s) = true
  \/ IsGroundedMode (Instance.LocomotionMode s) = false ->
  NewFootLockAmount h s f c dt
  <= FMath.Max 0
       (FootState.LockAmount f
        - dt * (if LocomotionState.bMovingSmooth (Instance.LocomotionState s)
                then 5 else 0.6)).
Proof.
  intros Hlowered. unfold NewFootLockAmount.
  assert (LocomotionState.bMovingSmooth (Instance.LocomotionState s)
          || negb (IsGroundedMode (Instance.LocomotionMode s)) = true) as ->.
  { destruct Hlowered as [-> | ->]; [reflexivity | apply orb_true_r]. }
  generalize (FootState.LockAmount f
              - dt * (if LocomotionState.bMovingSmooth (Instance.LocomotionState s)
                      then 5 else 0.6)).
  intros x. unfold FMath.Max, FMath.Min.
  destruct (FeetState.bReinitializationRequired _); qcases; lra.
Qed.

(** C2.  One update of a foot's lock by [RefreshFootLock], with foot locking
    enabled and the new lock relevant: the stored lock amount stays, decreases
    or becomes exactly 1, and never moves to a value strictly between its
    previous value and 1.  It becomes exactly 1 when the new lock amount is
    full weight and does not increase otherwise.  The new lock amount is the
    clamped sample of the lock curve while the character stands on the ground,
    and never exceeds that sample: while the character moves or is not
    grounded the source lowers it to at most the previous amount less the
    decrease of the update, or to 0, so that a full-weight sample does not
    lock such a foot. *)
Theorem foot_lock_amount_never_blends_in
    (st : AlsSettings.t) (h : Host.t) (s : Instance.t) (f : FootState.t)
    (c : CurveName) (cti : FTransform) (DeltaTime : float)
    (FinalLocation : FVector) (FinalRotation : FQuat) :
  FootLockSkipped st f (NewFootLockAmount h s f c DeltaTime) = false ->
  let New := NewFootLockAmount h s f c DeltaTime in
  let After :=
    FootState.LockAmount
      (fst (fst (RefreshFootLock st h s f c cti DeltaTime FinalLocation FinalRotation))) in
  (After = 1 \/ After <= FootState.LockAmount f)
  /\ ~ (FootState.LockAmount f < After /\ After < 1)
  /\ (IsFullWeight New = true -> After = 1)
  /\ (IsFullWeight New = false -> After <= FootState.LockAmount f)
  /\ New <= GetCurveValueClamped01 h c
  /\ (LocomotionState.bMovingSmooth (Instance.LocomotionState s) = false ->
      IsGroundedMode (Instance.LocomotionMode s) = true ->
      New = GetCurveValueClamped01 h c)
  /\ (LocomotionState.bMovingSmooth (Instance.LocomotionState s) = true
      \/ IsGroundedMode (Instance.LocomotionMode s) = false ->
      New <= FMath.Max 0
               (FootState.LockAmount f
                - DeltaTime * (if LocomotionState.bMovingSmooth (Instance.LocomotionState s)
                               then 5 else 0.6))).
Proof.
  intros Hskip New After. subst New After.
  rewrite (RefreshFootLock_LockAmount _ _ _ _ _ _ _ _ _ Hskip).
  repeat split_and;
    try apply NewFootLockAmount_le_curve; try apply NewFootLockAmount_idle;
    try apply NewFootLockAmount_lowered;
    destruct (IsFullWeight _); intros; try discriminate; try reflexivity;
    try (left; reflexivity); try right; qcases; lra.
Qed.

(** When the update is skipped instead (foot locking disabled, or the new
    lock not relevant), the lock amount is cleared and so does not increase
    either. *)
Lemma foot_lock_amount_skipped
    (st : AlsSettings.t) (h : Host.t) (s : Instance.t) (f : FootState.t)
    (c : CurveName) (cti : FTransform) (DeltaTime : float)
    (FinalLocation : FVector) (FinalRotation : FQuat) :
  FootLockSkipped st f (NewFootLockAmount h s f c DeltaTime) = true ->
  FootState.LockAmount
    (fst (fst (RefreshFootLock st h s f c cti DeltaTime FinalLocation FinalRotation)))
  <= FootState.LockAmount f.
Proof.
  intro Hskip. unfold RefreshFootLock. rewrite Hskip. qcases; cbn; lra.
Qed.

(** *** Ground prediction *)

(** C3.  [RefreshGroundPredictionAmount] sets the ground prediction amount to
    exactly 0 when the stored vertical velocity is above -200, and when the
    allowance left by the ground prediction block curve is at most
    [KINDA_SMALL_NUMBER]; settings, location, capsule and sweep result play
    no part. *)
Theorem ground_prediction_amount_zero
    (st : AlsSettings.t) (h : Host.t) (s : Instance.t) :
  -200 < InAirState.VerticalVelocity (Instance.InAirState s)
  \/ GroundPredictionAllowanceAmount h <= KINDA_SMALL_NUMBER ->
  InAirState.GroundPredictionAmount
    (Instance.InAirState (RefreshGroundPredictionAmount st h s)) = 0.
Proof.
  intros H. unfold RefreshGroundPredictionAmount.
  qcase; [reflexivity|].
  qcase; [reflexivity|].
  exfalso. destruct H; lra.
Qed.

(** *** Effects of a step *)

Lemma skipn_length_app {A : Type} (l x : list A) : skipn (length l) (l ++ x) = x.
Proof. induction l; [reflexivity | assumption]. Qed.

Lemma NewEffects_same s s' :
  Instance.Effects s' = Instance.Effects s -> NewEffects s s' = [].
Proof.
  unfold NewEffects. intros ->.
  rewrite <- (app_nil_r (Instance.Effects s)) at 2. apply skipn_length_app.
Qed.

Lemma NewEffects_app s s' x :
  Instance.Effects s' = Instance.Effects s ++ x -> NewEffects s s' = x.
Proof. unfold NewEffects. intros ->. apply skipn_length_app. Qed.

Lemma NewEffects_app2 s s' x y :
  Instance.Effects s' = (Instance.Effects s ++ x) ++ y -> NewEffects s s' = x ++ y.
Proof. intros H. apply NewEffects_app. rewrite H. symmetry. apply app_assoc. Qed.

(** *** Turn in place *)

Lemma PlayQueuedTurnInPlaceAnimation_ActivationDelay st s :
  TurnInPlaceState.ActivationDelay
    (Instance.TurnInPlaceState (PlayQueuedTurnInPlaceAnimation st s))
  = TurnInPlaceState.ActivationDelay (Instance.TurnInPlaceState s).
Proof.
  unfold PlayQueuedTurnInPlaceAnimation.
  destruct (TurnInPlaceState.QueuedSettings _); reflexivity.
Qed.

(** An update of [RefreshTurnInPlace] that queues or plays anything has its
    accumulated activation delay strictly above the mapped delay. *)
Lemma RefreshTurnInPlace_effects st h dt s :
  NewEffects s (RefreshTurnInPlace st h dt s) = []
  \/ TurnInPlaceActivationDelay st s
     < TurnInPlaceState.ActivationDelay
         (Instance.TurnInPlaceState (RefreshTurnInPlace st h dt s)).
Proof.
  unfold RefreshTurnInPlace.
  destruct (_ || _ || _); [left; apply NewEffects_same; reflexivity|].
  destruct (negb _); [left; apply NewEffects_same; reflexivity|].
  destruct (TurnInPlaceResetRequired st s); [left; apply NewEffects_same; reflexivity|].
  match goal with
  | |- context [TurnInPlaceActivationDelay st ?s1] =>
      change (TurnInPlaceActivationDelay st s1) with (TurnInPlaceActivationDelay st s)
  end.
  qcase; [left; apply NewEffects_same; reflexivity|].
  cbn [Instance.TurnInPlaceState Instance.set_TurnInPlaceState
       TurnInPlaceState.ActivationDelay TurnInPlaceState.set_ActivationDelay] in H.
  destruct (SelectTurnInPlaceSettings _ _) as [[Selected|] Slot];
    [|left; apply NewEffects_same; reflexivity].
  destruct (TurnSettings.Animation Selected);
    [|left; apply NewEffects_same; reflexivity].
  right. destruct (Host.IsInGameThread h);
    rewrite ?PlayQueuedTurnInPlaceAnimation_ActivationDelay; exact H.
Qed.

(** C4.  An update of [RefreshTurnInPlace] while grounded, not moving, with
    turn in place and transitions allowed: a turn animation is queued (or
    played) only if the accumulated activation delay is strictly above the
    delay mapped from the absolute view yaw angle; and when the view yaw
    speed is at or above its threshold, or the absolute view yaw angle is
    within its threshold, the accumulated delay is reset to 0 and nothing is
    queued.  The state before the update is arbitrary, so this holds at every
    update of every sequence of updates. *)
Theorem turn_in_place_activation
    (st : AlsSettings.t) (h : Host.t) (DeltaTime : float) (s : Instance.t) :
  LocomotionState.bMoving (Instance.LocomotionState s) = false ->
  IsGroundedMode (Instance.LocomotionMode s) = true ->
  IsTurnInPlaceAllowed s = true ->
  TransitionsState.bTransitionsAllowed (Instance.TransitionsState s) = true ->
  let After := RefreshTurnInPlace st h DeltaTime s in
  (NewEffects s After <> [] ->
   TurnInPlaceActivationDelay st s
   < TurnInPlaceState.ActivationDelay (Instance.TurnInPlaceState After))
  /\ (TurnInPlaceSettings.ViewYawSpeedThreshold (AlsSettings.TurnInPlace st)
      <= ViewState.YawSpeed (Instance.ViewState s)
      \/ FMath.Abs (ViewState.YawAngle (Instance.ViewState s))
         <= TurnInPlaceSettings.ViewYawAngleThreshold (AlsSettings.TurnInPlace st) ->
      TurnInPlaceState.ActivationDelay (Instance.TurnInPlaceState After) = 0
      /\ NewEffects s After = []).
Proof.
  intros Hmoving Hgrounded Hallowed Htransitions After. subst After. split.
  - intro Hnew. destruct (RefreshTurnInPlace_effects st h DeltaTime s); [contradiction|assumption].
  - intro Hreset.
    assert (TurnInPlaceResetRequired st s = true) as Hreq.
    { unfold TurnInPlaceResetRequired. apply orb_true_iff.
      destruct Hreset; [left | right]; apply Qleb_true_iff; assumption. }
    unfold RefreshTurnInPlace.
    rewrite Hmoving, Hgrounded, Hallowed, Htransitions, Hreq. cbn [negb orb].
    split; [reflexivity | apply NewEffects_same; reflexivity].
Qed.

(** *** Velocity blend *)

Lemma snap_pair (q : float) :
  -1 <= q <= 1 ->
  UAlsMath.Clamp01 q + FMath.Abs (FMath.Clamp q (-1) 0) == Qabs q.
Proof.
  intros Hq. unfold UAlsMath.Clamp01, FMath.Abs, FMath.Clamp, FMath.Max, FMath.Min.
  qcases; repeat (apply Qabs_case; intros); lra.
Qed.

Lemma L1Norm_pos (v : FVector) : ~ L1Norm v == 0 -> 0 < L1Norm v.
Proof.
  unfold L1Norm, FMath.Abs. intros Hne.
  pose proof (Qabs_nonneg (X v)). pose proof (Qabs_nonneg (Y v)).
  pose proof (Qabs_nonneg (Z v)).
  destruct (Qlt_le_dec 0 (Qabs (X v) + Qabs (Y v) + Qabs (Z v))); [assumption|].
  exfalso. apply Hne. lra.
Qed.

Lemma component_over_L1 (x n : float) : 0 < n -> Qabs x <= n -> -1 <= x / n <= 1.
Proof.
  intros Hn Hx.
  assert (- n <= x <= n) as [Hlo Hhi].
  { revert Hx. apply Qabs_case; intros; lra. }
  split.
  - apply Qle_shift_div_l; [assumption | lra].
  - apply Qle_shift_div_r; [assumption | lra].
Qed.

Lemma RelativeDirection_bounds (s : Instance.t) :
  ~ L1Norm (RelativeVelocityDirection s) == 0 ->
  -1 <= X (RelativeDirection s) <= 1 /\ -1 <= Y (RelativeDirection s) <= 1.
Proof.
  intros Hne. pose proof (L1Norm_pos _ Hne) as Hpos.
  unfold RelativeDirection. cbn [X Y Vec.div].
  fold (L1Norm (RelativeVelocityDirection s)).
  pose proof (Qabs_nonneg (X (RelativeVelocityDirection s))).
  pose proof (Qabs_nonneg (Y (RelativeVelocityDirection s))).
  pose proof (Qabs_nonneg (Z (RelativeVelocityDirection s))).
  split; apply component_over_L1; try assumption; unfold L1Norm, FMath.Abs in *; lra.
Qed.

Lemma RefreshVelocityBlend_snap st dt s :
  VelocityBlendState.bReinitializationRequired
    (GroundedState.VelocityBlend (Instance.GroundedState s))
  || Instance.bPendingUpdate s = true ->
  GroundedState.VelocityBlend (Instance.GroundedState (RefreshVelocityBlend st dt s))
  = {| VelocityBlendState.bReinitializationRequired := false;
       VelocityBlendState.ForwardAmount := UAlsMath.Clamp01 (X (RelativeDirection s));
       VelocityBlendState.BackwardAmount :=
         FMath.Abs (FMath.Clamp (X (RelativeDirection s)) (-1) 0);
       VelocityBlendState.LeftAmount :=
         FMath.Abs (FMath.Clamp (Y (RelativeDirection s)) (-1) 0);
       VelocityBlendState.RightAmount := UAlsMath.Clamp01 (Y (RelativeDirection s)) |}.
Proof. intro Hsnap. unfold RefreshVelocityBlend. rewrite Hsnap. reflexivity. Qed.

Lemma quotient_zero (x n : float) : x == 0 -> x / n == 0.
Proof. intros ->. unfold Qdiv. apply Qmult_0_l. Qed.

Lemma quotient_nonzero (x n : float) : 0 < n -> ~ x == 0 -> ~ Qabs (x / n) == 0.
Proof.
  intros Hn Hx Habs. apply Hx.
  assert (x / n == 0) as Hq.
  { revert Habs. apply Qabs_case; intros; lra. }
  rewrite <- (Qmult_div_r x n) by lra. rewrite Hq. apply Qmult_0_r.
Qed.

(** C5, as amended.  In the snap branch of [RefreshVelocityBlend], for a
    relative velocity direction that is not the zero vector: the forward and
    backward amounts sum to the absolute value of the X component of the
    L1-normalised direction, the left and right amounts to that of its Y
    component; and for a direction along the X or the Y axis exactly one of
    the two pairs is non-zero. *)
Theorem velocity_blend_snap
    (st : AlsSettings.t) (DeltaTime : float) (s : Instance.t) :
  VelocityBlendState.bReinitializationRequired
    (GroundedState.VelocityBlend (Instance.GroundedState s))
  || Instance.bPendingUpdate s = true ->
  ~ L1Norm (RelativeVelocityDirection s) == 0 ->
  let Blend :=
    GroundedState.VelocityBlend
      (Instance.GroundedState (RefreshVelocityBlend st DeltaTime s)) in
  VelocityBlendState.ForwardAmount Blend + VelocityBlendState.BackwardAmount Blend
  == Qabs (X (RelativeDirection s))
  /\ VelocityBlendState.LeftAmount Blend + VelocityBlendState.RightAmount Blend
     == Qabs (Y (RelativeDirection s))
  /\ (HorizontalAxisAligned (RelativeVelocityDirection s) -> ExactlyOnePairNonZero Blend).
Proof.
  intros Hsnap Hne Blend. subst Blend.
  rewrite (RefreshVelocityBlend_snap _ _ _ Hsnap).
  destruct (RelativeDirection_bounds s Hne) as [HX HY].
  pose proof (snap_pair _ HX) as HFB. pose proof (snap_pair _ HY) as HRL.
  unfold ExactlyOnePairNonZero.
  cbn [VelocityBlendState.ForwardAmount VelocityBlendState.BackwardAmount
       VelocityBlendState.LeftAmount VelocityBlendState.RightAmount].
  split; [exact HFB|]. split; [rewrite Qplus_comm; exact HRL|].
  pose proof (L1Norm_pos _ Hne) as Hpos.
  assert (X (RelativeDirection s)
          = X (RelativeVelocityDirection s) / L1Norm (RelativeVelocityDirection s)) as EX
    by reflexivity.
  assert (Y (RelativeDirection s)
          = Y (RelativeVelocityDirection s) / L1Norm (RelativeVelocityDirection s)) as EY
    by reflexivity.
  rewrite (Qplus_comm (FMath.Abs _) (UAlsMath.Clamp01 (Y _))).
  rewrite HFB, HRL, EX, EY.
  intros [(Hx & Hy & _) | (Hx & Hy & _)]; [left | right]; split.
  - apply quotient_nonzero; assumption.
  - rewrite (quotient_zero _ _ Hy). reflexivity.
  - rewrite (quotient_zero _ _ Hx). reflexivity.
  - apply quotient_nonzero; assumption.
Qed.

(** *** Look towards camera *)

(** C10.  After [RefreshLookTowardsCamera], in exact arithmetic, the left and
    right yaw amounts sum to 1, and the forward yaw amount is in the closed
    interval from 0 to 1 whenever the stored yaw angle is between -180 and
    180.  On the single precision values that the code stores the sum can
    miss 1 by the rounding of the right amount. *)
Theorem look_towards_camera_amounts
    (st : AlsSettings.t) (DeltaTime : float) (s : Instance.t) :
  let Camera :=
    ViewState.LookTowardsCamera
      (Instance.ViewState (RefreshLookTowardsCamera st DeltaTime s)) in
  LookTowardsCameraState.YawLeftAmount Camera + LookTowardsCameraState.YawRightAmount Camera
  == 1
  /\ (-180 <= LookTowardsCameraState.YawAngle Camera <= 180 ->
      Unit01 (LookTowardsCameraState.YawForwardAmount Camera)).
Proof.
  cbn zeta. unfold RefreshLookTowardsCamera.
  cbn [Instance.ViewState Instance.set_ViewState ViewState.LookTowardsCamera
       ViewState.set_LookTowardsCamera LookTowardsCameraState.YawLeftAmount
       LookTowardsCameraState.YawRightAmount LookTowardsCameraState.YawAngle
       LookTowardsCameraState.YawForwardAmount].
  split.
  - lra.
  - intros [Hlo Hhi]. unfold Unit01.
    set (a := NormalizeAxis _) in *. clearbody a.
    change (a / 360) with (a * (1 # 360)). lra.
Qed.

(** *** View *)

(** C9, as amended.  A view refresh whose look amount is relevant refreshes
    exactly one look mode and marks the other one for reinitialisation:
    look-towards-input in velocity direction rotation mode, look-towards-camera
    in any other mode.  A view refresh whose look amount is not relevant
    refreshes neither and marks both. *)
Theorem view_refresh_look_modes
    (st : AlsSettings.t) (h : Host.t) (DeltaTime : float) (s : Instance.t) :
  let Before := Instance.ViewState s in
  let After := Instance.ViewState (RefreshView st h DeltaTime s) in
  let Input := ViewState.LookTowardsInput in
  let Camera := ViewState.LookTowardsCamera in
  (IsRelevant (ViewState.LookAmount After) = true ->
   IsVelocityDirection (Instance.RotationMode s) = true ->
   LookTowardsInputState.bReinitializationRequired (Input After) = false
   /\ Camera After = LookTowardsCameraState.set_bReinitializationRequired true (Camera Before))
  /\ (IsRelevant (ViewState.LookAmount After) = true ->
      IsVelocityDirection (Instance.RotationMode s) = false ->
      LookTowardsCameraState.bReinitializationRequired (Camera After) = false
      /\ Input After = LookTowardsInputState.set_bReinitializationRequired true (Input Before))
  /\ (IsRelevant (ViewState.LookAmount After) = false ->
      Input After = LookTowardsInputState.set_bReinitializationRequired true (Input Before)
      /\ Camera After
         = LookTowardsCameraState.set_bReinitializationRequired true (Camera Before)).
Proof.
  cbn zeta. rewrite RefreshView_LookAmount.
  unfold RefreshView.
  destruct (negb (ActionIsValid _)); destruct (IsSpineRotationAllowed s);
    cbn [ViewState.LookAmount ViewState.set_SpineYawAngle ViewState.set_TargetSpineYawAngle
         ViewState.set_LookAmount];
    destruct (IsRelevant _); destruct (IsVelocityDirection _); cbn [negb];
    repeat split_and; intros; try discriminate; split; reflexivity.
Qed.

(** *** Entry points *)

(** C8.  With the settings or the character missing, each of the three
    per-frame entry points returns the instance as it was: no field of any
    state block changes and no animation is played. *)
Theorem entry_points_skip_without_collaborators
    (h : Host.t) (DeltaTime : float) (s : Instance.t) :
  Instance.Settings s = None \/ Instance.Character s = None ->
  (NativeUpdateAnimation h DeltaTime s = s
   /\ NativeThreadSafeUpdateAnimation h DeltaTime s = s
   /\ NativePostEvaluateAnimation s = s)
  /\ NewEffects s (NativeUpdateAnimation h DeltaTime s) = []
  /\ NewEffects s (NativeThreadSafeUpdateAnimation h DeltaTime s) = []
  /\ NewEffects s (NativePostEvaluateAnimation s) = [].
Proof.
  intros Hnull.
  assert (NativeUpdateAnimation h DeltaTime s = s
          /\ NativeThreadSafeUpdateAnimation h DeltaTime s = s
          /\ NativePostEvaluateAnimation s = s) as (H1 & H2 & H3).
  { unfold NativeUpdateAnimation, NativeThreadSafeUpdateAnimation,
      NativePostEvaluateAnimation.
    destruct Hnull as [-> | ->]; [|destruct (Instance.Settings s)]; auto. }
  rewrite H1, H2, H3.
  repeat split_and; try reflexivity; apply NewEffects_same; reflexivity.
Qed.

(** *** Dynamic transitions *)

Lemma RefreshDynamicTransition_cases st h s :
  NewEffects s (RefreshDynamicTransition st h s) = []
  \/ exists Side Animation,
      (NewEffects s (RefreshDynamicTransition st h s)
       = QueueDynamicTransition Side Animation
         :: (if Host.IsInGameThread h
             then [PlaySlotAnimationAsDynamicMontage (Some Animation) TransitionSlot
                     (TransitionsSettings.DynamicTransitionBlendTime (AlsSettings.Transitions st))
                     (TransitionsSettings.DynamicTransitionBlendTime (AlsSettings.Transitions st))
                     (TransitionsSettings.DynamicTransitionPlayRate (AlsSettings.Transitions st))
                     1 0 0]
             else []))
      /\ (FrameDelay s <= 0)%Z
      /\ FrameDelay (RefreshDynamicTransition st h s) = 2%Z
      /\ Instance.bAnimationCurvesRelevant s = true
      /\ TransitionsState.bTransitionsAllowed (Instance.TransitionsState s) = true
      /\ LocomotionState.bMoving (Instance.LocomotionState s) = false
      /\ IsGroundedMode (Instance.LocomotionMode s) = true
      /\ bTransitionAllowed st s (FootOf Side (Instance.FeetState s)) = true
      /\ (bTransitionAllowed st s (FootOf (OtherSide Side) (Instance.FeetState s)) = true ->
          match Side with
          | FootLeft =>
              FootLockDistanceSquared (FeetState.Right (Instance.FeetState s))
              <= FootLockDistanceSquared (FeetState.Left (Instance.FeetState s))
          | FootRight =>
              FootLockDistanceSquared (FeetState.Left (Instance.FeetState s))
              < FootLockDistanceSquared (FeetState.Right (Instance.FeetState s))
          end).
Proof.
  unfold RefreshDynamicTransition, FrameDelay.
  destruct (Z.gtb_spec (TransitionsState.DynamicTransitionsFrameDelay (Instance.TransitionsState s)) 0) as [Hd|Hd];
    [left; apply NewEffects_same; reflexivity|].
  destruct (Instance.bAnimationCurvesRelevant s) eqn:Hrel; cbn [negb orb];
    [|left; apply NewEffects_same; reflexivity].
  destruct (TransitionsState.bTransitionsAllowed _) eqn:Hallowed; cbn [negb orb];
    [|left; apply NewEffects_same; reflexivity].
  destruct (LocomotionState.bMoving _) eqn:Hmoving; cbn [negb orb];
    [left; apply NewEffects_same; reflexivity|].
  destruct (IsGroundedMode _) eqn:Hgrounded; cbn [negb orb];
    [|left; apply NewEffects_same; reflexivity].
  destruct (bTransitionAllowed st s (FeetState.Left _)) eqn:HL;
    destruct (bTransitionAllowed st s (FeetState.Right _)) eqn:HR; cbn [negb andb].
  - qcase.
    + destruct (DynamicTransitionLeftAnimation st s) as [a|];
        [right; exists FootLeft, a | left; apply NewEffects_same; reflexivity].
      destruct (Host.IsInGameThread h); cbn [FootOf OtherSide];
        repeat split_and; try assumption; try reflexivity;
        try (apply NewEffects_app; reflexivity);
        try (apply (NewEffects_app2 _ _ [_] [_]); reflexivity); intros; assumption.
    + destruct (DynamicTransitionRightAnimation st s) as [a|];
        [right; exists FootRight, a | left; apply NewEffects_same; reflexivity].
      destruct (Host.IsInGameThread h); cbn [FootOf OtherSide];
        repeat split_and; try assumption; try reflexivity;
        try (apply NewEffects_app; reflexivity);
        try (apply (NewEffects_app2 _ _ [_] [_]); reflexivity); intros; assumption.
  - destruct (DynamicTransitionLeftAnimation st s) as [a|];
      [right; exists FootLeft, a | left; apply NewEffects_same; reflexivity].
    destruct (Host.IsInGameThread h); cbn [FootOf OtherSide];
      repeat split_and; try assumption; try reflexivity;
      try (apply NewEffects_app; reflexivity);
        try (apply (NewEffects_app2 _ _ [_] [_]); reflexivity); intros; congruence.
  - destruct (DynamicTransitionRightAnimation st s) as [a|];
      [right; exists FootRight, a | left; apply NewEffects_same; reflexivity].
    destruct (Host.IsInGameThread h); cbn [FootOf OtherSide];
      repeat split_and; try assumption; try reflexivity;
      try (apply NewEffects_app; reflexivity);
        try (apply (NewEffects_app2 _ _ [_] [_]); reflexivity); intros; congruence.
  - left; apply NewEffects_same; reflexivity.
Qed.

Lemma bTransitionAllowed_true st s f :
  bTransitionAllowed st s f = true ->
  IsRelevant (FootState.LockAmount f) = true
  /\ FootLockDistanceThresholdSquared st s < FootLockDistanceSquared f.
Proof.
  unfold bTransitionAllowed. intros H. apply andb_true_iff in H as [H1 H2].
  split; [assumption | apply Qltb_true_iff; assumption].
Qed.

Lemma bTransitionAllowed_intro st s f :
  IsRelevant (FootState.LockAmount f) = true ->
  FootLockDistanceThresholdSquared st s < FootLockDistanceSquared f ->
  bTransitionAllowed st s f = true.
Proof.
  unfold bTransitionAllowed. intros H1 H2. apply andb_true_iff.
  split; [assumption | apply Qltb_true_iff; assumption].
Qed.

(** An update that finds the frame-delay counter above 0 only decrements
    it. *)
Lemma RefreshDynamicTransition_waiting st h s :
  (0 < FrameDelay s)%Z ->
  NewEffects s (RefreshDynamicTransition st h s) = []
  /\ FrameDelay (RefreshDynamicTransition st h s) = (FrameDelay s - 1)%Z.
Proof.
  intros Hd. unfold RefreshDynamicTransition, FrameDelay in *.
  destruct (Z.gtb_spec (TransitionsState.DynamicTransitionsFrameDelay
                          (Instance.TransitionsState s)) 0); [|lia].
  split; [apply NewEffects_same; reflexivity | reflexivity].
Qed.

(** The animation that a selection queues is the one of the selected side, and
    it is what the queue holds afterwards off the game thread. *)
Lemma RefreshDynamicTransition_animation st h s Side Animation :
  In (QueueDynamicTransition Side Animation)
    (NewEffects s (RefreshDynamicTransition st h s)) ->
  DynamicTransitionAnimation st s Side = Some Animation
  /\ QueuedDynamicTransition (RefreshDynamicTransition st h s)
     = (if Host.IsInGameThread h then None else Some Animation)
  /\ NewEffects s (RefreshDynamicTransition st h s)
     = DynamicTransitionSelection st h Side (Some Animation).
Proof.
  unfold RefreshDynamicTransition.
  destruct (_ >? _)%Z; [rewrite NewEffects_same by reflexivity; intros []|].
  destruct (_ || _ || _ || _); [rewrite NewEffects_same by reflexivity; intros []|].
  destruct (negb _ && negb _); [rewrite NewEffects_same by reflexivity; intros []|].
  assert (forall Side' (Selected : option Anim),
             DynamicTransitionAnimation st s Side' = Selected ->
             In (QueueDynamicTransition Side Animation)
               (NewEffects s
                  (match Selected with
                   | Some a =>
                       let s1 :=
                         emit (QueueDynamicTransition Side' a)
                           (Instance.set_TransitionsState
                              (TransitionsState.set_QueuedDynamicTransitionAnimation (Some a)
                                 (TransitionsState.set_DynamicTransitionsFrameDelay 2%Z
                                    (Instance.TransitionsState s)))
                              s) in
                       if Host.IsInGameThread h
                       then PlayQueuedDynamicTransitionAnimation st s1 else s1
                   | None => s
                   end)) ->
             DynamicTransitionAnimation st s Side = Some Animation
             /\ QueuedDynamicTransition
                  (match Selected with
                   | Some a =>
                       let s1 :=
                         emit (QueueDynamicTransition Side' a)
                           (Instance.set_TransitionsState
                              (TransitionsState.set_QueuedDynamicTransitionAnimation (Some a)
                                 (TransitionsState.set_DynamicTransitionsFrameDelay 2%Z
                                    (Instance.TransitionsState s)))
                              s) in
                       if Host.IsInGameThread h
                       then PlayQueuedDynamicTransitionAnimation st s1 else s1
                   | None => s
                   end)
                = (if Host.IsInGameThread h then None else Some Animation)
             /\ NewEffects s
                  (match Selected with
                   | Some a =>
                       let s1 :=
                         emit (QueueDynamicTransition Side' a)
                           (Instance.set_TransitionsState
                              (TransitionsState.set_QueuedDynamicTransitionAnimation (Some a)
                                 (TransitionsState.set_DynamicTransitionsFrameDelay 2%Z
                                    (Instance.TransitionsState s)))
                              s) in
                       if Host.IsInGameThread h
                       then PlayQueuedDynamicTransitionAnimation st s1 else s1
                   | None => s
                   end)
                = DynamicTransitionSelection st h Side (Some Animation)) as Hgen.
  { intros Side' [a|] Hselected; [|rewrite NewEffects_same by reflexivity; intros []].
    cbn zeta. unfold DynamicTransitionSelection, DynamicTransitionMontage.
    destruct (Host.IsInGameThread h).
    - rewrite (NewEffects_app2 _ _ [QueueDynamicTransition Side' a]
                 [PlaySlotAnimationAsDynamicMontage (Some a) TransitionSlot
                    (TransitionsSettings.DynamicTransitionBlendTime (AlsSettings.Transitions st))
                    (TransitionsSettings.DynamicTransitionBlendTime (AlsSettings.Transitions st))
                    (TransitionsSettings.DynamicTransitionPlayRate (AlsSettings.Transitions st))
                    1 0 0]) by reflexivity.
      intros [Heq | [Heq | []]]; [|discriminate].
      injection Heq as -> ->. repeat split_and; [assumption | reflexivity | reflexivity].
    - rewrite (NewEffects_app _ _ [QueueDynamicTransition Side' a]) by reflexivity.
      intros [Heq | []]. injection Heq as -> ->.
      repeat split_and; [assumption | reflexivity | reflexivity]. }
  destruct (negb (bTransitionAllowed st s (FeetState.Left _)));
    [exact (Hgen FootRight _ eq_refl)|].
  destruct (negb (bTransitionAllowed st s (FeetState.Right _)));
    [exact (Hgen FootLeft _ eq_refl)|].
  destruct (_ >=? _); [exact (Hgen FootLeft _ eq_refl) | exact (Hgen FootRight _ eq_refl)].
Qed.

(** The selection of an update whose conditions hold, for the foot that the
    comparison of the lock distances prefers. *)
Lemma RefreshDynamicTransition_selected st h s Side :
  (FrameDelay s <= 0)%Z ->
  Instance.bAnimationCurvesRelevant s = true ->
  TransitionsState.bTransitionsAllowed (Instance.TransitionsState s) = true ->
  LocomotionState.bMoving (Instance.LocomotionState s) = false ->
  IsGroundedMode (Instance.LocomotionMode s) = true ->
  bTransitionAllowed st s (FootOf Side (Instance.FeetState s)) = true ->
  (bTransitionAllowed st s (FootOf (OtherSide Side) (Instance.FeetState s)) = true ->
   match Side with
   | FootLeft =>
       FootLockDistanceSquared (FeetState.Right (Instance.FeetState s))
       <= FootLockDistanceSquared (FeetState.Left (Instance.FeetState s))
   | FootRight =>
       FootLockDistanceSquared (FeetState.Left (Instance.FeetState s))
       < FootLockDistanceSquared (FeetState.Right (Instance.FeetState s))
   end) ->
  NewEffects s (RefreshDynamicTransition st h s)
  = DynamicTransitionSelection st h Side (DynamicTransitionAnimation st s Side)
  /\ QueuedDynamicTransition (RefreshDynamicTransition st h s)
     = match DynamicTransitionAnimation st s Side with
       | Some a => if Host.IsInGameThread h then None else Some a
       | None => QueuedDynamicTransition s
       end.
Proof.
  intros Hd Hrel Hallowed Hmoving Hgrounded Hchosen Hother.
  unfold RefreshDynamicTransition, FrameDelay in *.
  destruct (Z.gtb_spec (TransitionsState.DynamicTransitionsFrameDelay
                          (Instance.TransitionsState s)) 0); [lia|].
  rewrite Hrel, Hallowed, Hmoving, Hgrounded. cbn [negb orb].
  assert (forall Selected : option Anim,
             NewEffects s
               (match Selected with
                | Some a =>
                    let s1 :=
                      emit (QueueDynamicTransition Side a)
                        (Instance.set_TransitionsState
                           (TransitionsState.set_QueuedDynamicTransitionAnimation (Some a)
                              (TransitionsState.set_DynamicTransitionsFrameDelay 2%Z
                                 (Instance.TransitionsState s)))
                           s) in
                    if Host.IsInGameThread h
                    then PlayQueuedDynamicTransitionAnimation st s1 else s1
                | None => s
                end)
             = DynamicTransitionSelection st h Side Selected
             /\ QueuedDynamicTransition
                  (match Selected with
                   | Some a =>
                       let s1 :=
                         emit (QueueDynamicTransition Side a)
                           (Instance.set_TransitionsState
                              (TransitionsState.set_QueuedDynamicTransitionAnimation (Some a)
                                 (TransitionsState.set_DynamicTransitionsFrameDelay 2%Z
                                    (Instance.TransitionsState s)))
                              s) in
                       if Host.IsInGameThread h
                       then PlayQueuedDynamicTransitionAnimation st s1 else s1
                   | None => s
                   end)
                = match Selected with
                  | Some a => if Host.IsInGameThread h then None else Some a
                  | None => QueuedDynamicTransition s
                  end) as Hgen.
  { intros [a|]; [|split; [apply NewEffects_same; reflexivity | reflexivity]].
    cbn zeta. unfold DynamicTransitionSelection, DynamicTransitionMontage.
    destruct (Host.IsInGameThread h); split; try reflexivity.
    - apply (NewEffects_app2 _ _ [_] [_]). reflexivity.
    - apply NewEffects_app. reflexivity. }
  destruct Side; cbn [FootOf OtherSide DynamicTransitionAnimation] in *.
  - rewrite Hchosen. cbn [negb andb].
    destruct (bTransitionAllowed st s (FeetState.Right _)); cbn [negb]; [|apply Hgen].
    rewrite (proj2 (Qleb_true_iff _ _) (Hother eq_refl)). apply Hgen.
  - rewrite Hchosen.
    destruct (bTransitionAllowed st s (FeetState.Left _)); cbn [negb andb]; [|apply Hgen].
    rewrite (proj2 (Qleb_false_iff _ _) (Hother eq_refl)). apply Hgen.
Qed.

(** C7.  An update of [RefreshDynamicTransition] selects a transition only if
    the character is grounded, not moving, transitions are allowed, the
    animation curves are relevant and the frame-delay counter has run down;
    a selection sets the counter to 2, and an update that finds the counter
    above 0 only decrements it.  The foot whose animation is selected has a
    relevant lock amount and a squared lock distance above the squared scaled
    threshold, and when the other foot qualifies as well, its lock distance is
    not larger than that of the selected foot.  The animation that is queued,
    held by the queue off the game thread and played on the game thread, is
    the dynamic transition of the settings for that foot and the stance.
    Conversely, when these conditions hold, a foot that qualifies, and whose
    lock distance is the larger one when both qualify (the left foot on
    equal distances), is the foot whose animation is selected; and nothing is
    selected when that animation is null. *)
Theorem dynamic_transition_selection
    (st : AlsSettings.t) (h : Host.t) (s : Instance.t) :
  let After := RefreshDynamicTransition st h s in
  (NewEffects s After <> [] ->
   IsGroundedMode (Instance.LocomotionMode s) = true
   /\ LocomotionState.bMoving (Instance.LocomotionState s) = false
   /\ TransitionsState.bTransitionsAllowed (Instance.TransitionsState s) = true
   /\ Instance.bAnimationCurvesRelevant s = true
   /\ (FrameDelay s <= 0)%Z
   /\ FrameDelay After = 2%Z)
  /\ ((0 < FrameDelay s)%Z ->
      NewEffects s After = [] /\ FrameDelay After = (FrameDelay s - 1)%Z)
  /\ (forall Side Animation,
         In (QueueDynamicTransition Side Animation) (NewEffects s After) ->
         let Chosen := FootOf Side (Instance.FeetState s) in
         let Other := FootOf (OtherSide Side) (Instance.FeetState s) in
         IsRelevant (FootState.LockAmount Chosen) = true
         /\ FootLockDistanceThresholdSquared st s < FootLockDistanceSquared Chosen
         /\ (IsRelevant (FootState.LockAmount Other) = true ->
             FootLockDistanceThresholdSquared st s < FootLockDistanceSquared Other ->
             FootLockDistanceSquared Other <= FootLockDistanceSquared Chosen)
         /\ DynamicTransitionAnimation st s Side = Some Animation
         /\ QueuedDynamicTransition After
            = (if Host.IsInGameThread h then None else Some Animation)
         /\ NewEffects s After = DynamicTransitionSelection st h Side (Some Animation))
  /\ (forall Side,
         let Chosen := FootOf Side (Instance.FeetState s) in
         let Other := FootOf (OtherSide Side) (Instance.FeetState s) in
         IsGroundedMode (Instance.LocomotionMode s) = true ->
         LocomotionState.bMoving (Instance.LocomotionState s) = false ->
         TransitionsState.bTransitionsAllowed (Instance.TransitionsState s) = true ->
         Instance.bAnimationCurvesRelevant s = true ->
         (FrameDelay s <= 0)%Z ->
         IsRelevant (FootState.LockAmount Chosen) = true ->
         FootLockDistanceThresholdSquared st s < FootLockDistanceSquared Chosen ->
         (IsRelevant (FootState.LockAmount Other) = true ->
          FootLockDistanceThresholdSquared st s < FootLockDistanceSquared Other ->
          match Side with
          | FootLeft => FootLockDistanceSquared Other <= FootLockDistanceSquared Chosen
          | FootRight => FootLockDistanceSquared Other < FootLockDistanceSquared Chosen
          end) ->
         NewEffects s After
         = DynamicTransitionSelection st h Side (DynamicTransitionAnimation st s Side)
         /\ QueuedDynamicTransition After
            = match DynamicTransitionAnimation st s Side with
              | Some a => if Host.IsInGameThread h then None else Some a
              | None => QueuedDynamicTransition s
              end).
Proof.
  intros After. subst After. repeat split_and.
  - intros Hnew.
    destruct (RefreshDynamicTransition_cases st h s)
      as [Hnone | (Side & Animation & _ & Hd & Hd' & Hrel & Hallowed & Hmoving & Hgrounded & _)];
      [contradiction | auto 10].
  - apply RefreshDynamicTransition_waiting.
  - intros Side Animation Hin.
    destruct (RefreshDynamicTransition_animation st h s Side Animation Hin)
      as (Hanimation & Hqueued & Hsent).
    destruct (RefreshDynamicTransition_cases st h s)
      as [Hnone | (Side' & Animation' & Heff & _ & _ & _ & _ & _ & _ & Hchosen & Hother)].
    { rewrite Hnone in Hin. destruct Hin. }
    rewrite Heff in Hin.
    assert (Side = Side') as ->.
    { destruct Hin as [Heq | Hin]; [congruence|].
      destruct (Host.IsInGameThread h); [destruct Hin as [Heq | []]; discriminate | destruct Hin]. }
    destruct (bTransitionAllowed_true _ _ _ Hchosen) as [Hrelevant Hdistance].
    cbn zeta. repeat split_and; try assumption.
    intros Hrelevant' Hdistance'.
    specialize (Hother (bTransitionAllowed_intro _ _ _ Hrelevant' Hdistance')).
    destruct Side'; cbn [FootOf OtherSide]; [assumption | apply Qlt_le_weak; assumption].
  - intros Side Chosen Other Hgrounded Hmoving Hallowed Hrel Hd Hrelevant Hdistance Hprefer.
    apply RefreshDynamicTransition_selected; try assumption.
    + apply bTransitionAllowed_intro; assumption.
    + intros Hother. destruct (bTransitionAllowed_true _ _ _ Hother) as [Ho1 Ho2].
      specialize (Hprefer Ho1 Ho2). subst Chosen Other.
      destruct Side; cbn [FootOf OtherSide] in *; assumption.
Qed.

(** After a selection, which leaves the counter at 2, the next two updates
    select nothing whatever their inputs are, and leave the counter at 0. *)
Lemma dynamic_transition_cooldown
    (st1 st2 : AlsSettings.t) (h1 h2 : Host.t) (s1 s2 : Instance.t) :
  FrameDelay s1 = 2%Z ->
  FrameDelay s2 = FrameDelay (RefreshDynamicTransition st1 h1 s1) ->
  NewEffects s1 (RefreshDynamicTransition st1 h1 s1) = []
  /\ NewEffects s2 (RefreshDynamicTransition st2 h2 s2) = []
  /\ FrameDelay (RefreshDynamicTransition st2 h2 s2) = 0%Z.
Proof.
  intros H1 H2.
  destruct (RefreshDynamicTransition_waiting st1 h1 s1) as [He1 Hd1]; [lia|].
  destruct (RefreshDynamicTransition_waiting st2 h2 s2) as [He2 Hd2]; [lia|].
  repeat split_and; try assumption. lia.
Qed.

(** *** Pending update *)

(** [RefreshFeet] raises the reinitialisation flag of the feet when
    [bPendingUpdate] is set, before it refreshes either foot. *)
Lemma RefreshFeet_pending st h dt s :
  Instance.bPendingUpdate s = true ->
  RefreshFeet st h dt s
  = RefreshFeet st h dt
      (Instance.set_FeetState
         (FeetState.set_bReinitializationRequired true (Instance.FeetState s)) s).
Proof.
  intros Hpending. unfold RefreshFeet.
  cbn [Instance.FeetState Instance.set_FeetState Instance.bPendingUpdate
       Instance.bAnimationCurvesRelevant FeetState.bReinitializationRequired
       FeetState.set_bReinitializationRequired].
  rewrite Hpending. cbn [orb]. rewrite orb_true_r. reflexivity.
Qed.

Lemma RefreshFootOffset_snap st h dt s1 s2 f1 f2 l r :
  FeetState.bReinitializationRequired (Instance.FeetState s1) = true ->
  FeetState.bReinitializationRequired (Instance.FeetState s2) = true ->
  Instance.LocomotionState s1 = Instance.LocomotionState s2 ->
  Instance.LocomotionMode s1 = Instance.LocomotionMode s2 ->
  FootState.IkAmount f1 = FootState.IkAmount f2 ->
  IsRelevant (FootState.IkAmount f1) = true ->
  IsInAirMode (Instance.LocomotionMode s1) = true
  \/ FootOffsetGroundValid s1 (FootOffsetTrace st h s1 l) = true ->
  FootOffsetOutputs (RefreshFootOffset st h s1 f1 dt l r)
  = FootOffsetOutputs (RefreshFootOffset st h s2 f2 dt l r).
Proof.
  intros Hf1 Hf2 Hloc Hmode Hik Hrel Hcase.
  unfold RefreshFootOffset.
  rewrite Hf1, Hf2, <- Hik, Hrel, <- Hmode. cbn [negb].
  destruct (IsInAirMode (Instance.LocomotionMode s1)); [reflexivity|].
  destruct Hcase as [Hair | Hvalid]; [discriminate|].
  assert (FootOffsetTrace st h s2 l = FootOffsetTrace st h s1 l) as ->.
  { unfold FootOffsetTrace. rewrite Hloc. reflexivity. }
  assert (FootOffsetGroundValid s2 (FootOffsetTrace st h s1 l) = true) as ->.
  { rewrite <- Hvalid. unfold FootOffsetGroundValid. rewrite Hloc. reflexivity. }
  rewrite Hvalid, Hloc. reflexivity.
Qed.

(** C6, as amended.  Two instances with [bPendingUpdate] set that agree on
    the inputs of the current frame (the locomotion snapshot, the view
    rotation, the locomotion mode, the IK amount of the foot and the final
    location and rotation handed to the offset step) and differ arbitrarily
    in what the previous frame left behind: the look-towards-input state, the
    look-towards-camera state and the velocity blend that the three refreshes
    write are the same, and so is everything the foot offset refresh hands
    on, provided the IK amount of the foot is relevant and the character is
    in the air or the trace under the foot finds walkable ground. *)
Theorem pending_update_snaps
    (st : AlsSettings.t) (h : Host.t) (DeltaTime : float) (s1 s2 : Instance.t) :
  Instance.bPendingUpdate s1 = true ->
  Instance.bPendingUpdate s2 = true ->
  Instance.LocomotionState s1 = Instance.LocomotionState s2 ->
  ViewState.Rotation (Instance.ViewState s1) = ViewState.Rotation (Instance.ViewState s2) ->
  Instance.LocomotionMode s1 = Instance.LocomotionMode s2 ->
  ViewState.LookTowardsInput (Instance.ViewState (RefreshLookTowardsInput st DeltaTime s1))
  = ViewState.LookTowardsInput (Instance.ViewState (RefreshLookTowardsInput st DeltaTime s2))
  /\ ViewState.LookTowardsCamera
       (Instance.ViewState (RefreshLookTowardsCamera st DeltaTime s1))
     = ViewState.LookTowardsCamera
         (Instance.ViewState (RefreshLookTowardsCamera st DeltaTime s2))
  /\ GroundedState.VelocityBlend
       (Instance.GroundedState (RefreshVelocityBlend st DeltaTime s1))
     = GroundedState.VelocityBlend
         (Instance.GroundedState (RefreshVelocityBlend st DeltaTime s2))
  /\ (forall (f1 f2 : FootState.t) (FinalLocation : FVector) (FinalRotation : FQuat),
         FeetState.bReinitializationRequired (Instance.FeetState s1) = true ->
         FeetState.bReinitializationRequired (Instance.FeetState s2) = true ->
         FootState.IkAmount f1 = FootState.IkAmount f2 ->
         IsRelevant (FootState.IkAmount f1) = true ->
         IsInAirMode (Instance.LocomotionMode s1) = true
         \/ FootOffsetGroundValid s1 (FootOffsetTrace st h s1 FinalLocation) = true ->
         FootOffsetOutputs
           (RefreshFootOffset st h s1 f1 DeltaTime FinalLocation FinalRotation)
         = FootOffsetOutputs
             (RefreshFootOffset st h s2 f2 DeltaTime FinalLocation FinalRotation)).
Proof.
  intros Hp1 Hp2 Hloc Hview Hmode. repeat split_and.
  - unfold RefreshLookTowardsInput. rewrite Hp1, Hp2, Hloc, !orb_true_r. reflexivity.
  - unfold RefreshLookTowardsCamera. rewrite Hp1, Hp2, Hloc, Hview, !orb_true_r. reflexivity.
  - unfold RefreshVelocityBlend, RelativeDirection, RelativeVelocityDirection.
    rewrite Hp1, Hp2, Hloc, !orb_true_r. reflexivity.
  - intros f1 f2 l r Hf1 Hf2 Hik Hrel Hcase.
    apply RefreshFootOffset_snap; assumption.
Qed.

(** ** Further properties of the code *)

(** *** Pose *)

Lemma gait_split (g : float) :
  0 <= g <= 3 ->
  UAlsMath.Clamp01 g + UAlsMath.Clamp01 (g - 1) + UAlsMath.Clamp01 (g - 2) == g.
Proof. intros Hg. unfold UAlsMath.Clamp01. qcases; lra. Qed.

(** X1.  After [RefreshPose] with relevant curves the gait amount is between
    0 and 3, whatever the gait curve reads, and the walking, running and
    sprinting amounts split it: they sum to the gait amount. *)
Theorem pose_gait_amounts (h : Host.t) (s : Instance.t) :
  Instance.bAnimationCurvesRelevant s = true ->
  let Pose := Instance.PoseState (RefreshPose h s) in
  0 <= PoseState.GaitAmount Pose <= 3
  /\ PoseState.GaitWalkingAmount Pose + PoseState.GaitRunningAmount Pose
     + PoseState.GaitSprintingAmount Pose
     == PoseState.GaitAmount Pose.
Proof.
  intros Hrel. unfold RefreshPose. rewrite Hrel. cbn.
  assert (0 <= FMath.Clamp (Host.GetCurveValue h PoseGaitCurve) 0 3 <= 3) as Hg
    by (apply Clamp_range; lra).
  split; [exact Hg | apply gait_split; exact Hg].
Qed.

(** *** Grounded *)

Lemma RefreshGroundedLeanAmount_GroundedState st a dt s :
  Instance.GroundedState (RefreshGroundedLeanAmount st a dt s) = Instance.GroundedState s.
Proof. unfold RefreshGroundedLeanAmount. destruct (Instance.bPendingUpdate s); reflexivity. Qed.

Lemma RefreshGrounded_moving st h dt s :
  IsGroundedMode (Instance.LocomotionMode s) = true ->
  LocomotionState.bMoving (Instance.LocomotionState s) = true ->
  exists s1,
    Instance.GroundedState (RefreshGrounded st h dt s)
    = Instance.GroundedState (RefreshCrouchingPlayRate st (RefreshStandingPlayRate st s1)).
Proof.
  intros Hgrounded Hmoving. unfold RefreshGrounded.
  cbn [Instance.LocomotionMode Instance.LocomotionState Instance.set_GroundedState].
  rewrite Hgrounded, Hmoving. cbn [negb].
  rewrite RefreshGroundedLeanAmount_GroundedState. eexists. reflexivity.
Qed.

Lemma RefreshCrouchingPlayRate_curve_amounts st s :
  GroundedState.HipsDirectionLockAmount (Instance.GroundedState (RefreshCrouchingPlayRate st s))
  = GroundedState.HipsDirectionLockAmount (Instance.GroundedState s).
Proof. reflexivity. Qed.

Lemma RefreshStandingPlayRate_curve_amounts st s :
  GroundedState.HipsDirectionLockAmount (Instance.GroundedState (RefreshStandingPlayRate st s))
  = GroundedState.HipsDirectionLockAmount (Instance.GroundedState s).
Proof. reflexivity. Qed.

Lemma RefreshWalkRunBlendAmount_curve_amounts  s :
  GroundedState.HipsDirectionLockAmount (Instance.GroundedState (RefreshWalkRunBlendAmount  s))
  = GroundedState.HipsDirectionLockAmount (Instance.GroundedState s).
Proof. reflexivity. Qed.

Lemma RefreshStrideBlendAmount_curve_amounts st s :
  GroundedState.HipsDirectionLockAmount (Instance.GroundedState (RefreshStrideBlendAmount st s))
  = GroundedState.HipsDirectionLockAmount (Instance.GroundedState s).
Proof. reflexivity. Qed.

Lemma RefreshRotationYawOffsets_curve_amounts st s :
  GroundedState.HipsDirectionLockAmount (Instance.GroundedState (RefreshRotationYawOffsets st s))
  = GroundedState.HipsDirectionLockAmount (Instance.GroundedState s).
Proof. reflexivity. Qed.

Lemma RefreshSprint_curve_amounts a dt s :
  GroundedState.HipsDirectionLockAmount (Instance.GroundedState (RefreshSprint a dt s))
  = GroundedState.HipsDirectionLockAmount (Instance.GroundedState s).
Proof. unfold RefreshSprint; destruct (negb _); reflexivity. Qed.

Lemma RefreshVelocityBlend_curve_amounts st dt s :
  GroundedState.HipsDirectionLockAmount (Instance.GroundedState (RefreshVelocityBlend st dt s))
  = GroundedState.HipsDirectionLockAmount (Instance.GroundedState s).
Proof. reflexivity. Qed.

Lemma RefreshMovementDirection_curve_amounts  s :
  GroundedState.HipsDirectionLockAmount (Instance.GroundedState (RefreshMovementDirection  s))
  = GroundedState.HipsDirectionLockAmount (Instance.GroundedState s).
Proof. unfold RefreshMovementDirection; destruct (_ || _); reflexivity. Qed.

(** X2.  After [RefreshGrounded] the hips direction lock amount is between -1
    and 1; and for a moving character in grounded mode the standing play rate
    is between 0 and 3 and the crouching play rate between 0 and 2, whatever
    the speed, the stride blend and the scale are. *)
Theorem grounded_play_rates_clamped
    (st : AlsSettings.t) (h : Host.t) (DeltaTime : float) (s : Instance.t) :
  let Grounded := Instance.GroundedState (RefreshGrounded st h DeltaTime s) in
  -1 <= GroundedState.HipsDirectionLockAmount Grounded <= 1
  /\ (IsGroundedMode (Instance.LocomotionMode s) = true ->
      LocomotionState.bMoving (Instance.LocomotionState s) = true ->
      0 <= GroundedState.StandingPlayRate Grounded <= 3
      /\ 0 <= GroundedState.CrouchingPlayRate Grounded <= 2).
Proof.
  cbn zeta. split.
  - assert (GroundedState.HipsDirectionLockAmount
              (Instance.GroundedState (RefreshGrounded st h DeltaTime s))
            = FMath.Clamp (Host.GetCurveValue h HipsDirectionLockCurve) (-1) 1) as ->.
    { unfold RefreshGrounded.
      cbn [Instance.LocomotionMode Instance.LocomotionState Instance.set_GroundedState].
      destruct (negb (IsGroundedMode _)); [reflexivity|].
      destruct (negb (LocomotionState.bMoving _)); [reflexivity|].
      rewrite RefreshGroundedLeanAmount_GroundedState,
        RefreshCrouchingPlayRate_curve_amounts, RefreshStandingPlayRate_curve_amounts,
        RefreshWalkRunBlendAmount_curve_amounts, RefreshStrideBlendAmount_curve_amounts,
        RefreshSprint_curve_amounts, RefreshRotationYawOffsets_curve_amounts,
        RefreshVelocityBlend_curve_amounts, RefreshMovementDirection_curve_amounts.
      reflexivity. }
    apply Clamp_range. lra.
  - intros Hgrounded Hmoving.
    destruct (RefreshGrounded_moving st h DeltaTime s Hgrounded Hmoving) as [s1 ->].
    unfold RefreshCrouchingPlayRate, RefreshStandingPlayRate.
    cbn [Instance.GroundedState Instance.set_GroundedState GroundedState.StandingPlayRate
         GroundedState.CrouchingPlayRate GroundedState.set_StandingPlayRate
         GroundedState.set_CrouchingPlayRate].
    split; apply Clamp_range; lra.
Qed.

Lemma RefreshVelocityBlend_ext st dt s1 s2 :
  GroundedState.VelocityBlend (Instance.GroundedState s1)
  = GroundedState.VelocityBlend (Instance.GroundedState s2) ->
  Instance.bPendingUpdate s1 = Instance.bPendingUpdate s2 ->
  Instance.LocomotionState s1 = Instance.LocomotionState s2 ->
  GroundedState.VelocityBlend (Instance.GroundedState (RefreshVelocityBlend st dt s1))
  = GroundedState.VelocityBlend (Instance.GroundedState (RefreshVelocityBlend st dt s2)).
Proof.
  intros Hblend Hpending Hloc.
  unfold RefreshVelocityBlend, RelativeDirection, RelativeVelocityDirection.
  cbn [Instance.GroundedState Instance.set_GroundedState GroundedState.VelocityBlend
       GroundedState.set_VelocityBlend].
  rewrite Hblend, Hpending, Hloc. reflexivity.
Qed.

Lemma RefreshSprint_VelocityBlend a dt s :
  GroundedState.VelocityBlend (Instance.GroundedState (RefreshSprint a dt s))
  = GroundedState.VelocityBlend (Instance.GroundedState s).
Proof. unfold RefreshSprint. destruct (negb _); reflexivity. Qed.

Lemma RefreshCrouchingPlayRate_VelocityBlend st s :
  GroundedState.VelocityBlend (Instance.GroundedState (RefreshCrouchingPlayRate st s))
  = GroundedState.VelocityBlend (Instance.GroundedState s).
Proof. reflexivity. Qed.

Lemma RefreshStandingPlayRate_VelocityBlend st s :
  GroundedState.VelocityBlend (Instance.GroundedState (RefreshStandingPlayRate st s))
  = GroundedState.VelocityBlend (Instance.GroundedState s).
Proof. reflexivity. Qed.

Lemma RefreshWalkRunBlendAmount_VelocityBlend s :
  GroundedState.VelocityBlend (Instance.GroundedState (RefreshWalkRunBlendAmount s))
  = GroundedState.VelocityBlend (Instance.GroundedState s).
Proof. reflexivity. Qed.

Lemma RefreshStrideBlendAmount_VelocityBlend st s :
  GroundedState.VelocityBlend (Instance.GroundedState (RefreshStrideBlendAmount st s))
  = GroundedState.VelocityBlend (Instance.GroundedState s).
Proof. reflexivity. Qed.

Lemma RefreshRotationYawOffsets_VelocityBlend st s :
  GroundedState.VelocityBlend (Instance.GroundedState (RefreshRotationYawOffsets st s))
  = GroundedState.VelocityBlend (Instance.GroundedState s).
Proof. reflexivity. Qed.

Lemma RefreshGrounded_VelocityBlend st h dt s :
  IsGroundedMode (Instance.LocomotionMode s) = true ->
  LocomotionState.bMoving (Instance.LocomotionState s) = true ->
  GroundedState.VelocityBlend (Instance.GroundedState (RefreshGrounded st h dt s))
  = GroundedState.VelocityBlend (Instance.GroundedState (RefreshVelocityBlend st dt s)).
Proof.
  intros Hgrounded Hmoving. unfold RefreshGrounded.
  cbn [Instance.LocomotionMode Instance.LocomotionState Instance.set_GroundedState].
  rewrite Hgrounded, Hmoving. cbn [negb].
  rewrite RefreshGroundedLeanAmount_GroundedState,
    RefreshCrouchingPlayRate_VelocityBlend, RefreshStandingPlayRate_VelocityBlend,
    RefreshWalkRunBlendAmount_VelocityBlend, RefreshStrideBlendAmount_VelocityBlend,
    RefreshSprint_VelocityBlend, RefreshRotationYawOffsets_VelocityBlend.
  apply RefreshVelocityBlend_ext;
    unfold RefreshMovementDirection; destruct (_ || _); reflexivity.
Qed.

(** X3.  Leaving grounded mode marks the velocity blend for reinitialisation
    and clears the sprint time, so that on the next refresh of a moving
    character in grounded mode the velocity blend snaps to the split of the
    current direction instead of interpolating from the amounts it had, also
    when [bPendingUpdate] is not set. *)
Theorem velocity_blend_snaps_after_leaving_ground
    (st st' : AlsSettings.t) (h h' : Host.t) (DeltaTime DeltaTime' : float)
    (s s' : Instance.t) :
  IsGroundedMode (Instance.LocomotionMode s) = false ->
  Instance.GroundedState s' = Instance.GroundedState (RefreshGrounded st h DeltaTime s) ->
  IsGroundedMode (Instance.LocomotionMode s') = true ->
  LocomotionState.bMoving (Instance.LocomotionState s') = true ->
  GroundedState.SprintTime (Instance.GroundedState s') = 0
  /\ GroundedState.VelocityBlend (Instance.GroundedState (RefreshGrounded st' h' DeltaTime' s'))
     = SnappedVelocityBlend s'.
Proof.
  intros Hair Hstate Hgrounded Hmoving.
  assert (Instance.GroundedState (RefreshGrounded st h DeltaTime s)
          = GroundedState.set_SprintTime 0
              (GroundedState.set_VelocityBlend
                 (VelocityBlendState.set_bReinitializationRequired true
                    (GroundedState.VelocityBlend (Instance.GroundedState s)))
                 (GroundedState.set_HipsDirectionLockAmount
                    (FMath.Clamp (Host.GetCurveValue h HipsDirectionLockCurve) (-1) 1)
                    (GroundedState.set_SprintBlockAmount
                       (GetCurveValueClamped01 h SprintBlockCurve)
                       (Instance.GroundedState s))))) as Hleft.
  { unfold RefreshGrounded.
    cbn [Instance.LocomotionMode Instance.set_GroundedState].
    rewrite Hair. reflexivity. }
  rewrite Hleft in Hstate. split.
  - rewrite Hstate. reflexivity.
  - rewrite (RefreshGrounded_VelocityBlend _ _ _ _ Hgrounded Hmoving).
    apply RefreshVelocityBlend_snap. rewrite Hstate. reflexivity.
Qed.

(** X4.  [RefreshSprint] lets the sprint acceleration amount be non-zero only
    while the character sprints, for less than half a second of sprint time,
    and never on a pending update; when the character does not sprint it
    clears the sprint time. *)
Theorem sprint_acceleration_pulse
    (RelativeAccelerationAmount : FVector) (DeltaTime : float) (s : Instance.t) :
  let Grounded := Instance.GroundedState (RefreshSprint RelativeAccelerationAmount DeltaTime s) in
  (IsSprinting (Instance.Gait s) = false ->
   GroundedState.SprintTime Grounded = 0
   /\ GroundedState.SprintAccelerationAmount Grounded = 0)
  /\ (Instance.bPendingUpdate s = true ->
      GroundedState.SprintAccelerationAmount Grounded = 0)
  /\ (0.5 <= GroundedState.SprintTime Grounded ->
      GroundedState.SprintAccelerationAmount Grounded = 0)
  /\ (IsSprinting (Instance.Gait s) = true -> Instance.bPendingUpdate s = false ->
      GroundedState.SprintTime Grounded
      = GroundedState.SprintTime (Instance.GroundedState s) + DeltaTime
      /\ (GroundedState.SprintTime Grounded < 0.5 ->
          GroundedState.SprintAccelerationAmount Grounded = X RelativeAccelerationAmount)).
Proof.
  cbn zeta. unfold RefreshSprint.
  destruct (IsSprinting (Instance.Gait s)); cbn [negb];
    destruct (Instance.bPendingUpdate s);
    cbn [Instance.GroundedState Instance.set_GroundedState GroundedState.SprintTime
         GroundedState.SprintAccelerationAmount GroundedState.set_SprintTime
         GroundedState.set_SprintAccelerationAmount];
    repeat split_and; intros; try discriminate; try reflexivity;
    try (split; [reflexivity | intros]); qcases; try reflexivity; lra.
Qed.

(** *** In air *)

Lemma RefreshGroundPredictionAmount_value st h s :
  InAirState.GroundPredictionAmount
    (Instance.InAirState (RefreshGroundPredictionAmount st h s))
  = if InAirState.VerticalVelocity (Instance.InAirState s) >? -200 then 0
    else if GroundPredictionAllowanceAmount h <=? KINDA_SMALL_NUMBER then 0
    else if bValidBlockingHit (GroundPredictionSweep st h s)
            && (Z (ImpactNormal (GroundPredictionSweep st h s))
                >=? LocomotionState.WalkableFloorZ (Instance.LocomotionState s))
    then InAirSettings.GroundPredictionAmountCurve (AlsSettings.InAir st)
           (HitTime (GroundPredictionSweep st h s))
         * GroundPredictionAllowanceAmount h
    else 0.
Proof.
  unfold RefreshGroundPredictionAmount, GroundPredictionSweep.
  destruct (_ >? _); [reflexivity|].
  destruct (_ <=? _); reflexivity.
Qed.

(** X5.  The ground prediction amount that [RefreshGroundPredictionAmount]
    stores is non-zero only if the sweep returned a valid blocking hit whose
    impact normal is at least as steep as the walkable floor, the stored
    vertical velocity is at most -200 and the allowance is above
    [KINDA_SMALL_NUMBER]; it is then the value of the configured curve at the
    hit time, scaled by the allowance, and lies between 0 and 1 when that
    curve value does. *)
Theorem ground_prediction_requires_walkable_hit
    (st : AlsSettings.t) (h : Host.t) (s : Instance.t) :
  let Amount :=
    InAirState.GroundPredictionAmount
      (Instance.InAirState (RefreshGroundPredictionAmount st h s)) in
  let Hit := GroundPredictionSweep st h s in
  let Curve :=
    InAirSettings.GroundPredictionAmountCurve (AlsSettings.InAir st) (HitTime Hit) in
  (~ Amount == 0 ->
   bValidBlockingHit Hit = true
   /\ LocomotionState.WalkableFloorZ (Instance.LocomotionState s) <= Z (ImpactNormal Hit)
   /\ InAirState.VerticalVelocity (Instance.InAirState s) <= -200
   /\ KINDA_SMALL_NUMBER < GroundPredictionAllowanceAmount h
   /\ Amount = Curve * GroundPredictionAllowanceAmount h)
  /\ (Unit01 Curve -> Unit01 Amount).
Proof.
  cbn zeta. rewrite RefreshGroundPredictionAmount_value.
  pose proof (GetCurveValueClamped01_range h GroundPredictionBlockCurve) as Hblock.
  assert (Unit01 (GroundPredictionAllowanceAmount h)) as Hallow
    by (unfold GroundPredictionAllowanceAmount, Unit01 in *; lra).
  unfold Unit01 in *.
  qcase; [split; [intros Hne; exfalso; apply Hne; reflexivity | intros; lra]|].
  qcase; [split; [intros Hne; exfalso; apply Hne; reflexivity | intros; lra]|].
  destruct (bValidBlockingHit _); cbn [andb];
    [|split; [intros Hne; exfalso; apply Hne; reflexivity | intros; lra]].
  qcase; [|split; [intros Hne; exfalso; apply Hne; reflexivity | intros; lra]].
  split.
  - intros _. repeat split_and; try assumption; reflexivity.
  - intros [Hlo Hhi]. split; nra.
Qed.



(** *** Game thread *)

Lemma PrimitiveEqb_eq (a b : PrimitiveRef) : PrimitiveEqb a b = true <-> a = b.
Proof.
  destruct a as [n|], b as [m|]; cbn; split; intros H; try discriminate; try reflexivity.
  - apply Nat.eqb_eq in H. congruence.
  - injection H as ->. apply Nat.eqb_refl.
Qed.

Lemma PrimitiveEqb_refl (a : PrimitiveRef) : PrimitiveEqb a a = true.
Proof. apply PrimitiveEqb_eq. reflexivity. Qed.

(** X7.  After [RefreshLocomotionGameThread] the stored movement base is the
    one of the character, and [bBaseChanged] is set exactly when its primitive
    or its bone name differed from the stored one.  The flag is an edge:
    refreshing again from the same character reports no change. *)
Theorem movement_base_change_is_an_edge
    (st st' : AlsSettings.t) (h h' : Host.t) (ch : Character.t) (s : Instance.t) :
  let Stored := LocomotionState.BasedMovement (Instance.LocomotionState s) in
  let After := RefreshLocomotionGameThread st h ch s in
  let Based := LocomotionState.BasedMovement (Instance.LocomotionState After) in
  BasedMovementState.Primitive Based = Character.MovementBase ch
  /\ BasedMovementState.BoneName Based = Character.BasedBoneName ch
  /\ (BasedMovementState.bBaseChanged Based = false
      <-> BasedMovementState.Primitive Stored = Character.MovementBase ch
          /\ BasedMovementState.BoneName Stored = Character.BasedBoneName ch)
  /\ BasedMovementState.bBaseChanged
       (LocomotionState.BasedMovement
          (Instance.LocomotionState (RefreshLocomotionGameThread st' h' ch After)))
     = false.
Proof.
  cbn zeta. unfold RefreshLocomotionGameThread.
  cbn [Instance.LocomotionState Instance.set_LocomotionState LocomotionState.BasedMovement
       BasedMovementState.Primitive BasedMovementState.BoneName
       BasedMovementState.bBaseChanged].
  destruct (PrimitiveEqb (Character.MovementBase ch) _) eqn:Hp;
    destruct (PrimitiveEqb (Character.BasedBoneName ch) _) eqn:Hb; cbn [negb orb];
    rewrite ?PrimitiveEqb_refl; cbn [negb orb].
  - apply PrimitiveEqb_eq in Hp, Hb. rewrite <- Hp, <- Hb, !PrimitiveEqb_refl.
    repeat split_and; try reflexivity. split; auto.
  - apply PrimitiveEqb_eq in Hp.
    repeat split_and; try reflexivity.
    split; [discriminate|]. intros [_ H]. rewrite H, PrimitiveEqb_refl in Hb. discriminate.
  - apply PrimitiveEqb_eq in Hb.
    repeat split_and; try reflexivity.
    split; [discriminate|]. intros [H _]. rewrite H, PrimitiveEqb_refl in Hp. discriminate.
  - repeat split_and; try reflexivity.
    split; [discriminate|]. intros [H _]. rewrite H, PrimitiveEqb_refl in Hp. discriminate.
Qed.

Lemma RefreshViewGameThread_kept ch s :
  GameStepKept (RefreshViewGameThread ch s) = GameStepKept s.
Proof. reflexivity. Qed.

Lemma RefreshLocomotionGameThread_kept st h ch s :
  GameStepKept (RefreshLocomotionGameThread st h ch s) = GameStepKept s.
Proof. reflexivity. Qed.

Lemma RefreshGroundedGameThread_kept st s :
  GameStepKept (RefreshGroundedGameThread st s) = GameStepKept s.
Proof. reflexivity. Qed.

Lemma RefreshInAirGameThread_kept s :
  GameStepKept (RefreshInAirGameThread s) = GameStepKept s.
Proof. reflexivity. Qed.

Lemma RefreshFeetGameThread_kept st h s :
  GameStepKept (RefreshFeetGameThread st h s) = GameStepKept s.
Proof. reflexivity. Qed.

Lemma RefreshRagdollingGameThread_kept h s :
  GameStepKept (RefreshRagdollingGameThread h s) = GameStepKept s.
Proof. unfold RefreshRagdollingGameThread. destruct (negb _); reflexivity. Qed.

(** X8.  With settings and character present, [NativeUpdateAnimation] copies
    the seven tags of the character, takes the curve relevance from its
    game-thread copy, keeps both latches and the collaborators, and writes none
    of the state blocks of the worker-safe pass.  It calls the character's yaw
    speed update first and [ResetGroundedEntryMode] exactly when the locomotion
    action changed; it plays nothing. *)
Theorem game_thread_update_snapshot
    (h : Host.t) (DeltaTime : float) (s : Instance.t)
    (st : AlsSettings.t) (ch : Character.t) :
  Instance.Settings s = Some st ->
  Instance.Character s = Some ch ->
  let After := NativeUpdateAnimation h DeltaTime s in
  Tags After
  = (Character.GetStance ch, Character.GetGait ch, Character.GetRotationMode ch,
     Character.GetLocomotionMode ch, Character.GetLocomotionAction ch,
     Character.GetViewMode ch, Character.GetOverlayMode ch)
  /\ Latches After
     = (Instance.Settings s, Instance.Character s, Instance.bPendingUpdate s,
        Instance.bTeleported s, Instance.bAnimationCurvesRelevantGameThread s,
        Instance.bAnimationCurvesRelevantGameThread s)
  /\ WorkerBlocks After = WorkerBlocks s
  /\ NewEffects s After
     = ApplyRotationYawSpeedFromAnimationInstance DeltaTime
       :: (if ActionEqb (Instance.LocomotionAction s) (Character.GetLocomotionAction ch)
           then [] else [ResetGroundedEntryMode]).
Proof.
  intros Hst Hch After.
  assert (GameStepKept After
          = (Instance.Settings s, Instance.Character s, Instance.bPendingUpdate s,
             Instance.bTeleported s, Instance.bAnimationCurvesRelevantGameThread s,
             Instance.bAnimationCurvesRelevantGameThread s,
             (Character.GetStance ch, Character.GetGait ch, Character.GetRotationMode ch,
              Character.GetLocomotionMode ch, Character.GetLocomotionAction ch,
              Character.GetViewMode ch, Character.GetOverlayMode ch),
             WorkerBlocks s,
             (Instance.Effects s ++ [ApplyRotationYawSpeedFromAnimationInstance DeltaTime])
             ++ (if ActionEqb (Instance.LocomotionAction s) (Character.GetLocomotionAction ch)
                 then [] else [ResetGroundedEntryMode]))) as Hkept.
  { subst After. unfold NativeUpdateAnimation. rewrite Hst, Hch.
    rewrite RefreshRagdollingGameThread_kept, RefreshFeetGameThread_kept,
      RefreshInAirGameThread_kept, RefreshGroundedGameThread_kept,
      RefreshLocomotionGameThread_kept, RefreshViewGameThread_kept.
    cbn [Instance.LocomotionAction Instance.set_LocomotionMode Instance.set_RotationMode
         Instance.set_Gait Instance.set_Stance Instance.set_bAnimationCurvesRelevant emit
         Instance.set_Effects].
    destruct (ActionEqb (Instance.LocomotionAction s) (Character.GetLocomotionAction ch)) eqn:Heq;
      cbn [negb].
    - assert (Instance.LocomotionAction s = Character.GetLocomotionAction ch) as Haction.
      { revert Heq. destruct (Instance.LocomotionAction s), (Character.GetLocomotionAction ch);
          cbn; intros Heq; try discriminate; try reflexivity.
        apply Nat.eqb_eq in Heq. congruence. }
      unfold GameStepKept, Latches, Tags, WorkerBlocks. cbn. rewrite <- Haction, app_nil_r, ?Hst, ?Hch.
      reflexivity.
    - unfold GameStepKept, Latches, Tags, WorkerBlocks. cbn. rewrite ?Hst, ?Hch. reflexivity. }
  unfold GameStepKept in Hkept.
  pose proof (f_equal (fun p => fst (fst (fst p))) Hkept) as Hlatches.
  pose proof (f_equal (fun p => snd (fst (fst p))) Hkept) as Htags.
  pose proof (f_equal (fun p => snd (fst p)) Hkept) as Hblocks.
  pose proof (f_equal snd Hkept) as Heffects.
  cbn [fst snd] in Hlatches, Htags, Hblocks, Heffects.
  repeat split_and; try assumption.
  apply (NewEffects_app2 _ _ [_] _). exact Heffects.
Qed.

Lemma RefreshRagdollingGameThread_blocks h s :
  Instance.InAirState (RefreshRagdollingGameThread h s) = Instance.InAirState s
  /\ Instance.GroundedState (RefreshRagdollingGameThread h s) = Instance.GroundedState s.
Proof. unfold RefreshRagdollingGameThread. destruct (negb _); split; reflexivity. Qed.

(** X9.  With settings and character present, [NativeUpdateAnimation]
    consumes the two requests of the frame: afterwards the jump request and the
    pivot activation request are cleared.  The character counts as jumped if
    it had jumped or a jump was requested, and the pivot is active if it was
    requested while the speed just read from the character is below the
    threshold -- and neither holds on a pending update. *)
Theorem game_thread_update_latches
    (h : Host.t) (DeltaTime : float) (s : Instance.t)
    (st : AlsSettings.t) (ch : Character.t) :
  Instance.Settings s = Some st ->
  Instance.Character s = Some ch ->
  let After := NativeUpdateAnimation h DeltaTime s in
  InAirState.bJumpRequested (Instance.InAirState After) = false
  /\ GroundedState.bPivotActivationRequested (Instance.GroundedState After) = false
  /\ InAirState.bJumped (Instance.InAirState After)
     = negb (Instance.bPendingUpdate s)
       && (InAirState.bJumped (Instance.InAirState s)
           || InAirState.bJumpRequested (Instance.InAirState s))
  /\ GroundedState.bPivotActive (Instance.GroundedState After)
     = GroundedState.bPivotActivationRequested (Instance.GroundedState s)
       && negb (Instance.bPendingUpdate s)
       && (CharacterLocomotion.Speed (Character.GetLocomotionState ch)
           <? GroundedSettings.PivotActivationSpeedThreshold (AlsSettings.Grounded st)).
Proof.
  intros Hst Hch After. subst After. unfold NativeUpdateAnimation. rewrite Hst, Hch.
  rewrite (proj1 (RefreshRagdollingGameThread_blocks _ _)),
    (proj2 (RefreshRagdollingGameThread_blocks _ _)).
  destruct (negb (ActionEqb _ _)); repeat split_and; reflexivity.
Qed.

(** *** Worker-safe pass *)

Lemma RefreshLayering_quiet h s : WorkerKept (RefreshLayering h s) = WorkerKept s.
Proof. unfold RefreshLayering. destruct (negb _); reflexivity. Qed.

Lemma RefreshPose_quiet h s : WorkerKept (RefreshPose h s) = WorkerKept s.
Proof. unfold RefreshPose. destruct (negb _); reflexivity. Qed.

Lemma RefreshLookTowardsInput_quiet st dt s :
  WorkerKept (RefreshLookTowardsInput st dt s) = WorkerKept s.
Proof. reflexivity. Qed.

Lemma RefreshLookTowardsCamera_quiet st dt s :
  WorkerKept (RefreshLookTowardsCamera st dt s) = WorkerKept s.
Proof. reflexivity. Qed.

Lemma RefreshView_quiet st h dt s : WorkerKept (RefreshView st h dt s) = WorkerKept s.
Proof.
  unfold RefreshView.
  repeat match goal with
         | |- context [if ?c then ?a else ?b] =>
             lazymatch c with
             | context [if _ then _ else _] => fail
             | _ => destruct c
             end
         end;
    rewrite ?RefreshLookTowardsInput_quiet, ?RefreshLookTowardsCamera_quiet; reflexivity.
Qed.

Lemma RefreshMovementDirection_quiet s : WorkerKept (RefreshMovementDirection s) = WorkerKept s.
Proof. unfold RefreshMovementDirection. destruct (_ || _); reflexivity. Qed.

Lemma RefreshVelocityBlend_quiet st dt s :
  WorkerKept (RefreshVelocityBlend st dt s) = WorkerKept s.
Proof. reflexivity. Qed.

Lemma RefreshRotationYawOffsets_quiet st s :
  WorkerKept (RefreshRotationYawOffsets st s) = WorkerKept s.
Proof. reflexivity. Qed.

Lemma RefreshSprint_quiet a dt s : WorkerKept (RefreshSprint a dt s) = WorkerKept s.
Proof. unfold RefreshSprint. destruct (negb _); reflexivity. Qed.

Lemma RefreshStrideBlendAmount_quiet st s :
  WorkerKept (RefreshStrideBlendAmount st s) = WorkerKept s.
Proof. reflexivity. Qed.

Lemma RefreshWalkRunBlendAmount_quiet s :
  WorkerKept (RefreshWalkRunBlendAmount s) = WorkerKept s.
Proof. reflexivity. Qed.

Lemma RefreshStandingPlayRate_quiet st s :
  WorkerKept (RefreshStandingPlayRate st s) = WorkerKept s.
Proof. reflexivity. Qed.

Lemma RefreshCrouchingPlayRate_quiet st s :
  WorkerKept (RefreshCrouchingPlayRate st s) = WorkerKept s.
Proof. reflexivity. Qed.

Lemma RefreshGroundedLeanAmount_quiet st a dt s :
  WorkerKept (RefreshGroundedLeanAmount st a dt s) = WorkerKept s.
Proof. unfold RefreshGroundedLeanAmount. destruct (Instance.bPendingUpdate s); reflexivity. Qed.

Lemma ResetGroundedLeanAmount_quiet st dt s :
  WorkerKept (ResetGroundedLeanAmount st dt s) = WorkerKept s.
Proof. reflexivity. Qed.

Lemma RefreshGrounded_quiet st h dt s : WorkerKept (RefreshGrounded st h dt s) = WorkerKept s.
Proof.
  unfold RefreshGrounded.
  cbn [Instance.LocomotionMode Instance.LocomotionState Instance.set_GroundedState].
  destruct (negb (IsGroundedMode _)); [reflexivity|].
  destruct (negb (LocomotionState.bMoving _)); [reflexivity|].
  rewrite RefreshGroundedLeanAmount_quiet, RefreshCrouchingPlayRate_quiet,
    RefreshStandingPlayRate_quiet, RefreshWalkRunBlendAmount_quiet,
    RefreshStrideBlendAmount_quiet, RefreshSprint_quiet, RefreshRotationYawOffsets_quiet,
    RefreshVelocityBlend_quiet, RefreshMovementDirection_quiet.
  reflexivity.
Qed.

Lemma RefreshGroundPredictionAmount_quiet st h s :
  WorkerKept (RefreshGroundPredictionAmount st h s) = WorkerKept s.
Proof. unfold RefreshGroundPredictionAmount. split_ifs; reflexivity. Qed.

Lemma RefreshInAirLeanAmount_quiet st dt s :
  WorkerKept (RefreshInAirLeanAmount st dt s) = WorkerKept s.
Proof. unfold RefreshInAirLeanAmount. destruct (Instance.bPendingUpdate s); reflexivity. Qed.

Lemma RefreshInAir_quiet st h dt s : WorkerKept (RefreshInAir st h dt s) = WorkerKept s.
Proof.
  unfold RefreshInAir.
  destruct (InAirState.bJumped _);
    cbn [Instance.LocomotionMode Instance.set_InAirState];
    (destruct (negb (IsInAirMode _)); [reflexivity|]);
    rewrite RefreshInAirLeanAmount_quiet, RefreshGroundPredictionAmount_quiet; reflexivity.
Qed.

Lemma RefreshFeet_quiet st h dt s : WorkerKept (RefreshFeet st h dt s) = WorkerKept s.
Proof.
  unfold RefreshFeet. cbn [Instance.bAnimationCurvesRelevant Instance.set_FeetState].
  destruct (negb _); reflexivity.
Qed.

Lemma RefreshRotateInPlace_quiet st dt s :
  WorkerKept (RefreshRotateInPlace st dt s) = WorkerKept s.
Proof.
  unfold RefreshRotateInPlace.
  destruct (_ || _ || _); [reflexivity|].
  destruct (negb _ && negb _); reflexivity.
Qed.

Lemma PlayQueuedDynamicTransitionAnimation_snapshot st s :
  GameThreadSnapshot (PlayQueuedDynamicTransitionAnimation st s) = GameThreadSnapshot s.
Proof. reflexivity. Qed.

Lemma PlayQueuedTurnInPlaceAnimation_snapshot st s :
  GameThreadSnapshot (PlayQueuedTurnInPlaceAnimation st s) = GameThreadSnapshot s.
Proof.
  unfold PlayQueuedTurnInPlaceAnimation. destruct (TurnInPlaceState.QueuedSettings _); reflexivity.
Qed.

Lemma RefreshDynamicTransition_snapshot st h s :
  GameThreadSnapshot (RefreshDynamicTransition st h s) = GameThreadSnapshot s.
Proof.
  unfold RefreshDynamicTransition.
  destruct (_ >? _)%Z; [reflexivity|].
  destruct (_ || _ || _ || _); [reflexivity|].
  destruct (negb _ && negb _); [reflexivity|].
  destruct (if negb _ then _ else _) as [Side [a|]]; [|reflexivity].
  destruct (Host.IsInGameThread h); reflexivity.
Qed.

Lemma RefreshTransitions_snapshot st h s :
  GameThreadSnapshot (RefreshTransitions st h s) = GameThreadSnapshot s.
Proof. unfold RefreshTransitions. rewrite RefreshDynamicTransition_snapshot. reflexivity. Qed.

Lemma RefreshTurnInPlace_snapshot st h dt s :
  GameThreadSnapshot (RefreshTurnInPlace st h dt s) = GameThreadSnapshot s.
Proof.
  unfold RefreshTurnInPlace.
  destruct (_ || _ || _); [reflexivity|].
  destruct (negb _); [reflexivity|].
  destruct (TurnInPlaceResetRequired st s); [reflexivity|].
  destruct (_ <=? _); [reflexivity|].
  destruct (SelectTurnInPlaceSettings _ _) as [[Selected|] Slot]; [|reflexivity].
  destruct (TurnSettings.Animation Selected); [|reflexivity].
  destruct (Host.IsInGameThread h);
    rewrite ?PlayQueuedTurnInPlaceAnimation_snapshot; reflexivity.
Qed.

Lemma WorkerKept_snapshot s s' :
  WorkerKept s' = WorkerKept s -> GameThreadSnapshot s' = GameThreadSnapshot s.
Proof. intros H. exact (f_equal (fun p => fst (fst (fst p))) H). Qed.

Lemma WorkerKept_effects s s' :
  WorkerKept s' = WorkerKept s -> Instance.Effects s' = Instance.Effects s.
Proof. intros H. exact (f_equal snd H). Qed.

Lemma WorkerKept_queues s s' :
  WorkerKept s' = WorkerKept s ->
  QueuedDynamicTransition s' = QueuedDynamicTransition s
  /\ QueuedTurnInPlace s' = QueuedTurnInPlace s.
Proof.
  intros H. unfold QueuedDynamicTransition, QueuedTurnInPlace.
  rewrite (f_equal (fun p => snd (fst (fst p))) H : Instance.TransitionsState s' = _).
  rewrite (f_equal (fun p => snd (fst p)) H : Instance.TurnInPlaceState s' = _).
  split; reflexivity.
Qed.

Lemma worker_steps_quiet st h dt s :
  WorkerKept (RefreshFeet st h dt (RefreshInAir st h dt (RefreshGrounded st h dt
    (RefreshView st h dt (RefreshPose h (RefreshLayering h s))))))
  = WorkerKept s.
Proof.
  rewrite RefreshFeet_quiet, RefreshInAir_quiet, RefreshGrounded_quiet, RefreshView_quiet,
    RefreshPose_quiet, RefreshLayering_quiet.
  reflexivity.
Qed.

Lemma NativeThreadSafeUpdateAnimation_snapshot h dt s :
  GameThreadSnapshot (NativeThreadSafeUpdateAnimation h dt s) = GameThreadSnapshot s.
Proof.
  unfold NativeThreadSafeUpdateAnimation.
  destruct (Instance.Settings s) as [st|]; [|reflexivity].
  destruct (Instance.Character s); [|reflexivity].
  rewrite RefreshTurnInPlace_snapshot.
  rewrite (WorkerKept_snapshot _ _ (RefreshRotateInPlace_quiet _ _ _)).
  rewrite RefreshTransitions_snapshot.
  apply WorkerKept_snapshot, worker_steps_quiet.
Qed.

(** X10.  The worker-safe pass only reads what the game thread captured:
    [NativeThreadSafeUpdateAnimation] leaves the collaborators, both latches,
    the curve relevance flags, the seven tags, the locomotion snapshot and the
    ragdolling state exactly as they were, whatever the host answers. *)
Theorem worker_pass_keeps_snapshot (h : Host.t) (DeltaTime : float) (s : Instance.t) :
  let After := NativeThreadSafeUpdateAnimation h DeltaTime s in
  Latches After = Latches s
  /\ Tags After = Tags s
  /\ Instance.LocomotionState After = Instance.LocomotionState s
  /\ Instance.RagdollingState After = Instance.RagdollingState s.
Proof.
  intros After. subst After.
  pose proof (NativeThreadSafeUpdateAnimation_snapshot h DeltaTime s) as H.
  unfold GameThreadSnapshot in H.
  repeat split_and.
  - exact (f_equal (fun p => fst (fst (fst p))) H).
  - exact (f_equal (fun p => snd (fst (fst p))) H).
  - exact (f_equal (fun p => snd (fst p)) H).
  - exact (f_equal snd H).
Qed.

(** *** Queueing and playing *)

Lemma SelectTurnInPlaceSettings_ext st t s :
  SelectTurnInPlaceSettings st (Instance.set_TurnInPlaceState t s)
  = SelectTurnInPlaceSettings st s.
Proof. reflexivity. Qed.

(** What an update of [RefreshTurnInPlace] adds to the effects. *)
Lemma RefreshTurnInPlace_cases st h dt s :
  (Instance.Effects (RefreshTurnInPlace st h dt s) = Instance.Effects s
   /\ QueuedTurnInPlace (RefreshTurnInPlace st h dt s) = QueuedTurnInPlace s)
  \/ exists Selected Slot,
      SelectTurnInPlaceSettings st s = (Some Selected, Slot)
      /\ TurnSettings.Animation Selected <> None
      /\ Instance.Effects (RefreshTurnInPlace st h dt s)
         = Instance.Effects s
           ++ QueueTurnInPlace Selected Slot (ViewState.YawAngle (Instance.ViewState s))
              :: (if Host.IsInGameThread h then [TurnInPlaceMontage st Selected Slot] else [])
      /\ QueuedTurnInPlace (RefreshTurnInPlace st h dt s)
         = if Host.IsInGameThread h then (None, NAME_None, 0)
           else (Some Selected, Slot, ViewState.YawAngle (Instance.ViewState s)).
Proof.
  unfold RefreshTurnInPlace.
  destruct (_ || _ || _); [left; split; reflexivity|].
  destruct (negb _); [left; split; reflexivity|].
  destruct (TurnInPlaceResetRequired st s); [left; split; reflexivity|].
  destruct (_ <=? _); [left; split; reflexivity|].
  rewrite SelectTurnInPlaceSettings_ext.
  destruct (SelectTurnInPlaceSettings st s) as [[Selected|] Slot]; [|left; split; reflexivity].
  destruct (TurnSettings.Animation Selected) eqn:Hanimation; [|left; split; reflexivity].
  right. exists Selected, Slot. split; [reflexivity|]. split; [congruence|].
  destruct (Host.IsInGameThread h).
  - split; [|reflexivity].
    unfold PlayQueuedTurnInPlaceAnimation, TurnInPlaceMontage, emit.
    cbn. rewrite <- app_assoc. reflexivity.
  - split; reflexivity.
Qed.

Lemma RefreshDynamicTransition_effects st h s :
  (Instance.Effects (RefreshDynamicTransition st h s) = Instance.Effects s
   /\ QueuedDynamicTransition (RefreshDynamicTransition st h s) = QueuedDynamicTransition s)
  \/ exists Side Animation,
      Instance.Effects (RefreshDynamicTransition st h s)
      = Instance.Effects s
        ++ QueueDynamicTransition Side Animation
           :: (if Host.IsInGameThread h then [DynamicTransitionMontage st (Some Animation)]
               else [])
      /\ QueuedDynamicTransition (RefreshDynamicTransition st h s)
         = if Host.IsInGameThread h then None else Some Animation.
Proof.
  unfold RefreshDynamicTransition.
  destruct (_ >? _)%Z; [left; split; reflexivity|].
  destruct (_ || _ || _ || _); [left; split; reflexivity|].
  destruct (negb _ && negb _); [left; split; reflexivity|].
  destruct (if negb _ then _ else _) as [Side [Animation|]]; [|left; split; reflexivity].
  right. exists Side, Animation.
  destruct (Host.IsInGameThread h).
  - split; [|reflexivity].
    unfold PlayQueuedDynamicTransitionAnimation, DynamicTransitionMontage, emit.
    cbn. rewrite <- app_assoc. reflexivity.
  - split; reflexivity.
Qed.

Lemma RefreshTransitions_effects st h s :
  (Instance.Effects (RefreshTransitions st h s) = Instance.Effects s
   /\ QueuedDynamicTransition (RefreshTransitions st h s) = QueuedDynamicTransition s)
  \/ exists Side Animation,
      Instance.Effects (RefreshTransitions st h s)
      = Instance.Effects s
        ++ QueueDynamicTransition Side Animation
           :: (if Host.IsInGameThread h then [DynamicTransitionMontage st (Some Animation)]
               else [])
      /\ QueuedDynamicTransition (RefreshTransitions st h s)
         = if Host.IsInGameThread h then None else Some Animation.
Proof.
  unfold RefreshTransitions.
  exact (RefreshDynamicTransition_effects st h
           (Instance.set_TransitionsState
              (TransitionsState.set_bTransitionsAllowed
                 (IsFullWeight (Host.GetCurveValue h AllowTransitionsCurve))
                 (Instance.TransitionsState s))
              s)).
Qed.

Lemma PlayQueuedTurnInPlaceAnimation_view st s :
  Instance.ViewState (PlayQueuedTurnInPlaceAnimation st s) = Instance.ViewState s
  /\ Instance.Stance (PlayQueuedTurnInPlaceAnimation st s) = Instance.Stance s.
Proof.
  unfold PlayQueuedTurnInPlaceAnimation.
  destruct (TurnInPlaceState.QueuedSettings _); split; reflexivity.
Qed.

Lemma RefreshTurnInPlace_view st h dt s :
  Instance.ViewState (RefreshTurnInPlace st h dt s) = Instance.ViewState s
  /\ Instance.Stance (RefreshTurnInPlace st h dt s) = Instance.Stance s.
Proof.
  unfold RefreshTurnInPlace.
  destruct (_ || _ || _); [split; reflexivity|].
  destruct (negb _); [split; reflexivity|].
  destruct (TurnInPlaceResetRequired st s); [split; reflexivity|].
  destruct (_ <=? _); [split; reflexivity|].
  destruct (SelectTurnInPlaceSettings _ _) as [[Selected|] Slot]; [|split; reflexivity].
  destruct (TurnSettings.Animation Selected); [|split; reflexivity].
  destruct (Host.IsInGameThread h); [|split; reflexivity].
  rewrite (proj1 (PlayQueuedTurnInPlaceAnimation_view _ _)),
    (proj2 (PlayQueuedTurnInPlaceAnimation_view _ _)).
  split; reflexivity.
Qed.

Lemma RefreshTurnInPlace_selection_inputs st h dt s :
  SelectTurnInPlaceSettings st (RefreshTurnInPlace st h dt s) = SelectTurnInPlaceSettings st s
  /\ Instance.ViewState (RefreshTurnInPlace st h dt s) = Instance.ViewState s.
Proof.
  destruct (RefreshTurnInPlace_view st h dt s) as [Hview Hstance].
  split; [|exact Hview].
  unfold SelectTurnInPlaceSettings. rewrite Hview, Hstance. reflexivity.
Qed.

Lemma RefreshTransitions_turn st h s :
  QueuedTurnInPlace (RefreshTransitions st h s) = QueuedTurnInPlace s.
Proof.
  unfold RefreshTransitions, RefreshDynamicTransition.
  destruct (_ >? _)%Z; [reflexivity|].
  destruct (_ || _ || _ || _); [reflexivity|].
  destruct (negb _ && negb _); [reflexivity|].
  destruct (if negb _ then _ else _) as [Side [a|]]; [|reflexivity].
  destruct (Host.IsInGameThread h); reflexivity.
Qed.

Lemma RefreshTurnInPlace_transitions st h dt s :
  QueuedDynamicTransition (RefreshTurnInPlace st h dt s) = QueuedDynamicTransition s.
Proof.
  unfold RefreshTurnInPlace.
  destruct (_ || _ || _); [reflexivity|].
  destruct (negb _); [reflexivity|].
  destruct (TurnInPlaceResetRequired st s); [reflexivity|].
  destruct (_ <=? _); [reflexivity|].
  destruct (SelectTurnInPlaceSettings _ _) as [[Selected|] Slot]; [|reflexivity].
  destruct (TurnSettings.Animation Selected); [|reflexivity].
  destruct (Host.IsInGameThread h); [|reflexivity].
  unfold PlayQueuedTurnInPlaceAnimation. reflexivity.
Qed.

(** The effects and the queues of one worker-safe pass, step by step. *)
Lemma NativeThreadSafeUpdateAnimation_effects h dt s st :
  Instance.Settings s = Some st ->
  let After := NativeThreadSafeUpdateAnimation h dt s in
  exists Transition Turn,
    Instance.Effects After = Instance.Effects s ++ Transition ++ Turn
    /\ (Transition = [] /\ QueuedDynamicTransition After = QueuedDynamicTransition s
        \/ exists Side Animation,
            Transition
            = QueueDynamicTransition Side Animation
              :: (if Host.IsInGameThread h
                  then [DynamicTransitionMontage st (Some Animation)] else [])
            /\ QueuedDynamicTransition After
               = if Host.IsInGameThread h then None else Some Animation)
    /\ (Turn = [] /\ QueuedTurnInPlace After = QueuedTurnInPlace s
        \/ exists Selected Slot,
            SelectTurnInPlaceSettings st After = (Some Selected, Slot)
            /\ TurnSettings.Animation Selected <> None
            /\ Turn
               = QueueTurnInPlace Selected Slot (ViewState.YawAngle (Instance.ViewState After))
                 :: (if Host.IsInGameThread h
                     then [TurnInPlaceMontage st Selected Slot] else [])
            /\ QueuedTurnInPlace After
               = if Host.IsInGameThread h then (None, NAME_None, 0)
                 else (Some Selected, Slot, ViewState.YawAngle (Instance.ViewState After))).
Proof.
  intros Hst After. subst After. unfold NativeThreadSafeUpdateAnimation. rewrite Hst.
  destruct (Instance.Character s).
  2:{ exists [], []. rewrite app_nil_r. auto. }
  pose proof (worker_steps_quiet st h dt s) as K6.
  remember (RefreshFeet st h dt (RefreshInAir st h dt (RefreshGrounded st h dt
              (RefreshView st h dt (RefreshPose h (RefreshLayering h s)))))) as s6 eqn:E6.
  clear E6.
  pose proof (WorkerKept_effects _ _ K6) as H6.
  destruct (WorkerKept_queues _ _ K6) as [D6 U6].
  pose proof (RefreshTransitions_effects st h s6) as H7.
  pose proof (RefreshTransitions_turn st h s6) as U7.
  remember (RefreshTransitions st h s6) as s7 eqn:E7. clear E7.
  pose proof (RefreshRotateInPlace_quiet st dt s7) as K8.
  remember (RefreshRotateInPlace st dt s7) as s8 eqn:E8. clear E8.
  pose proof (WorkerKept_effects _ _ K8) as H8.
  destruct (WorkerKept_queues _ _ K8) as [D8 U8].
  pose proof (RefreshTurnInPlace_transitions st h dt s8) as D9.
  destruct (RefreshTurnInPlace_selection_inputs st h dt s8) as [Hsel Hview].
  pose proof (RefreshTurnInPlace_cases st h dt s8) as H9.
  remember (RefreshTurnInPlace st h dt s8) as s9 eqn:E9. clear E9.
  rewrite Hsel, Hview.
  assert (exists Transition,
            Instance.Effects s7 = Instance.Effects s ++ Transition
            /\ (Transition = [] /\ QueuedDynamicTransition s9 = QueuedDynamicTransition s
                \/ exists Side Animation,
                    Transition
                    = QueueDynamicTransition Side Animation
                      :: (if Host.IsInGameThread h
                          then [DynamicTransitionMontage st (Some Animation)] else [])
                    /\ QueuedDynamicTransition s9
                       = if Host.IsInGameThread h then None else Some Animation))
    as (Transition & H7' & HT).
  { rewrite D9, D8. destruct H7 as [[He Hq] | (Side & A & He & Hq)].
    - exists []. rewrite He, H6, app_nil_r, Hq, D6. auto.
    - eexists. rewrite He, H6. split; [reflexivity|]. right. eauto. }
  exists Transition.
  destruct H9 as [[He Hq] | (Selected & Slot & Hs & Ha & He & Hq)].
  - exists []. rewrite He, H8, H7', app_nil_r, Hq, U8, U7, U6. auto.
  - eexists. rewrite He, H8, H7', <- app_assoc. split; [reflexivity|]. split; [exact HT|].
    right. exists Selected, Slot. auto.
Qed.

(** X11.  What one worker-safe pass sends out of the object: at most a
    dynamic transition followed by a turn in place.  Each of the two is
    either nothing, or a queue entry, followed on the game thread, and only
    there, by the montage of what was queued.  The turn that is queued is the
    one selected for the stance and for the view yaw angle that this pass
    computed, it has an animation, and it carries that angle. *)
Theorem worker_pass_effects
    (h : Host.t) (DeltaTime : float) (s : Instance.t) (st : AlsSettings.t) :
  Instance.Settings s = Some st ->
  let After := NativeThreadSafeUpdateAnimation h DeltaTime s in
  exists Transition Turn,
    NewEffects s After = Transition ++ Turn
    /\ (Transition = []
        \/ exists Side Animation,
            Transition
            = QueueDynamicTransition Side Animation
              :: (if Host.IsInGameThread h
                  then [DynamicTransitionMontage st (Some Animation)] else []))
    /\ (Turn = []
        \/ exists Selected Slot,
            SelectTurnInPlaceSettings st After = (Some Selected, Slot)
            /\ TurnSettings.Animation Selected <> None
            /\ Turn
               = QueueTurnInPlace Selected Slot (ViewState.YawAngle (Instance.ViewState After))
                 :: (if Host.IsInGameThread h
                     then [TurnInPlaceMontage st Selected Slot] else [])).
Proof.
  intros Hst After.
  destruct (NativeThreadSafeUpdateAnimation_effects h DeltaTime s st Hst)
    as (Transition & Turn & He & HT & HU).
  exists Transition, Turn. split; [apply NewEffects_app; exact He|]. split.
  - destruct HT as [[HT _] | (Side & A & HT & _)]; [left; exact HT | right; eauto].
  - destruct HU as [[HU _] | (Selected & Slot & Hs & Ha & HU & _)];
      [left; exact HU | right; eauto].
Qed.

(** X12.  Off the game thread the worker-safe pass plays no montage and
    applies nothing to the character: all it sends out is at most two queue
    entries, whatever the state and the settings are. *)
Theorem worker_thread_only_queues (h : Host.t) (DeltaTime : float) (s : Instance.t) :
  OnWorkerThread h ->
  let New := NewEffects s (NativeThreadSafeUpdateAnimation h DeltaTime s) in
  Forall IsQueueEvent New /\ (length New <= 2)%nat.
Proof.
  intros Hw New. subst New. red in Hw.
  destruct (Instance.Settings s) as [st|] eqn:Hst.
  2:{ unfold NativeThreadSafeUpdateAnimation. rewrite Hst.
      rewrite NewEffects_same by reflexivity. split; [constructor | cbn; lia]. }
  destruct (NativeThreadSafeUpdateAnimation_effects h DeltaTime s st Hst)
    as (Transition & Turn & He & HT & HU).
  rewrite (NewEffects_app _ _ _ He). rewrite Hw in HT, HU.
  destruct HT as [[-> _] | (Side & A & -> & _)];
    destruct HU as [[-> _] | (Selected & Slot & _ & _ & -> & _)];
    (split; [repeat constructor | cbn; lia]).
Qed.

(** X13.  Queueing on a worker thread and playing afterwards gives the state
    and the effects of selecting on the game thread: for the turn in place
    when no turn is waiting in the queue, and for a dynamic transition
    whenever the update selects one. *)
Theorem deferred_play_is_immediate_play
    (st : AlsSettings.t) (worker game : Host.t) (DeltaTime : float) (s : Instance.t) :
  OnWorkerThread worker ->
  OnGameThread game ->
  (TurnInPlaceState.QueuedSettings (Instance.TurnInPlaceState s) = None ->
   PlayQueuedTurnInPlaceAnimation st (RefreshTurnInPlace st worker DeltaTime s)
   = RefreshTurnInPlace st game DeltaTime s)
  /\ (NewEffects s (RefreshDynamicTransition st worker s) <> [] ->
      PlayQueuedDynamicTransitionAnimation st (RefreshDynamicTransition st worker s)
      = RefreshDynamicTransition st game s)
  /\ (NewEffects s (RefreshDynamicTransition st worker s) = [] ->
      RefreshDynamicTransition st worker s = RefreshDynamicTransition st game s).
Proof.
  unfold OnWorkerThread, OnGameThread. intros Hw Hg. repeat split_and.
  - intros Hq. unfold RefreshTurnInPlace.
    assert (forall t, TurnInPlaceState.QueuedSettings t = None ->
                      PlayQueuedTurnInPlaceAnimation st (Instance.set_TurnInPlaceState t s)
                      = Instance.set_TurnInPlaceState t s) as Hidle.
    { intros t Ht. unfold PlayQueuedTurnInPlaceAnimation. cbn. rewrite Ht. reflexivity. }
    destruct (_ || _ || _); [apply Hidle; exact Hq|].
    destruct (negb _); [apply Hidle; exact Hq|].
    destruct (TurnInPlaceResetRequired st s); [apply Hidle; exact Hq|].
    destruct (_ <=? _); [apply Hidle; exact Hq|].
    rewrite SelectTurnInPlaceSettings_ext.
    destruct (SelectTurnInPlaceSettings st s) as [[Selected|] Slot];
      [|apply Hidle; exact Hq].
    destruct (TurnSettings.Animation Selected); [|apply Hidle; exact Hq].
    rewrite Hw, Hg. reflexivity.
  - unfold RefreshDynamicTransition.
    destruct (_ >? _)%Z; [intros Hn; exfalso; apply Hn, NewEffects_same; reflexivity|].
    destruct (_ || _ || _ || _); [intros Hn; exfalso; apply Hn, NewEffects_same; reflexivity|].
    destruct (negb _ && negb _); [intros Hn; exfalso; apply Hn, NewEffects_same; reflexivity|].
    destruct (if negb _ then _ else _) as [Side [Animation|]];
      [|intros Hn; exfalso; apply Hn, NewEffects_same; reflexivity].
    rewrite Hw, Hg. reflexivity.
  - unfold RefreshDynamicTransition.
    destruct (_ >? _)%Z; [reflexivity|].
    destruct (_ || _ || _ || _); [reflexivity|].
    destruct (negb _ && negb _); [reflexivity|].
    destruct (if negb _ then _ else _) as [Side [Animation|]]; [|reflexivity].
    rewrite Hw. intros Hn. exfalso.
    rewrite (NewEffects_app _ _ [QueueDynamicTransition Side Animation]) in Hn
      by reflexivity.
    discriminate.
Qed.

(** *** After the evaluation *)

Lemma NativePostEvaluateAnimation_effects s st ch :
  Instance.Settings s = Some st ->
  Instance.Character s = Some ch ->
  Instance.Effects (NativePostEvaluateAnimation s)
  = Instance.Effects s
    ++ DynamicTransitionMontage st (QueuedDynamicTransition s)
       :: match TurnInPlaceState.QueuedSettings (Instance.TurnInPlaceState s) with
          | Some Selected =>
              [TurnInPlaceMontage st Selected
                 (TurnInPlaceState.QueuedSlotName (Instance.TurnInPlaceState s))]
          | None => []
          end.
Proof.
  intros Hst Hch. unfold NativePostEvaluateAnimation. rewrite Hst, Hch.
  unfold PlayQueuedTurnInPlaceAnimation, PlayQueuedDynamicTransitionAnimation, emit.
  cbn. destruct (TurnInPlaceState.QueuedSettings _); cbn; [|reflexivity].
  rewrite <- app_assoc. reflexivity.
Qed.

Lemma NativePostEvaluateAnimation_state s st ch :
  Instance.Settings s = Some st ->
  Instance.Character s = Some ch ->
  let After := NativePostEvaluateAnimation s in
  Instance.Settings After = Some st
  /\ Instance.Character After = Some ch
  /\ Instance.bPendingUpdate After = false
  /\ Instance.bTeleported After = false
  /\ QueuedDynamicTransition After = None
  /\ TurnInPlaceState.QueuedSettings (Instance.TurnInPlaceState After) = None.
Proof.
  intros Hst Hch. cbn zeta. unfold NativePostEvaluateAnimation. rewrite Hst, Hch.
  unfold PlayQueuedTurnInPlaceAnimation, PlayQueuedDynamicTransitionAnimation,
    QueuedDynamicTransition, emit.
  cbn. destruct (TurnInPlaceState.QueuedSettings _) eqn:Hq; cbn; rewrite ?Hq; auto 10.
Qed.

(** X14.  With both collaborators present, [NativePostEvaluateAnimation]
    clears the pending-update and teleport latches and empties both queues.
    It requests the dynamic transition montage unconditionally, with whatever
    the queue holds, a null animation included, and the turn montage only
    when turn settings are queued.  Run a second time in a row it requests
    the dynamic transition montage with a null animation and nothing else. *)
Theorem post_evaluate_drains_queues
    (s : Instance.t) (st : AlsSettings.t) (ch : Character.t) :
  Instance.Settings s = Some st ->
  Instance.Character s = Some ch ->
  let After := NativePostEvaluateAnimation s in
  Instance.bPendingUpdate After = false
  /\ Instance.bTeleported After = false
  /\ QueuedDynamicTransition After = None
  /\ TurnInPlaceState.QueuedSettings (Instance.TurnInPlaceState After) = None
  /\ NewEffects s After
     = DynamicTransitionMontage st (QueuedDynamicTransition s)
       :: match TurnInPlaceState.QueuedSettings (Instance.TurnInPlaceState s) with
          | Some Selected =>
              [TurnInPlaceMontage st Selected
                 (TurnInPlaceState.QueuedSlotName (Instance.TurnInPlaceState s))]
          | None => []
          end
  /\ NewEffects After (NativePostEvaluateAnimation After)
     = [DynamicTransitionMontage st None].
Proof.
  intros Hst Hch After.
  destruct (NativePostEvaluateAnimation_state s st ch Hst Hch)
    as (Hst' & Hch' & Hpending & Hteleported & Hdyn & Hturn).
  fold After in Hst', Hch', Hpending, Hteleported, Hdyn, Hturn.
  repeat split_and; try assumption.
  - apply NewEffects_app, NativePostEvaluateAnimation_effects with (ch := ch); assumption.
  - apply NewEffects_app.
    rewrite (NativePostEvaluateAnimation_effects After st ch Hst' Hch'), Hdyn, Hturn.
    reflexivity.
Qed.

(** X15.  A frame whose worker-safe pass runs off the game thread, starting
    with an empty turn queue: the post-evaluate step plays exactly what the
    pass queued.  A queued dynamic transition is played with its animation; a
    queued turn is played on its slot, and the turn play rate and the foot
    lock switch are set from the queued settings and the queued angle; when
    the pass queued no turn, the post-evaluate step plays no turn. *)
Theorem frame_plays_what_it_queued
    (h : Host.t) (DeltaTime : float) (s : Instance.t)
    (st : AlsSettings.t) (ch : Character.t) :
  Instance.Settings s = Some st ->
  Instance.Character s = Some ch ->
  OnWorkerThread h ->
  TurnInPlaceState.QueuedSettings (Instance.TurnInPlaceState s) = None ->
  let Updated := NativeThreadSafeUpdateAnimation h DeltaTime s in
  let After := NativePostEvaluateAnimation Updated in
  (forall Side Animation,
      In (QueueDynamicTransition Side Animation) (NewEffects s Updated) ->
      In (DynamicTransitionMontage st (Some Animation)) (NewEffects Updated After))
  /\ (forall Selected Slot Angle,
         In (QueueTurnInPlace Selected Slot Angle) (NewEffects s Updated) ->
         NewEffects Updated After
         = [DynamicTransitionMontage st (QueuedDynamicTransition Updated);
            TurnInPlaceMontage st Selected Slot]
         /\ TurnInPlaceState.PlayRate (Instance.TurnInPlaceState After)
            = (if TurnSettings.bScalePlayRateByAnimatedTurnAngle Selected
               then TurnSettings.PlayRate Selected
                    * FMath.Abs (Angle / TurnSettings.AnimatedTurnAngle Selected)
               else TurnSettings.PlayRate Selected)
         /\ TurnInPlaceState.bFootLockDisabled (Instance.TurnInPlaceState After)
            = TurnInPlaceSettings.bDisableFootLock (AlsSettings.TurnInPlace st))
  /\ ((forall Selected Slot Angle,
          ~ In (QueueTurnInPlace Selected Slot Angle) (NewEffects s Updated)) ->
      NewEffects Updated After
      = [DynamicTransitionMontage st (QueuedDynamicTransition Updated)]
      /\ Instance.TurnInPlaceState After = Instance.TurnInPlaceState Updated).
Proof.
  intros Hst Hch Hw Hq Updated After. red in Hw.
  destruct (NativeThreadSafeUpdateAnimation_effects h DeltaTime s st Hst)
    as (Transition & Turn & He & HT & HU).
  fold Updated in He, HT, HU. rewrite Hw in HT, HU.
  pose proof (NativeThreadSafeUpdateAnimation_snapshot h DeltaTime s) as Hsnap.
  fold Updated in Hsnap.
  assert (Instance.Settings Updated = Some st) as Hst'.
  { rewrite <- Hst. exact (f_equal (fun p => fst (fst (fst (fst (fst (fst (fst (fst p)))))))) Hsnap). }
  assert (Instance.Character Updated = Some ch) as Hch'.
  { rewrite <- Hch. exact (f_equal (fun p => snd (fst (fst (fst (fst (fst (fst (fst p)))))))) Hsnap). }
  pose proof (NewEffects_app _ _ _ He) as Hnew.
  pose proof (NewEffects_app _ _ _ (NativePostEvaluateAnimation_effects Updated st ch Hst' Hch'))
    as Hpost.
  fold After in Hpost.
  repeat split_and.
  - intros Side Animation Hin. rewrite Hnew in Hin. rewrite Hpost.
    destruct HT as [[-> _] | (Side' & A & -> & HqT)].
    + destruct HU as [[-> _] | (Selected & Slot & _ & _ & -> & _)];
        [destruct Hin | destruct Hin as [Heq | []]; discriminate].
    + rewrite HqT. left.
      destruct Hin as [Heq | Hin]; [injection Heq as _ ->; reflexivity|].
      destruct HU as [[-> _] | (Selected & Slot & _ & _ & -> & _)];
        [destruct Hin | destruct Hin as [Heq | []]; discriminate].
  - intros Selected Slot Angle Hin. rewrite Hnew in Hin.
    assert (In (QueueTurnInPlace Selected Slot Angle) Turn) as Hin'.
    { apply in_app_or in Hin. destruct Hin as [Hin | Hin]; [|exact Hin].
      destruct HT as [[-> _] | (Side' & A & -> & _)];
        [destruct Hin | destruct Hin as [Heq | []]; discriminate]. }
    destruct HU as [[-> _] | (Selected' & Slot' & _ & _ & -> & HqU)]; [destruct Hin'|].
    destruct Hin' as [Heq | []]. injection Heq as -> -> HA.
    unfold QueuedTurnInPlace in HqU. injection HqU as Hq1 Hq2 Hq3.
    rewrite Hpost, Hq1, Hq2. split; [reflexivity|].
    subst After. unfold NativePostEvaluateAnimation. rewrite Hst', Hch'.
    unfold PlayQueuedTurnInPlaceAnimation.
    cbn [PlayQueuedDynamicTransitionAnimation emit Instance.TurnInPlaceState
         Instance.set_TransitionsState Instance.set_Effects Instance.set_bTeleported
         Instance.set_bPendingUpdate Instance.set_TurnInPlaceState].
    rewrite Hq1. cbn. rewrite Hq3, HA. split; reflexivity.
  - intros Hnone.
    assert (TurnInPlaceState.QueuedSettings (Instance.TurnInPlaceState Updated) = None) as Hq'.
    { destruct HU as [[_ HqU] | (Selected & Slot & _ & _ & -> & _)].
      - unfold QueuedTurnInPlace in HqU. injection HqU as Hq1 _ _. rewrite Hq1. exact Hq.
      - exfalso. apply (Hnone Selected Slot (ViewState.YawAngle (Instance.ViewState Updated))).
        rewrite Hnew. apply in_or_app. right. left. reflexivity. }
    rewrite Hpost, Hq'. split; [reflexivity|].
    subst After. unfold NativePostEvaluateAnimation. rewrite Hst', Hch'.
    unfold PlayQueuedTurnInPlaceAnimation.
    cbn [PlayQueuedDynamicTransitionAnimation emit Instance.TurnInPlaceState
         Instance.set_TransitionsState Instance.set_Effects Instance.set_bTeleported
         Instance.set_bPendingUpdate Instance.set_TurnInPlaceState].
    rewrite Hq'. reflexivity.
Qed.

(** *** Foot lock *)

Lemma VecEq_refl (a : FVector) : VecEq a a.
Proof. repeat split; reflexivity. Qed.

Lemma Lerp_full (a b : FVector) : VecEq (Vec.Lerp a b 1) b.
Proof. unfold VecEq, Vec.Lerp, Vec.add, Vec.scale, Vec.sub. cbn. repeat split; ring. Qed.

(** X16.  An update of [RefreshFootLock] that is skipped, because foot
    locking is disabled or the new lock is not relevant, hands the final
    location and rotation on unchanged and leaves no positive lock amount: a
    foot whose lock amount was positive gets the amount and all six lock
    locations and rotations cleared, and any other foot is returned as it
    was. *)
Theorem foot_lock_release
    (st : AlsSettings.t) (h : Host.t) (s : Instance.t) (f : FootState.t)
    (c : CurveName) (cti : FTransform) (DeltaTime : float)
    (FinalLocation : FVector) (FinalRotation : FQuat) :
  FootLockSkipped st f (NewFootLockAmount h s f c DeltaTime) = true ->
  let Result := RefreshFootLock st h s f c cti DeltaTime FinalLocation FinalRotation in
  let After := fst (fst Result) in
  snd (fst Result) = FinalLocation
  /\ snd Result = FinalRotation
  /\ FootState.LockAmount After <= 0
  /\ (FootState.LockAmount f <= 0 -> After = f)
  /\ (0 < FootState.LockAmount f ->
      FootState.LockAmount After = 0
      /\ FootState.LockLocation After = Vec.Zero
      /\ FootState.LockRotation After = QuatIdentity
      /\ FootState.LockComponentRelativeLocation After = Vec.Zero
      /\ FootState.LockComponentRelativeRotation After = QuatIdentity
      /\ FootState.LockMovementBaseRelativeLocation After = Vec.Zero
      /\ FootState.LockMovementBaseRelativeRotation After = QuatIdentity).
Proof.
  intros Hskip Result After. subst After Result. unfold RefreshFootLock. rewrite Hskip.
  cbn [fst snd]. repeat split_and; try reflexivity.
  - qcase; cbn; lra.
  - intros Hle. qcase; [lra | reflexivity].
  - intros Hlt. qcase; [|lra]. repeat split_and; reflexivity.
Qed.

(** The foot lock after an update at full weight. *)
Lemma RefreshFootLock_full_weight st h s f c cti dt l r :
  FootLockSkipped st f (NewFootLockAmount h s f c dt) = false ->
  IsFullWeight (NewFootLockAmount h s f c dt) = true ->
  let Result := RefreshFootLock st h s f c cti dt l r in
  let After := fst (fst Result) in
  FootState.LockAmount After = 1
  /\ snd (fst Result) = Vec.Lerp l (FootState.LockLocation After) 1
  /\ snd Result = Slerp r (FootState.LockRotation After) 1
  /\ FootState.LockComponentRelativeLocation After
     = TransformPosition cti (FootState.LockLocation After)
  /\ FootState.LockComponentRelativeRotation After
     = TransformRotation cti (FootState.LockRotation After).
Proof.
  intros Hskip Hfull Result After. subst After Result. unfold RefreshFootLock.
  rewrite Hskip, Hfull.
  destruct (_ >? _); [destruct (_ <=? _)|]; destruct (bHasRelativeLocation s);
    cbn; repeat split_and; reflexivity.
Qed.

(** X17.  While the new lock amount is at full weight the foot is pinned:
    the stored lock amount is exactly 1, the final location handed on is the
    interpolation from the incoming location to the lock location at weight 1,
    and the lock is stored relative to the component as well.  In exact
    arithmetic that interpolation is the lock location itself; in the doubles
    of the source it is the lock location up to the rounding of
    [A + 1 * (B - A)].  Off a movement base, once the stored amount has
    reached the new amount, the lock location and rotation are the ones of the
    previous update, whatever the animated pose is. *)
Theorem foot_lock_full_weight_pins_foot
    (st : AlsSettings.t) (h : Host.t) (s : Instance.t) (f : FootState.t)
    (c : CurveName) (cti : FTransform) (DeltaTime : float)
    (FinalLocation : FVector) (FinalRotation : FQuat) :
  FootLockSkipped st f (NewFootLockAmount h s f c DeltaTime) = false ->
  IsFullWeight (NewFootLockAmount h s f c DeltaTime) = true ->
  let Result := RefreshFootLock st h s f c cti DeltaTime FinalLocation FinalRotation in
  let After := fst (fst Result) in
  FootState.LockAmount After = 1
  /\ snd (fst Result) = Vec.Lerp FinalLocation (FootState.LockLocation After) 1
  /\ snd Result = Slerp FinalRotation (FootState.LockRotation After) 1
  /\ VecEq (snd (fst Result)) (FootState.LockLocation After)
  /\ FootState.LockComponentRelativeLocation After
     = TransformPosition cti (FootState.LockLocation After)
  /\ (bHasRelativeLocation s = false ->
      NewFootLockAmount h s f c DeltaTime <= FootState.LockAmount f ->
      FootState.LockLocation After = FootState.LockLocation f
      /\ FootState.LockRotation After = FootState.LockRotation f).
Proof.
  intros Hskip Hfull Result After.
  destruct (RefreshFootLock_full_weight st h s f c cti DeltaTime FinalLocation FinalRotation
              Hskip Hfull) as (Hamount & Hlocation & Hrotation & Hrelative & _).
  fold Result in Hamount, Hlocation, Hrotation, Hrelative.
  fold After in Hamount, Hlocation, Hrotation, Hrelative.
  repeat split_and; try assumption.
  - rewrite Hlocation. apply Lerp_full.
  - intros Hbase Hle. subst After Result. unfold RefreshFootLock.
    rewrite Hskip, Hfull, Hbase.
    qcase; [lra|]. cbn. split; reflexivity.
Qed.

(** The lock location that a capture at full weight stores. *)
Lemma RefreshFootLock_capture st h s f c cti dt l r :
  FootLockSkipped st f (NewFootLockAmount h s f c dt) = false ->
  IsFullWeight (NewFootLockAmount h s f c dt) = true ->
  FootState.LockAmount f < NewFootLockAmount h s f c dt ->
  (bHasRelativeLocation s = false -> FootState.LockAmount f <= 0.9) ->
  FootState.LockLocation (fst (fst (RefreshFootLock st h s f c cti dt l r)))
  = if bHasRelativeLocation s
    then
      Vec.add
        (BasedMovementState.Location
           (LocomotionState.BasedMovement (Instance.LocomotionState s)))
        (RotateVector
           (BasedMovementState.Rotation
              (LocomotionState.BasedMovement (Instance.LocomotionState s)))
           (fst (MovementBaseRelative s l r)))
    else l.
Proof.
  intros Hskip Hfull Hlt Hworld. unfold RefreshFootLock. rewrite Hskip, Hfull.
  qcase; [|lra].
  destruct (bHasRelativeLocation s).
  - destruct (_ <=? _); reflexivity.
  - specialize (Hworld eq_refl). qcase; [|lra]. reflexivity.
Qed.

(** X18.  Capturing the lock does not move the foot.  When the new lock
    amount reaches full weight above the stored one: off a movement base,
    provided the stored amount was at most 0.9, the lock location becomes the
    incoming final location itself, and the location handed on is the
    interpolation from that location to itself; on a movement base, provided
    rotating by the base rotation undoes rotating by its inverse, the lock
    location becomes the base location plus the incoming location less the
    base location.  In exact arithmetic both the lock location and the
    location handed on are then the incoming final location; in the doubles of
    the source this holds off a movement base, and on a movement base up to
    the rounding of [Base + (Final - Base)] and of the interpolation. *)
Theorem foot_lock_capture_keeps_foot
    (st : AlsSettings.t) (h : Host.t) (s : Instance.t) (f : FootState.t)
    (c : CurveName) (cti : FTransform) (DeltaTime : float)
    (FinalLocation : FVector) (FinalRotation : FQuat) :
  FootLockSkipped st f (NewFootLockAmount h s f c DeltaTime) = false ->
  IsFullWeight (NewFootLockAmount h s f c DeltaTime) = true ->
  FootState.LockAmount f < NewFootLockAmount h s f c DeltaTime ->
  (bHasRelativeLocation s = false -> FootState.LockAmount f <= 0.9) ->
  (bHasRelativeLocation s = true ->
   let Based := LocomotionState.BasedMovement (Instance.LocomotionState s) in
   let Offset := Vec.sub FinalLocation (BasedMovementState.Location Based) in
   RotateVector (BasedMovementState.Rotation Based)
     (RotateVector (QuatInverse (BasedMovementState.Rotation Based)) Offset)
   = Offset) ->
  let Result := RefreshFootLock st h s f c cti DeltaTime FinalLocation FinalRotation in
  let After := fst (fst Result) in
  let BaseLocation :=
    BasedMovementState.Location
      (LocomotionState.BasedMovement (Instance.LocomotionState s)) in
  FootState.LockLocation After
  = (if bHasRelativeLocation s
     then Vec.add BaseLocation (Vec.sub FinalLocation BaseLocation)
     else FinalLocation)
  /\ snd (fst Result) = Vec.Lerp FinalLocation (FootState.LockLocation After) 1
  /\ VecEq (FootState.LockLocation After) FinalLocation
  /\ VecEq (snd (fst Result)) FinalLocation.
Proof.
  intros Hskip Hfull Hlt Hworld Hbased Result After BaseLocation.
  assert (FootState.LockLocation After
          = (if bHasRelativeLocation s
             then Vec.add BaseLocation (Vec.sub FinalLocation BaseLocation)
             else FinalLocation)) as Hstored.
  { subst After Result.
    rewrite (RefreshFootLock_capture st h s f c cti DeltaTime FinalLocation FinalRotation
               Hskip Hfull Hlt Hworld).
    destruct (bHasRelativeLocation s); [|reflexivity].
    specialize (Hbased eq_refl). cbn zeta in Hbased.
    unfold MovementBaseRelative. cbn [fst]. rewrite Hbased. reflexivity. }
  destruct (RefreshFootLock_full_weight st h s f c cti DeltaTime FinalLocation FinalRotation
              Hskip Hfull) as (_ & Hlocation & _).
  fold Result in Hlocation. fold After in Hlocation.
  assert (VecEq (FootState.LockLocation After) FinalLocation) as Hlock.
  { rewrite Hstored. destruct (bHasRelativeLocation s); [|apply VecEq_refl].
    unfold VecEq, Vec.add, Vec.sub. cbn. repeat split; ring. }
  repeat split_and; try assumption.
  rewrite Hlocation.
  destruct Hlock as (Hx & Hy & Hz).
  pose proof (Lerp_full FinalLocation (FootState.LockLocation After)) as (Lx & Ly & Lz).
  unfold VecEq. rewrite Lx, Ly, Lz. auto.
Qed.

(** *** Foot offset *)

(** X19.  [RefreshFootOffset] applies the offset it stores.  With an IK amount
    that is not relevant the final location and rotation are handed on
    unchanged, the stored offset is kept and only the offset target and the
    spring are reset.  With a relevant IK amount the final location handed on
    is the incoming one moved by the stored offset location; in the air the
    offset target and the spring are reset, and on a re-initialisation in the
    air the offset itself is cleared. *)
Theorem foot_offset_applied
    (st : AlsSettings.t) (h : Host.t) (s : Instance.t) (f : FootState.t)
    (DeltaTime : float) (FinalLocation : FVector) (FinalRotation : FQuat) :
  let Result := RefreshFootOffset st h s f DeltaTime FinalLocation FinalRotation in
  let After := fst (fst Result) in
  (IsRelevant (FootState.IkAmount f) = false ->
   snd (fst Result) = FinalLocation
   /\ snd Result = FinalRotation
   /\ FootState.OffsetLocation After = FootState.OffsetLocation f
   /\ FootState.OffsetRotation After = FootState.OffsetRotation f
   /\ FootState.OffsetTargetLocation After = Vec.Zero
   /\ FootState.OffsetTargetRotation After = QuatIdentity
   /\ FootState.OffsetSpringState After = SpringReset)
  /\ (IsRelevant (FootState.IkAmount f) = true ->
      VecEq (snd (fst Result)) (Vec.add FinalLocation (FootState.OffsetLocation After))
      /\ (IsInAirMode (Instance.LocomotionMode s) = true ->
          FootState.OffsetTargetLocation After = Vec.Zero
          /\ FootState.OffsetTargetRotation After = QuatIdentity
          /\ FootState.OffsetSpringState After = SpringReset
          /\ (FeetState.bReinitializationRequired (Instance.FeetState s) = true ->
              FootState.OffsetLocation After = Vec.Zero
              /\ FootState.OffsetRotation After = QuatIdentity
              /\ snd Result = FinalRotation))
      /\ (IsInAirMode (Instance.LocomotionMode s)
          && FeetState.bReinitializationRequired (Instance.FeetState s) = false ->
          snd Result = QuatMul (FootState.OffsetRotation After) FinalRotation)).
Proof.
  intros Result After. subst After Result. unfold RefreshFootOffset. split.
  - intros Hik. rewrite Hik. cbn. repeat split_and; reflexivity.
  - intros Hik. rewrite Hik. cbn [negb].
    destruct (IsInAirMode _); [destruct (FeetState.bReinitializationRequired _)|];
      cbn [fst snd andb FootState.OffsetLocation FootState.OffsetRotation
           FootState.OffsetTargetLocation FootState.OffsetTargetRotation
           FootState.OffsetSpringState FootState.set_OffsetRotation
           FootState.set_OffsetLocation FootState.set_OffsetSpringState
           FootState.set_OffsetTargetRotation FootState.set_OffsetTargetLocation];
      repeat (first [split_and | intro]);
      try reflexivity; try discriminate; try apply VecEq_refl.
    unfold VecEq, Vec.add, Vec.Zero. cbn. repeat split; lra.
Qed.

(** X20.  On the ground, with a relevant IK amount, the offset target of
    [RefreshFootOffset] comes from the trace under the foot.  Where the trace
    finds walkable ground whose normal points straight up, the target is the
    impact point relative to the foot location at the height of the
    component, whatever the foot height setting is; where it finds none, the
    target of the previous update is kept. *)
Theorem foot_offset_target_on_ground
    (st : AlsSettings.t) (h : Host.t) (s : Instance.t) (f : FootState.t)
    (DeltaTime : float) (FinalLocation : FVector) (FinalRotation : FQuat) :
  IsRelevant (FootState.IkAmount f) = true ->
  IsInAirMode (Instance.LocomotionMode s) = false ->
  let Hit := FootOffsetTrace st h s FinalLocation in
  let After :=
    fst (fst (RefreshFootOffset st h s f DeltaTime FinalLocation FinalRotation)) in
  (FootOffsetGroundValid s Hit = true ->
   ImpactNormal Hit = {| X := 0; Y := 0; Z := 1 |} ->
   VecEq (FootState.OffsetTargetLocation After)
     (Vec.sub (ImpactPoint Hit) (FootOffsetTraceLocation h FinalLocation)))
  /\ (FootOffsetGroundValid s Hit = false ->
      FootState.OffsetTargetLocation After = FootState.OffsetTargetLocation f
      /\ FootState.OffsetTargetRotation After = FootState.OffsetTargetRotation f).
Proof.
  intros Hik Hmode Hit After. subst After. unfold RefreshFootOffset.
  rewrite Hik, Hmode. cbn [negb]. fold Hit. split.
  - intros Hvalid Hnormal. rewrite Hvalid.
    destruct (FeetState.bReinitializationRequired _); cbn; rewrite Hnormal;
      unfold VecEq; cbn; repeat split; lra.
  - intros Hvalid. rewrite Hvalid.
    destruct (FeetState.bReinitializationRequired _); cbn; split; reflexivity.
Qed.

(** *** Teleport and base change *)

(** X21.  The two corrections of the foot lock before its update never touch
    the animated target, the IK amount or the lock amount.  A base change
    alone leaves the world lock location and rotation where they are and
    re-derives the relative ones from them; a re-initialisation moves the lock
    to the animated target; a teleport re-derives the world lock from the one
    stored relative to the component.  Each of them leaves a foot whose
    product of IK and lock amount is not relevant exactly as it was. *)
Theorem foot_lock_corrections
    (h : Host.t) (s : Instance.t) (f : FootState.t) (cti : FTransform) :
  let Teleported := ProcessFootLockTeleport h s f in
  let Rebased := ProcessFootLockBaseChange s f cti in
  let Relevant := IsRelevant (FootState.IkAmount f * FootState.LockAmount f) in
  let Reinitialize := FeetState.bReinitializationRequired (Instance.FeetState s) in
  (Relevant = false -> Teleported = f /\ Rebased = f)
  /\ (FootState.TargetLocation Teleported, FootState.IkAmount Teleported,
      FootState.LockAmount Teleported)
     = (FootState.TargetLocation f, FootState.IkAmount f, FootState.LockAmount f)
  /\ (FootState.TargetLocation Rebased, FootState.IkAmount Rebased,
      FootState.LockAmount Rebased)
     = (FootState.TargetLocation f, FootState.IkAmount f, FootState.LockAmount f)
  /\ (Relevant = true -> Instance.bTeleported s = true -> Reinitialize = false ->
      FootState.LockLocation Teleported
      = TransformPosition (Host.GetComponentTransform h)
          (FootState.LockComponentRelativeLocation f)
      /\ FootState.LockComponentRelativeLocation Teleported
         = FootState.LockComponentRelativeLocation f)
  /\ (Reinitialize = false ->
      FootState.LockLocation Rebased = FootState.LockLocation f
      /\ FootState.LockRotation Rebased = FootState.LockRotation f)
  /\ (Relevant = true -> Reinitialize = true ->
      FootState.LockLocation Rebased = FootState.TargetLocation f
      /\ FootState.LockRotation Rebased = FootState.TargetRotation f)
  /\ (Relevant = true ->
      BasedMovementState.bBaseChanged
        (LocomotionState.BasedMovement (Instance.LocomotionState s)) || Reinitialize = true ->
      FootState.LockComponentRelativeLocation Rebased
      = TransformPosition cti (FootState.LockLocation Rebased)
      /\ (bHasRelativeLocation s = false ->
          FootState.LockMovementBaseRelativeLocation Rebased = Vec.Zero
          /\ FootState.LockMovementBaseRelativeRotation Rebased = QuatIdentity)).
Proof.
  cbn zeta. unfold ProcessFootLockTeleport, ProcessFootLockBaseChange.
  repeat split_and.
  - intros ->. rewrite !orb_true_r. split; reflexivity.
  - split_ifs; reflexivity.
  - split_ifs; reflexivity.
  - intros -> -> ->. cbn [negb orb]. destruct (bHasRelativeLocation s); cbn; split; reflexivity.
  - intros ->. split_ifs; cbn; split; reflexivity.
  - intros -> ->. rewrite andb_false_r. cbn [negb orb].
    destruct (bHasRelativeLocation s); cbn; split; reflexivity.
  - intros -> Hedge.
    destruct (BasedMovementState.bBaseChanged _);
      destruct (FeetState.bReinitializationRequired _); try discriminate;
      cbn [negb orb andb];
      (destruct (bHasRelativeLocation s); cbn;
       (split; [reflexivity | intros; try discriminate; split; reflexivity])).
Qed.

(** *** Feet *)

(** X22.  [RefreshFeet] with curves that are not relevant only raises the
    re-initialisation flag of the feet.  With relevant curves it clears the
    flag, clamps the foot planted amount into the interval from -1 to 1, and
    leaves the pelvis offset range as the least and the greatest of the two
    feet's offset target heights. *)
Theorem feet_refresh
    (st : AlsSettings.t) (h : Host.t) (DeltaTime : float) (s : Instance.t) :
  let Feet := Instance.FeetState (RefreshFeet st h DeltaTime s) in
  let LeftZ := Z (FootState.OffsetTargetLocation (FeetState.Left Feet)) in
  let RightZ := Z (FootState.OffsetTargetLocation (FeetState.Right Feet)) in
  (Instance.bAnimationCurvesRelevant s = false ->
   Feet = FeetState.set_bReinitializationRequired true (Instance.FeetState s))
  /\ (Instance.bAnimationCurvesRelevant s = true ->
      FeetState.bReinitializationRequired Feet = false
      /\ -1 <= FeetState.FootPlantedAmount Feet <= 1
      /\ X2 (FeetState.MinMaxPelvisOffsetZ Feet) <= LeftZ <= Y2 (FeetState.MinMaxPelvisOffsetZ Feet)
      /\ X2 (FeetState.MinMaxPelvisOffsetZ Feet) <= RightZ <= Y2 (FeetState.MinMaxPelvisOffsetZ Feet)
      /\ (X2 (FeetState.MinMaxPelvisOffsetZ Feet) == LeftZ
          \/ X2 (FeetState.MinMaxPelvisOffsetZ Feet) == RightZ)
      /\ (Y2 (FeetState.MinMaxPelvisOffsetZ Feet) == LeftZ
          \/ Y2 (FeetState.MinMaxPelvisOffsetZ Feet) == RightZ)).
Proof.
  cbn zeta. unfold RefreshFeet.
  cbn [Instance.bAnimationCurvesRelevant Instance.set_FeetState Instance.FeetState]. split.
  - intros ->. cbn [negb orb]. rewrite !orb_true_r. reflexivity.
  - intros ->. cbn [negb].
    match goal with
    | |- context [RefreshFoot st h ?s1 ?f FootLeftIkCurve ?c ?t ?d] =>
        generalize (RefreshFoot st h s1 f FootLeftIkCurve c t d)
    end.
    intros Left.
    match goal with
    | |- context [RefreshFoot st h ?s1 ?f FootRightIkCurve ?c ?t ?d] =>
        generalize (RefreshFoot st h s1 f FootRightIkCurve c t d)
    end.
    intros Right. cbn.
    split; [reflexivity|]. split; [apply Clamp_range; lra|].
    generalize (Z (FootState.OffsetTargetLocation Left)),
      (Z (FootState.OffsetTargetLocation Right)).
    intros a b. unfold FMath.Min, FMath.Max.
    qcases; repeat split_and; try lra; (left; reflexivity) || (right; reflexivity).
Qed.

(** *** Lean *)

Lemma RefreshMovementDirection_lean s :
  LeanInputs (RefreshMovementDirection s) = LeanInputs s.
Proof. unfold RefreshMovementDirection. destruct (_ || _); reflexivity. Qed.

Lemma RefreshVelocityBlend_lean st dt s :
  LeanInputs (RefreshVelocityBlend st dt s) = LeanInputs s.
Proof. reflexivity. Qed.

Lemma RefreshRotationYawOffsets_lean st s :
  LeanInputs (RefreshRotationYawOffsets st s) = LeanInputs s.
Proof. reflexivity. Qed.

Lemma RefreshSprint_lean a dt s : LeanInputs (RefreshSprint a dt s) = LeanInputs s.
Proof. unfold RefreshSprint. destruct (negb _); reflexivity. Qed.

Lemma RefreshStrideBlendAmount_lean st s :
  LeanInputs (RefreshStrideBlendAmount st s) = LeanInputs s.
Proof. reflexivity. Qed.

Lemma RefreshWalkRunBlendAmount_lean s :
  LeanInputs (RefreshWalkRunBlendAmount s) = LeanInputs s.
Proof. reflexivity. Qed.

Lemma RefreshStandingPlayRate_lean st s :
  LeanInputs (RefreshStandingPlayRate st s) = LeanInputs s.
Proof. reflexivity. Qed.

Lemma RefreshCrouchingPlayRate_lean st s :
  LeanInputs (RefreshCrouchingPlayRate st s) = LeanInputs s.
Proof. reflexivity. Qed.

Lemma RefreshGroundedLeanAmount_lean st a dt s s0 :
  LeanInputs s = LeanInputs s0 ->
  Instance.LeanState (RefreshGroundedLeanAmount st a dt s)
  = if Instance.bPendingUpdate s0
    then {| LeanState.RightAmount := Y a; LeanState.ForwardAmount := X a |}
    else {| LeanState.RightAmount :=
              FInterpTo (LeanState.RightAmount (Instance.LeanState s0)) (Y a) dt
                (GeneralSettings.LeanInterpolationSpeed (AlsSettings.General st));
            LeanState.ForwardAmount :=
              FInterpTo (LeanState.ForwardAmount (Instance.LeanState s0)) (X a) dt
                (GeneralSettings.LeanInterpolationSpeed (AlsSettings.General st)) |}.
Proof.
  intros H. unfold LeanInputs in H. injection H as Hp Hl.
  unfold RefreshGroundedLeanAmount. rewrite Hp, Hl.
  destruct (Instance.bPendingUpdate s0); reflexivity.
Qed.

Lemma RefreshGroundPredictionAmount_lean st h s :
  LeanInputs (RefreshGroundPredictionAmount st h s) = LeanInputs s
  /\ Instance.LocomotionState (RefreshGroundPredictionAmount st h s) = Instance.LocomotionState s
  /\ InAirState.VerticalVelocity (Instance.InAirState (RefreshGroundPredictionAmount st h s))
     = InAirState.VerticalVelocity (Instance.InAirState s).
Proof. unfold RefreshGroundPredictionAmount. split_ifs; repeat split_and; reflexivity. Qed.

(** X23.  Where the lean snaps.  For a moving character in grounded mode
    [RefreshGrounded] sets the lean to the relative acceleration amount
    itself when an update is pending, and in in-air mode [RefreshInAir] sets
    it to the scaled relative velocity itself; without a pending update both
    interpolate towards these from the previous lean.  For a character in
    grounded mode that does not move the lean is interpolated towards zero
    from the previous lean whether or not an update is pending, and outside
    grounded mode [RefreshGrounded] leaves the lean as it is. *)
Theorem lean_refresh
    (st : AlsSettings.t) (h : Host.t) (DeltaTime : float) (s : Instance.t) :
  let Speed := GeneralSettings.LeanInterpolationSpeed (AlsSettings.General st) in
  let Lean := Instance.LeanState s in
  let Towards (Target : FVector) :=
    if Instance.bPendingUpdate s
    then {| LeanState.RightAmount := Y Target; LeanState.ForwardAmount := X Target |}
    else {| LeanState.RightAmount :=
              FInterpTo (LeanState.RightAmount Lean) (Y Target) DeltaTime Speed;
            LeanState.ForwardAmount :=
              FInterpTo (LeanState.ForwardAmount Lean) (X Target) DeltaTime Speed |} in
  (IsGroundedMode (Instance.LocomotionMode s) = false ->
   Instance.LeanState (RefreshGrounded st h DeltaTime s) = Lean)
  /\ (IsGroundedMode (Instance.LocomotionMode s) = true ->
      LocomotionState.bMoving (Instance.LocomotionState s) = false ->
      Instance.LeanState (RefreshGrounded st h DeltaTime s)
      = {| LeanState.RightAmount := FInterpTo (LeanState.RightAmount Lean) 0 DeltaTime Speed;
           LeanState.ForwardAmount :=
             FInterpTo (LeanState.ForwardAmount Lean) 0 DeltaTime Speed |})
  /\ (IsGroundedMode (Instance.LocomotionMode s) = true ->
      LocomotionState.bMoving (Instance.LocomotionState s) = true ->
      Instance.LeanState (RefreshGrounded st h DeltaTime s)
      = Towards (RelativeAccelerationAmount s))
  /\ (IsInAirMode (Instance.LocomotionMode s) = true ->
      Instance.LeanState (RefreshInAir st h DeltaTime s)
      = Towards (InAirRelativeVelocity st s)).
Proof.
  cbn zeta. repeat split_and.
  - intros Hmode. unfold RefreshGrounded.
    cbn [Instance.LocomotionMode Instance.LocomotionState Instance.set_GroundedState].
    rewrite Hmode. reflexivity.
  - intros Hmode Hmoving. unfold RefreshGrounded.
    cbn [Instance.LocomotionMode Instance.LocomotionState Instance.set_GroundedState].
    rewrite Hmode, Hmoving. reflexivity.
  - intros Hmode Hmoving. unfold RefreshGrounded.
    cbn [Instance.LocomotionMode Instance.LocomotionState Instance.set_GroundedState].
    rewrite Hmode, Hmoving. cbn [negb].
    apply RefreshGroundedLeanAmount_lean.
    rewrite RefreshCrouchingPlayRate_lean, RefreshStandingPlayRate_lean,
      RefreshWalkRunBlendAmount_lean, RefreshStrideBlendAmount_lean, RefreshSprint_lean,
      RefreshRotationYawOffsets_lean, RefreshVelocityBlend_lean, RefreshMovementDirection_lean.
    reflexivity.
  - intros Hmode. unfold RefreshInAir.
    assert (forall s0 : Instance.t,
               Instance.LocomotionMode s0 = Instance.LocomotionMode s ->
               Instance.LocomotionState s0 = Instance.LocomotionState s ->
               LeanInputs s0 = LeanInputs s ->
               Instance.LeanState
                 (if negb (IsInAirMode (Instance.LocomotionMode s0)) then s0
                  else
                    RefreshInAirLeanAmount st DeltaTime
                      (RefreshGroundPredictionAmount st h
                         (Instance.set_InAirState
                            (InAirState.set_VerticalVelocity
                               (Z (LocomotionState.Velocity (Instance.LocomotionState s0)))
                               (Instance.InAirState s0))
                            s0)))
               = (if Instance.bPendingUpdate s
                  then {| LeanState.RightAmount := Y (InAirRelativeVelocity st s);
                          LeanState.ForwardAmount := X (InAirRelativeVelocity st s) |}
                  else {| LeanState.RightAmount :=
                            FInterpTo (LeanState.RightAmount (Instance.LeanState s))
                              (Y (InAirRelativeVelocity st s)) DeltaTime
                              (GeneralSettings.LeanInterpolationSpeed (AlsSettings.General st));
                          LeanState.ForwardAmount :=
                            FInterpTo (LeanState.ForwardAmount (Instance.LeanState s))
                              (X (InAirRelativeVelocity st s)) DeltaTime
                              (GeneralSettings.LeanInterpolationSpeed (AlsSettings.General st))
                       |})) as Hgen.
    { intros s0 Hm Hl Hi. rewrite Hm, Hmode. cbn [negb].
      match goal with
      | |- context [RefreshGroundPredictionAmount st h ?s1] =>
          destruct (RefreshGroundPredictionAmount_lean st h s1) as (Ki & Kl & Kv);
          remember (RefreshGroundPredictionAmount st h s1) as s2 eqn:E2; clear E2
      end.
      cbn [Instance.InAirState Instance.set_InAirState InAirState.VerticalVelocity
           InAirState.set_VerticalVelocity Instance.LocomotionState] in Kl, Kv.
      unfold LeanInputs in Ki, Hi. cbn [Instance.bPendingUpdate Instance.LeanState
        Instance.set_InAirState] in Ki.
      injection Ki as Kp Kn. injection Hi as Hp Hn.
      unfold RefreshInAirLeanAmount, InAirRelativeVelocity.
      rewrite Kp, Kn, Kl, Kv, Hl, Hp, Hn.
      destruct (Instance.bPendingUpdate s); reflexivity. }
    destruct (InAirState.bJumped _); apply Hgen; reflexivity.
Qed.

(** *** Rotate in place *)

(** X24.  After [RefreshRotateInPlace] a rotating flag is set only for a
    character that stands in grounded mode with rotation in place allowed and
    whose view yaw angle is beyond the threshold on that side, so with a
    threshold that is not negative the two flags are never set together.
    While no flag is set, and whenever the settings disable the foot lock
    block, the foot lock block amount is 0; with an update pending it is 0 or
    1 and the play rate is its target itself. *)
Theorem rotate_in_place_refresh
    (st : AlsSettings.t) (DeltaTime : float) (s : Instance.t) :
  let Rotate := Instance.RotateInPlaceState (RefreshRotateInPlace st DeltaTime s) in
  let Cfg := AlsSettings.RotateInPlace st in
  let View := Instance.ViewState s in
  let Standing :=
    LocomotionState.bMoving (Instance.LocomotionState s) = false
    /\ IsGroundedMode (Instance.LocomotionMode s) = true
    /\ IsRotateInPlaceAllowed s = true in
  (RotateInPlaceState.bRotatingLeft Rotate = true ->
   Standing /\ ViewState.YawAngle View < - RotateInPlaceSettings.ViewYawAngleThreshold Cfg)
  /\ (RotateInPlaceState.bRotatingRight Rotate = true ->
      Standing /\ RotateInPlaceSettings.ViewYawAngleThreshold Cfg < ViewState.YawAngle View)
  /\ (0 <= RotateInPlaceSettings.ViewYawAngleThreshold Cfg ->
      RotateInPlaceState.bRotatingLeft Rotate && RotateInPlaceState.bRotatingRight Rotate
      = false)
  /\ (RotateInPlaceState.bRotatingLeft Rotate || RotateInPlaceState.bRotatingRight Rotate
      = false ->
      RotateInPlaceState.FootLockBlockAmount Rotate = 0
      /\ (Instance.bPendingUpdate s = true ->
          RotateInPlaceState.PlayRate Rotate = X2 (RotateInPlaceSettings.PlayRate Cfg)))
  /\ (RotateInPlaceSettings.bDisableFootLock Cfg = true ->
      RotateInPlaceState.FootLockBlockAmount Rotate = 0)
  /\ (Instance.bPendingUpdate s = true ->
      (RotateInPlaceState.FootLockBlockAmount Rotate = 0
       \/ RotateInPlaceState.FootLockBlockAmount Rotate = 1)
      /\ (RotateInPlaceState.bRotatingLeft Rotate || RotateInPlaceState.bRotatingRight Rotate
          = true ->
          RotateInPlaceState.PlayRate Rotate
          = GetMappedRangeValueClamped (RotateInPlaceSettings.ReferenceViewYawSpeed Cfg)
              (RotateInPlaceSettings.PlayRate Cfg) (ViewState.YawSpeed View))).
Proof.
  cbn zeta. unfold RefreshRotateInPlace.
  destruct (LocomotionState.bMoving _); cbn [orb].
  { cbn. repeat split_and; intros; try discriminate; try reflexivity; auto.
    - split; [reflexivity|]. intros ->. reflexivity.
    - split; [left; reflexivity | discriminate]. }
  destruct (IsGroundedMode _); cbn [negb orb].
  2:{ cbn. repeat split_and; intros; try discriminate; try reflexivity; auto.
      - split; [reflexivity|]. intros ->. reflexivity.
      - split; [left; reflexivity | discriminate]. }
  destruct (IsRotateInPlaceAllowed s); cbn [negb orb].
  2:{ cbn. repeat split_and; intros; try discriminate; try reflexivity; auto.
      - split; [reflexivity|]. intros ->. reflexivity.
      - split; [left; reflexivity | discriminate]. }
  destruct (Qlt_le_dec (ViewState.YawAngle (Instance.ViewState s))
              (- RotateInPlaceSettings.ViewYawAngleThreshold (AlsSettings.RotateInPlace st)))
    as [Hl | Hl];
    [rewrite (proj2 (Qltb_true_iff _ _) Hl) | rewrite (proj2 (Qltb_false_iff _ _) Hl)];
    (destruct (Qlt_le_dec (RotateInPlaceSettings.ViewYawAngleThreshold (AlsSettings.RotateInPlace st))
                 (ViewState.YawAngle (Instance.ViewState s))) as [Hr | Hr];
     [rewrite (proj2 (Qltb_true_iff _ _) Hr) | rewrite (proj2 (Qltb_false_iff _ _) Hr)]);
    cbn [negb andb];
    cbn [Instance.RotateInPlaceState Instance.set_RotateInPlaceState
         RotateInPlaceState.bRotatingLeft RotateInPlaceState.bRotatingRight
         RotateInPlaceState.FootLockBlockAmount RotateInPlaceState.PlayRate orb andb];
    repeat split_and; intros; try discriminate; try reflexivity; auto;
    try (exfalso; lra);
    try match goal with
        | Hd : RotateInPlaceSettings.bDisableFootLock _ = true |- _ => rewrite Hd; reflexivity
        | Hp : Instance.bPendingUpdate s = true |- _ =>
            rewrite Hp;
            split;
            [ split_ifs; (left; reflexivity) || (right; reflexivity)
            | intros; try discriminate; reflexivity ]
        end.
  all: try (split; [reflexivity | intros Hp; rewrite Hp; reflexivity]).
Qed.

(** *** Transition requests *)

Lemma PlayTransitionAnimation_cases Animation bi bo rate start flag s :
  (~ TransitionRequestAccepted flag s
   /\ PlayTransitionAnimation Animation bi bo rate start flag s = s)
  \/ (TransitionRequestAccepted flag s
      /\ PlayTransitionAnimation Animation bi bo rate start flag s
         = emit (PlaySlotAnimationAsDynamicMontage Animation TransitionSlot bi bo rate 1 0 start)
             s).
Proof.
  unfold PlayTransitionAnimation, TransitionRequestAccepted.
  destruct (Instance.Character s) as [ch|].
  2:{ left. split; [|reflexivity]. intros (ch & Hch & _). discriminate. }
  destruct flag; cbn [andb].
  - destruct (CharacterLocomotion.bMoving _) eqn:Hmoving; cbn [orb].
    { left. split; [|reflexivity]. intros (ch' & Hch & H). injection Hch as <-.
      destruct (H eq_refl). congruence. }
    destruct (IsStanding _) eqn:Hstanding; cbn [negb].
    + right. split; [|reflexivity]. exists ch. auto.
    + left. split; [|reflexivity]. intros (ch' & Hch & H). injection Hch as <-.
      destruct (H eq_refl). congruence.
  - right. split; [|reflexivity]. exists ch. split; [reflexivity | discriminate].
Qed.

(** X25.  A transition request changes nothing but the effects, and plays at
    most one montage: exactly when the character is there and, for a request
    from standing idle only, the character itself stands and does not move.
    The montage is played once on the transition slot with the blend times,
    play rate and start time of the request. *)
Theorem transition_request_plays_once
    (Animation : option Anim) (BlendInTime BlendOutTime PlayRate StartTime : float)
    (bFromStandingIdleOnly : bool) (s : Instance.t) :
  let After :=
    PlayTransitionAnimation Animation BlendInTime BlendOutTime PlayRate StartTime
      bFromStandingIdleOnly s in
  WithoutEffects After = WithoutEffects s
  /\ (TransitionRequestAccepted bFromStandingIdleOnly s ->
      NewEffects s After
      = [PlaySlotAnimationAsDynamicMontage Animation TransitionSlot
           BlendInTime BlendOutTime PlayRate 1 0 StartTime])
  /\ (~ TransitionRequestAccepted bFromStandingIdleOnly s -> After = s).
Proof.
  intros After. subst After.
  destruct (PlayTransitionAnimation_cases Animation BlendInTime BlendOutTime PlayRate StartTime
              bFromStandingIdleOnly s) as [[Hno ->] | [Hyes ->]].
  - repeat split_and; [reflexivity | contradiction | reflexivity].
  - repeat split_and; [reflexivity | | contradiction].
    intros _. apply NewEffects_app. reflexivity.
Qed.

Lemma QuickStopRotationYawAngle_range s :
  NormalizeAxisInRange ->
  QuickStopRotationYawAngle s <= 180
  /\ (0 <= CounterClockwiseRotationAngleThreshold ->
      -180 - CounterClockwiseRotationAngleThreshold < QuickStopRotationYawAngle s).
Proof.
  intros Hrange. unfold QuickStopRotationYawAngle.
  match goal with
  | |- context [NormalizeAxis ?a] =>
      pose proof (Hrange a) as [Hlo Hhi]; generalize dependent (NormalizeAxis a)
  end.
  intros r Hlo Hhi. qcase; split; intros; lra.
Qed.

(** X26.  [PlayQuickStopAnimation] with settings present requests one
    transition with the quick stop blend times and start time.  Outside the
    velocity direction rotation mode it is the left transition at the first
    quick stop play rate.  In that mode the side is left exactly when the
    rotation yaw angle, taken counter-clockwise beyond the threshold, is at
    most 0, and the play rate is interpolated by the absolute angle over 180;
    as that angle is below -180 when it was taken counter-clockwise, the rate
    can pass the second quick stop play rate, by at most the threshold's
    share of the range. *)
Theorem quick_stop_request
    (rq : TransitionRequestSettings.t) (bFromStandingIdleOnly : bool) (s : Instance.t)
    (st : AlsSettings.t) :
  Instance.Settings s = Some st ->
  NormalizeAxisInRange ->
  0 <= CounterClockwiseRotationAngleThreshold ->
  X2 (TransitionRequestSettings.QuickStopPlayRate rq)
  <= Y2 (TransitionRequestSettings.QuickStopPlayRate rq) ->
  let Rates := TransitionRequestSettings.QuickStopPlayRate rq in
  let Angle := QuickStopRotationYawAngle s in
  exists Animation PlayRate,
    PlayQuickStopAnimation rq bFromStandingIdleOnly s
    = Some (PlayTransitionAnimation Animation
              (TransitionRequestSettings.QuickStopBlendInTime rq)
              (TransitionRequestSettings.QuickStopBlendOutTime rq)
              PlayRate
              (TransitionRequestSettings.QuickStopStartTime rq)
              bFromStandingIdleOnly s)
    /\ (IsVelocityDirection (Instance.RotationMode s) = false ->
        Animation = TransitionLeftAnimation rq s /\ PlayRate = X2 Rates)
    /\ (IsVelocityDirection (Instance.RotationMode s) = true ->
        (Angle <= 0 -> Animation = TransitionLeftAnimation rq s)
        /\ (0 < Angle -> Animation = TransitionRightAnimation rq s)
        /\ PlayRate = FMath.Lerp (X2 Rates) (Y2 Rates) (FMath.Abs Angle / 180))
    /\ X2 Rates <= PlayRate
       <= Y2 Rates + (Y2 Rates - X2 Rates) * (CounterClockwiseRotationAngleThreshold / 180).
Proof.
  intros Hst Hrange Hthreshold Hrates Rates Angle.
  destruct (QuickStopRotationYawAngle_range s Hrange) as [Hhi Hlo].
  specialize (Hlo Hthreshold). fold Angle in Hhi, Hlo.
  assert (0 <= FMath.Abs Angle / 180
          /\ FMath.Abs Angle / 180 <= 1 + CounterClockwiseRotationAngleThreshold / 180)
    as [Ha0 Ha1].
  { unfold FMath.Abs.
    change (Qabs Angle / 180) with (Qabs Angle * (1 # 180)).
    change (CounterClockwiseRotationAngleThreshold / 180)
      with (CounterClockwiseRotationAngleThreshold * (1 # 180)).
    revert Hhi Hlo. generalize CounterClockwiseRotationAngleThreshold Angle Hthreshold.
    intros t a Ht. apply Qabs_case; intros; split; lra. }
  assert (forall alpha t : float,
             0 <= alpha -> alpha <= 1 + t -> 0 <= t ->
             X2 Rates <= FMath.Lerp (X2 Rates) (Y2 Rates) alpha
             <= Y2 Rates + (Y2 Rates - X2 Rates) * t) as Hlerp.
  { intros alpha t H0 H1 Ht. unfold FMath.Lerp. fold Rates in Hrates.
    revert Hrates. generalize (X2 Rates) (Y2 Rates). intros x y Hxy. split; nra. }
  assert (0 <= CounterClockwiseRotationAngleThreshold / 180) as Ht.
  { change (CounterClockwiseRotationAngleThreshold / 180)
      with (CounterClockwiseRotationAngleThreshold * (1 # 180)). lra. }
  unfold PlayQuickStopAnimation. rewrite Hst.
  unfold PlayTransitionLeftAnimation, PlayTransitionRightAnimation. rewrite Hst.
  destruct (IsVelocityDirection _); cbn [negb].
  - fold Angle. fold Rates.
    destruct (Qlt_le_dec 0 Angle) as [Hpos | Hneg].
    + rewrite (proj2 (Qleb_false_iff _ _) Hpos).
      eexists _, _. split; [reflexivity|].
      split; [discriminate|]. split; [|apply Hlerp; assumption].
      intros _. repeat split_and; [intros; exfalso; lra | reflexivity | reflexivity].
    + rewrite (proj2 (Qleb_true_iff _ _) Hneg).
      eexists _, _. split; [reflexivity|].
      split; [discriminate|]. split; [|apply Hlerp; assumption].
      intros _. repeat split_and; [reflexivity | intros; exfalso; lra | reflexivity].
  - eexists _, _. split; [reflexivity|]. fold Rates.
    split; [intros _; split; reflexivity|]. split; [discriminate|].
    revert Ht Hrates. fold Rates.
    generalize (CounterClockwiseRotationAngleThreshold / 180) (X2 Rates) (Y2 Rates).
    intros t x y Ht Hxy. split; nra.
Qed.

(** *** A foot without IK *)

Lemma ProcessFootLockTeleport_target h s f :
  FootState.TargetLocation (ProcessFootLockTeleport h s f) = FootState.TargetLocation f
  /\ FootState.TargetRotation (ProcessFootLockTeleport h s f) = FootState.TargetRotation f.
Proof. unfold ProcessFootLockTeleport. split_ifs; split; reflexivity. Qed.

Lemma ProcessFootLockBaseChange_target s f cti :
  FootState.TargetLocation (ProcessFootLockBaseChange s f cti) = FootState.TargetLocation f
  /\ FootState.TargetRotation (ProcessFootLockBaseChange s f cti) = FootState.TargetRotation f.
Proof. unfold ProcessFootLockBaseChange. split_ifs; split; reflexivity. Qed.

Lemma RefreshFootLock_disabled st h s f c cti dt l r :
  FeetSettings.bDisableFootLock (AlsSettings.Feet st) = true ->
  snd (fst (RefreshFootLock st h s f c cti dt l r)) = l
  /\ snd (RefreshFootLock st h s f c cti dt l r) = r
  /\ FootState.IkAmount (fst (fst (RefreshFootLock st h s f c cti dt l r)))
     = FootState.IkAmount f
  /\ FootState.LockAmount (fst (fst (RefreshFootLock st h s f c cti dt l r))) <= 0.
Proof.
  intros Hdisabled. unfold RefreshFootLock, FootLockSkipped. rewrite Hdisabled. cbn [orb fst snd].
  repeat split_and; try reflexivity.
  - destruct (_ >? _); reflexivity.
  - qcase; cbn; lra.
Qed.

Lemma RefreshFootOffset_LockAmount st h s f dt l r :
  FootState.LockAmount (fst (fst (RefreshFootOffset st h s f dt l r)))
  = FootState.LockAmount f.
Proof. unfold RefreshFootOffset. split_ifs; reflexivity. Qed.

Lemma RefreshFootOffset_irrelevant st h s f dt l r :
  IsRelevant (FootState.IkAmount f) = false ->
  snd (fst (RefreshFootOffset st h s f dt l r)) = l
  /\ snd (RefreshFootOffset st h s f dt l r) = r.
Proof. intros Hik. unfold RefreshFootOffset. rewrite Hik. split; reflexivity. Qed.

(** X27.  A foot without IK follows the animation.  With foot locking
    disabled in the settings and an IK curve whose clamped value is not
    relevant, the five steps of [RefreshFoot] leave the IK location and
    rotation at the animated target moved into component space, whatever the
    lock, the offset, the teleport and base change flags and the traces are,
    and leave no positive lock amount. *)
Theorem foot_without_ik_follows_target
    (st : AlsSettings.t) (h : Host.t) (s : Instance.t) (f : FootState.t)
    (FootIkCurveName FootLockCurveName : CurveName) (cti : FTransform) (DeltaTime : float) :
  FeetSettings.bDisableFootLock (AlsSettings.Feet st) = true ->
  IsRelevant (GetCurveValueClamped01 h FootIkCurveName) = false ->
  let After := RefreshFoot st h s f FootIkCurveName FootLockCurveName cti DeltaTime in
  FootState.IkLocation After = TransformPosition cti (FootState.TargetLocation f)
  /\ FootState.IkRotation After = TransformRotation cti (FootState.TargetRotation f)
  /\ FootState.LockAmount After <= 0.
Proof.
  intros Hdisabled Hik After. subst After. unfold RefreshFoot.
  set (f0 := FootState.set_IkAmount (GetCurveValueClamped01 h FootIkCurveName) f).
  set (f1 := ProcessFootLockBaseChange s (ProcessFootLockTeleport h s f0) cti).
  assert (FootState.TargetLocation f1 = FootState.TargetLocation f
          /\ FootState.TargetRotation f1 = FootState.TargetRotation f
          /\ FootState.IkAmount f1 = GetCurveValueClamped01 h FootIkCurveName)
    as (Hl & Hr & Ha).
  { subst f1.
    rewrite (proj1 (ProcessFootLockBaseChange_target _ _ _)),
      (proj2 (ProcessFootLockBaseChange_target _ _ _)),
      (proj1 (ProcessFootLockTeleport_target _ _ _)),
      (proj2 (ProcessFootLockTeleport_target _ _ _)),
      ProcessFootLockBaseChange_IkAmount, ProcessFootLockTeleport_IkAmount.
    repeat split_and; reflexivity. }
  clearbody f1. clear f0.
  destruct (RefreshFootLock_disabled st h s f1 FootLockCurveName cti DeltaTime
              (FootState.TargetLocation f1) (FootState.TargetRotation f1) Hdisabled)
    as (Ll & Lr & La & Lk).
  destruct (RefreshFootLock _ _ _ _ _ _ _ _ _) as [[f2 l2] r2].
  cbn [fst snd] in Ll, Lr, La, Lk. subst l2 r2.
  assert (IsRelevant (FootState.IkAmount f2) = false) as Hik2 by (rewrite La, Ha; exact Hik).
  destruct (RefreshFootOffset_irrelevant st h s f2 DeltaTime
              (FootState.TargetLocation f1) (FootState.TargetRotation f1) Hik2) as [Ol Or].
  pose proof (RefreshFootOffset_LockAmount st h s f2 DeltaTime
                (FootState.TargetLocation f1) (FootState.TargetRotation f1)) as Ok.
  destruct (RefreshFootOffset _ _ _ _ _ _ _) as [[f3 l3] r3].
  cbn [fst snd] in Ol, Or, Ok. subst l3 r3.
  cbn [FootState.IkLocation FootState.IkRotation FootState.LockAmount
       FootState.set_IkRotation FootState.set_IkLocation].
  rewrite Hl, Hr, Ok. repeat split_and; [reflexivity | reflexivity | exact Lk].
Qed.

(** *** Stride blend *)

Lemma RefreshMovementDirection_stride s :
  StrideInputs (RefreshMovementDirection s) = StrideInputs s.
Proof. unfold RefreshMovementDirection. destruct (_ || _); reflexivity. Qed.

Lemma RefreshSprint_stride a dt s : StrideInputs (RefreshSprint a dt s) = StrideInputs s.
Proof. unfold RefreshSprint. destruct (negb _); reflexivity. Qed.

Lemma RefreshGroundedLeanAmount_stride st a dt s :
  GroundedState.StrideBlendAmount
    (Instance.GroundedState (RefreshGroundedLeanAmount st a dt s))
  = GroundedState.StrideBlendAmount (Instance.GroundedState s).
Proof. rewrite RefreshGroundedLeanAmount_GroundedState. reflexivity. Qed.

Lemma RefreshCrouchingPlayRate_stride st s :
  GroundedState.StrideBlendAmount (Instance.GroundedState (RefreshCrouchingPlayRate st s))
  = GroundedState.StrideBlendAmount (Instance.GroundedState s).
Proof. reflexivity. Qed.

Lemma RefreshStandingPlayRate_stride st s :
  GroundedState.StrideBlendAmount (Instance.GroundedState (RefreshStandingPlayRate st s))
  = GroundedState.StrideBlendAmount (Instance.GroundedState s).
Proof. reflexivity. Qed.

Lemma RefreshWalkRunBlendAmount_stride s :
  GroundedState.StrideBlendAmount (Instance.GroundedState (RefreshWalkRunBlendAmount s))
  = GroundedState.StrideBlendAmount (Instance.GroundedState s).
Proof. reflexivity. Qed.

Lemma RefreshRotationYawOffsets_stride st s :
  StrideInputs (RefreshRotationYawOffsets st s) = StrideInputs s.
Proof. reflexivity. Qed.

Lemma RefreshVelocityBlend_stride st dt s :
  StrideInputs (RefreshVelocityBlend st dt s) = StrideInputs s.
Proof. reflexivity. Qed.

Lemma RefreshStrideBlendAmount_value st s s0 :
  StrideInputs s = StrideInputs s0 ->
  GroundedState.StrideBlendAmount (Instance.GroundedState (RefreshStrideBlendAmount st s))
  = let Speed :=
      LocomotionState.Speed (Instance.LocomotionState s0)
      / LocomotionState.Scale (Instance.LocomotionState s0) in
    FMath.Lerp
      (FMath.Lerp (GroundedSettings.StrideBlendAmountWalkCurve (AlsSettings.Grounded st) Speed)
         (GroundedSettings.StrideBlendAmountRunCurve (AlsSettings.Grounded st) Speed)
         (PoseState.GaitRunningAmount (Instance.PoseState s0)))
      (GroundedSettings.StrideBlendAmountWalkCurve (AlsSettings.Grounded st) Speed)
      (PoseState.CrouchingAmount (Instance.PoseState s0)).
Proof.
  intros H. unfold StrideInputs in H. injection H as Hp Hl.
  unfold RefreshStrideBlendAmount. cbn. rewrite Hp, Hl. reflexivity.
Qed.

Lemma stride_between (w r g c : float) :
  0 <= g <= 1 -> 0 <= c <= 1 ->
  FMath.Min w r <= FMath.Lerp (FMath.Lerp w r g) w c <= FMath.Max w r.
Proof.
  intros Hg Hc. unfold FMath.Lerp, FMath.Min, FMath.Max.
  assert (0 <= g * (1 - c) <= 1) as Hgc by nra.
  assert (w + c * (w - (w + g * (r - w))) + g * (r - w) == w + (g * (1 - c)) * (r - w))
    as Heq by ring.
  assert (w + g * (r - w) + c * (w - (w + g * (r - w))) == w + (g * (1 - c)) * (r - w))
    as Heq' by ring.
  generalize dependent (g * (1 - c)). intros k Hk _ Heq'.
  qcases; split; rewrite Heq'; nra.
Qed.

(** X28.  The stride blend amount after the pose and the grounded refresh of
    one pass, for a moving character in grounded mode with relevant curves: it
    lies between the values of the walk and the run stride curves at the
    scaled speed, whatever the gait and crouching curves read, and it is the
    walk value when the gait curve reads at most 1. *)
Theorem stride_blend_between_curves
    (st : AlsSettings.t) (h : Host.t) (DeltaTime : float) (s : Instance.t) :
  Instance.bAnimationCurvesRelevant s = true ->
  IsGroundedMode (Instance.LocomotionMode s) = true ->
  LocomotionState.bMoving (Instance.LocomotionState s) = true ->
  let Speed :=
    LocomotionState.Speed (Instance.LocomotionState s)
    / LocomotionState.Scale (Instance.LocomotionState s) in
  let Walk := GroundedSettings.StrideBlendAmountWalkCurve (AlsSettings.Grounded st) Speed in
  let Run := GroundedSettings.StrideBlendAmountRunCurve (AlsSettings.Grounded st) Speed in
  let Stride :=
    GroundedState.StrideBlendAmount
      (Instance.GroundedState (RefreshGrounded st h DeltaTime (RefreshPose h s))) in
  FMath.Min Walk Run <= Stride <= FMath.Max Walk Run
  /\ (Host.GetCurveValue h PoseGaitCurve <= 1 -> Stride == Walk).
Proof.
  intros Hrel Hmode Hmoving Speed Walk Run Stride.
  assert (Stride
          = FMath.Lerp
              (FMath.Lerp Walk Run
                 (UAlsMath.Clamp01 (FMath.Clamp (Host.GetCurveValue h PoseGaitCurve) 0 3 - 1)))
              Walk (GetCurveValueClamped01 h PoseCrouchingCurve)) as ->.
  { subst Stride. unfold RefreshPose. rewrite Hrel. cbn [negb].
    unfold RefreshGrounded.
    cbn [Instance.LocomotionMode Instance.LocomotionState Instance.set_GroundedState
         Instance.set_PoseState].
    rewrite Hmode, Hmoving. cbn [negb].
    rewrite RefreshGroundedLeanAmount_stride, RefreshCrouchingPlayRate_stride,
      RefreshStandingPlayRate_stride, RefreshWalkRunBlendAmount_stride.
    erewrite RefreshStrideBlendAmount_value.
    2:{ rewrite RefreshSprint_stride, RefreshRotationYawOffsets_stride,
          RefreshVelocityBlend_stride, RefreshMovementDirection_stride.
        reflexivity. }
    reflexivity. }
  split.
  - apply stride_between; [apply Clamp01_range | apply GetCurveValueClamped01_range].
  - intros Hgait.
    assert (UAlsMath.Clamp01 (FMath.Clamp (Host.GetCurveValue h PoseGaitCurve) 0 3 - 1) == 0)
      as Hzero.
    { unfold UAlsMath.Clamp01, FMath.Clamp, FMath.Max, FMath.Min. qcases; lra. }
    unfold FMath.Lerp. rewrite Hzero. ring.
Qed.

(** *** View angles *)

Lemma RefreshLookTowardsInput_angles st dt s :
  ViewAngles (Instance.ViewState (RefreshLookTowardsInput st dt s))
  = ViewAngles (Instance.ViewState s).
Proof. reflexivity. Qed.

Lemma RefreshLookTowardsCamera_angles st dt s :
  ViewAngles (Instance.ViewState (RefreshLookTowardsCamera st dt s))
  = ViewAngles (Instance.ViewState s).
Proof. reflexivity. Qed.

(** The view angles after [RefreshView], before its look blocks. *)
Lemma RefreshView_angles st h dt s :
  let View := Instance.ViewState s in
  let Locomotion := Instance.LocomotionState s in
  let Frozen := ActionIsValid (Instance.LocomotionAction s) in
  let YawAngle :=
    if Frozen then ViewState.YawAngle View
    else NormalizeAxis (Yaw (ViewState.Rotation View) - Yaw (LocomotionState.Rotation Locomotion)) in
  let PitchAngle :=
    if Frozen then ViewState.PitchAngle View
    else NormalizeAxis (Pitch (ViewState.Rotation View)
                        - Pitch (LocomotionState.Rotation Locomotion)) in
  let TargetSpineYawAngle :=
    if IsSpineRotationAllowed s
    then (if YawAngle >? 180 - CounterClockwiseRotationAngleThreshold
          then YawAngle - 360 else YawAngle)
    else ViewState.TargetSpineYawAngle View in
  ViewAngles (Instance.ViewState (RefreshView st h dt s))
  = (ViewState.Rotation View, ViewState.YawSpeed View, YawAngle, PitchAngle,
     (if Frozen then ViewState.PitchAmount View else 0.5 - PitchAngle / 180),
     TargetSpineYawAngle,
     NormalizeAxis (TargetSpineYawAngle * AimingAllowedAmount h * AimingManualAmount h)).
Proof.
  cbn zeta. unfold RefreshView.
  destruct (ActionIsValid _); cbn [negb]; destruct (IsSpineRotationAllowed s);
    cbn [ViewState.LookAmount ViewState.set_SpineYawAngle ViewState.set_TargetSpineYawAngle
         ViewState.set_LookAmount ViewState.set_PitchAmount ViewState.set_PitchAngle
         ViewState.set_YawAngle ViewState.YawAngle ViewState.TargetSpineYawAngle];
    (destruct (negb (IsRelevant _)); [reflexivity|]);
    (destruct (IsVelocityDirection _);
     [rewrite RefreshLookTowardsInput_angles | rewrite RefreshLookTowardsCamera_angles];
     reflexivity).
Qed.

(** X29.  The angles that [RefreshView] writes.  During a locomotion action
    the view yaw angle, pitch angle and pitch amount are frozen; otherwise
    they are recomputed from the captured view rotation, the pitch amount
    being 0.5 minus the pitch angle over 180.  The captured rotation and yaw
    speed are never written.  The target spine yaw angle changes only while
    spine rotation is allowed; it is then the view yaw angle taken
    counter-clockwise beyond the threshold, so that with a normalised view yaw
    angle and a threshold between 0 and 360 it lies above -180 minus the
    threshold and at most at 180 minus the threshold. *)
Theorem view_refresh_angles
    (st : AlsSettings.t) (h : Host.t) (DeltaTime : float) (s : Instance.t) :
  let View := Instance.ViewState s in
  let After := Instance.ViewState (RefreshView st h DeltaTime s) in
  ViewState.Rotation After = ViewState.Rotation View
  /\ ViewState.YawSpeed After = ViewState.YawSpeed View
  /\ (ActionIsValid (Instance.LocomotionAction s) = true ->
      ViewState.YawAngle After = ViewState.YawAngle View
      /\ ViewState.PitchAngle After = ViewState.PitchAngle View
      /\ ViewState.PitchAmount After = ViewState.PitchAmount View)
  /\ (ActionIsValid (Instance.LocomotionAction s) = false ->
      ViewState.YawAngle After
      = NormalizeAxis (Yaw (ViewState.Rotation View)
                       - Yaw (LocomotionState.Rotation (Instance.LocomotionState s)))
      /\ ViewState.PitchAmount After = 0.5 - ViewState.PitchAngle After / 180)
  /\ (IsSpineRotationAllowed s = false ->
      ViewState.TargetSpineYawAngle After = ViewState.TargetSpineYawAngle View)
  /\ (IsSpineRotationAllowed s = true ->
      -180 < ViewState.YawAngle After <= 180 ->
      0 <= CounterClockwiseRotationAngleThreshold <= 360 ->
      -180 - CounterClockwiseRotationAngleThreshold < ViewState.TargetSpineYawAngle After
      /\ ViewState.TargetSpineYawAngle After <= 180 - CounterClockwiseRotationAngleThreshold
      /\ (ViewState.TargetSpineYawAngle After == ViewState.YawAngle After
          \/ ViewState.TargetSpineYawAngle After == ViewState.YawAngle After - 360)).
Proof.
  intros View After.
  pose proof (RefreshView_angles st h DeltaTime s) as H. cbn zeta in H.
  fold After in H. fold View in H. unfold ViewAngles in H.
  injection H as Hrotation Hspeed Hyaw Hpitch Hamount Htarget _.
  repeat split_and; try assumption.
  - intros Hfrozen. rewrite Hfrozen in Hyaw, Hpitch, Hamount. auto.
  - intros Hfree. rewrite Hfree in Hyaw, Hpitch, Hamount. rewrite Hamount, Hpitch.
    split; [assumption | reflexivity].
  - intros Hspine. rewrite Hspine in Htarget. assumption.
  - intros Hspine Hrange Hthreshold. rewrite Hspine in Htarget. rewrite <- Hyaw in Htarget.
    rewrite Htarget. clear Htarget.
    generalize dependent (ViewState.YawAngle After). intros a _ Ha.
    qcase; repeat split_and; lra.
Qed.

End Properties.

(** ** The statements on the concrete frame *)

(** C2 on a foot locked at 0.3 whose lock curve reads 0.6: the lock amount
    does not rise. *)
Lemma foot_lock_amount_never_blends_in_witness :
  FootState.LockAmount
    (fst (fst (RefreshFootLock (E := Sample.externals) Sample.settings
                 (Sample.host (Sample.every_curve 0.6) false) Sample.instance
                 (Sample.foot_with 1 0.3 Vec.Zero) FootLeftLockCurve
                 Sample.IdentityTransform 0.016 Vec.Zero QuatIdentity)))
  <= 0.3.
Proof.
  refine (proj1 (proj2 (proj2 (proj2
            (foot_lock_amount_never_blends_in (E := Sample.externals)
               Sample.settings (Sample.host (Sample.every_curve 0.6) false)
               Sample.instance (Sample.foot_with 1 0.3 Vec.Zero) FootLeftLockCurve
               Sample.IdentityTransform 0.016 Vec.Zero QuatIdentity _)))) _);
    vm_compute; reflexivity.
Defined.

(** C2 as stated fails in its last clause, which reads the sample of the lock
    curve: for a walking character whose foot is locked at 0.5 and whose lock
    curve reads 1, a full-weight sample, the update is not skipped, and the
    stored lock amount does not become 1 but drops to 0.1875, the previous
    amount less one sixteenth of a second at the moving decrease speed. *)
Lemma foot_lock_full_weight_sample_counterexample :
  let h := Sample.host (Sample.every_curve 1) false in
  let f := Sample.foot_with 1 0.5 Vec.Zero in
  let After :=
    FootState.LockAmount
      (fst (fst (RefreshFootLock (E := Sample.externals) Sample.settings h Sample.walking f
                   FootLeftLockCurve Sample.IdentityTransform 0.0625 Vec.Zero QuatIdentity))) in
  FootLockSkipped (E := Sample.externals) Sample.settings f
    (NewFootLockAmount h Sample.walking f FootLeftLockCurve 0.0625)
  = false
  /\ IsFullWeight (Externals := Sample.externals) (GetCurveValueClamped01 h FootLeftLockCurve)
     = true
  /\ After == 0.1875
  /\ ~ After == 1.
Proof.
  cbn zeta. repeat split; try (vm_compute; reflexivity).
  vm_compute. discriminate.
Qed.

(** C3 on a character whose stored vertical velocity is 0. *)
Lemma ground_prediction_amount_zero_witness :
  InAirState.GroundPredictionAmount
    (Instance.InAirState
       (RefreshGroundPredictionAmount (E := Sample.externals) Sample.settings
          (Sample.host (Sample.every_curve 0) false) Sample.instance)) = 0.
Proof.
  apply (ground_prediction_amount_zero (E := Sample.externals)).
  left. vm_compute. reflexivity.
Defined.

(** C4 on the turning character: the update queues a turn, and the accumulated
    delay is above the mapped delay. *)
Lemma turn_in_place_activation_witness :
  TurnInPlaceActivationDelay (E := Sample.externals) Sample.settings Sample.turning
  < TurnInPlaceState.ActivationDelay
      (Instance.TurnInPlaceState
         (RefreshTurnInPlace (E := Sample.externals) Sample.settings
            (Sample.host (Sample.every_curve 1) false) 0.016 Sample.turning)).
Proof.
  refine (proj1 (turn_in_place_activation (E := Sample.externals) Sample.settings
                   (Sample.host (Sample.every_curve 1) false) 0.016 Sample.turning
                   _ _ _ _) _);
    try reflexivity.
  vm_compute. discriminate.
Defined.

(** C5 on a character running straight ahead. *)
Lemma velocity_blend_snap_witness :
  ExactlyOnePairNonZero
    (GroundedState.VelocityBlend
       (Instance.GroundedState
          (RefreshVelocityBlend (E := Sample.externals) Sample.settings 0.016
             (Sample.moving {| X := 300; Y := 0; Z := 0 |})))).
Proof.
  refine (proj2 (proj2 (velocity_blend_snap (E := Sample.externals) Sample.settings 0.016
                          (Sample.moving {| X := 300; Y := 0; Z := 0 |}) _ _)) _).
  - reflexivity.
  - vm_compute. lia.
  - left. vm_compute. repeat split; lia.
Defined.

(** C5 as stated fails for a velocity along the vertical axis: both pairs are
    zero. *)
Lemma velocity_blend_vertical_counterexample :
  ~ (AxisAligned
       (RelativeVelocityDirection (E := Sample.externals)
          (Sample.moving {| X := 0; Y := 0; Z := -300 |})) ->
     ExactlyOnePairNonZero
       (GroundedState.VelocityBlend
          (Instance.GroundedState
             (RefreshVelocityBlend (E := Sample.externals) Sample.settings 0.016
                (Sample.moving {| X := 0; Y := 0; Z := -300 |}))))).
Proof.
  intros H.
  assert (AxisAligned
            (RelativeVelocityDirection (E := Sample.externals)
               (Sample.moving {| X := 0; Y := 0; Z := -300 |}))) as Haxis.
  { right. right. vm_compute. repeat split; lia. }
  specialize (H Haxis). vm_compute in H.
  destruct H as [[H _] | [_ H]]; apply H; reflexivity.
Qed.

(** C6 on the first frame, seen from a fresh and from a stale instance, for a
    character in the air. *)
Lemma pending_update_snaps_witness :
  ViewState.LookTowardsInput
    (Instance.ViewState
       (RefreshLookTowardsInput (E := Sample.externals) Sample.settings 0.016 Sample.instance))
  = ViewState.LookTowardsInput
      (Instance.ViewState
         (RefreshLookTowardsInput (E := Sample.externals) Sample.settings 0.016 Sample.stale))
  /\ ViewState.LookTowardsCamera
       (Instance.ViewState
          (RefreshLookTowardsCamera (E := Sample.externals) Sample.settings 0.016
             Sample.instance))
     = ViewState.LookTowardsCamera
         (Instance.ViewState
            (RefreshLookTowardsCamera (E := Sample.externals) Sample.settings 0.016
               Sample.stale))
  /\ GroundedState.VelocityBlend
       (Instance.GroundedState
          (RefreshVelocityBlend (E := Sample.externals) Sample.settings 0.016 Sample.instance))
     = GroundedState.VelocityBlend
         (Instance.GroundedState
            (RefreshVelocityBlend (E := Sample.externals) Sample.settings 0.016 Sample.stale))
  /\ FootOffsetOutputs
       (RefreshFootOffset (E := Sample.externals) Sample.settings
          (Sample.host (Sample.every_curve 1) false)
          (Instance.set_LocomotionMode ModeInAir Sample.instance)
          (Sample.foot_with 1 0 Vec.Zero) 0.016 Vec.Zero QuatIdentity)
     = FootOffsetOutputs
         (RefreshFootOffset (E := Sample.externals) Sample.settings
            (Sample.host (Sample.every_curve 1) false)
            (Instance.set_LocomotionMode ModeInAir Sample.stale)
            (Sample.foot_with 1 0 {| X := 0; Y := 0; Z := 5 |}) 0.016 Vec.Zero QuatIdentity).
Proof.
  split; [|split; [|split]].
  - refine (proj1 (pending_update_snaps (E := Sample.externals) Sample.settings
                     (Sample.host (Sample.every_curve 1) false) 0.016
                     Sample.instance Sample.stale _ _ _ _ _)); reflexivity.
  - refine (proj1 (proj2 (pending_update_snaps (E := Sample.externals) Sample.settings
                            (Sample.host (Sample.every_curve 1) false) 0.016
                            Sample.instance Sample.stale _ _ _ _ _))); reflexivity.
  - refine (proj1 (proj2 (proj2 (pending_update_snaps (E := Sample.externals)
                                   Sample.settings
                                   (Sample.host (Sample.every_curve 1) false) 0.016
                                   Sample.instance Sample.stale _ _ _ _ _)))); reflexivity.
  - refine (proj2 (proj2 (proj2 (pending_update_snaps (E := Sample.externals)
                                   Sample.settings
                                   (Sample.host (Sample.every_curve 1) false) 0.016
                                   (Instance.set_LocomotionMode ModeInAir Sample.instance)
                                   (Instance.set_LocomotionMode ModeInAir Sample.stale)
                                   _ _ _ _ _)))
                  (Sample.foot_with 1 0 Vec.Zero)
                  (Sample.foot_with 1 0 {| X := 0; Y := 0; Z := 5 |})
                  Vec.Zero QuatIdentity _ _ _ _ _);
      try reflexivity.
    left. reflexivity.
Defined.

(** C6 as stated fails for the foot offset of a grounded character without
    walkable ground under the foot: with [bPendingUpdate] and the
    reinitialisation flag of the feet set, two feet with the same inputs of the
    current frame and different offset targets left by the previous frame end
    with different offsets. *)
Lemma foot_offset_stale_target_counterexample :
  Instance.bPendingUpdate Sample.instance = true
  /\ FeetState.bReinitializationRequired (Instance.FeetState Sample.instance) = true
  /\ SameFootInputs (Sample.foot_with 1 0 Vec.Zero)
       (Sample.foot_with 1 0 {| X := 0; Y := 0; Z := 5 |})
  /\ FootOffsetOutputs
       (RefreshFootOffset (E := Sample.externals) Sample.settings
          (Sample.host (Sample.every_curve 1) false) Sample.instance
          (Sample.foot_with 1 0 Vec.Zero) 0.016 Vec.Zero QuatIdentity)
     <> FootOffsetOutputs
          (RefreshFootOffset (E := Sample.externals) Sample.settings
             (Sample.host (Sample.every_curve 1) false) Sample.instance
             (Sample.foot_with 1 0 {| X := 0; Y := 0; Z := 5 |}) 0.016 Vec.Zero QuatIdentity).
Proof.
  split; [reflexivity|]. split; [reflexivity|]. split; [repeat split|].
  vm_compute. intros H. discriminate H.
Qed.

(** C7 on the character with the displaced left foot: the update selects the
    left transition, all its conditions hold and the counter is set to 2. *)
Lemma dynamic_transition_selection_witness :
  IsGroundedMode (Instance.LocomotionMode Sample.displaced) = true
  /\ LocomotionState.bMoving (Instance.LocomotionState Sample.displaced) = false
  /\ TransitionsState.bTransitionsAllowed (Instance.TransitionsState Sample.displaced) = true
  /\ Instance.bAnimationCurvesRelevant Sample.displaced = true
  /\ (FrameDelay Sample.displaced <= 0)%Z
  /\ FrameDelay
       (RefreshDynamicTransition (E := Sample.externals) Sample.settings
          (Sample.host (Sample.every_curve 1) false) Sample.displaced) = 2%Z.
Proof.
  refine (proj1 (dynamic_transition_selection (E := Sample.externals) Sample.settings
                   (Sample.host (Sample.every_curve 1) false) Sample.displaced) _).
  vm_compute. discriminate.
Defined.

(** C8 on the instance without settings. *)
Lemma entry_points_skip_without_collaborators_witness :
  NativeThreadSafeUpdateAnimation (E := Sample.externals)
    (Sample.host (Sample.every_curve 1) false) 0.016 Sample.unconfigured
  = Sample.unconfigured.
Proof.
  refine (proj1 (proj2 (proj1 (entry_points_skip_without_collaborators
                                 (E := Sample.externals)
                                 (Sample.host (Sample.every_curve 1) false) 0.016
                                 Sample.unconfigured _)))).
  left. reflexivity.
Defined.

(** C9 on a frame with a relevant look amount, in looking direction rotation
    mode: look-towards-camera is refreshed and look-towards-input is marked. *)
Lemma view_refresh_look_modes_witness :
  ExactlyOneLookModeRefreshed (Instance.RotationMode Sample.instance)
    (Instance.ViewState
       (RefreshView (E := Sample.externals) Sample.settings
          (Sample.host (Sample.every_curve 0) false) 0.016 Sample.instance)).
Proof.
  destruct (proj1 (proj2 (view_refresh_look_modes (E := Sample.externals) Sample.settings
                            (Sample.host (Sample.every_curve 0) false) 0.016
                            Sample.instance))
              eq_refl eq_refl) as [Hcamera Hinput].
  split; [rewrite Hinput; reflexivity | exact Hcamera].
Defined.

(** C9 as stated fails on a frame whose aim block curve reads 1: the look
    amount is not relevant, neither look mode is refreshed and both are
    marked. *)
Lemma view_refresh_blocked_counterexample :
  ~ ExactlyOneLookModeRefreshed (Instance.RotationMode Sample.instance)
      (Instance.ViewState
         (RefreshView (E := Sample.externals) Sample.settings
            (Sample.host Sample.aim_blocked false) 0.016 Sample.instance)).
Proof.
  vm_compute. intros [_ H]. discriminate H.
Qed.

(** C10 on the first frame of the sample character. *)
Lemma look_towards_camera_amounts_witness :
  Unit01
    (LookTowardsCameraState.YawForwardAmount
       (ViewState.LookTowardsCamera
          (Instance.ViewState
             (RefreshLookTowardsCamera (E := Sample.externals) Sample.settings 0.016
                Sample.instance)))).
Proof.
  refine (proj2 (look_towards_camera_amounts (E := Sample.externals) Sample.settings 0.016
                   Sample.instance) _).
  vm_compute. split; discriminate.
Defined.

(** C10 as stated fails on the values that the code stores.  Computed in single
    precision at a yaw angle of -179, a normalised angle, the left yaw amount
    is 11930496 * 2^-32 and the right yaw amount is 16730612 * 2^-24: the
    right amount has been rounded, and the two sum to 1 - 2^-25. *)
Lemma look_towards_camera_float32_counterexample :
  let YawAngle := Float32.of_Z (-179) 0 in
  let YawLeftAmount := snd (fst (Float32.LookTowardsCameraYawAmounts YawAngle)) in
  let YawRightAmount := snd (Float32.LookTowardsCameraYawAmounts YawAngle) in
  Float32.to_Q YawAngle == -179
  /\ Float32.to_Q YawLeftAmount + Float32.to_Q YawRightAmount == 1 - (2 ^ (-25))
  /\ ~ Float32.to_Q YawLeftAmount + Float32.to_Q YawRightAmount == 1.
Proof.
  cbn zeta. split; [vm_compute; reflexivity|]. split; [vm_compute; reflexivity|].
  vm_compute. discriminate.
Qed.

(** ** The further properties on the concrete frame *)

(** The sample normalisation of angles has the range of the engine's. *)
Lemma SampleNormalizeAxis_range (a : float) : -180 < Sample.SampleNormalizeAxis a <= 180.
Proof.
  unfold Sample.SampleNormalizeAxis, Sample.SampleClampAxis.
  pose proof (Qfloor_le (a / 360)) as Hlo.
  pose proof (Qlt_floor (a / 360)) as Hhi.
  rewrite inject_Z_plus in Hhi.
  assert (360 * (a / 360) == a) as Ha by (apply Qmult_div_r; discriminate).
  generalize dependent (inject_Z (Qfloor (a / 360))). intros k Hlo Hhi.
  generalize dependent (a / 360). intros q Ha Hlo Hhi.
  change (inject_Z 1) with 1 in Hhi.
  qcase; lra.
Qed.

(** X1 with the gait curve at 2.5. *)
Lemma pose_gait_amounts_witness :
  0 <= PoseState.GaitAmount
         (Instance.PoseState
            (RefreshPose (Sample.host (Sample.every_curve 2.5) false)
               Sample.instance))
  <= 3.
Proof.
  exact (proj1 (pose_gait_amounts
                  (Sample.host (Sample.every_curve 2.5) false) Sample.instance eq_refl)).
Defined.

(** X2 on the character running straight ahead. *)
Lemma grounded_play_rates_clamped_witness :
  0 <= GroundedState.StandingPlayRate
         (Instance.GroundedState
            (RefreshGrounded (E := Sample.externals) Sample.settings
               (Sample.host (Sample.every_curve 0) false) 0.016
               (Sample.moving {| X := 300; Y := 0; Z := 0 |})))
  <= 3.
Proof.
  exact (proj1 (proj2 (grounded_play_rates_clamped (E := Sample.externals) Sample.settings
                         (Sample.host (Sample.every_curve 0) false) 0.016
                         (Sample.moving {| X := 300; Y := 0; Z := 0 |}))
                  eq_refl eq_refl)).
Defined.

(** X3 on the falling character and its landing. *)
Lemma velocity_blend_snaps_after_leaving_ground_witness :
  GroundedState.VelocityBlend
    (Instance.GroundedState
       (RefreshGrounded (E := Sample.externals) Sample.settings
          (Sample.host (Sample.every_curve 0) false) 0.016 Sample.landed))
  = SnappedVelocityBlend (E := Sample.externals) Sample.landed.
Proof.
  exact (proj2 (velocity_blend_snaps_after_leaving_ground (E := Sample.externals)
                  Sample.settings Sample.settings
                  (Sample.host (Sample.every_curve 0) false)
                  (Sample.host (Sample.every_curve 0) false) 0.016 0.016
                  Sample.falling Sample.landed eq_refl eq_refl eq_refl eq_refl)).
Defined.

(** X4 on the running character, which does not sprint. *)
Lemma sprint_acceleration_pulse_witness :
  GroundedState.SprintTime
    (Instance.GroundedState
       (RefreshSprint {| X := 1; Y := 0; Z := 0 |} 0.016 Sample.instance)) = 0.
Proof.
  exact (proj1 (proj1 (sprint_acceleration_pulse {| X := 1; Y := 0; Z := 0 |} 0.016
                         Sample.instance) eq_refl)).
Defined.

(** X5 on the fall over walkable ground. *)
Lemma ground_prediction_requires_walkable_hit_witness :
  bValidBlockingHit
    (GroundPredictionSweep (E := Sample.externals) Sample.settings
       (Sample.host_over_ground (Sample.every_curve 0))
       (Instance.set_InAirState
          (InAirState.set_VerticalVelocity (-1000) (Instance.InAirState Sample.falling))
          Sample.falling))
  = true.
Proof.
  refine (proj1 (proj1 (ground_prediction_requires_walkable_hit (E := Sample.externals)
                          Sample.settings (Sample.host_over_ground (Sample.every_curve 0))
                          (Instance.set_InAirState
                             (InAirState.set_VerticalVelocity (-1000)
                                (Instance.InAirState Sample.falling))
                             Sample.falling)) _)).
  vm_compute. discriminate.
Defined.


(** X8 on the first frame of the sample character. *)
Lemma game_thread_update_snapshot_witness :
  WorkerBlocks
    (NativeUpdateAnimation (E := Sample.externals)
       (Sample.host (Sample.every_curve 0) true) 0.016 Sample.instance)
  = WorkerBlocks Sample.instance.
Proof.
  exact (proj1 (proj2 (proj2 (game_thread_update_snapshot (E := Sample.externals)
                                (Sample.host (Sample.every_curve 0) true) 0.016
                                Sample.instance Sample.settings Sample.character
                                eq_refl eq_refl)))).
Defined.

(** X9 on the first frame of the sample character. *)
Lemma game_thread_update_latches_witness :
  InAirState.bJumpRequested
    (Instance.InAirState
       (NativeUpdateAnimation (E := Sample.externals)
          (Sample.host (Sample.every_curve 0) true) 0.016 Sample.instance))
  = false.
Proof.
  exact (proj1 (game_thread_update_latches (E := Sample.externals)
                  (Sample.host (Sample.every_curve 0) true) 0.016
                  Sample.instance Sample.settings Sample.character eq_refl eq_refl)).
Defined.

(** X11 on the character whose view is 200 degrees off its body. *)
Lemma worker_pass_effects_witness :
  exists Transition Turn,
    NewEffects Sample.wrapped
      (NativeThreadSafeUpdateAnimation (E := Sample.externals)
         (Sample.host (Sample.every_curve 1) false) 0.016 Sample.wrapped)
    = Transition ++ Turn.
Proof.
  destruct (worker_pass_effects (E := Sample.externals)
              (Sample.host (Sample.every_curve 1) false) 0.016 Sample.wrapped
              Sample.settings eq_refl) as (Transition & Turn & H & _).
  exists Transition, Turn. exact H.
Defined.

(** X12 on the same character, off the game thread. *)
Lemma worker_thread_only_queues_witness :
  Forall IsQueueEvent
    (NewEffects Sample.wrapped
       (NativeThreadSafeUpdateAnimation (E := Sample.externals)
          (Sample.host (Sample.every_curve 1) false) 0.016 Sample.wrapped)).
Proof.
  exact (proj1 (worker_thread_only_queues (E := Sample.externals)
                  (Sample.host (Sample.every_curve 1) false) 0.016 Sample.wrapped
                  eq_refl)).
Defined.

(** X13 on the turning character. *)
Lemma deferred_play_is_immediate_play_witness :
  PlayQueuedTurnInPlaceAnimation Sample.settings
    (RefreshTurnInPlace (E := Sample.externals) Sample.settings
       (Sample.host (Sample.every_curve 1) false) 0.016 Sample.turning)
  = RefreshTurnInPlace (E := Sample.externals) Sample.settings
      (Sample.host (Sample.every_curve 1) true) 0.016 Sample.turning.
Proof.
  exact (proj1 (deferred_play_is_immediate_play (E := Sample.externals) Sample.settings
                  (Sample.host (Sample.every_curve 1) false)
                  (Sample.host (Sample.every_curve 1) true) 0.016 Sample.turning
                  eq_refl eq_refl) eq_refl).
Defined.

(** X14 on the first frame of the sample character. *)
Lemma post_evaluate_drains_queues_witness :
  Instance.bPendingUpdate (NativePostEvaluateAnimation Sample.instance) = false.
Proof.
  exact (proj1 (post_evaluate_drains_queues Sample.instance Sample.settings Sample.character
                  eq_refl eq_refl)).
Defined.

(** X15 on the character whose view is 200 degrees off its body: the
    post-evaluate step plays the turn that the pass queued. *)
Lemma frame_plays_what_it_queued_witness :
  TurnInPlaceState.bFootLockDisabled
    (Instance.TurnInPlaceState
       (NativePostEvaluateAnimation
          (NativeThreadSafeUpdateAnimation (E := Sample.externals)
             (Sample.host (Sample.every_curve 1) false) 0.016 Sample.wrapped)))
  = TurnInPlaceSettings.bDisableFootLock (AlsSettings.TurnInPlace Sample.settings).
Proof.
  refine (proj2 (proj2 (proj1 (proj2 (frame_plays_what_it_queued (E := Sample.externals)
                                        (Sample.host (Sample.every_curve 1) false) 0.016
                                        Sample.wrapped Sample.settings Sample.character
                                        eq_refl eq_refl eq_refl eq_refl))
                         (Sample.turn 13%nat) TurnInPlaceStandingSlot (-160) _))).
  vm_compute. left. reflexivity.
Defined.

(** X16 on a foot without IK. *)
Lemma foot_lock_release_witness :
  FootState.LockAmount
    (fst (fst (RefreshFootLock (E := Sample.externals) Sample.settings
                 (Sample.host (Sample.every_curve 1) false) Sample.instance
                 (Sample.foot_with 0 0.3 Vec.Zero) FootLeftLockCurve
                 Sample.IdentityTransform 0.016 Vec.Zero QuatIdentity)))
  <= 0.
Proof.
  exact (proj1 (proj2 (proj2 (foot_lock_release (E := Sample.externals) Sample.settings
                                (Sample.host (Sample.every_curve 1) false) Sample.instance
                                (Sample.foot_with 0 0.3 Vec.Zero) FootLeftLockCurve
                                Sample.IdentityTransform 0.016 Vec.Zero QuatIdentity
                                eq_refl)))).
Defined.

(** X17 on a foot locked at 0.3 whose lock curve reads 1. *)
Lemma foot_lock_full_weight_pins_foot_witness :
  FootState.LockAmount
    (fst (fst (RefreshFootLock (E := Sample.externals) Sample.settings
                 (Sample.host (Sample.every_curve 1) false) Sample.instance
                 (Sample.foot_with 1 0.3 Vec.Zero) FootLeftLockCurve
                 Sample.IdentityTransform 0.016 {| X := 10; Y := 0; Z := 0 |} QuatIdentity)))
  = 1.
Proof.
  exact (proj1 (foot_lock_full_weight_pins_foot (E := Sample.externals) Sample.settings
                  (Sample.host (Sample.every_curve 1) false) Sample.instance
                  (Sample.foot_with 1 0.3 Vec.Zero) FootLeftLockCurve
                  Sample.IdentityTransform 0.016 {| X := 10; Y := 0; Z := 0 |} QuatIdentity
                  eq_refl eq_refl)).
Defined.

(** X18 on the same foot: the lock is captured where the foot is. *)
Lemma foot_lock_capture_keeps_foot_witness :
  FootState.LockLocation
    (fst (fst (RefreshFootLock (E := Sample.externals) Sample.settings
                 (Sample.host (Sample.every_curve 1) false) Sample.instance
                 (Sample.foot_with 1 0.3 Vec.Zero) FootLeftLockCurve
                 Sample.IdentityTransform 0.016 {| X := 10; Y := 0; Z := 0 |}
                 QuatIdentity)))
  = {| X := 10; Y := 0; Z := 0 |}.
Proof.
  refine (proj1 (foot_lock_capture_keeps_foot (E := Sample.externals) Sample.settings
                   (Sample.host (Sample.every_curve 1) false) Sample.instance
                   (Sample.foot_with 1 0.3 Vec.Zero) FootLeftLockCurve
                   Sample.IdentityTransform 0.016 {| X := 10; Y := 0; Z := 0 |} QuatIdentity
                   eq_refl eq_refl _ _ _)).
  - vm_compute. reflexivity.
  - intros _. vm_compute. discriminate.
  - intros H. discriminate H.
Defined.

(** X19 on a foot without IK. *)
Lemma foot_offset_applied_witness :
  snd (fst (RefreshFootOffset (E := Sample.externals) Sample.settings
              (Sample.host (Sample.every_curve 0) false) Sample.instance
              Sample.foot 0.016 {| X := 10; Y := 0; Z := 0 |} QuatIdentity))
  = {| X := 10; Y := 0; Z := 0 |}.
Proof.
  exact (proj1 (proj1 (foot_offset_applied (E := Sample.externals) Sample.settings
                         (Sample.host (Sample.every_curve 0) false) Sample.instance
                         Sample.foot 0.016 {| X := 10; Y := 0; Z := 0 |} QuatIdentity)
                  eq_refl)).
Defined.

(** X20 on a foot over a flat floor. *)
Lemma foot_offset_target_on_ground_witness :
  VecEq
    (FootState.OffsetTargetLocation
       (fst (fst (RefreshFootOffset (E := Sample.externals) Sample.settings
                    (Sample.host_on_floor (Sample.every_curve 1)) Sample.instance
                    (Sample.foot_with 1 0 Vec.Zero) 0.016 Vec.Zero QuatIdentity))))
    (Vec.sub
       (ImpactPoint
          (FootOffsetTrace Sample.settings (Sample.host_on_floor (Sample.every_curve 1))
             Sample.instance Vec.Zero))
       (FootOffsetTraceLocation (Sample.host_on_floor (Sample.every_curve 1)) Vec.Zero)).
Proof.
  exact (proj1 (foot_offset_target_on_ground (E := Sample.externals) Sample.settings
                  (Sample.host_on_floor (Sample.every_curve 1)) Sample.instance
                  (Sample.foot_with 1 0 Vec.Zero) 0.016 Vec.Zero QuatIdentity
                  eq_refl eq_refl) eq_refl eq_refl).
Defined.

(** X21 on a foot without IK. *)
Lemma foot_lock_corrections_witness :
  ProcessFootLockTeleport (E := Sample.externals) (Sample.host (Sample.every_curve 0) false)
    Sample.instance Sample.foot
  = Sample.foot.
Proof.
  exact (proj1 (proj1 (foot_lock_corrections (E := Sample.externals)
                         (Sample.host (Sample.every_curve 0) false) Sample.instance
                         Sample.foot Sample.IdentityTransform) eq_refl)).
Defined.

(** X22 on the first frame of the sample character. *)
Lemma feet_refresh_witness :
  FeetState.bReinitializationRequired
    (Instance.FeetState
       (RefreshFeet (E := Sample.externals) Sample.settings
          (Sample.host (Sample.every_curve 1) false) 0.016 Sample.instance))
  = false.
Proof.
  exact (proj1 (proj2 (feet_refresh (E := Sample.externals) Sample.settings
                         (Sample.host (Sample.every_curve 1) false) 0.016 Sample.instance)
                  eq_refl)).
Defined.

(** X23 on the falling character, whose lean [RefreshGrounded] leaves alone. *)
Lemma lean_refresh_witness :
  Instance.LeanState
    (RefreshGrounded (E := Sample.externals) Sample.settings
       (Sample.host (Sample.every_curve 0) false) 0.016 Sample.falling)
  = Instance.LeanState Sample.falling.
Proof.
  exact (proj1 (lean_refresh (E := Sample.externals) Sample.settings
                  (Sample.host (Sample.every_curve 0) false) 0.016 Sample.falling)
           eq_refl).
Defined.

(** X24 on the turning character. *)
Lemma rotate_in_place_refresh_witness :
  RotateInPlaceState.bRotatingLeft
    (Instance.RotateInPlaceState
       (RefreshRotateInPlace (E := Sample.externals) Sample.settings 0.016 Sample.turning))
  && RotateInPlaceState.bRotatingRight
       (Instance.RotateInPlaceState
          (RefreshRotateInPlace (E := Sample.externals) Sample.settings 0.016 Sample.turning))
  = false.
Proof.
  refine (proj1 (proj2 (proj2 (rotate_in_place_refresh (E := Sample.externals)
                                 Sample.settings 0.016 Sample.turning))) _).
  vm_compute. discriminate.
Defined.

(** X25 on the standing character, for a request from standing idle only. *)
Lemma transition_request_plays_once_witness :
  NewEffects Sample.instance
    (PlayTransitionAnimation (Some 21%nat) 0.1 0.2 1 0 true Sample.instance)
  = [PlaySlotAnimationAsDynamicMontage (Some 21%nat) TransitionSlot 0.1 0.2 1 1 0 0].
Proof.
  refine (proj1 (proj2 (transition_request_plays_once (Some 21%nat) 0.1 0.2 1 0 true
                          Sample.instance)) _).
  exists Sample.character. split; [reflexivity|]. intros _. split; reflexivity.
Defined.

(** X26 on the character steering 90 degrees to the right. *)
Lemma quick_stop_request_witness :
  exists Animation PlayRate,
    PlayQuickStopAnimation (E := Sample.externals) Sample.requests false Sample.steering
    = Some (PlayTransitionAnimation Animation 0.1 0.2 PlayRate 0.3 false Sample.steering).
Proof.
  destruct (quick_stop_request (E := Sample.externals) Sample.requests false
              Sample.steering Sample.settings eq_refl SampleNormalizeAxis_range)
    as (Animation & PlayRate & H & _).
  - vm_compute. discriminate.
  - vm_compute. discriminate.
  - exists Animation, PlayRate. exact H.
Defined.

(** X27 with foot locking disabled and the IK curve at 0. *)
Lemma foot_without_ik_follows_target_witness :
  FootState.IkLocation
    (RefreshFoot (E := Sample.externals) Sample.settings_without_foot_lock
       (Sample.host (Sample.every_curve 0) false) Sample.instance
       (Sample.foot_with 0 0.3 Vec.Zero) FootLeftIkCurve FootLeftLockCurve
       Sample.IdentityTransform 0.016)
  = TransformPosition (Externals := Sample.externals) Sample.IdentityTransform Vec.Zero.
Proof.
  exact (proj1 (foot_without_ik_follows_target (E := Sample.externals)
                  Sample.settings_without_foot_lock
                  (Sample.host (Sample.every_curve 0) false) Sample.instance
                  (Sample.foot_with 0 0.3 Vec.Zero) FootLeftIkCurve FootLeftLockCurve
                  Sample.IdentityTransform 0.016 eq_refl eq_refl)).
Defined.

(** X28 on the character running straight ahead. *)
Lemma stride_blend_between_curves_witness :
  GroundedState.StrideBlendAmount
    (Instance.GroundedState
       (RefreshGrounded (E := Sample.externals) Sample.settings
          (Sample.host (Sample.every_curve 0.5) false) 0.016
          (RefreshPose (Sample.host (Sample.every_curve 0.5) false)
             (Sample.moving {| X := 300; Y := 0; Z := 0 |}))))
  == 1.
Proof.
  refine (proj2 (stride_blend_between_curves (E := Sample.externals) Sample.settings
                   (Sample.host (Sample.every_curve 0.5) false) 0.016
                   (Sample.moving {| X := 300; Y := 0; Z := 0 |})
                   eq_refl eq_refl eq_refl) _).
  vm_compute. discriminate.
Defined.

(** X29 on the first frame of the sample character. *)
Lemma view_refresh_angles_witness :
  ViewState.TargetSpineYawAngle
    (Instance.ViewState
       (RefreshView (E := Sample.externals) Sample.settings
          (Sample.host (Sample.every_curve 0) false) 0.016 Sample.instance))
  = ViewState.TargetSpineYawAngle (Instance.ViewState Sample.instance).
Proof.
  exact (proj1 (proj2 (proj2 (proj2 (proj2
           (view_refresh_angles (E := Sample.externals) Sample.settings
              (Sample.host (Sample.every_curve 0) false) 0.016 Sample.instance)))))
           eq_refl).
Defined.

(** ** The scenarios of the specification, run on the model *)

(** A standing, idle character whose view is 200 degrees off its body: the
    wrapped angle is -160, and once the delay has elapsed the worker-safe
    update queues the standing 180 degrees turn to the left. *)
Example turn_in_place_wrapped_view :
  Instance.Effects
    (NativeThreadSafeUpdateAnimation (E := Sample.externals)
       (Sample.host (Sample.every_curve 1) false) 0.016 Sample.wrapped)
  = [QueueTurnInPlace (Sample.turn 13%nat) TurnInPlaceStandingSlot (-160)].
Proof. vm_compute. reflexivity. Qed.

(** The queued turn is played by the next post-evaluate, after the (empty)
    dynamic transition. *)
Example turn_in_place_played_after_evaluation :
  NewEffects Sample.wrapped
    (NativePostEvaluateAnimation
       (NativeThreadSafeUpdateAnimation (E := Sample.externals)
          (Sample.host (Sample.every_curve 1) false) 0.016 Sample.wrapped))
  = [QueueTurnInPlace (Sample.turn 13%nat) TurnInPlaceStandingSlot (-160);
     PlaySlotAnimationAsDynamicMontage None TransitionSlot 0.2 0.2 1.5 1 0 0;
     PlaySlotAnimationAsDynamicMontage (Some 13%nat) TurnInPlaceStandingSlot
       0.2 0.2 1.2 1 0 0].
Proof. vm_compute. reflexivity. Qed.

(** A fall at 1000 units per second over walkable ground hit at half the
    sweep, with nothing blocked: the ground prediction amount is the value of
    the configured curve at one half. *)
Example ground_prediction_on_hit :
  InAirState.GroundPredictionAmount
    (Instance.InAirState
       (RefreshInAir (E := Sample.externals) Sample.settings
          (Sample.host_over_ground (Sample.every_curve 0)) 0.016 Sample.falling))
  == InAirSettings.GroundPredictionAmountCurve (AlsSettings.InAir Sample.settings) 0.5.
Proof. vm_compute. reflexivity. Qed.

(** A foot locked at 0.3 whose lock curve reads 1 is locked fully at once. *)
Example foot_lock_jumps_to_one :
  FootState.LockAmount
    (fst (fst (RefreshFootLock (E := Sample.externals) Sample.settings
                 (Sample.host (Sample.every_curve 1) false) Sample.instance
                 (Sample.foot_with 1 0.3 Vec.Zero) FootLeftLockCurve
                 Sample.IdentityTransform 0.016 Vec.Zero QuatIdentity)))
  = 1.
Proof. vm_compute. reflexivity. Qed.

(** The dynamic transition of the displaced left foot, selected on the game
    thread, is queued and played in the same update. *)
Example dynamic_transition_left_foot :
  NewEffects Sample.displaced
    (RefreshDynamicTransition (E := Sample.externals) Sample.settings
       (Sample.host (Sample.every_curve 1) true) Sample.displaced)
  = [QueueDynamicTransition FootLeft 1%nat;
     PlaySlotAnimationAsDynamicMontage (Some 1%nat) TransitionSlot 0.2 0.2 1.5 1 0 0].
Proof. vm_compute. reflexivity. Qed.
